(* ===== verification/_CoqProject ===== *)
-Q . S2P
Prelude.v
PyStr.v
Unicode.v
UnicodeData.v
PyFloat.v
FloatShortest.v
PyRepr.v
PyInt.v
UrlParse.v
Json.v
JsonWf.v
JsonFloat.v
TextIO.v
Process.v
Cgi.v
TestPy.v
ScriptPy.v
EchoPy.v
Sleep.v
SleepStep.v
