(* ===== verification/Prelude.v ===== *)
(** * A verification development of the CGI scripts of java-localserver

    The repository ships four Python scripts beside a Java web server:

    - [src/resources/cgi-bin/test.py]: prints the request method and query
      string, parses a non-empty query string with [urllib.parse.parse_qs],
      and for a POST reads [CONTENT_LENGTH] characters of standard input and
      either decodes them with [json.loads] (when [CONTENT_TYPE] contains
      ["application/json"], catching any exception) or prints them raw;
    - [src/resources/cgi-bin/script.py]: prints the method and, for a POST,
      reads the body and prints every key of [parse_qs(body)] with its list
      of values;
    - [src/resources/cgi-bin/echo.py]: prints the environment variables whose
      name starts with [HTTP_], [REQUEST_] or [CONTENT_], in sorted order;
    - [src/resources/uploads/sleep.py]: an X11 pointer jiggler that moves the
      pointer one pixel right and back every 30.1 seconds for six hours.

    The scripts share no state.  Each runs as its own process and talks only
    to the CGI boundary (environment, standard input, standard output) and
    to the Python library functions it calls; [sleep.py] talks to the clock
    and the X server instead.

    ** Files

    - [Prelude] (this file): [pystr] and the [⟪ _ ⟫] notation of
      [py_scope], the [result] error monad with stdpp's [MBind], the
      exception classes, the [pyhints] and [pyrw] databases, tactics and the
      generic lemmas on lists and results.
    - [PyStr]: the [str] methods the scripts use ([split], [split(sep, 1)],
      [replace], [startswith], [in]) and code-point comparison with its
      order instances.
    - [Unicode]: CPython's UTF-8 codec with the [strict], [replace] and
      [surrogateescape] handlers, and the [UnicodeDB] class through which
      [repr] and [int()] consult the Unicode database ([latin1_ucd], a
      small instance exact on Latin-1).
    - [UnicodeData]: the Unicode database of CPython 3.11 (Unicode 14.0.0)
      as sorted range tables of the non-printable characters, the white
      space and the decimal digits, and its instance [ucd14]; the tables
      were extracted from CPython's [unicodedata] and compared with it on
      every code point.
    - [PyFloat]: IEEE 754 binary64 doubles ([double], [pyfloat] with
      [nan] and the infinities) over exact rationals: round half to even
      ([round_binary]), the correctly rounded decimal conversion
      ([round_decimal], the value [_Py_dg_strtod] returns), and the
      shortest-digits search of [_Py_dg_dtoa] mode 0 ([shortest],
      [repr_digits]).
    - [FloatShortest]: the search of [repr_digits] finds a decimal that
      reads back as the double, with the fewest significant digits.
    - [PyRepr]: Python values ([pyval]) and [repr]/[str] of [str], [int],
      [float] ([repr_double], CPython's [format_float_short] with the
      ['r'] code), [list] and [dict].
    - [PyInt]: [int(str)] in base 10 ([PyLong_FromString]).
    - [UrlParse]: [unquote_to_bytes], [unquote], [parse_qsl], [parse_qs],
      and the form encoder [urlencode] that [parse_qs] inverts.
    - [Json]: [json.loads] as the C scanner of [Modules/_json.c] runs it.
    - [JsonWf]: the values [json.loads] returns satisfy the type invariant
      of Python values ([PyRepr.wf_val]: the keys of a [dict] are
      distinct).
    - [JsonFloat]: [json.loads] reads back every float [repr] prints.
    - [TextIO]: [sys.stdin.read(n)] and [sys.stdout.write] of CPython's
      [TextIOWrapper]: [n] is converted to [Py_ssize_t]
      ([OverflowError] outside its range), the input is read in chunks of
      [max(8192, n)] bytes, [n] scaled by the double [b2cratio] after the
      first and cast back as x86-64 does, each chunk's buffer allocated
      through the [Allocator] class ([MemoryError] when it refuses), and
      decoded with the incremental UTF-8 decoder of [Unicode].
    - [Process]: the state and exception monad [PyM] of a script (standard
      input and the text written so far), [print], [os.environ.get],
      [try/except], and which exceptions a computation may raise.
    - [Cgi]: what the scripts share: [int(CONTENT_LENGTH)] and [for] loops.
    - [TestPy], [ScriptPy], [EchoPy]: the three CGI scripts statement by
      statement ([test_main], [script_main], [echo_main]) and the report
      each writes ([test_report], [script_report], [echo_report]).
    - [Sleep]: the loop of [sleep.py] over an oracle of clock and pointer
      readings, with the warps it makes as a log.
    - [SleepStep]: [sleep.py] as a small-step system: each statement of
      the loop ([script_step]: test, read, warp and sync, sleep) interleaved
      with the outside world ([world_step]: the user moves the pointer,
      time passes, a wall clock is set), over the display reduced to the
      pointer position ([get_pointer], [warp_pointer]), and its
      start-up ([sleep_start]: the import of python-xlib and
      [display.Display()], which may raise).

    ** Theorems

    - Refinement: each CGI script prints exactly its report, the spec's
      decision table for [test.py] ([test_main_refines],
      [script_main_refines], [echo_main_refines]); the oracle model of
      [sleep.py] is a run of its small-step system
      ([sleep_main_simulated]).
    - Safety: which exceptions can end a script ([test_main_exceptions]:
      [ValueError] of [int()], [UnicodeDecodeError], [MemoryError] or
      [OverflowError] of [sys.stdin.read], [UnicodeEncodeError] of
      [print]), and that no exception of [json.loads] escapes [test.py]; [echo.py]'s output does not depend on
      the order of the environment; [sleep.py] undoes every nudge, in the
      oracle model and in every interleaved run ([reachable_warps]), and its
      warp back overrides a move the user made during the nudge.
    - Functional: [echo.py] prints the prefixed variables once each in
      increasing order; [parse_qs(qs)[k]] is the list of [k]'s values;
      [read(n)] counts characters, and for an [n] that fits [Py_ssize_t]
      and buffers that can be allocated, reading in chunks gives the text
      that decoding the whole body gives ([stdin_read_whole]) while a bad
      byte past the first chunk is never decoded; [int()] skips white
      space, reads digits grouped by underscores and the decimal digits
      of every script.
    - Errors: a JSON value whose [str] does not encode makes
      [print("JSON body:", data)] fail after its first argument, so
      [test.py] prints ["JSON body: JSON error: ..."] on one line
      ([test_json_body_unencodable]).
    - Databases: [latin1_ucd] answers as CPython's database on Latin-1
      ([latin1_ucd_exact]), so [repr] and [int()] of Latin-1 text are the
      same under both ([repr_val_latin1], [py_int_latin1]).
    - Round trips: UTF-8 on scalar strings, [surrogateescape] on bytes,
      [int(str(z))], [parse_qs(urlencode(d))], and [json.loads(repr(x))]
      for every finite double ([json_loads_repr_double]).
    - Floats: [repr] prints the fewest digits that read back
      ([repr_digits_shortest]); the rounding obeys the standard error model, relative [2^-53] or
      absolute [2^-1075] ([round_binary_error]).
    - Errors: [int()] of more than 4300 digits raises [ValueError] with
      the conversion limit's message; [parse_qs] drops blank fields.
    - Type: every value [json.loads] returns has distinct keys in each
      of its [dict]s, even when the document repeats a key
      ([json_loads_wf]).
    - Invariants, equivalence, bounds, termination: [parse_qs] keys are
      distinct; [unquote_to_bytes] is RFC 3986 percent-decoding; every
      [JSONDecodeError] position lies in the document; the string scanner
      and the item loops of arrays and objects never run out of fuel; [json.loads] reads [n + 1] nested arrays
      exactly when [n < budget] and raises [RecursionError] otherwise;
      [sleep.py] stops within 719 passes under a sane clock and never under
      a clock set back; in the small-step system it reads the pointer at
      most 718 times whatever the user does, its statements alone always
      reach [break], and a wall clock lets it loop without bound; left
      alone, the whole script nudges the pointer exactly 718 times
      ([sleep_script_alone]).

    ** Bounds and fuel

    The JSON scanner recurses on [budget], the nesting depth CPython admits
    (995 from [test.py] under the default recursion limit of 1000, measured);
    its loops run on fuel [S (length r)], one unit per character left, which
    [scan_string_fuel] and [container_items_fuel] show is never exhausted
    early.  The UTF-8 decoder runs on [length bs].  [sleep.py]'s loop is given 719 passes, which
    [sleep_terminates] shows is enough; the whole script under exact
    sleeps runs [6 * 718 + 1 = 4309] statements ([sleep_script_alone]).
    [sys.stdin.read(n)] gives its chunk
    loop [2 * length body + 1] passes: each pass that does not end the
    loop reads a byte, or decodes bytes the decoder kept, which
    [read_loop_fuel] shows is enough.  The shortest-digits search tries
    [k = 1 .. 17] digits (fuel 16 after the first): 17 significant digits
    always read back ([seventeen_digits]).  [float()] of a decimal is its
    correctly rounded value, infinite past the range of doubles and zero
    below half the least subnormal ([round_decimal_overflow],
    [round_decimal_underflow]).  [read(n)] for [n] of [2^53] or more is
    modelled as CPython computes it: the [double] product is rounded, and
    a value of [2^63] or more cast to [Py_ssize_t] gives [PY_SSIZE_T_MIN]
    as [cvttsd2si] does on x86-64, so the chunk is 8192 bytes.

    ** Not modelled

    The Java server (not under [src/]); the imports of [os], [sys],
    [urllib.parse], [json] and [time], which always succeed and only bind
    names; the internals of python-xlib; the bytes written on standard
    output (the model keeps the text and checks that it encodes); the
    floating-point arithmetic of [_Py_dg_strtod] and [_Py_dg_dtoa]
    (bignum and [double] steps), which the model replaces by the exact
    rational values those routines are written to produce; the Unicode
    database beyond the three properties the scripts consult (categories,
    names, case mappings); the X11 protocol and the
    float rounding of [time.time()]; the timing of the pipe: the body is
    taken to be in the pipe, followed by the end of the input, so one read
    of the pipe returns as many bytes as asked; the memory of the host,
    which decides whether a buffer can be allocated, is a parameter
    (the [Allocator] class), not a number the model fixes.

    ** Plan

    Later work: the Java server's side of the CGI exchange, which is not
    under [src/]. *)

From stdpp Require Export base list strings sorting sets.
From Stdlib Require Export NArith ZArith Lia ZifyN Ascii.

#[export] Set Default Proof Using "Type".

(** ** Python strings as code points *)

(** A Python [str] is a sequence of code points; a [bytes] object a sequence
    of numbers below 256.  Both are lists of [N]; [pystr] is an abbreviation,
    not a definition, so that stdpp's list lemmas apply without unfolding. *)
Abbreviation pystr := (list N).

(** The code points of an ASCII literal: lets statements and witnesses be
    written with Rocq string literals. *)
Definition str (s : string) : pystr :=
  map (fun c => Ascii.N_of_ascii c) (String.list_ascii_of_string s).

Declare Scope py_scope.
Delimit Scope py_scope with py.
Notation "⟪ s ⟫" := (str s%string) (at level 0, format "⟪ s ⟫") : py_scope.
Open Scope py_scope.

(** ** The error monad *)

(** A computation of the Python library that either returns a value or
    raises; [E] is the exception type of the caller. *)
Inductive result (E A : Type) : Type :=
  | Ok (a : A)
  | Error (e : E).
Arguments Ok {E A} a.
Arguments Error {E A} e.

#[export] Instance result_ret {E} : MRet (result E) := fun _ a => Ok a.
#[export] Instance result_bind {E} : MBind (result E) :=
  fun _ _ f m => match m with Ok a => f a | Error e => Error e end.
#[export] Instance result_fmap {E} : FMap (result E) :=
  fun _ _ f m => match m with Ok a => Ok (f a) | Error e => Error e end.

Definition is_ok {E A} (r : result E A) : bool :=
  match r with Ok _ => true | Error _ => false end.

(** A Python exception: its class and the message [str(e)] prints.
    [JSONDecodeError] is a subclass of [ValueError]; [except Exception]
    catches all of them.  [OverflowError] and [MemoryError] are those of
    [sys.stdin.read(n)] for an [n] out of [Py_ssize_t] or a buffer that
    cannot be allocated. *)
Inductive exc_class :=
  | EValueError
  | EJSONDecodeError
  | EUnicodeDecodeError
  | EUnicodeEncodeError
  | ERecursionError
  | EOverflowError
  | EMemoryError.

Record pyexc := Exc { exc_cls : exc_class; exc_msg : pystr }.

Create HintDb pyhints discriminated.
Create Rewrite HintDb pyrw.

Section result_lemmas.
Context {E A B : Type}.

Lemma bind_Ok (a : A) (f : A -> result E B) : (Ok a ≫= f) = f a.
Proof. reflexivity. Qed.

Lemma bind_Error (e : E) (f : A -> result E B) : (Error e ≫= f) = Error e.
Proof. reflexivity. Qed.

Lemma bind_Ok_inv (m : result E A) (f : A -> result E B) (b : B) :
  (m ≫= f) = Ok b -> exists a, m = Ok a /\ f a = Ok b.
Proof. destruct m; simpl; [eauto | discriminate]. Qed.

Lemma fmap_Ok (f : A -> B) (a : A) : f <$> (Ok a : result E A) = Ok (f a).
Proof. reflexivity. Qed.

(** [mapM] succeeds when the function succeeds on every element. *)
Lemma mapM_Ok (f : A -> result E B) (g : A -> B) (l : list A) :
  Forall (fun x => f x = Ok (g x)) l -> mapM f l = Ok (map g l).
Proof. induction 1 as [|x l Hx _ IH]; [done|]. simpl. by rewrite Hx, IH. Qed.
End result_lemmas.

Lemma list_omap_cons {A B} (f : A -> option B) (x : A) (l : list A) :
  omap f (x :: l) = match f x with Some y => y :: omap f l | None => omap f l end.
Proof. reflexivity. Qed.

Lemma StronglySorted_filter {A} (R : relation A) (P : A -> Prop) `{!forall x, Decision (P x)}
    (l : list A) :
  StronglySorted R l -> StronglySorted R (filter P l).
Proof.
  induction 1 as [|x l _ IH Hx]; [constructor|]. rewrite filter_cons.
  case_decide; [|done]. constructor; [done|].
  apply Forall_forall. intros y Hy. apply list_elem_of_filter in Hy as [_ Hy].
  rewrite Forall_forall in Hx. by apply Hx.
Qed.

Lemma Forall_mjoin_map {A B} (P : B -> Prop) (f : A -> list B) (l : list A) :
  Forall (fun x => Forall P (f x)) l -> Forall P (mjoin (map f l)).
Proof. induction 1; simpl; [done|]. by apply Forall_app. Qed.

Lemma Forall_mjoin_map_inv {A B} (P : B -> Prop) (f : A -> list B) (l : list A) :
  Forall P (mjoin (map f l)) -> Forall (fun x => Forall P (f x)) l.
Proof. induction l; simpl; [constructor|]. rewrite Forall_app. intros [? ?]. constructor; auto. Qed.

(** Taking [r] elements of [s1 ++ s2] in two rounds: as many as [s1]
    has, then the rest from what is left. *)
Lemma take_app_rounds {A} (r : nat) (s1 s2 : list A) :
  take r s1 ++ take (r - length (take r s1)) (drop r s1 ++ s2) = take r (s1 ++ s2).
Proof.
  rewrite length_take, (take_app s1 s2 r). destruct (decide (length s1 <= r)%nat).
  - rewrite (drop_ge s1 r) by lia. do 2 f_equal. lia.
  - rewrite (take_app_le (drop r s1)) by (rewrite length_drop; lia).
    replace (r - r `min` length s1)%nat with 0%nat by lia.
    replace (r - length s1)%nat with 0%nat by lia. by rewrite !take_0.
Qed.

#[export] Hint Rewrite @bind_Ok @bind_Error @fmap_Ok : pyrw.

(** ** Tactics *)

(** Split every [match] on a [result] or an [option] in the hypotheses
    that equates it to a constructor. *)
Ltac destruct_results :=
  repeat match goal with
  | H : (?m ≫= _) = Ok _ |- _ =>
      let a := fresh "a" in let Ha := fresh "Ha" in
      apply bind_Ok_inv in H as (a & Ha & H)
  | H : Ok _ = Ok _ |- _ => injection H as H; subst
  | H : Some _ = Some _ |- _ => injection H as H; subst
  | H : Error _ = Ok _ |- _ => discriminate H
  | H : None = Some _ |- _ => discriminate H
  end.

Ltac py_simpl := autorewrite with pyrw in *; simpl in *.

(** ** Generic lemmas on lists of code points *)

Lemma str_app (s1 s2 : string) : str (s1 +:+ s2) = str s1 ++ str s2.
Proof.
  unfold str. induction s1 as [|c s1 IH]; simpl; [reflexivity|]. by rewrite IH.
Qed.

Lemma length_str (s : string) : length (str s) = String.length s.
Proof. unfold str. induction s as [|c s IH]; simpl; [done | by rewrite IH]. Qed.

#[export] Hint Rewrite str_app length_str : pyrw.

