(* ===== verification/PyStr.v ===== *)
(** * Python [str] methods used by the scripts

    A [str] is a [pystr], a list of code points.  This file models the
    methods that the scripts and the library functions they call apply to
    strings: [sep.join(l)], [s.split(sep)] and [s.split(sep, 1)] for a
    one-character separator, [s.replace(a, b)] for single characters,
    [s.startswith(p)] with a prefix or a tuple of prefixes, the [in]
    operator on strings, and the order [<] of [str] (lexicographic on code
    points), which [sorted] uses in [echo.py]. *)

From S2P Require Import Prelude.

(** ** Definitions *)

(** [sep.join(ls)] *)
Fixpoint join (sep : pystr) (ls : list pystr) : pystr :=
  match ls with
  | [] => []
  | [w] => w
  | w :: ws => w ++ sep ++ join sep ws
  end.

(** [s.split(sep)] for a separator of one character: CPython's
    [split_char] cuts at every occurrence and always returns at least one
    piece (the empty string gives [['']]). *)
Fixpoint split_sep (sep : N) (s : pystr) : list pystr :=
  match s with
  | [] => [[]]
  | c :: s' =>
      let ws := split_sep sep s' in
      if decide (c = sep) then [] :: ws
      else match ws with
           | w :: ws' => (c :: w) :: ws'
           | [] => [[c]]
           end
  end.

(** [s.split(sep, 1)]: at most one cut, at the first occurrence. *)
Fixpoint split_once (sep : N) (s : pystr) : list pystr :=
  match s with
  | [] => [[]]
  | c :: s' =>
      if decide (c = sep) then [[]; s']
      else match split_once sep s' with
           | w :: ws => (c :: w) :: ws
           | [] => [[c]]
           end
  end.

(** The suffix left after skipping the leading characters that satisfy
    [p]: the loops [while (p( *s)) s++;] of CPython's C parsers. *)
Fixpoint skip_while (p : N -> bool) (s : pystr) : pystr :=
  match s with
  | c :: s' => if p c then skip_while p s' else s
  | [] => []
  end.

(** The value of a hexadecimal digit, either case: [_hexdig] of
    [urllib.parse] and the [\\uXXXX] switch of [_json.c]. *)
Definition hexval (c : N) : option N :=
  if decide (48 <= c <= 57)%N then Some (c - 48)%N
  else if decide (65 <= c <= 70)%N then Some (c - 55)%N
  else if decide (97 <= c <= 102)%N then Some (c - 87)%N
  else None.

(** [s.replace(a, b)] for single characters [a] and [b]. *)
Definition replace_char (a b : N) (s : pystr) : pystr :=
  map (fun c => if decide (c = a) then b else c) s.

(** [s.startswith(p)] and [s.startswith((p1, ..., pn))]. *)
Definition startswith (p s : pystr) : bool := bool_decide (p `prefix_of` s).

Definition startswith_any (ps : list pystr) (s : pystr) : bool :=
  existsb (fun p => startswith p s) ps.

(** [sub in s]. *)
Fixpoint contains (sub s : pystr) : bool :=
  bool_decide (sub `prefix_of` s) ||
  match s with
  | [] => false
  | _ :: s' => contains sub s'
  end.

(** [a < b] on [str]: lexicographic comparison of code points. *)
Fixpoint str_compare (a b : pystr) : comparison :=
  match a, b with
  | [], [] => Eq
  | [], _ :: _ => Lt
  | _ :: _, [] => Gt
  | x :: a', y :: b' =>
      match N.compare x y with
      | Eq => str_compare a' b'
      | c => c
      end
  end.

Definition str_lt (a b : pystr) : Prop := str_compare a b = Lt.

(** [a <= b] on [str]: code point by code point. *)
Definition str_le (a b : pystr) : Prop := str_compare a b <> Gt.

#[export] Instance str_lt_dec : RelDecision str_lt.
Proof. intros a b. unfold str_lt. apply _. Defined.

#[export] Instance str_le_dec : RelDecision str_le.
Proof. intros a b. unfold str_le. apply _. Defined.

(** ** Lemmas *)

Section split_lemmas.
Context (sep : N).

Lemma split_sep_nonempty (s : pystr) : split_sep sep s <> [].
Proof.
  destruct s as [|c s]; simpl; [done|].
  case_decide; [done|]. destruct (split_sep sep s); done.
Qed.

Lemma split_sep_cons_ne (c : N) (s : pystr) :
  c <> sep ->
  exists w ws, split_sep sep s = w :: ws /\ split_sep sep (c :: s) = (c :: w) :: ws.
Proof.
  intros Hc. simpl. rewrite decide_False by done.
  destruct (split_sep sep s) as [|w ws] eqn:E;
    [by destruct (split_sep_nonempty s) | eauto].
Qed.

(** [sep.join(s.split(sep)) == s]. *)
Lemma join_split_sep (s : pystr) : join [sep] (split_sep sep s) = s.
Proof.
  induction s as [|c s IH]; [done|].
  destruct (decide (c = sep)) as [->|Hc].
  - simpl. rewrite decide_True by done.
    destruct (split_sep sep s) as [|w ws] eqn:E;
      [by destruct (split_sep_nonempty s)|].
    simpl. by rewrite <- IH.
  - destruct (split_sep_cons_ne c s Hc) as (w & ws & E & ->).
    rewrite E in IH. destruct ws; simpl in *; by rewrite IH.
Qed.

(** No piece of [s.split(sep)] contains the separator. *)
Lemma split_sep_pieces (s : pystr) :
  Forall (fun w => sep ∉ w) (split_sep sep s).
Proof.
  induction s as [|c s IH]; simpl.
  - repeat constructor. set_solver.
  - case_decide; [constructor; [set_solver | done]|].
    destruct (split_sep sep s) as [|w ws]; [repeat constructor; set_solver|].
    inv IH. constructor; [|done]. set_solver.
Qed.

(** Splitting a join of separator-free words gives the words back. *)
Lemma split_sep_join (ws : list pystr) :
  ws <> [] -> Forall (fun w => sep ∉ w) ws ->
  split_sep sep (join [sep] ws) = ws.
Proof.
  induction ws as [|w ws IH]; [done|]. intros _ Hws. inv Hws.
  assert (Hw : forall t, split_sep sep (w ++ t) =
            match split_sep sep t with
            | v :: vs => (w ++ v) :: vs | [] => [w] end).
  { intros t. induction w as [|c w IHw]; simpl.
    - destruct (split_sep sep t) eqn:E; [by destruct (split_sep_nonempty t)|done].
    - rewrite decide_False by set_solver. rewrite IHw by set_solver.
      destruct (split_sep sep t) eqn:E; [by destruct (split_sep_nonempty t)|done]. }
  destruct ws as [|w' ws].
  - simpl. rewrite <- (app_nil_r w), Hw. simpl. by rewrite app_nil_r.
  - change (join [sep] (w :: w' :: ws)) with (w ++ [sep] ++ join [sep] (w' :: ws)).
    assert (Hs : forall t, split_sep sep (sep :: t) = [] :: split_sep sep t)
      by (intros; simpl; by rewrite decide_True).
    rewrite Hw. cbn [app]. rewrite Hs, IH by done. by rewrite app_nil_r.
Qed.

(** A separator-free string is one piece. *)
Lemma split_sep_free (w : pystr) : sep ∉ w -> split_sep sep w = [w].
Proof. intros Hw. apply (split_sep_join [w]); [done|]. by repeat constructor. Qed.

(** Splitting at a separator splits both sides. *)
Lemma split_sep_app_sep (a b : pystr) :
  split_sep sep (a ++ (sep :: b)) = split_sep sep a ++ split_sep sep b.
Proof.
  induction a as [|c a IH]; simpl; [by rewrite decide_True|].
  rewrite IH. case_decide; [done|].
  destruct (split_sep sep a) eqn:E; [by destruct (split_sep_nonempty a)|done].
Qed.

Lemma split_once_app (a b : pystr) : sep ∉ a -> split_once sep (a ++ (sep :: b)) = [a; b].
Proof.
  induction a as [|c a IH]; intros Ha; simpl; [by rewrite decide_True|].
  rewrite decide_False by set_solver. rewrite IH by set_solver. done.
Qed.

(** [s.split(sep, 1)] has two pieces exactly when [sep] occurs in [s],
    cut at its first occurrence. *)
Lemma split_once_spec (s : pystr) :
  (sep ∉ s /\ split_once sep s = [s]) \/
  (exists a b, s = a ++ (sep :: b) /\ sep ∉ a /\ split_once sep s = [a; b]).
Proof.
  induction s as [|c s IH]; simpl; [left; split; [set_solver|done]|].
  case_decide as Hc.
  - right. exists [], s. subst. split_and!; [done|set_solver|done].
  - destruct IH as [[Hn ->] | (a & b & -> & Ha & ->)].
    + left. split; [set_solver|done].
    + right. exists (c :: a), b. split_and!; [done|set_solver|done].
Qed.
End split_lemmas.

(** [lstrip] over a prefix of skipped characters. *)
Lemma skip_while_app_all (p : N -> bool) (a b : pystr) :
  Forall (fun c => p c = true) a -> skip_while p (a ++ b) = skip_while p b.
Proof. induction 1 as [|c a Hc _ IH]; [done|]. simpl. by rewrite Hc. Qed.

Lemma skip_while_stop (p : N -> bool) (c : N) (s : pystr) :
  p c = false -> skip_while p (c :: s) = c :: s.
Proof. simpl. by intros ->. Qed.

Lemma Forall_join (P : N -> Prop) (sep : pystr) (ls : list pystr) :
  Forall P sep -> Forall (Forall P) ls -> Forall P (join sep ls).
Proof.
  intros Hs Hl. induction Hl as [|w ls Hw Hl IH]; [constructor|].
  destruct ls as [|w' ls]; [done|].
  cbn [join]. repeat apply Forall_app_2; done.
Qed.

(** [sub in s] holds exactly when [s] has [sub] as an infix. *)
Lemma contains_spec (sub s : pystr) :
  contains sub s = true <-> exists a b, s = a ++ sub ++ b.
Proof.
  induction s as [|c s IH]; simpl; rewrite orb_true_iff, bool_decide_eq_true.
  - split.
    + intros [[t Ht]|?]; [|discriminate]. exists [], t. exact Ht.
    + intros ([|??] & b & Hab); [|done]. left. by exists b.
  - rewrite IH. split.
    + intros [[t ->]|(a & b & ->)]; [by exists [], t | by exists (c :: a), b].
    + intros ([|c' a] & b & Hab); simpl in Hab.
      * left. by exists b.
      * injection Hab as -> ->. right. eauto.
Qed.

Lemma str_compare_refl (a : pystr) : str_compare a a = Eq.
Proof. induction a as [|x a IH]; simpl; [done|]. by rewrite N.compare_refl. Qed.

Lemma str_compare_eq (a b : pystr) : str_compare a b = Eq -> a = b.
Proof.
  revert b. induction a as [|x a IH]; intros [|y b]; simpl; try done.
  destruct (N.compare_spec x y); try done. intros. subst. f_equal. by apply IH.
Qed.

Lemma str_compare_antisym (a b : pystr) :
  str_compare b a = CompOpp (str_compare a b).
Proof.
  revert b. induction a as [|x a IH]; intros [|y b]; simpl; try done.
  rewrite (N.compare_antisym x y). destruct (N.compare x y); simpl; auto.
Qed.

Lemma str_compare_trans (a b c : pystr) :
  str_lt a b -> str_lt b c -> str_lt a c.
Proof.
  unfold str_lt. revert b c. induction a as [|x a IH]; intros [|y b] [|z c]; simpl; try done.
  destruct (N.compare_spec x y), (N.compare_spec y z), (N.compare_spec x z);
    subst; try done; try lia; eauto.
Qed.

Lemma str_compare_le_trans (a b c : pystr) : str_le a b -> str_le b c -> str_le a c.
Proof.
  unfold str_le. intros Hab Hbc.
  destruct (str_compare a b) eqn:E1; [apply str_compare_eq in E1; by subst | | done].
  destruct (str_compare b c) eqn:E2; [apply str_compare_eq in E2; subst; by rewrite E1 | | done].
  by rewrite (str_compare_trans a b c E1 E2).
Qed.

#[export] Instance str_le_total : Total str_le.
Proof.
  intros a b. unfold str_le. rewrite (str_compare_antisym a b).
  destruct (str_compare a b); simpl; [left | left | right]; done.
Qed.

#[export] Instance str_le_trans : Transitive str_le.
Proof. intros a b c. apply str_compare_le_trans. Qed.

#[export] Instance str_le_antisymm : AntiSymm (=) str_le.
Proof.
  intros a b Hab Hba. unfold str_le in *. rewrite (str_compare_antisym a b) in Hba.
  destruct (str_compare a b) eqn:E; [by apply str_compare_eq | done | done].
Qed.

#[export] Hint Resolve split_sep_nonempty join_split_sep str_compare_refl : pyhints.
