(* ===== verification/Unicode.v ===== *)
(** * The UTF-8 codec and the Unicode character database

    CPython decodes bytes to [str] in three places the scripts reach:
    [urllib.parse.unquote] decodes percent-escapes with
    [errors='replace'], and [sys.stdin] decodes the request body with
    [errors='strict'] (a UTF-8 locale) or [errors='surrogateescape'] (the
    C locale, under Python's UTF-8 mode).  This file models the decoder of
    [Objects/stringlib/codecs.h] one sequence at a time ([utf8_step]): a
    well-formed sequence gives one code point, an ill-formed one gives its
    maximal invalid prefix, which the error handler turns into an
    exception, one U+FFFD, or one lone surrogate per byte.

    The class [UnicodeDB] is the interface through which [repr] and
    [int()] consult the Unicode character database from U+007F up, with
    the laws the proofs need.  [latin1_ucd] is a small instance, exact on
    U+007F..U+00FF; [UnicodeData.ucd14] is the database of CPython 3.11. *)

From S2P Require Import Prelude.

(** ** Decoding one sequence *)

(** The [reason] field of [UnicodeDecodeError]. *)
Inductive u8reason :=
  | InvalidStart          (* "invalid start byte" *)
  | InvalidContinuation   (* "invalid continuation byte" *)
  | UnexpectedEnd.        (* "unexpected end of data" *)

#[export] Instance u8reason_eq_dec : EqDecision u8reason.
Proof. solve_decision. Defined.

(** One step of the decoder at the head of the input: a code point and the
    number of bytes it used, or the length of the maximal ill-formed prefix
    (at least one byte) and the reason. *)
Inductive u8step :=
  | U8Char (c : N) (n : nat)
  | U8Invalid (n : nat) (why : u8reason).

Definition in_range (lo hi b : N) : bool := bool_decide (lo <= b <= hi)%N.

(** The admissible range of the second byte, which depends on the first
    byte: [E0] excludes overlong forms, [ED] surrogates, [F0] overlong forms
    and [F4] code points above U+10FFFF. *)
Definition second_ok (b0 b1 : N) : bool :=
  if decide (b0 = 0xE0%N) then in_range 0xA0 0xBF b1
  else if decide (b0 = 0xED%N) then in_range 0x80 0x9F b1
  else if decide (b0 = 0xF0%N) then in_range 0x90 0xBF b1
  else if decide (b0 = 0xF4%N) then in_range 0x80 0x8F b1
  else in_range 0x80 0xBF b1.

Definition is_cont (b : N) : bool := in_range 0x80 0xBF b.

Definition utf8_step (b0 : N) (rest : list N) : u8step :=
  if decide (b0 < 0x80)%N then U8Char b0 1
  else if decide (b0 < 0xC2)%N then U8Invalid 1 InvalidStart
  else if decide (b0 < 0xE0)%N then
    match rest with
    | [] => U8Invalid 1 UnexpectedEnd
    | b1 :: _ =>
        if is_cont b1 then U8Char ((b0 - 0xC0) * 64 + (b1 - 0x80)) 2
        else U8Invalid 1 InvalidContinuation
    end
  else if decide (b0 < 0xF0)%N then
    match rest with
    | [] => U8Invalid 1 UnexpectedEnd
    | b1 :: rest1 =>
        if negb (second_ok b0 b1) then U8Invalid 1 InvalidContinuation
        else match rest1 with
             | [] => U8Invalid 2 UnexpectedEnd
             | b2 :: _ =>
                 if is_cont b2
                 then U8Char ((b0 - 0xE0) * 4096 + (b1 - 0x80) * 64 + (b2 - 0x80)) 3
                 else U8Invalid 2 InvalidContinuation
             end
    end
  else if decide (b0 < 0xF5)%N then
    match rest with
    | [] => U8Invalid 1 UnexpectedEnd
    | b1 :: rest1 =>
        if negb (second_ok b0 b1) then U8Invalid 1 InvalidContinuation
        else match rest1 with
             | [] => U8Invalid 2 UnexpectedEnd
             | b2 :: rest2 =>
                 if negb (is_cont b2) then U8Invalid 2 InvalidContinuation
                 else match rest2 with
                      | [] => U8Invalid 3 UnexpectedEnd
                      | b3 :: _ =>
                          if is_cont b3
                          then U8Char ((b0 - 0xF0) * 262144 + (b1 - 0x80) * 4096
                                       + (b2 - 0x80) * 64 + (b3 - 0x80)) 4
                          else U8Invalid 3 InvalidContinuation
                      end
             end
    end
  else U8Invalid 1 InvalidStart.

(** ** Decoding a byte string with an error handler *)

Inductive errors := Strict | Replace | SurrogateEscape.

(** [UnicodeDecodeError('utf-8', data, start, end, reason)]. *)
Record decode_error := UnicodeDecodeError {
  ude_start : nat; ude_end : nat; ude_reason : u8reason }.

(** The code points an error handler puts in place of the ill-formed bytes
    [bad], or [None] when it raises. *)
Definition handle (h : errors) (bad : list N) : option pystr :=
  match h with
  | Strict => None
  | Replace => Some [0xFFFD%N]
  | SurrogateEscape => Some (map (fun b => 0xDC00 + b)%N bad)
  end.

(** [fuel] bounds the number of steps; [utf8_decode] gives one step per
    byte, which is enough since every step consumes at least one byte. *)
Fixpoint decode_go (h : errors) (fuel pos : nat) (bs : list N)
    : result decode_error pystr :=
  match fuel, bs with
  | _, [] => Ok []
  | O, _ :: _ => Ok []
  | S fuel', b0 :: rest =>
      match utf8_step b0 rest with
      | U8Char c n =>
          cs ← decode_go h fuel' (pos + n) (drop n bs); Ok (c :: cs)
      | U8Invalid n why =>
          match handle h (take n bs) with
          | None => Error (UnicodeDecodeError pos (pos + n) why)
          | Some r => cs ← decode_go h fuel' (pos + n) (drop n bs); Ok (r ++ cs)
          end
      end
  end.

(** [bytes.decode('utf-8', errors)]. *)
Definition utf8_decode (h : errors) (bs : list N) : result decode_error pystr :=
  decode_go h (length bs) 0 bs.

(** [ED] and a byte of [A0..BF] as the last two bytes: the start of an
    encoded surrogate, which [unicode_decode_utf8] in incremental mode
    keeps for the next call rather than reporting it at once. *)
Definition truncated_surrogate (bs : list N) : bool :=
  match bs with
  | [b0; b1] => bool_decide (b0 = 0xED)%N && in_range 0xA0 0xBF b1
  | _ => false
  end.
Arguments truncated_surrogate : simpl never.

(** The incremental decoder of [codecs.getincrementaldecoder('utf-8')]
    on [decode(bs, final=False)]: a sequence cut short by the end of [bs],
    or a truncated surrogate, is not decoded but kept for the next call;
    the result is the text decoded and the bytes kept. *)
Fixpoint decode_part (h : errors) (fuel pos : nat) (bs : list N)
    : result decode_error (pystr * list N) :=
  match fuel, bs with
  | _, [] => Ok ([], [])
  | O, _ :: _ => Ok ([], bs)
  | S fuel', b0 :: rest =>
      match utf8_step b0 rest with
      | U8Char c n =>
          '(cs, p) ← decode_part h fuel' (pos + n) (drop n bs); Ok (c :: cs, p)
      | U8Invalid _ UnexpectedEnd => Ok ([], bs)
      | U8Invalid n why =>
          if truncated_surrogate bs then Ok ([], bs) else
          match handle h (take n bs) with
          | None => Error (UnicodeDecodeError pos (pos + n) why)
          | Some r => '(cs, p) ← decode_part h fuel' (pos + n) (drop n bs); Ok (r ++ cs, p)
          end
      end
  end.

(** [decoder.decode(bs, final)]: with [final] the bytes kept are decoded
    (or raise) like the rest. *)
Definition utf8_decode_incr (h : errors) (bs : list N) (final : bool)
    : result decode_error (pystr * list N) :=
  if final then s ← utf8_decode h bs; Ok (s, []) else decode_part h (length bs) 0 bs.

(** ** Encoding *)

(** The UTF-8 encoding of one code point below U+110000.  Surrogates are
    encoded like other code points here; [utf8_encode] decides what to do
    with them. *)
Definition utf8_encode_char (c : N) : list N :=
  if decide (c < 0x80)%N then [c]
  else if decide (c < 0x800)%N then [0xC0 + c / 64; 0x80 + c mod 64]%N
  else if decide (c < 0x10000)%N then
    [0xE0 + c / 4096; 0x80 + (c / 64) mod 64; 0x80 + c mod 64]%N
  else [0xF0 + c / 262144; 0x80 + (c / 4096) mod 64;
        0x80 + (c / 64) mod 64; 0x80 + c mod 64]%N.

(** A Unicode scalar value: a code point that is not a surrogate. *)
Definition is_scalar (c : N) : Prop :=
  (c < 0x110000)%N /\ ~ (0xD800 <= c <= 0xDFFF)%N.

#[export] Instance is_scalar_dec c : Decision (is_scalar c).
Proof. unfold is_scalar. apply _. Defined.

(** What the encoder does with one code point: a lone surrogate
    U+DC80..U+DCFF is written back as the byte it escapes under
    [surrogateescape]; any other surrogate makes the encoder raise
    ([None]); every other code point is encoded. *)
Definition encode_char (h : errors) (c : N) : option (list N) :=
  if decide (0xD800 <= c <= 0xDFFF)%N then
    match h with
    | SurrogateEscape =>
        if decide (0xDC80 <= c <= 0xDCFF)%N then Some [c - 0xDC00]%N else None
    | _ => None
    end
  else Some (utf8_encode_char c).

(** The length of the run of surrogates at the head of [s]. *)
Fixpoint surrogate_run (s : pystr) : nat :=
  match s with
  | c :: s' => if decide (0xD800 <= c <= 0xDFFF)%N then S (surrogate_run s') else O
  | [] => O
  end.

(** [UnicodeEncodeError('utf-8', s, start, end, 'surrogates not allowed')]. *)
Record encode_error := UnicodeEncodeError { uee_start : nat; uee_end : nat }.

(** [str.encode('utf-8', errors)], [pos] being the index of [s]'s head.
    The error covers the surrogates from the first one the handler cannot
    write to the end of their run, as CPython's [utf8_encode] reports it. *)
Fixpoint encode_go (h : errors) (pos : nat) (s : pystr) : result encode_error (list N) :=
  match s with
  | [] => Ok []
  | c :: s' =>
      match encode_char h c with
      | Some b => bs ← encode_go h (S pos) s'; Ok (b ++ bs)
      | None => Error (UnicodeEncodeError pos (pos + surrogate_run s))
      end
  end.

Definition utf8_encode (h : errors) (s : pystr) : result encode_error (list N) :=
  encode_go h 0 s.

(** ** The Unicode character database *)

(** What [repr] and [int()] ask of [unicodedata] for a non-ASCII code
    point: [Py_UNICODE_ISPRINTABLE], [Py_UNICODE_TODECIMAL] and
    [Py_UNICODE_ISSPACE].  The law is the one the proofs of [int()] use:
    a decimal value is a digit. *)
Class UnicodeDB := {
  ucd_printable : N -> bool;
  ucd_decimal : N -> option N;
  ucd_space : N -> bool;
  ucd_decimal_digit : forall c d, ucd_decimal c = Some d -> (d < 10)%N
}.

(** The database restricted to Latin-1, exact on U+007F..U+00FF
    ([UnicodeData.latin1_ucd_exact]): DELETE, the C1 controls, NO-BREAK
    SPACE and SOFT HYPHEN are not printable, U+0085 and U+00A0 are
    spaces, and no Latin-1 character is a decimal digit.  Above U+00FF it
    answers printable for every non-surrogate. *)
#[refine] Instance latin1_ucd : UnicodeDB := {
  ucd_printable c :=
    negb (in_range 0x7F 0xA0 c || bool_decide (c = 0xAD%N) || in_range 0xD800 0xDFFF c);
  ucd_decimal c := None;
  ucd_space c := bool_decide (c = 0x85%N) || bool_decide (c = 0xA0%N)
}.
Proof. done. Defined.

(** ** Lemmas on one step *)

Ltac u8_cases :=
  unfold utf8_step, second_ok, is_cont, in_range in *;
  repeat first
    [ progress simpl in *
    | case_decide
    | case_bool_decide
    | match goal with
      | H : context [match ?l with [] => _ | _ :: _ => _ end] |- _ => destruct l
      | |- context [match ?l with [] => _ | _ :: _ => _ end] => destruct l
      end ];
  try discriminate; try lia.

(** A step consumes at least one byte and no more than it is given. *)
Lemma utf8_step_length (b0 : N) (rest : list N) :
  match utf8_step b0 rest with
  | U8Char _ n | U8Invalid n _ => (1 <= n <= S (length rest))%nat
  end.
Proof. u8_cases. Qed.

Lemma utf8_step_char_scalar (b0 : N) (rest : list N) c n :
  utf8_step b0 rest = U8Char c n -> is_scalar c.
Proof.
  unfold is_scalar. intros H. u8_cases; injection H as <- <-; lia.
Qed.

(** Encoding a scalar value and decoding the result gives it back, whatever
    follows it. *)
Lemma utf8_step_encode (c : N) (rest : list N) :
  is_scalar c ->
  exists b0 tl, utf8_encode_char c = b0 :: tl /\
                utf8_step b0 (tl ++ rest) = U8Char c (S (length tl)).
Proof.
  unfold is_scalar, utf8_encode_char. intros Hc.
  repeat case_decide; (eexists _, _; split; [reflexivity|]); u8_cases; f_equal; lia.
Qed.

(** Conversely a decoded code point re-encodes to exactly the bytes it was
    decoded from: the range checks of [second_ok] reject every overlong
    form, every surrogate and every code point above U+10FFFF. *)
Lemma utf8_step_decode (b0 : N) (rest : list N) c n :
  utf8_step b0 rest = U8Char c n -> utf8_encode_char c = take n (b0 :: rest).
Proof.
  intros H. u8_cases; injection H as <- <-; unfold utf8_encode_char;
    repeat case_decide; simpl; try lia; repeat f_equal; lia.
Qed.

(** The bytes of an ill-formed prefix are all at least 0x80. *)
Lemma utf8_step_invalid_high (b0 : N) (rest : list N) n why :
  utf8_step b0 rest = U8Invalid n why ->
  Forall (fun b => 0x80 <= b)%N (take n (b0 :: rest)).
Proof. intros H. u8_cases; injection H as <- <-; simpl; repeat constructor; lia. Qed.

(** ** Lemmas on decoding and encoding strings *)

Lemma utf8_step_drop (b0 : N) (rest : list N) :
  match utf8_step b0 rest with
  | U8Char _ n | U8Invalid n _ => (length (drop n (b0 :: rest)) <= length rest)%nat
  end.
Proof.
  pose proof (utf8_step_length b0 rest).
  destruct (utf8_step b0 rest); rewrite length_drop; simpl in *; lia.
Qed.

(** The decoder's result does not depend on the fuel once it has one step
    per byte: [utf8_decode] terminates with its full result. *)
Lemma decode_go_fuel (h : errors) (f1 f2 pos : nat) (bs : list N) :
  (length bs <= f1)%nat -> (length bs <= f2)%nat ->
  decode_go h f1 pos bs = decode_go h f2 pos bs.
Proof.
  revert f2 pos bs. induction f1 as [|f1 IH]; intros f2 pos [|b0 rest] H1 H2;
    simpl in *; try lia; try (by destruct f2).
  destruct f2 as [|f2]; [lia|]. simpl.
  pose proof (utf8_step_drop b0 rest) as Hd.
  destruct (utf8_step b0 rest) as [c n|n why]; [|destruct (handle _ _)];
    rewrite ?(IH f2) by lia; done.
Qed.

Lemma utf8_decode_fuel (h : errors) (fuel pos : nat) (bs : list N) :
  (length bs <= fuel)%nat -> decode_go h fuel pos bs = decode_go h (length bs) pos bs.
Proof. intros. by apply decode_go_fuel. Qed.

(** Where the string starts only matters to the error positions. *)
Lemma encode_go_pos (h : errors) (pos pos' : nat) (s : pystr) (b : list N) :
  encode_go h pos s = Ok b -> encode_go h pos' s = Ok b.
Proof.
  revert pos pos' b. induction s as [|c s IH]; intros pos pos' b; simpl; [done|].
  destruct (encode_char h c); [|done].
  destruct (encode_go h (S pos) s) eqn:E; [|done]. by rewrite (IH _ _ _ E).
Qed.

Lemma encode_go_app (h : errors) (pos pos' : nat) (s1 s2 : pystr) (b1 b2 : list N) :
  encode_go h pos s1 = Ok b1 -> encode_go h pos' s2 = Ok b2 ->
  encode_go h pos (s1 ++ s2) = Ok (b1 ++ b2).
Proof.
  revert pos b1. induction s1 as [|c s1 IH]; intros pos b1; simpl.
  - intros [= <-] H2. by apply (encode_go_pos _ pos').
  - destruct (encode_char h c) as [b|]; [|done].
    destruct (encode_go h (S pos) s1) eqn:E; [|done]. intros [= <-] H2.
    rewrite (IH _ _ E H2). simpl. by rewrite app_assoc.
Qed.

(** Every escaped byte (0x80..0xFF) of [surrogateescape] encodes back to
    itself. *)
Lemma encode_escapes (pos : nat) (bad : list N) :
  Forall (fun b => 0x80 <= b < 256)%N bad ->
  encode_go SurrogateEscape pos (map (fun b => 0xDC00 + b)%N bad) = Ok bad.
Proof.
  intros Hbad. revert pos. induction Hbad as [|b bad Hb _ IH]; intros pos; [done|].
  simpl. unfold encode_char at 1. rewrite !decide_True by lia. simpl. rewrite IH.
  simpl. do 3 f_equal. lia.
Qed.

Lemma encode_char_scalar (h : errors) (c : N) :
  is_scalar c -> encode_char h c = Some (utf8_encode_char c).
Proof. intros [_ Hc]. unfold encode_char. by rewrite decide_False. Qed.

#[export] Hint Resolve utf8_step_char_scalar : pyhints.

(** A string of scalar values is encoded code point by code point, under
    every error handler. *)
Lemma encode_go_scalar (h : errors) (pos : nat) (s : pystr) :
  Forall is_scalar s -> encode_go h pos s = Ok (mjoin (map utf8_encode_char s)).
Proof.
  intros Hs. revert pos. induction Hs as [|c s Hc _ IH]; intros pos; [done|].
  simpl. by rewrite encode_char_scalar, IH.
Qed.

Lemma utf8_encode_char_bytes (c : N) :
  (c < 0x110000)%N -> Forall (fun b => b < 256)%N (utf8_encode_char c).
Proof. intros Hc. unfold utf8_encode_char. repeat case_decide; repeat constructor; lia. Qed.

Lemma utf8_encode_char_nonempty (c : N) : utf8_encode_char c <> [].
Proof. unfold utf8_encode_char. by repeat case_decide. Qed.

Lemma utf8_encode_char_ascii (c : N) : (c < 0x80)%N -> utf8_encode_char c = [c].
Proof. intros Hc. unfold utf8_encode_char. by rewrite decide_True. Qed.

(** The decoder reads back the encoding of a string of scalar values. *)
Lemma utf8_decode_encoded (h : errors) (s : pystr) :
  Forall is_scalar s -> utf8_decode h (mjoin (map utf8_encode_char s)) = Ok s.
Proof.
  unfold utf8_decode. intros Hs.
  enough (Hgen : forall pos, decode_go h (length (mjoin (map utf8_encode_char s))) pos
                               (mjoin (map utf8_encode_char s)) = Ok s) by apply Hgen.
  induction Hs as [|c s Hc _ Hdec]; [done|]. intros pos.
  destruct (utf8_step_encode c (mjoin (map utf8_encode_char s)) Hc) as (b0 & tl & Hec & Hstep).
  cbn [map mjoin foldr]. change (mjoin (map utf8_encode_char s)) with (mjoin (map utf8_encode_char s)).
  cbn. rewrite Hec. cbn [app]. simpl. rewrite Hstep.
  change (drop (S (length tl)) (b0 :: tl ++ mjoin (map utf8_encode_char s)))
    with (drop (length tl) (tl ++ mjoin (map utf8_encode_char s))).
  rewrite drop_app_length, utf8_decode_fuel by (rewrite length_app; lia).
  by rewrite Hdec.
Qed.

(** C23 (roundtrip): [s.encode('utf-8', errors).decode('utf-8', errors) == s]
    for a string of scalar values, under every error handler: the encoder
    does not raise and the decoder gives the string back. *)
Theorem utf8_roundtrip (h : errors) (s : pystr) :
  Forall is_scalar s ->
  exists bs, utf8_encode h s = Ok bs /\ utf8_decode h bs = Ok s.
Proof.
  intros Hs. exists (mjoin (map utf8_encode_char s)). split.
  - by apply encode_go_scalar.
  - by apply utf8_decode_encoded.
Qed.

(** Decoding with [surrogateescape] never fails and is undone by encoding
    with [surrogateescape] (PEP 383): every byte string survives the round
    trip through [str]. *)
Lemma decode_go_surrogateescape (fuel pos : nat) (bs : list N) :
  (length bs <= fuel)%nat -> Forall (fun b => b < 256)%N bs ->
  exists s, decode_go SurrogateEscape fuel pos bs = Ok s /\
            forall p, encode_go SurrogateEscape p s = Ok bs.
Proof.
  revert pos bs. induction fuel as [|fuel IH]; intros pos [|b0 rest] Hn Hbs;
    simpl in *; try lia; try (by exists []).
  pose proof (utf8_step_drop b0 rest) as Hd.
  destruct (utf8_step b0 rest) as [c n|n why] eqn:Hstep.
  - destruct (IH (pos + n)%nat (drop n (b0 :: rest))) as (s & -> & Henc);
      [lia | by apply Forall_drop|].
    exists (c :: s). split; [done|]. intros p. simpl.
    rewrite encode_char_scalar by eauto using utf8_step_char_scalar.
    rewrite Henc, (utf8_step_decode _ _ _ _ Hstep). simpl. by rewrite take_drop.
  - destruct (IH (pos + n)%nat (drop n (b0 :: rest))) as (s & -> & Henc);
      [lia | by apply Forall_drop|].
    eexists. split; [done|]. intros p.
    assert (Hesc : Forall (fun b => 0x80 <= b < 256)%N (take n (b0 :: rest))).
    { apply Forall_and; split; [eauto using utf8_step_invalid_high | by apply Forall_take]. }
    pose proof (encode_go_app SurrogateEscape p p _ _ _ _ (encode_escapes p _ Hesc) (Henc p)) as E.
    by rewrite take_drop in E.
Qed.

(** C24 (roundtrip): decoding any byte string with [surrogateescape] never
    raises, and encoding the result with [surrogateescape] gives the bytes
    back (PEP 383), as CPython relies on for [os.environ] and, under the C
    locale, for [sys.stdin] and [sys.stdout]. *)
Theorem surrogateescape_roundtrip (bs : list N) :
  Forall (fun b => b < 256)%N bs ->
  exists s, utf8_decode SurrogateEscape bs = Ok s /\
            utf8_encode SurrogateEscape s = Ok bs.
Proof.
  intros Hbs. destruct (decode_go_surrogateescape (length bs) 0 bs) as (s & ? & ?);
    [lia | done |]. exists s. unfold utf8_decode, utf8_encode. auto.
Qed.

(** [bytes.decode('utf-8', 'replace')] never raises. *)
Lemma utf8_decode_replace_total (bs : list N) :
  exists s, utf8_decode Replace bs = Ok s.
Proof.
  unfold utf8_decode. generalize (length bs) as fuel, 0%nat as pos.
  intros fuel. revert bs. induction fuel as [|fuel IH]; intros [|b0 rest] pos;
    simpl; eauto.
  destruct (utf8_step b0 rest); simpl;
    destruct (IH (drop n (b0 :: rest)) (pos + n)%nat) as [s ->]; eauto.
Qed.

(** ** The incremental decoder *)

(** A sequence is cut short only by the end of the input, which it uses
    up. *)
Lemma utf8_step_unexpected_end (b0 : N) (rest : list N) (n : nat) :
  utf8_step b0 rest = U8Invalid n UnexpectedEnd -> n = S (length rest).
Proof. intros H. u8_cases; injection H as <-; simpl; lia. Qed.

(** A step that is not cut short does not look at what follows. *)
Lemma utf8_step_app (b0 : N) (rest more : list N) :
  match utf8_step b0 rest with U8Invalid _ UnexpectedEnd => False | _ => True end ->
  utf8_step b0 (rest ++ more) = utf8_step b0 rest.
Proof.
  intros H. destruct rest as [|b1 [|b2 [|b3 r]]]; cbn [app];
    unfold utf8_step, second_ok, is_cont, in_range in *; repeat case_decide; try done;
    repeat match goal with
           | |- context [match ?l with [] => _ | _ :: _ => _ end] => destruct l
           | |- context [if ?b then _ else _] => destruct b
           end; done.
Qed.

Lemma decode_go_ok_pos (h : errors) (fuel pos pos' : nat) (bs : list N) (s : pystr) :
  decode_go h fuel pos bs = Ok s -> decode_go h fuel pos' bs = Ok s.
Proof.
  revert pos pos' bs s. induction fuel as [|fuel IH]; intros pos pos' [|b0 rest] s; simpl; try done.
  destruct (utf8_step b0 rest) as [c n|n why]; [|destruct (handle h _); [|done]];
    destruct (decode_go h fuel (pos + n) _) as [cs|] eqn:E; try done;
    erewrite IH by exact E; done.
Qed.

(** The incremental decoder keeps a suffix of its input. *)
Lemma decode_part_kept (h : errors) (fuel pos : nat) (bs : list N) (s : pystr) (p : list N) :
  decode_part h fuel pos bs = Ok (s, p) -> (length p <= length bs)%nat.
Proof.
  revert pos bs s. induction fuel as [|fuel IH]; intros pos [|b0 rest] s Hd; simpl in *;
    try (injection Hd as <- <-; simpl; lia).
  pose proof (utf8_step_drop b0 rest) as Hl.
  destruct (truncated_surrogate (b0 :: rest)) eqn:Et.
  { destruct (utf8_step b0 rest) as [c n|n why]; [|destruct why; try (injection Hd as _ <-; simpl; lia)].
    destruct (decode_part h fuel (pos + n) _) as [[cs p']|] eqn:E; try done.
    injection Hd as <- <-; apply IH in E; simpl in *; lia. }
  destruct (utf8_step b0 rest) as [c n|n why]; [|destruct why; [| |by injection Hd as <- <-]];
    try destruct (handle h _); try done;
    destruct (decode_part h fuel (pos + n) (drop n (b0 :: rest))) as [[cs p']|] eqn:E; try done;
    injection Hd as <- <-; apply IH in E; simpl in *; lia.
Qed.

(** Decoding [a ++ b] whole gives what decoding [a] incrementally gives,
    followed by the decoding of the bytes it kept and [b]. *)
Lemma decode_part_split (h : errors) (fa : nat) (a b : list N) (pos F : nat) (s : pystr) :
  (length a <= fa)%nat -> (length (a ++ b) <= F)%nat -> decode_go h F pos (a ++ b) = Ok s ->
  exists s1 p s2, decode_part h fa pos a = Ok (s1, p) /\
    utf8_decode h (p ++ b) = Ok s2 /\ s = s1 ++ s2 /\ (length p <= length a)%nat.
Proof.
  revert a pos F s. induction fa as [|fa IH]; intros [|b0 ra] pos F s Ha HF Hd; simpl in *; try lia.
  1,2: exists [], [], s; split_and!; try done; unfold utf8_decode; simpl;
       rewrite (decode_go_fuel _ _ F) by lia; by eapply decode_go_ok_pos.
  destruct F as [|F]; [lia|]. simpl in Hd.
  pose proof (utf8_step_length b0 ra) as Hl.
  destruct (utf8_step b0 ra) as [c n|n why] eqn:Es.
  - rewrite utf8_step_app in Hd by (by rewrite Es). rewrite Es in Hd.
    rewrite app_comm_cons, drop_app_le in Hd by (simpl; lia).
    destruct (decode_go h F (pos + n) _) as [cs|] eqn:Ed; [|done]. injection Hd as <-.
    destruct (IH (drop n (b0 :: ra)) (pos + n)%nat F cs) as (s1 & p & s2 & -> & H2 & -> & Hp);
      try (rewrite ?length_app, length_drop in *; simpl in *; lia); [done|].
    exists (c :: s1), p, s2. rewrite length_drop in Hp. split_and!; try done; simpl in *; lia.
  - destruct (decide (why = UnexpectedEnd)) as [->|Hw].
    + exists [], (b0 :: ra), s. split_and!; try done.
      unfold utf8_decode. rewrite (decode_go_fuel _ _ (S F)) by (simpl in *; lia).
      eapply decode_go_ok_pos. simpl. exact Hd.
    + destruct (truncated_surrogate (b0 :: ra)) eqn:Et.
      { exists [], (b0 :: ra), s. split_and!; [by destruct why | | done | done].
        unfold utf8_decode. rewrite (decode_go_fuel _ _ (S F)) by (simpl in *; lia).
        eapply decode_go_ok_pos. simpl. exact Hd. }
      rewrite utf8_step_app in Hd by (rewrite Es; by destruct why). rewrite Es in Hd.
      replace (match why with UnexpectedEnd => _ | _ => _ end)
        with (match handle h (take n (b0 :: ra)) with
              | None => Error (UnicodeDecodeError pos (pos + n) why)
              | Some r => '(cs, p) ← decode_part h fa (pos + n) (drop n (b0 :: ra)); Ok (r ++ cs, p)
              end) by (by destruct why).
      rewrite app_comm_cons, take_app_le, drop_app_le in Hd by (simpl; lia).
      destruct (handle h _) as [r|]; [|done].
      destruct (decode_go h F (pos + n) _) as [cs|] eqn:Ed; [|done]. injection Hd as <-.
      destruct (IH (drop n (b0 :: ra)) (pos + n)%nat F cs) as (s1 & p & s2 & -> & H2 & -> & Hp);
        try (rewrite ?length_app, length_drop in *; simpl in *; lia); [done|].
      exists (r ++ s1), p, s2. rewrite length_drop in Hp.
      split_and!; try done; [by rewrite <- app_assoc | simpl in *; lia].
Qed.

(** ** Witnesses *)

Lemma utf8_roundtrip_witness :
  Forall is_scalar [0x41; 0xE9; 0x20AC; 0x1F600]%N /\
  exists bs, utf8_encode Strict [0x41; 0xE9; 0x20AC; 0x1F600]%N = Ok bs /\
             utf8_decode Strict bs = Ok [0x41; 0xE9; 0x20AC; 0x1F600]%N.
Proof.
  split; [repeat constructor; lia|].
  apply utf8_roundtrip. repeat constructor; lia.
Defined.

Lemma surrogateescape_roundtrip_witness :
  Forall (fun b => b < 256)%N [0x61; 0xFF; 0xE2; 0x82; 0xC3; 0xA9]%N /\
  exists s, utf8_decode SurrogateEscape [0x61; 0xFF; 0xE2; 0x82; 0xC3; 0xA9]%N = Ok s /\
            utf8_encode SurrogateEscape s = Ok [0x61; 0xFF; 0xE2; 0x82; 0xC3; 0xA9]%N.
Proof.
  split; [repeat constructor; lia|].
  apply surrogateescape_roundtrip. repeat constructor; lia.
Defined.
