(* ===== verification/PyFloat.v ===== *)
(** * Python floats: IEEE 754 binary64

    [json.loads] turns a number with a fraction or an exponent into a
    [float] with [float(text)], which CPython computes with
    [_Py_dg_strtod] (Python/dtoa.c): the double nearest to the decimal
    value, ties to an even mantissa, [inf] beyond the largest double and a
    signed zero below half the least one.  [repr(float)] (float_repr_style
    ['short']) prints with [_Py_dg_dtoa] in mode 0 the shortest decimal
    that reads back as the same double, the nearest one to it when there
    are several, and [format_float_short] (Python/pystrtod.c) lays it out.

    This file models the doubles and the two conversions on exact rational
    arithmetic (Stdlib's [Q]):
    - a finite double is a sign, an integer mantissa [m < 2^53] and an
      exponent [emin <= e <= emax]: its value is [m * 2^e];
    - [round_binary] is the rounding to nearest, ties to even;
      [round_decimal] the rounding of [n * 10^e10], which is what
      [_Py_dg_strtod] computes (its bignum and [double] steps are not
      modelled);
    - [shortest] the digits and exponent of mode 0 of [_Py_dg_dtoa].
    It also proves the error model of rounding ([round_binary_error]).
    [FloatShortest] proves that [shortest] reads back with the fewest
    digits; the text [repr] prints is laid out in [PyRepr]. *)

From Stdlib Require Import QArith Qround Qpower Qabs Lqa.
From S2P Require Import Prelude.

(** ** Doubles *)

(** The least exponent (of the least subnormal, [2^-1074]) and the
    greatest (of [DBL_MAX = (2^53 - 1) * 2^971]). *)
Definition emin : Z := -1074.
Definition emax : Z := 971.

(** A finite double: [(-1)^neg * mant * 2^exp]. *)
Record double := Double { d_neg : bool; d_mant : Z; d_exp : Z }.

#[export] Instance double_eq_dec : EqDecision double.
Proof. solve_decision. Defined.

(** The representation is canonical: a normal double has a mantissa of 53
    bits, a subnormal one (and zero) the least exponent. *)
Definition canonical (m e : Z) : Prop :=
  (0 <= m < 2 ^ 53)%Z /\ (emin <= e <= emax)%Z /\ (e = emin \/ 2 ^ 52 <= m)%Z.

#[export] Instance canonical_dec m e : Decision (canonical m e).
Proof. unfold canonical. apply _. Defined.

(** A Python [float]: a finite double, an infinity or a NaN. *)
Inductive pyfloat :=
  | FFin (d : double)
  | FNaN
  | FInf
  | FNegInf.

#[export] Instance pyfloat_eq_dec : EqDecision pyfloat.
Proof. solve_decision. Defined.

(** ** Exact arithmetic *)

Definition pow2 (e : Z) : Q := (2 # 1) ^ e.
Definition pow10 (e : Z) : Q := (10 # 1) ^ e.

(** The value of a mantissa and an exponent. *)
Definition bval (m e : Z) : Q := (inject_Z m * pow2 e)%Q.

(** Rounding to the nearest integer, ties to even. *)
Definition rne (x : Q) : Z :=
  let f := Qfloor x in
  match ((x - inject_Z f) ?= (1 # 2))%Q with
  | Lt => f
  | Gt => f + 1
  | Eq => if Z.even f then f else f + 1
  end.

(** [floor(log2 x)] for [x > 0]: the difference of the bit lengths of the
    numerator and the denominator is it or one more. *)
Definition flog2 (x : Q) : Z :=
  let t := (Z.log2 (Qnum x) - Z.log2 (Zpos (Qden x)))%Z in
  match (x ?= pow2 t)%Q with Lt => t - 1 | _ => t end.

(** The number of decimal digits of [n > 0]. *)
Fixpoint digits_aux (fuel : nat) (n : Z) : Z :=
  match fuel with
  | O => 0
  | S f => if (n <? 10)%Z then 1 else 1 + digits_aux f (n / 10)
  end.

Definition zdigits (n : Z) : Z := digits_aux (S (Z.to_nat (Z.log2 n))) n.

(** [floor(log10 x)] for [x > 0]. *)
Definition flog10 (x : Q) : Z :=
  let t := (zdigits (Qnum x) - zdigits (Zpos (Qden x)))%Z in
  match (x ?= pow10 t)%Q with Lt => t - 1 | _ => t end.

(** ** Rounding to a double *)

(** The double nearest to [x > 0], ties to an even mantissa: the exponent
    that gives the mantissa 53 bits, or [emin]; a mantissa rounded up to
    [2^53] is carried into the exponent.  The exponent may exceed [emax]:
    the value overflows. *)
Definition round_exp (x : Q) : Z := Z.max (flog2 x - 52) emin.

Definition round_binary (x : Q) : Z * Z :=
  let e := round_exp x in
  let m := rne (x / pow2 e)%Q in
  if (m =? 2 ^ 53)%Z then (2 ^ 52, e + 1)%Z else (m, e).

(** The float nearest to [(-1)^neg * n * 10^e10] ([n >= 0]): the
    reference rounding. *)
Definition round_decimal (neg : bool) (n e10 : Z) : pyfloat :=
  if (n =? 0)%Z then FFin (Double neg 0 emin) else
  let '(m, e) := round_binary (inject_Z n * pow10 e10)%Q in
  if (emax <? e)%Z then (if neg then FNegInf else FInf) else FFin (Double neg m e).

(** ** The shortest decimal *)

(** The [k]-digit decimals nearest [x > 0]: the exponent [q] of their last
    digit, and the digits below and above [x]. *)
Definition candidates (x : Q) (k : Z) : Z * Z * Z :=
  let q := (flog10 x - k + 1)%Z in
  let lo := Qfloor (x / pow10 q)%Q in
  (q, lo, lo + 1)%Z.

(** The decimal [c * 10^q] reads back as the double [m * 2^e]. *)
Definition reads_back (m e c q : Z) : bool :=
  bool_decide (round_binary (inject_Z c * pow10 q)%Q = (m, e)).

(** Of two decimals that read back, the one nearer [x], and the even one
    when they are as near. *)
Definition nearer (x : Q) (q lo hi : Z) : Z :=
  match ((x - inject_Z lo * pow10 q) ?= (inject_Z hi * pow10 q - x))%Q with
  | Lt => lo
  | Gt => hi
  | Eq => if Z.even lo then lo else hi
  end.

(** Mode 0 of [_Py_dg_dtoa] on [m * 2^e > 0]: the digits [c] and the
    exponent [q] of the shortest decimal [c * 10^q] that reads back,
    trying [k = 1, 2, ...] significant digits.  Seventeen digits always
    suffice ([FloatShortest.seventeen_digits]); the fuel is that bound. *)
Fixpoint shortest_aux (fuel : nat) (m e k : Z) : Z * Z :=
  let x := bval m e in
  let '(q, lo, hi) := candidates x k in
  match fuel with
  | O => (rne (x / pow10 q)%Q, q)
  | S f =>
      match reads_back m e lo q, reads_back m e hi q with
      | true, true => (nearer x q lo hi, q)
      | true, false => (lo, q)
      | false, true => (hi, q)
      | false, false => shortest_aux f m e (k + 1)
      end
  end.

Definition shortest (m e : Z) : Z * Z := shortest_aux 16 m e 1.

(** [_Py_dg_dtoa] returns the digits without trailing zeros: [c * 10^q]
    as [c' * 10^q'] with [c'] not a multiple of ten. *)
Fixpoint strip_aux (fuel : nat) (c q : Z) : Z * Z :=
  match fuel with
  | O => (c, q)
  | S f => if (c mod 10 =? 0)%Z then strip_aux f (c / 10) (q + 1) else (c, q)
  end.

Definition strip_zeros (c q : Z) : Z * Z := strip_aux (Z.to_nat (zdigits c)) c q.

(** The digits and exponent [repr] prints for [m * 2^e > 0]. *)
Definition repr_digits (m e : Z) : Z * Z := let '(c, q) := shortest m e in strip_zeros c q.

(** ** Powers *)

Local Open Scope Q_scope.

Section powers.
Context (b : positive) (Hb : (1 < Zpos b)%Z).

Lemma qpow_pos (e : Z) : 0 < (Zpos b # 1) ^ e.
Proof using Hb. apply Qpower_0_lt. rewrite Zlt_Qlt in Hb. unfold inject_Z in Hb. lra. Qed.

Lemma qpow_add (a c : Z) : (Zpos b # 1) ^ (a + c) == (Zpos b # 1) ^ a * (Zpos b # 1) ^ c.
Proof using Hb. apply Qpower_plus. intros H. inversion H. Qed.

Lemma qpow_lt (a c : Z) : (a < c)%Z -> (Zpos b # 1) ^ a < (Zpos b # 1) ^ c.
Proof using Hb. intros. apply Qpower_lt_compat_l; [done|]. rewrite Zlt_Qlt in Hb. exact Hb. Qed.

Lemma qpow_le (a c : Z) : (a <= c)%Z -> (Zpos b # 1) ^ a <= (Zpos b # 1) ^ c.
Proof using Hb. intros. apply Qpower_le_compat_l; [done|].
  assert (H1 : (1 <= Zpos b)%Z) by lia. rewrite Zle_Qle in H1. exact H1. Qed.

Lemma qpow_lt_inv (a c : Z) : (Zpos b # 1) ^ a < (Zpos b # 1) ^ c -> (a < c)%Z.
Proof using Hb. intros. eapply Qpower_lt_compat_l_inv; [done|]. rewrite Zlt_Qlt in Hb. exact Hb. Qed.

Lemma qpow_le_inv (a c : Z) : (Zpos b # 1) ^ a <= (Zpos b # 1) ^ c -> (a <= c)%Z.
Proof using Hb. intros. eapply Qpower_le_compat_l_inv; [done|]. rewrite Zlt_Qlt in Hb. exact Hb. Qed.

Lemma qpow_Z (k : Z) : (0 <= k)%Z -> (Zpos b # 1) ^ k == inject_Z (Zpos b ^ k).
Proof. intros. by rewrite Zpower_Qpower. Qed.
End powers.

Lemma pow2_pos (e : Z) : 0 < pow2 e.
Proof. by apply qpow_pos. Qed.
Lemma pow10_pos (e : Z) : 0 < pow10 e.
Proof. by apply qpow_pos. Qed.
Lemma pow2_add (a c : Z) : pow2 (a + c) == pow2 a * pow2 c.
Proof. by apply qpow_add. Qed.
Lemma pow10_add (a c : Z) : pow10 (a + c) == pow10 a * pow10 c.
Proof. by apply qpow_add. Qed.
Lemma pow2_lt (a c : Z) : (a < c)%Z -> pow2 a < pow2 c.
Proof. by apply qpow_lt. Qed.
Lemma pow10_lt (a c : Z) : (a < c)%Z -> pow10 a < pow10 c.
Proof. by apply qpow_lt. Qed.
Lemma pow2_le (a c : Z) : (a <= c)%Z -> pow2 a <= pow2 c.
Proof. by apply qpow_le. Qed.
Lemma pow10_le (a c : Z) : (a <= c)%Z -> pow10 a <= pow10 c.
Proof. by apply qpow_le. Qed.
Lemma pow2_lt_inv (a c : Z) : pow2 a < pow2 c -> (a < c)%Z.
Proof. by apply qpow_lt_inv. Qed.
Lemma pow10_lt_inv (a c : Z) : pow10 a < pow10 c -> (a < c)%Z.
Proof. by apply qpow_lt_inv. Qed.
Lemma pow2_Z (k : Z) : (0 <= k)%Z -> pow2 k == inject_Z (2 ^ k).
Proof. apply (qpow_Z 2). Qed.
Lemma pow10_Z (k : Z) : (0 <= k)%Z -> pow10 k == inject_Z (10 ^ k).
Proof. apply (qpow_Z 10). Qed.
Lemma pow2_succ (e : Z) : pow2 (e + 1) == 2 * pow2 e.
Proof. rewrite pow2_add. unfold pow2 at 2. simpl. ring. Qed.

(** ** Rounding to an integer *)

#[export] Instance rne_proper : Proper (Qeq ==> eq) rne.
Proof.
  intros x y E. unfold rne. rewrite (Qfloor_comp _ _ E).
  by rewrite (Qcompare_comp (x - inject_Z (Qfloor y)) (y - inject_Z (Qfloor y)) ltac:(lra)
                (1 # 2) (1 # 2) ltac:(lra)).
Qed.

Lemma rne_cases (x : Q) :
  (rne x = Qfloor x /\ x - inject_Z (Qfloor x) <= 1 # 2) \/
  (rne x = (Qfloor x + 1)%Z /\ 1 # 2 <= x - inject_Z (Qfloor x)).
Proof.
  unfold rne. destruct (Qcompare_spec (x - inject_Z (Qfloor x)) (1 # 2)) as [H|H|H].
  - destruct (Z.even _); [left | right]; split; try done; lra.
  - left. split; [done | lra].
  - right. split; [done | lra].
Qed.

Lemma rne_bounds (x : Q) : inject_Z (rne x) - (1 # 2) <= x <= inject_Z (rne x) + (1 # 2).
Proof.
  pose proof (Qfloor_le x). pose proof (Qlt_floor x). rewrite inject_Z_plus in *.
  destruct (rne_cases x) as [[-> ?]|[-> ?]]; rewrite ?inject_Z_plus; change (inject_Z 1) with 1 in *; lra.
Qed.


Lemma rne_near (x : Q) (z : Z) :
  inject_Z z - (1 # 2) < x < inject_Z z + (1 # 2) -> rne x = z.
Proof.
  intros [H1 H2]. pose proof (rne_bounds x).
  assert (H3 : inject_Z (rne x) < inject_Z (z + 1))
    by (rewrite inject_Z_plus; change (inject_Z 1) with 1; lra).
  assert (H4 : inject_Z z < inject_Z (rne x + 1))
    by (rewrite inject_Z_plus; change (inject_Z 1) with 1; lra).
  rewrite <- Zlt_Qlt in H3, H4. lia.
Qed.

Lemma rne_int (z : Z) : rne (inject_Z z) = z.
Proof. apply rne_near. lra. Qed.

Lemma rne_mono (x y : Q) : x <= y -> (rne x <= rne y)%Z.
Proof.
  intros Hxy. pose proof (Qfloor_resp_le _ _ Hxy) as Hf.
  pose proof (Qfloor_le y). pose proof (Qlt_floor x). rewrite inject_Z_plus in *.
  destruct (Z.eq_dec (Qfloor x) (Qfloor y)) as [Heq|Hne].
  - destruct (rne_cases x) as [[Ex Hx]|[Ex Hx]], (rne_cases y) as [[Ey Hy]|[Ey Hy]]; try lia.
    (* both half-way between the same integers: the same choice *)
    rewrite Heq in Hx. assert (E : x == y) by lra. rewrite E in Ex. lia.
  - destruct (rne_cases x) as [[-> ?]|[-> ?]], (rne_cases y) as [[-> ?]|[-> ?]]; lia.
Qed.

(** ** Comparing fractions and powers *)

Lemma Qdiv_le_iff (a b c d : Q) : 0 < b -> 0 < d -> (a / b <= c / d <-> a * d <= c * b).
Proof.
  intros Hb Hd. rewrite <- (Qmult_le_r (a / b) (c / d) (b * d)) by (apply Qmult_lt_0_compat; lra).
  assert (E1 : a / b * (b * d) == a * d) by (field; intro; lra). rewrite E1.
  assert (E2 : c / d * (b * d) == c * b) by (field; intro; lra). by rewrite E2.
Qed.
Lemma Qdiv_lt_iff (a b c d : Q) : 0 < b -> 0 < d -> (a / b < c / d <-> a * d < c * b).
Proof.
  intros Hb Hd. rewrite <- (Qmult_lt_r (a / b) (c / d) (b * d)) by (apply Qmult_lt_0_compat; lra).
  assert (E1 : a / b * (b * d) == a * d) by (field; intro; lra). rewrite E1.
  assert (E2 : c / d * (b * d) == c * b) by (field; intro; lra). by rewrite E2.
Qed.
Lemma inject_Z_pos (z : Z) : (0 < z)%Z -> 0 < inject_Z z.
Proof. intros. change 0 with (inject_Z 0). by rewrite <- Zlt_Qlt. Qed.

Section frac.
Context (base : positive) (Hb : (1 < Zpos base)%Z).


Lemma qpow_sub (a b : Z) : (0 <= a)%Z -> (0 <= b)%Z ->
  (Zpos base # 1) ^ (a - b)%Z == inject_Z (Zpos base ^ a) / inject_Z (Zpos base ^ b).
Proof using Hb.
  intros. rewrite <- !qpow_Z by done. replace (a - b)%Z with (a + - b)%Z by lia.
  rewrite qpow_add by done. rewrite Qpower_opp. reflexivity.
Qed.

Lemma qpow_le_frac (a b n : Z) (d : positive) : (0 <= a)%Z -> (0 <= b)%Z ->
  (Zpos base # 1) ^ (a - b)%Z <= n # d <-> (Zpos base ^ a * Zpos d <= n * Zpos base ^ b)%Z.
Proof using Hb.
  intros. rewrite (qpow_sub a b) by done. rewrite Qmake_Qdiv. rewrite Qdiv_le_iff by (apply inject_Z_pos; lia).
  by rewrite <- !inject_Z_mult, <- Zle_Qle.
Qed.

Lemma qpow_gt_frac (a b n : Z) (d : positive) : (0 <= a)%Z -> (0 <= b)%Z ->
  n # d < (Zpos base # 1) ^ (a - b)%Z <-> (n * Zpos base ^ b < Zpos base ^ a * Zpos d)%Z.
Proof using Hb.
  intros. rewrite (qpow_sub a b) by done. rewrite Qmake_Qdiv. rewrite Qdiv_lt_iff by (apply inject_Z_pos; lia).
  by rewrite <- !inject_Z_mult, <- Zlt_Qlt.
Qed.
Lemma qpow_around (n : Z) (d : positive) (ln ld : Z) :
  (0 <= ln)%Z -> (0 <= ld)%Z ->
  (Zpos base ^ ln <= n < Zpos base ^ (ln + 1))%Z -> (Zpos base ^ ld <= Zpos d < Zpos base ^ (ld + 1))%Z ->
  (Zpos base # 1) ^ (ln - ld - 1) <= n # d < (Zpos base # 1) ^ (ln - ld + 1).
Proof using Hb.
  intros Hl Hd [Hn1 Hn2] [Hd1 Hd2]. rewrite Z.pow_add_r in Hn2, Hd2 by lia. split.
  - replace (ln - ld - 1)%Z with (ln - (ld + 1))%Z by lia.
    apply qpow_le_frac; [lia|lia|]. rewrite Z.pow_add_r by lia. nia.
  - replace (ln - ld + 1)%Z with ((ln + 1) - ld)%Z by lia.
    apply qpow_gt_frac; [lia|lia|]. rewrite Z.pow_add_r by lia. nia.
Qed.
End frac.

(** ** Logarithms *)

Lemma flog2_spec (x : Q) : 0 < x -> pow2 (flog2 x) <= x < pow2 (flog2 x + 1).
Proof.
  destruct x as [n d]. intros Hx. assert (Hn : (0 < n)%Z) by (unfold Qlt in Hx; simpl in Hx; lia).
  destruct (Z.log2_spec n Hn) as [Hn1 Hn2]. destruct (Z.log2_spec (Zpos d) ltac:(lia)) as [Hd1 Hd2].
  pose proof (Z.log2_nonneg n). pose proof (Z.log2_nonneg (Zpos d)).
  pose proof (qpow_around 2 ltac:(lia) n d (Z.log2 n) (Z.log2 (Zpos d))) as Ha.
  specialize (Ha ltac:(lia) ltac:(lia) ltac:(rewrite Z.add_1_r; lia) ltac:(rewrite Z.add_1_r; lia)).
  unfold flog2. cbn [Qnum Qden]. fold (pow2 (Z.log2 n - Z.log2 (Zpos d) - 1)) in Ha.
  fold (pow2 (Z.log2 n - Z.log2 (Zpos d) + 1)) in Ha.
  destruct (Qcompare_spec (n # d) (pow2 (Z.log2 n - Z.log2 (Zpos d)))) as [Hc|Hc|Hc].
  - split; [lra|]. rewrite pow2_succ. pose proof (pow2_pos (Z.log2 n - Z.log2 (Zpos d))). lra.
  - replace (Z.log2 n - Z.log2 (Zpos d) - 1 + 1)%Z with (Z.log2 n - Z.log2 (Zpos d))%Z by lia. lra.
  - split; [lra | tauto].
Qed.

Lemma digits_aux_spec (f : nat) (n : Z) : (0 < n)%Z -> (n < 10 ^ Z.of_nat f)%Z ->
  (1 <= digits_aux f n)%Z /\ (10 ^ (digits_aux f n - 1) <= n < 10 ^ digits_aux f n)%Z.
Proof.
  revert n. induction f as [|f IH]; intros n Hn Hf; [simpl in Hf; lia|]. simpl.
  destruct (Z.ltb_spec n 10); [simpl; lia|].
  pose proof (Z.div_mod n 10 ltac:(lia)) as Hdm. pose proof (Z.mod_pos_bound n 10 ltac:(lia)) as Hmb.
  destruct (IH (n / 10)%Z) as (Hk1 & Hk2 & Hk3).
  { apply Z.div_str_pos. lia. }
  { rewrite Nat2Z.inj_succ, Z.pow_succ_r in Hf by lia. apply Z.div_lt_upper_bound; lia. }
  replace (1 + digits_aux f (n / 10) - 1)%Z with (digits_aux f (n / 10)) by lia.
  rewrite Z.pow_add_r by lia. replace (10 ^ digits_aux f (n / 10))%Z
    with (10 * 10 ^ (digits_aux f (n / 10) - 1))%Z at 1 by (rewrite <- Z.pow_succ_r by lia; f_equal; lia).
  lia.
Qed.

Lemma zdigits_spec (n : Z) : (0 < n)%Z ->
  (1 <= zdigits n)%Z /\ (10 ^ (zdigits n - 1) <= n < 10 ^ zdigits n)%Z.
Proof.
  intros Hn. apply digits_aux_spec; [done|]. destruct (Z.log2_spec n Hn) as [_ H].
  rewrite Nat2Z.inj_succ, Z2Nat.id by apply Z.log2_nonneg.
  eapply Z.lt_le_trans; [exact H|]. apply Z.pow_le_mono_l. pose proof (Z.log2_nonneg n). lia.
Qed.

Lemma flog10_spec (x : Q) : 0 < x -> pow10 (flog10 x) <= x < pow10 (flog10 x + 1).
Proof.
  destruct x as [n d]. intros Hx. assert (Hn : (0 < n)%Z) by (unfold Qlt in Hx; simpl in Hx; lia).
  destruct (zdigits_spec n Hn) as (Hn0 & Hn1 & Hn2).
  destruct (zdigits_spec (Zpos d) ltac:(lia)) as (Hd0 & Hd1 & Hd2).
  pose proof (qpow_around 10 ltac:(lia) n d (zdigits n - 1) (zdigits (Zpos d) - 1)) as Ha.
  replace (zdigits n - 1 + 1)%Z with (zdigits n) in Ha by lia.
  replace (zdigits (Zpos d) - 1 + 1)%Z with (zdigits (Zpos d)) in Ha by lia.
  specialize (Ha ltac:(lia) ltac:(lia) ltac:(lia) ltac:(lia)).
  replace (zdigits n - 1 - (zdigits (Zpos d) - 1))%Z with (zdigits n - zdigits (Zpos d))%Z in Ha by lia.
  unfold flog10. cbn [Qnum Qden]. fold (pow10 (zdigits n - zdigits (Zpos d) - 1)) in Ha.
  fold (pow10 (zdigits n - zdigits (Zpos d) + 1)) in Ha.
  destruct (Qcompare_spec (n # d) (pow10 (zdigits n - zdigits (Zpos d)))) as [Hc|Hc|Hc].
  - split; [lra|]. rewrite pow10_add. unfold pow10 at 2. simpl.
    pose proof (pow10_pos (zdigits n - zdigits (Zpos d))). lra.
  - replace (zdigits n - zdigits (Zpos d) - 1 + 1)%Z with (zdigits n - zdigits (Zpos d))%Z by lia. lra.
  - split; [lra | tauto].
Qed.

(** ** Rounding to a double: range, monotonicity, nearness and error *)

Lemma pow2_53 : pow2 53 == inject_Z (2 ^ 53).
Proof. by apply pow2_Z. Qed.
Lemma pow2_52 : pow2 52 == inject_Z (2 ^ 52).
Proof. by apply pow2_Z. Qed.

(** The mantissa before rounding: [x] scaled by the exponent. *)
Lemma round_scaled_bounds (x : Q) : 0 < x ->
  0 < x / pow2 (round_exp x) < pow2 53 /\
  ((emin < round_exp x)%Z -> pow2 52 <= x / pow2 (round_exp x)).
Proof.
  intros Hx. pose proof (flog2_spec x Hx) as [H1 H2]. pose proof (pow2_pos (round_exp x)) as Hp.
  unfold round_exp in *. split; [split|].
  - apply Qlt_shift_div_l; [done|]. lra.
  - apply Qlt_shift_div_r; [done|]. rewrite <- pow2_add.
    eapply Qlt_le_trans; [exact H2|]. apply pow2_le. lia.
  - intros He. apply Qle_shift_div_l; [done|]. rewrite <- pow2_add.
    eapply Qle_trans; [|exact H1]. apply pow2_le. lia.
Qed.

Lemma rne_ge (z : Z) (x : Q) : inject_Z z <= x -> (z <= rne x)%Z.
Proof. intros H. rewrite <- (rne_int z). by apply rne_mono. Qed.
Lemma rne_le (z : Z) (x : Q) : x <= inject_Z z -> (rne x <= z)%Z.
Proof. intros H. rewrite <- (rne_int z). by apply rne_mono. Qed.

Lemma round_exp_min (x : Q) : (emin <= round_exp x)%Z.
Proof. unfold round_exp. lia. Qed.

(** The rounded value: the scaled value rounded, at the exponent chosen;
    the carry of a mantissa [2^53] does not change it. *)
Lemma round_binary_val (x : Q) :
  bval (round_binary x).1 (round_binary x).2 == inject_Z (rne (x / pow2 (round_exp x))) * pow2 (round_exp x).
Proof.
  unfold round_binary, bval. destruct (Z.eqb_spec (rne (x / pow2 (round_exp x))) (2 ^ 53)) as [E|E]; simpl; [|done].
  rewrite E, pow2_succ. change (inject_Z (2 ^ 53)) with (2 * inject_Z (2 ^ 52)). ring.
Qed.

Lemma round_binary_exp (x : Q) :
  (round_binary x).2 = round_exp x \/ (round_binary x).2 = (round_exp x + 1)%Z /\ (round_binary x).1 = (2 ^ 52)%Z.
Proof. unfold round_binary. destruct (Z.eqb _ _); simpl; auto. Qed.

Lemma round_binary_range (x : Q) : 0 < x ->
  (0 <= (round_binary x).1 < 2 ^ 53)%Z /\ (emin <= (round_binary x).2)%Z /\
  ((round_binary x).2 = emin \/ 2 ^ 52 <= (round_binary x).1)%Z.
Proof.
  intros Hx. pose proof (round_scaled_bounds x Hx) as [[H0 H53] H52]. pose proof (round_exp_min x).
  assert (Hlo : (0 <= rne (x / pow2 (round_exp x)))%Z) by (apply rne_ge; change (inject_Z 0) with 0; lra).
  assert (Hhi : (rne (x / pow2 (round_exp x)) <= 2 ^ 53)%Z) by (apply rne_le; rewrite <- pow2_53; lra).
  unfold round_binary. destruct (Z.eqb_spec (rne (x / pow2 (round_exp x))) (2 ^ 53)) as [E|E]; simpl.
  - split_and!; [lia | lia | lia | by right].
  - split_and!; [lia | lia | lia |]. destruct (Z.eq_dec (round_exp x) emin) as [|Hne]; [by left|right].
    apply rne_ge. rewrite <- pow2_52. apply H52. lia.
Qed.

Lemma flog2_mono (x y : Q) : 0 < x -> x <= y -> (flog2 x <= flog2 y)%Z.
Proof.
  intros Hx Hxy. pose proof (flog2_spec x Hx) as [H1 _]. pose proof (flog2_spec y ltac:(lra)) as [_ H2].
  enough (flog2 x < flog2 y + 1)%Z by lia. apply pow2_lt_inv. lra.
Qed.

Lemma round_exp_mono (x y : Q) : 0 < x -> x <= y -> (round_exp x <= round_exp y)%Z.
Proof. intros. pose proof (flog2_mono x y). unfold round_exp. lia. Qed.

(** Rounding is monotone. *)
Lemma round_binary_mono (x y : Q) : 0 < x -> x <= y ->
  bval (round_binary x).1 (round_binary x).2 <= bval (round_binary y).1 (round_binary y).2.
Proof.
  intros Hx Hxy. rewrite !round_binary_val. pose proof (round_exp_mono x y Hx Hxy) as He.
  pose proof (round_scaled_bounds x Hx) as [[_ Hx53] _].
  pose proof (round_scaled_bounds y ltac:(lra)) as [[_ _] Hy52].
  pose proof (pow2_pos (round_exp x)). pose proof (pow2_pos (round_exp y)).
  destruct (Z.eq_dec (round_exp x) (round_exp y)) as [E|Hne].
  - rewrite <- E. apply Qmult_le_compat_r; [|lra]. rewrite <- Zle_Qle. apply rne_mono.
    apply Qmult_le_compat_r; [done|]. apply Qlt_le_weak, Qinv_lt_0_compat. lra.
  - apply Qle_trans with (pow2 (round_exp x + 53)).
    + rewrite pow2_add, (Qmult_comm (pow2 (round_exp x))), pow2_53. apply Qmult_le_compat_r; [|lra].
      rewrite <- Zle_Qle. apply rne_le. rewrite <- pow2_53. lra.
    + apply Qle_trans with (pow2 (round_exp y + 52)); [apply pow2_le; lia|].
      rewrite pow2_add, (Qmult_comm (pow2 (round_exp y))), pow2_52. apply Qmult_le_compat_r; [|lra].
      rewrite <- Zle_Qle. apply rne_ge. rewrite <- pow2_52. apply Hy52.
      pose proof (round_exp_min x). lia.
Qed.

Lemma flog2_unique (x : Q) (t : Z) : pow2 t <= x < pow2 (t + 1) -> flog2 x = t.
Proof.
  intros [H1 H2]. pose proof (pow2_pos t). pose proof (flog2_spec x ltac:(lra)) as [H3 H4].
  assert (flog2 x < t + 1)%Z by (apply pow2_lt_inv; lra).
  assert (t < flog2 x + 1)%Z by (apply pow2_lt_inv; lra). lia.
Qed.

Lemma round_exp_normal (x : Q) (e : Z) :
  (emin <= e)%Z -> pow2 (e + 52) <= x < pow2 (e + 53) -> round_exp x = e.
Proof.
  intros He Hx. unfold round_exp. rewrite (flog2_unique x (e + 52)); [lia|].
  by replace (e + 52 + 1)%Z with (e + 53)%Z by lia.
Qed.

Lemma round_exp_subnormal (x : Q) : 0 < x -> x < pow2 (emin + 53) -> round_exp x = emin.
Proof.
  intros H0 Hx. pose proof (flog2_spec x H0) as [H1 _].
  assert (flog2 x < emin + 53)%Z by (apply pow2_lt_inv; lra). unfold round_exp. lia.
Qed.

(** The rounding of [x] at a known exponent, to a mantissa below [2^53]. *)
Lemma round_binary_at (x : Q) (m e : Z) :
  round_exp x = e -> (m <> 2 ^ 53)%Z ->
  inject_Z m - (1 # 2) < x / pow2 e < inject_Z m + (1 # 2) -> round_binary x = (m, e).
Proof.
  intros He Hm Hs. unfold round_binary. rewrite He, (rne_near _ m Hs).
  by destruct (Z.eqb_spec m (2 ^ 53)).
Qed.

Lemma Qdiv_bounds (x a b p : Q) : 0 < p -> a * p < x < b * p -> a < x / p < b.
Proof.
  intros Hp [H1 H2]. split; [apply Qlt_shift_div_l | apply Qlt_shift_div_r]; done.
Qed.

Lemma pow2_pred (e : Z) : pow2 (e - 1) == (1 # 2) * pow2 e.
Proof.
  rewrite <- (Z.sub_add 1 e) at 2. rewrite pow2_succ. field.
Qed.

Lemma pow2_shift (e k : Z) : (0 <= k)%Z -> pow2 (e + k) == inject_Z (2 ^ k) * pow2 e.
Proof. intros. rewrite pow2_add, (pow2_Z k) by done. ring. Qed.

(** A value nearer to a double than half the gaps to its neighbours rounds
    to it; below a power of two the gap is half as wide. *)
Lemma round_binary_near (m e : Z) (x : Q) :
  (0 < m < 2 ^ 53)%Z -> (emin <= e)%Z -> (e = emin \/ 2 ^ 52 <= m)%Z ->
  bval m e - (if decide (m = 2 ^ 52 /\ emin < e)%Z then pow2 (e - 2) else pow2 (e - 1)) < x ->
  x < bval m e + pow2 (e - 1) ->
  round_binary x = (m, e).
Proof.
  intros Hm He Hn Hlo Hhi. unfold bval in *. pose proof (pow2_pos e) as HP.
  rewrite pow2_pred in Hhi. destruct Hm as [Hm0 Hm53].
  case_decide as Hb.
  - destruct Hb as [-> Hemin]. replace (e - 2)%Z with (e - 1 - 1)%Z in Hlo by lia.
    rewrite !pow2_pred in Hlo.
    destruct (Qlt_le_dec x (pow2 (e + 52))) as [Hx|Hx]; rewrite pow2_shift in Hx by lia.
    + (* just below [2^(e+52)]: the exponent below, and a carry *)
      unfold round_binary. rewrite (round_exp_normal x (e - 1)).
      2: unfold emin in *; lia.
      2: { replace (e - 1 + 52)%Z with ((e - 1) + 52)%Z by lia. rewrite !pow2_shift by lia.
           rewrite pow2_pred. change (inject_Z (2 ^ 52)) with (4503599627370496 # 1) in *.
           change (inject_Z (2 ^ 53)) with (9007199254740992 # 1). lra. }
      rewrite (rne_near _ (2 ^ 53)).
      2: { apply Qdiv_bounds; [apply pow2_pos|]. rewrite pow2_pred.
           change (inject_Z (2 ^ 52)) with (4503599627370496 # 1) in *.
           change (inject_Z (2 ^ 53)) with (9007199254740992 # 1). lra. }
      rewrite Z.eqb_refl. do 2 f_equal. lia.
    + apply round_binary_at.
      * apply round_exp_normal; [lia|]. rewrite !pow2_shift by lia.
        change (inject_Z (2 ^ 52)) with (4503599627370496 # 1) in *.
        change (inject_Z (2 ^ 53)) with (9007199254740992 # 1). lra.
      * done.
      * apply Qdiv_bounds; [done|]. change (inject_Z (2 ^ 52)) with (4503599627370496 # 1) in *. lra.
  - rewrite pow2_pred in Hlo.
    assert (Hm1 : (inject_Z m - (1 # 2)) * pow2 e < x < (inject_Z m + (1 # 2)) * pow2 e) by lra.
    apply round_binary_at; [| lia | by apply Qdiv_bounds].
    destruct (Z.eq_dec e emin) as [->|Hne].
    + apply round_exp_subnormal.
      * assert (1 <= inject_Z m) by (change 1 with (inject_Z 1); rewrite <- Zle_Qle; lia). nra.
      * rewrite pow2_shift by lia.
        assert (Hq : inject_Z (m + 1) <= inject_Z (2 ^ 53)) by (rewrite <- Zle_Qle; lia).
        rewrite inject_Z_plus in Hq. change (inject_Z (2 ^ 53)) with (9007199254740992 # 1) in *.
        change (inject_Z 1) with 1 in Hq. nra.
    + apply round_exp_normal; [done|].
      assert (m <> 2 ^ 52)%Z by (intros ->; apply Hb; split; [done | lia]).
      assert (Hq1 : inject_Z (2 ^ 52 + 1) <= inject_Z m) by (rewrite <- Zle_Qle; lia).
      assert (Hq2 : inject_Z (m + 1) <= inject_Z (2 ^ 53)) by (rewrite <- Zle_Qle; lia).
      rewrite inject_Z_plus in Hq1, Hq2. rewrite !pow2_shift by lia.
      change (inject_Z (2 ^ 52)) with (4503599627370496 # 1) in *.
      change (inject_Z (2 ^ 53)) with (9007199254740992 # 1) in *. change (inject_Z 1) with 1 in *.
      split; nra.
Qed.

(** A double rounds to itself. *)
Lemma round_binary_exact (m e : Z) :
  (0 < m < 2 ^ 53)%Z -> (emin <= e)%Z -> (e = emin \/ 2 ^ 52 <= m)%Z ->
  round_binary (bval m e) = (m, e).
Proof.
  intros. apply round_binary_near; try done.
  - case_decide; [pose proof (pow2_pos (e - 2)) | pose proof (pow2_pos (e - 1))]; lra.
  - pose proof (pow2_pos (e - 1)). lra.
Qed.

(** An integer below [2^53] converts to a double exactly. *)
Lemma round_binary_int (n : Z) : (0 < n < 2 ^ 53)%Z ->
  bval (round_binary (inject_Z n)).1 (round_binary (inject_Z n)).2 == inject_Z n.
Proof.
  intros Hn. rewrite round_binary_val.
  assert (Hx : 0 < inject_Z n) by (change 0 with (inject_Z 0); rewrite <- Zlt_Qlt; lia).
  pose proof (flog2_spec _ Hx) as [H1 _].
  assert (Hf : (flog2 (inject_Z n) < 53)%Z).
  { apply pow2_lt_inv. rewrite (pow2_Z 53) by lia. eapply Qle_lt_trans; [exact H1|]. rewrite <- Zlt_Qlt. lia. }
  set (e := round_exp (inject_Z n)). assert (He : (e <= 0)%Z) by (unfold e, round_exp, emin; lia).
  pose proof (pow2_pos e) as Hp. pose proof (pow2_add (- e) e) as Ha. rewrite Z.add_opp_diag_l in Ha.
  assert (E : inject_Z n / pow2 e == inject_Z (n * 2 ^ (- e))).
  { rewrite inject_Z_mult, <- (pow2_Z (- e)) by lia.
    assert (Hq : pow2 (- e) == / pow2 e) by (rewrite <- (Qmult_1_l (/ pow2 e)); change 1 with (pow2 0);
      rewrite Ha; field; lra).
    rewrite Hq. reflexivity. }
  rewrite (rne_proper _ _ E), rne_int, inject_Z_mult, <- (pow2_Z (- e)) by lia.
  rewrite <- Qmult_assoc, <- Ha. change (pow2 0) with 1. ring.
Qed.

(** The rounding error is at most half a unit of the exponent chosen. *)
Lemma round_binary_abs_error (x : Q) :
  Qabs (bval (round_binary x).1 (round_binary x).2 - x) <= (1 # 2) * pow2 (round_exp x).
Proof.
  rewrite round_binary_val. pose proof (pow2_pos (round_exp x)) as HP.
  pose proof (rne_bounds (x / pow2 (round_exp x))) as [H1 H2].
  assert (E : x == x / pow2 (round_exp x) * pow2 (round_exp x)) by (field; intro; lra).
  set (s := x / pow2 (round_exp x)) in *. set (P := pow2 (round_exp x)) in *.
  apply Qabs_Qle_condition. split; nra.
Qed.

(** C33 (bounds): the standard model of rounding.  The double nearest to
    [x > 0] is [x (1 + d) + eps] with a relative error [|d| <= 2^-53] for
    a normal result and an absolute error [|eps| <= 2^-1075] for a
    subnormal one, never both. *)
Theorem round_binary_error (x : Q) : 0 < x ->
  exists d eps, bval (round_binary x).1 (round_binary x).2 == x * (1 + d) + eps /\
    Qabs d <= pow2 (-53) /\ Qabs eps <= pow2 (-1075) /\ d * eps == 0.
Proof.
  intros Hx. pose proof (round_binary_abs_error x) as Hb. pose proof (flog2_spec x Hx) as [Hf _].
  destruct (Z.le_gt_cases (flog2 x - 52) emin) as [Hs|Hn].
  - (* subnormal: absolute error *)
    assert (round_exp x = emin) as Hr by (unfold round_exp; lia). rewrite Hr in Hb.
    exists 0, (bval (round_binary x).1 (round_binary x).2 - x). split_and!; [ring | | | ring].
    + change (Qabs 0) with 0. apply Qlt_le_weak, pow2_pos.
    + replace (-1075)%Z with (emin - 1)%Z by done. by rewrite pow2_pred.
  - (* normal: relative error *)
    assert (round_exp x = flog2 x - 52)%Z as Hr by (unfold round_exp; lia). rewrite Hr in Hb.
    exists ((bval (round_binary x).1 (round_binary x).2 - x) / x), 0. split_and!; [field; intro; lra | | | ring].
    + assert (HB : (1 # 2) * pow2 (flog2 x - 52) <= pow2 (-53) * x).
      { replace (flog2 x - 52)%Z with (-53 + (flog2 x + 1))%Z by lia.
        rewrite pow2_add, pow2_succ. pose proof (pow2_pos (-53)). nra. }
      apply Qabs_Qle_condition in Hb. apply Qabs_Qle_condition.
      split; [apply Qle_shift_div_l | apply Qle_shift_div_r]; try done; nra.
    + change (Qabs 0) with 0. apply Qlt_le_weak, pow2_pos.
Qed.

(** ** Overflow and underflow of [float()] *)

Lemma decimal_bounds (n e10 : Z) : (0 < n)%Z ->
  pow10 (zdigits n - 1 + e10) <= inject_Z n * pow10 e10 < pow10 (zdigits n + e10).
Proof.
  intros Hn. destruct (zdigits_spec n Hn) as (H1 & H2 & H3). rewrite !pow10_add.
  rewrite (pow10_Z (zdigits n - 1)), (pow10_Z (zdigits n)) by lia.
  rewrite Zle_Qle in H2. rewrite Zlt_Qlt in H3. pose proof (pow10_pos e10). split; nra.
Qed.

(** A decimal of [10^310] or more overflows to an infinity, one below
    [10^-330] rounds to a signed zero. *)
Lemma round_decimal_overflow (neg : bool) (n e10 : Z) : (0 < n)%Z -> (310 < zdigits n + e10)%Z ->
  round_decimal neg n e10 = if neg then FNegInf else FInf.
Proof.
  intros Hn Hz. pose proof (decimal_bounds n e10 Hn) as [Hl _].
  assert (Hx : pow10 310 <= inject_Z n * pow10 e10) by (eapply Qle_trans; [apply pow10_le|exact Hl]; lia).
  pose proof (round_exp_mono (pow10 310) _ (pow10_pos 310) Hx) as Hm.
  assert (Hc : round_exp (pow10 310) = 977%Z) by (vm_compute; reflexivity).
  unfold round_decimal. rewrite (proj2 (Z.eqb_neq n 0)) by lia.
  destruct (round_binary (inject_Z n * pow10 e10)) as [m e] eqn:E.
  pose proof (round_binary_exp (inject_Z n * pow10 e10)) as He. rewrite E in He. simpl in He.
  rewrite (proj2 (Z.ltb_lt emax e)); [done|]. unfold emax. lia.
Qed.

Lemma round_decimal_underflow (neg : bool) (n e10 : Z) : (0 < n)%Z -> (zdigits n + e10 < -330)%Z ->
  round_decimal neg n e10 = FFin (Double neg 0 emin).
Proof.
  intros Hn Hz. pose proof (decimal_bounds n e10 Hn) as [_ Hu].
  assert (Hx : inject_Z n * pow10 e10 < pow2 (emin - 1)).
  { eapply Qlt_le_trans; [exact Hu|]. eapply Qle_trans; [apply pow10_le; apply (Z.lt_le_incl _ (-330))%Z; lia|].
    apply Qlt_le_weak. vm_compute. reflexivity. }
  assert (H0 : 0 < inject_Z n * pow10 e10).
  { apply Qmult_lt_0_compat; [change 0 with (inject_Z 0); rewrite <- Zlt_Qlt; lia | apply pow10_pos]. }
  assert (Hr : round_binary (inject_Z n * pow10 e10) = (0%Z, emin)).
  { apply round_binary_at; [apply round_exp_subnormal; [done|] | done |].
    - eapply Qlt_trans; [exact Hx|]. apply pow2_lt. lia.
    - rewrite pow2_pred in Hx. pose proof (pow2_pos emin). change (inject_Z 0) with 0.
      split; [apply Qlt_shift_div_l | apply Qlt_shift_div_r]; try done; lra. }
  unfold round_decimal. rewrite (proj2 (Z.eqb_neq n 0)) by lia. by rewrite Hr.
Qed.

Lemma round_binary_error_witness : 0 < 1 # 10 /\
  exists d eps, bval (round_binary (1 # 10)).1 (round_binary (1 # 10)).2 == (1 # 10) * (1 + d) + eps /\
    Qabs d <= pow2 (-53) /\ Qabs eps <= pow2 (-1075) /\ d * eps == 0.
Proof. split; [reflexivity | apply (round_binary_error (1 # 10)); reflexivity]. Defined.

