(* ===== verification/FloatShortest.v ===== *)
(** * The shortest decimal that reads back

    Mode 0 of [_Py_dg_dtoa], as [PyFloat.shortest] models it, tries one
    significant digit, then two, and so on, each time the two decimals of
    that many digits nearest the double, and keeps the first that reads
    back.  This file shows that the search always succeeds, by seventeen
    digits ([seventeen_digits]), and that what [repr] prints is a shortest
    decimal that reads back: no decimal with fewer significant digits
    rounds to the same double ([repr_digits_shortest]).  The proof rests
    on the uniqueness of the representation ([bval_inj]) and on rounding
    being monotone: a value between two that read back reads back. *)

From Stdlib Require Import QArith Qround Qpower Qabs Lqa.
From S2P Require Import Prelude PyFloat.

Local Open Scope Q_scope.

(** ** Uniqueness and compatibility of rounding *)

(** The representation of [round_binary]'s results is unique. *)
Lemma bval_inj (m e m' e' : Z) :
  (0 <= m < 2 ^ 53)%Z -> (emin <= e)%Z -> (e = emin \/ 2 ^ 52 <= m)%Z ->
  (0 <= m' < 2 ^ 53)%Z -> (emin <= e')%Z -> (e' = emin \/ 2 ^ 52 <= m')%Z ->
  bval m e == bval m' e' -> m = m' /\ e = e'.
Proof.
  (* the smaller exponent, if different, belongs to a mantissa of 54 bits *)
  assert (Hlt : forall m e m' e', (0 <= m < 2 ^ 53)%Z -> (0 <= m')%Z -> (e < e')%Z ->
            (e' = emin \/ 2 ^ 52 <= m')%Z -> (emin <= e)%Z -> bval m e == bval m' e' -> m' = 0%Z).
  { intros a b a' b' Ha Ha' Hb Hn Hmin E. destruct Hn as [->|Hn]; [lia|]. exfalso.
    unfold bval in E. replace b' with (b + 1 + (b' - b - 1))%Z in E by lia.
    rewrite pow2_add, pow2_succ in E. pose proof (pow2_pos b). pose proof (pow2_le 0 (b' - b - 1) ltac:(lia)).
    change (pow2 0) with 1 in *.
    assert (H1 : inject_Z (a + 1) <= inject_Z (2 ^ 53)) by (rewrite <- Zle_Qle; lia).
    assert (H2 : inject_Z (2 ^ 52) <= inject_Z a') by (rewrite <- Zle_Qle; lia).
    rewrite inject_Z_plus in H1. change (inject_Z 1) with 1 in H1.
    change (inject_Z (2 ^ 52)) with (4503599627370496 # 1) in H2.
    change (inject_Z (2 ^ 53)) with (9007199254740992 # 1) in H1.
    assert (E2 : inject_Z a * pow2 b == 2 * (inject_Z a' * pow2 (b' - b - 1)) * pow2 b) by (rewrite E; ring).
    assert (HA : 4503599627370496 # 1 <= inject_Z a' * pow2 (b' - b - 1)) by nra.
    set (Y := inject_Z a' * pow2 (b' - b - 1)) in *. nra. }
  intros Hm He Hn Hm' He' Hn' E.
  destruct (Z.lt_trichotomy e e') as [Hl|[<-|Hl]].
  - pose proof (Hlt m e m' e' Hm ltac:(lia) Hl Hn' He E) as ->.
    unfold bval in E. change (inject_Z 0) with 0 in E. pose proof (pow2_pos e).
    assert (inject_Z m == 0) by nra. change 0 with (inject_Z 0) in H0. apply inject_Z_injective in H0. lia.
  - split; [|done]. unfold bval in E. pose proof (pow2_pos e). apply inject_Z_injective.
    apply (Qmult_inj_r _ _ (pow2 e)); [intro; lra | done].
  - symmetry in E. pose proof (Hlt m' e' m e Hm' ltac:(lia) Hl Hn He' E) as ->.
    unfold bval in E. change (inject_Z 0) with 0 in E. pose proof (pow2_pos e').
    assert (inject_Z m' == 0) by nra. change 0 with (inject_Z 0) in H0. apply inject_Z_injective in H0. lia.
Qed.

Lemma round_binary_range' (x : Q) (m e : Z) : 0 < x -> round_binary x = (m, e) ->
  (0 <= m < 2 ^ 53)%Z /\ (emin <= e)%Z /\ (e = emin \/ 2 ^ 52 <= m)%Z.
Proof. intros Hx E. pose proof (round_binary_range x Hx) as H. by rewrite E in H. Qed.

(** A value between two values that round to the same double rounds to
    it too. *)
Lemma round_binary_between (a b c : Q) (r : Z * Z) : 0 < a -> a <= b -> b <= c ->
  round_binary a = r -> round_binary c = r -> round_binary b = r.
Proof.
  intros Ha Hab Hbc Ea Ec. pose proof (round_binary_mono a b Ha Hab) as H1.
  pose proof (round_binary_mono b c ltac:(lra) Hbc) as H2. rewrite Ea in H1. rewrite Ec in H2.
  destruct r as [m e]. destruct (round_binary b) as [m' e'] eqn:Eb. simpl in *.
  destruct (round_binary_range' a m e Ha Ea) as (? & ? & ?).
  destruct (round_binary_range' b m' e' ltac:(lra) Eb) as (? & ? & ?).
  destruct (bval_inj m' e' m e) as [-> ->]; try done. lra.
Qed.

Lemma flog2_compat (x y : Q) : 0 < x -> x == y -> flog2 x = flog2 y.
Proof.
  intros Hx E. symmetry. apply flog2_unique. pose proof (flog2_spec x Hx). rewrite <- E. done.
Qed.

Lemma round_binary_compat (x y : Q) : 0 < x -> x == y -> round_binary x = round_binary y.
Proof.
  intros Hx E. unfold round_binary, round_exp. rewrite (flog2_compat x y Hx E).
  assert (E2 : x / pow2 (Z.max (flog2 y - 52) emin) == y / pow2 (Z.max (flog2 y - 52) emin)) by (rewrite E; reflexivity).
  cbv zeta. by rewrite (rne_proper _ _ E2).
Qed.

(** ** The candidates of the digit search *)

Lemma zdigits_unique (n d : Z) : (1 <= d)%Z -> (10 ^ (d - 1) <= n < 10 ^ d)%Z -> zdigits n = d.
Proof.
  intros Hd [H1 H2]. assert (Hn : (0 < n)%Z) by (pose proof (Z.pow_pos_nonneg 10 (d - 1)); lia).
  destruct (zdigits_spec n Hn) as (H3 & H4 & H5).
  assert (zdigits n - 1 < d)%Z by (apply (Z.pow_lt_mono_r_iff 10); lia).
  assert (d - 1 < zdigits n)%Z by (apply (Z.pow_lt_mono_r_iff 10); lia). lia.
Qed.

Lemma Qle_div_mul (a b c : Q) : 0 < c -> a <= b / c -> a * c <= b.
Proof.
  intros Hc H. assert (E : b == b / c * c) by (field; intro; lra). rewrite E.
  apply Qmult_le_compat_r; [done | lra].
Qed.

Lemma Qlt_div_mul (a b c : Q) : 0 < c -> b / c < a -> b < a * c.
Proof.
  intros Hc H. assert (E : b == b / c * c) by (field; intro; lra). rewrite E.
  apply Qmult_lt_compat_r; done.
Qed.

Lemma floor_div_pow10 (x : Q) (q : Z) :
  inject_Z (Qfloor (x / pow10 q)) * pow10 q <= x < inject_Z (Qfloor (x / pow10 q) + 1) * pow10 q.
Proof.
  pose proof (pow10_pos q). pose proof (Qfloor_le (x / pow10 q)). pose proof (Qlt_floor (x / pow10 q)).
  split; [apply Qle_div_mul | apply Qlt_div_mul]; done.
Qed.

Lemma candidates_spec (x : Q) (k : Z) : 0 < x -> (1 <= k)%Z ->
  let '(q, lo, hi) := candidates x k in
  hi = (lo + 1)%Z /\ inject_Z lo * pow10 q <= x < inject_Z hi * pow10 q /\
  (10 ^ (k - 1) <= lo < 10 ^ k)%Z /\ q = (flog10 x - k + 1)%Z.
Proof.
  intros Hx Hk. unfold candidates. pose proof (flog10_spec x Hx) as [Hf1 Hf2].
  set (q := (flog10 x - k + 1)%Z). pose proof (pow10_pos q).
  pose proof (floor_div_pow10 x q) as [Hl Hh]. split_and!; try done.
  - rewrite <- (Qfloor_Z (10 ^ (k - 1))). apply Qfloor_resp_le.
    apply Qle_shift_div_l; [done|]. rewrite <- pow10_Z by lia. rewrite <- pow10_add.
    by replace (k - 1 + q)%Z with (flog10 x) by (unfold q; lia).
  - enough (Qfloor (x / pow10 q) < 10 ^ k)%Z by lia.
    rewrite Zlt_Qlt. eapply Qle_lt_trans; [apply Qfloor_le|]. apply Qlt_shift_div_r; [done|].
    rewrite <- pow10_Z by lia. rewrite <- pow10_add.
    by replace (k + q)%Z with (flog10 x + 1)%Z by (unfold q; lia).
Qed.

(** ** Stripping trailing zeros *)

Lemma strip_aux_val (f : nat) (c q : Z) :
  inject_Z (strip_aux f c q).1 * pow10 (strip_aux f c q).2 == inject_Z c * pow10 q.
Proof.
  revert c q. induction f as [|f IH]; intros c q; simpl; [done|].
  destruct (Z.eqb_spec (c mod 10) 0) as [Hm|]; [|done]. rewrite IH.
  rewrite pow10_add. unfold pow10 at 2. simpl.
  rewrite (Z_div_exact_full_2 c 10) at 2 by (lia || done). rewrite inject_Z_mult. ring.
Qed.

Lemma zdigits_div10 (c : Z) : (10 <= c)%Z -> zdigits (c / 10) = (zdigits c - 1)%Z.
Proof.
  intros Hc. destruct (zdigits_spec c ltac:(lia)) as (H1 & H2 & H3).
  assert (2 <= zdigits c)%Z.
  { destruct (Z.le_gt_cases 2 (zdigits c)); [done|].
    replace (zdigits c) with 1%Z in H3 by lia. simpl in H3. lia. }
  apply zdigits_unique; [lia|]. split.
  - apply Z.div_le_lower_bound; [lia|].
    replace (10 * 10 ^ (zdigits c - 1 - 1))%Z with (10 ^ (zdigits c - 1))%Z; [lia|].
    rewrite <- Z.pow_succ_r by lia. f_equal. lia.
  - apply Z.div_lt_upper_bound; [lia|].
    replace (10 * 10 ^ (zdigits c - 1))%Z with (10 ^ zdigits c)%Z; [lia|].
    rewrite <- Z.pow_succ_r by lia. f_equal. lia.
Qed.

Lemma strip_aux_digits (f : nat) (c q : Z) : (0 < c)%Z ->
  (0 < (strip_aux f c q).1)%Z /\ (zdigits (strip_aux f c q).1 <= zdigits c)%Z.
Proof.
  revert c q. induction f as [|f IH]; intros c q Hc; simpl; [lia|].
  destruct (Z.eqb_spec (c mod 10) 0) as [Hm|]; simpl; [|lia].
  assert (H10 : (10 <= c)%Z).
  { destruct (Z.lt_ge_cases c 10); [|done]. rewrite Z.mod_small in Hm; lia. }
  assert (Hc' : (0 < c / 10)%Z) by (apply Z.div_str_pos; lia).
  destruct (IH (c / 10)%Z (q + 1)%Z Hc') as [H1 H2]. rewrite zdigits_div10 in H2 by done. lia.
Qed.

(** Ten to a power loses all its zeros. *)
Lemma strip_aux_pow10 (f : nat) (j q : Z) : (0 <= j)%Z -> (j <= Z.of_nat f)%Z ->
  (strip_aux f (10 ^ j) q).1 = 1%Z.
Proof.
  revert j q. induction f as [|f IH]; intros j q Hj Hf; simpl.
  - replace j with 0%Z by lia. done.
  - destruct (Z.eq_dec j 0) as [->|Hj0]; [done|].
    replace (10 ^ j)%Z with (10 * 10 ^ (j - 1))%Z by (rewrite <- Z.pow_succ_r by lia; f_equal; lia).
    rewrite Z.mul_comm, Z_mod_mult, Z.eqb_refl, Z.div_mul by lia. apply IH; lia.
Qed.

Lemma strip_candidate (k lo c q : Z) : (1 <= k)%Z -> (10 ^ (k - 1) <= lo < 10 ^ k)%Z ->
  (c = lo \/ c = lo + 1)%Z -> (zdigits (strip_zeros c q).1 <= k)%Z.
Proof.
  intros Hk Hlo Hc. assert (Hp : (0 < 10 ^ (k - 1))%Z) by (apply Z.pow_pos_nonneg; lia).
  unfold strip_zeros. destruct (Z.eq_dec c (10 ^ k)) as [->|Hne].
  - rewrite strip_aux_pow10; [done | lia |].
    rewrite (zdigits_unique (10 ^ k) (k + 1)); [lia | lia |].
    rewrite Z.add_simpl_r. split; [lia|]. apply Z.pow_lt_mono_r; lia.
  - destruct (strip_aux_digits (Z.to_nat (zdigits c)) c q ltac:(lia)) as [_ H].
    assert (zdigits c = k) by (apply zdigits_unique; [lia | destruct Hc; subst c; lia]). lia.
Qed.

Lemma reads_back_spec (m e c q : Z) :
  reads_back m e c q = true <-> round_binary (inject_Z c * pow10 q) = (m, e).
Proof. unfold reads_back. apply bool_decide_eq_true. Qed.

Lemma decimal_pos (c q : Z) : (0 < c)%Z -> 0 < inject_Z c * pow10 q.
Proof.
  intros. apply Qmult_lt_0_compat; [|apply pow10_pos].
  change 0 with (inject_Z 0). by rewrite <- Zlt_Qlt.
Qed.

(** A step of the search that finds nothing rules out every decimal with
    that many digits: such a decimal is at most the candidate below or at
    least the one above, and a value between two that read back reads back. *)
Lemma step_rules_out (m e k c' q' : Z) :
  (0 < m)%Z -> round_binary (bval m e) = (m, e) -> (1 <= k)%Z ->
  reads_back m e (candidates (bval m e) k).1.2 (candidates (bval m e) k).1.1 = false ->
  reads_back m e (candidates (bval m e) k).2 (candidates (bval m e) k).1.1 = false ->
  (0 < c')%Z -> reads_back m e c' q' = true -> zdigits c' <> k.
Proof.
  intros Hm Hx Hk Hlo Hhi Hc' Hr Hd.
  assert (Hx0 : 0 < bval m e) by (unfold bval; apply Qmult_lt_0_compat; [change 0 with (inject_Z 0); rewrite <- Zlt_Qlt; lia | apply pow2_pos]).
  pose proof (candidates_spec (bval m e) k Hx0 Hk) as Hs.
  destruct (candidates (bval m e) k) as [[q lo] hi]. simpl in *. destruct Hs as (-> & [Hl Hh] & Hb & Hq).
  apply reads_back_spec in Hr. rewrite <- not_true_iff_false, reads_back_spec in Hlo, Hhi.
  destruct (zdigits_spec c' Hc') as (_ & Hc1 & Hc2). rewrite Hd in Hc1, Hc2.
  assert (Hv : 0 < inject_Z c' * pow10 q') by (by apply decimal_pos).
  destruct (Z.le_gt_cases q q') as [Hqq|Hqq].
  - (* the decimal is a multiple of [10^q] *)
    set (N := (c' * 10 ^ (q' - q))%Z).
    assert (EN : inject_Z c' * pow10 q' == inject_Z N * pow10 q).
    { unfold N. replace q' with ((q' - q) + q)%Z at 1 by lia.
      rewrite pow10_add, (pow10_Z (q' - q)) by lia. rewrite inject_Z_mult. ring. }
    rewrite (round_binary_compat _ _ Hv EN) in Hr.
    pose proof (pow10_pos q).
    destruct (Z.le_gt_cases N lo) as [HN|HN].
    + apply Hlo, (round_binary_between (inject_Z N * pow10 q) _ (bval m e)); try done; try lra.
      apply Qmult_le_compat_r; [by rewrite <- Zle_Qle | lra].
    + apply Hhi, (round_binary_between (bval m e) _ (inject_Z N * pow10 q)); try done; try lra.
      apply Qmult_le_compat_r; [rewrite <- Zle_Qle; lia | lra].
  - (* the decimal is below [10^(k-1+q)], a multiple of [10^q] below [x] *)
    apply Hlo, (round_binary_between (inject_Z c' * pow10 q') _ (bval m e)); try done; try lra.
    apply Qle_trans with (pow10 (k - 1 + q)).
    + apply Qle_trans with (pow10 (k + q')); [|apply pow10_le; lia].
      rewrite pow10_add, (pow10_Z k) by lia. apply Qlt_le_weak, Qmult_lt_compat_r; [apply pow10_pos|].
      by rewrite <- Zlt_Qlt.
    + rewrite pow10_add, (pow10_Z (k - 1)) by lia. apply Qmult_le_compat_r; [|apply Qlt_le_weak, pow10_pos].
      rewrite <- Zle_Qle; lia.
Qed.

(** ** The search finds a decimal, and the shortest one *)

Lemma bval_pos (m e : Z) : (0 < m)%Z -> 0 < bval m e.
Proof.
  intros. unfold bval. apply Qmult_lt_0_compat; [|apply pow2_pos].
  change 0 with (inject_Z 0). by rewrite <- Zlt_Qlt.
Qed.

(** Seventeen significant digits always read back: the decimal nearest
    [x] at that precision is within a quarter of the gap to the doubles
    next to [x]. *)
Lemma seventeen_digits (m e : Z) :
  (0 < m < 2 ^ 53)%Z -> (emin <= e)%Z -> (e = emin \/ 2 ^ 52 <= m)%Z ->
  round_binary (inject_Z (rne (bval m e / pow10 (flog10 (bval m e) - 16)))
                * pow10 (flog10 (bval m e) - 16)) = (m, e).
Proof.
  intros Hm He Hn. pose proof (bval_pos m e ltac:(lia)) as Hx.
  pose proof (flog10_spec (bval m e) Hx) as [Hf _].
  set (x := bval m e) in *. set (q := (flog10 x - 16)%Z).
  set (T := pow10 q). pose proof (pow10_pos q) as HT. fold T in HT.
  assert (HT16 : T * (10000000000000000 # 1) <= x).
  { unfold T. replace (flog10 x) with (q + 16)%Z in Hf by (unfold q; lia).
    rewrite pow10_add in Hf. exact Hf. }
  pose proof (rne_bounds (x / T)) as [Hr1 Hr2].
  assert (E : x == x / T * T) by (field; intro; lra).
  assert (Hc : x - (1 # 2) * T <= inject_Z (rne (x / T)) * T <= x + (1 # 2) * T).
  { set (s := x / T) in *. split; nra. }
  pose proof (pow2_pos e) as HP. assert (Ex : x == inject_Z m * pow2 e) by reflexivity.
  assert (Hm53 : inject_Z m <= 9007199254740992 # 1) by (change (9007199254740992 # 1) with (inject_Z (2 ^ 53)); rewrite <- Zle_Qle; lia).
  assert (HmP : inject_Z m * pow2 e <= (9007199254740992 # 1) * pow2 e) by (apply Qmult_le_compat_r; lra).
  apply round_binary_near; try done.
  - case_decide as Hb.
    + destruct Hb as [Hm52 _]. replace (e - 2)%Z with (e - 1 - 1)%Z by lia. rewrite !pow2_pred.
      rewrite Hm52 in Ex. change (inject_Z (2 ^ 52)) with (4503599627370496 # 1) in Ex. fold x. lra.
    + rewrite pow2_pred. fold x. lra.
  - rewrite pow2_pred. fold x. lra.
Qed.

Lemma nearer_cases (x : Q) (q lo hi : Z) : nearer x q lo hi = lo \/ nearer x q lo hi = hi.
Proof. unfold nearer. destruct (_ ?= _); [destruct (Z.even lo)|..]; auto. Qed.

Section search.
Context (m e : Z) (Hm : (0 < m < 2 ^ 53)%Z) (He : (emin <= e)%Z) (Hn : (e = emin \/ 2 ^ 52 <= m)%Z).

Lemma shortest_aux_reads_back (f : nat) (k : Z) : (k + Z.of_nat f = 17)%Z ->
  reads_back m e (shortest_aux f m e k).1 (shortest_aux f m e k).2 = true.
Proof using Hm He Hn.
  revert k. induction f as [|f IH]; intros k Hk; cbn [shortest_aux].
  - unfold candidates. replace (flog10 (bval m e) - k + 1)%Z with (flog10 (bval m e) - 16)%Z by lia.
    simpl. apply reads_back_spec. by apply seventeen_digits.
  - destruct (candidates (bval m e) k) as [[q lo] hi].
    destruct (reads_back m e lo q) eqn:El, (reads_back m e hi q) eqn:Eh; simpl; try done.
    + by destruct (nearer_cases (bval m e) q lo hi) as [->| ->].
    + apply IH. lia.
Qed.

Lemma shortest_aux_min (f : nat) (k c' q' : Z) : (1 <= k)%Z ->
  (forall c'' q'', (0 < c'')%Z -> reads_back m e c'' q'' = true -> (k <= zdigits c'')%Z) ->
  (0 < c')%Z -> reads_back m e c' q' = true ->
  (zdigits (strip_zeros (shortest_aux f m e k).1 (shortest_aux f m e k).2).1 <= zdigits c')%Z.
Proof using Hm He Hn.
  intros Hk Hinv Hc' Hr. pose proof (Hinv c' q' Hc' Hr) as Hkc.
  pose proof (bval_pos m e ltac:(lia)) as Hx.
  pose proof (round_binary_exact m e Hm He Hn) as Hxx.
  revert k Hk Hinv Hkc. induction f as [|f IH]; intros k Hk Hinv Hkc; cbn [shortest_aux].
  - pose proof (candidates_spec (bval m e) k Hx Hk) as Hs. unfold candidates in *. simpl.
    destruct Hs as (_ & _ & Hb & _).
    enough (zdigits (strip_zeros (rne (bval m e / pow10 (flog10 (bval m e) - k + 1))) (flog10 (bval m e) - k + 1)).1 <= k)%Z by lia.
    eapply strip_candidate; [done | exact Hb |]. destruct (rne_cases (bval m e / pow10 (flog10 (bval m e) - k + 1))) as [[-> _]|[-> _]]; auto.
  - pose proof (candidates_spec (bval m e) k Hx Hk) as Hs.
    pose proof (step_rules_out m e k) as Hstep.
    destruct (candidates (bval m e) k) as [[q lo] hi]. destruct Hs as (-> & _ & Hb & _). simpl in Hstep.
    destruct (reads_back m e lo q) eqn:El, (reads_back m e (lo + 1) q) eqn:Eh; simpl.
    + enough (zdigits (strip_zeros (nearer (bval m e) q lo (lo + 1)) q).1 <= k)%Z by lia.
      eapply strip_candidate; [done | exact Hb | apply nearer_cases].
    + enough (zdigits (strip_zeros lo q).1 <= k)%Z by lia. eapply strip_candidate; [done | exact Hb | auto].
    + enough (zdigits (strip_zeros (lo + 1) q).1 <= k)%Z by lia. eapply strip_candidate; [done | exact Hb | auto].
    + apply IH; [lia | |].
      * intros c'' q'' Hc'' Hr''. pose proof (Hinv c'' q'' Hc'' Hr'').
        pose proof (Hstep c'' q'' ltac:(lia) Hxx Hk eq_refl eq_refl Hc'' Hr''). lia.
      * pose proof (Hstep c' q' ltac:(lia) Hxx Hk eq_refl eq_refl Hc' Hr). lia.
Qed.
End search.

(** Only a positive value rounds to a positive mantissa. *)
Lemma round_binary_pos_inv (y : Q) : (0 < (round_binary y).1)%Z -> 0 < y.
Proof.
  intros H. destruct (Qlt_le_dec 0 y) as [|Hy]; [done|]. exfalso.
  assert (Hr : (rne (y / pow2 (round_exp y)) <= 0)%Z).
  { apply rne_le. change (inject_Z 0) with 0. pose proof (pow2_pos (round_exp y)).
    apply Qle_shift_div_r; [done|]. lra. }
  revert H. unfold round_binary. destruct (Z.eqb_spec (rne (y / pow2 (round_exp y))) (2 ^ 53)); simpl; lia.
Qed.

Lemma shortest_pos (m e : Z) :
  (0 < m < 2 ^ 53)%Z -> (emin <= e)%Z -> (e = emin \/ 2 ^ 52 <= m)%Z ->
  0 < inject_Z (shortest m e).1 * pow10 (shortest m e).2 /\
  round_binary (inject_Z (shortest m e).1 * pow10 (shortest m e).2) = (m, e).
Proof.
  intros Hm He Hn. pose proof (shortest_aux_reads_back m e Hm He Hn 16 1 eq_refl) as H.
  apply reads_back_spec in H. unfold shortest. split; [|done]. apply round_binary_pos_inv. rewrite H. simpl. lia.
Qed.

(** [repr] prints a decimal that reads back as the double. *)
Theorem repr_digits_reads_back (m e : Z) : canonical m e -> (0 < m)%Z ->
  round_binary (inject_Z (repr_digits m e).1 * pow10 (repr_digits m e).2) = (m, e).
Proof.
  intros (Hm & He & Hn) Hm0. destruct (shortest_pos m e ltac:(lia) ltac:(lia) Hn) as [Hp Hr].
  unfold repr_digits, strip_zeros. destruct (shortest m e) as [c q]. simpl in *.
  rewrite <- Hr. symmetry. apply round_binary_compat; [done|]. symmetry. apply strip_aux_val.
Qed.

(** C10 (functional): [repr] prints the fewest significant digits: no
    decimal [c' * 10^q'] with fewer digits than the ones [repr_digits]
    gives for a positive double reads back as that double. *)
Theorem repr_digits_shortest (m e c' q' : Z) : canonical m e -> (0 < m)%Z -> (0 < c')%Z ->
  round_binary (inject_Z c' * pow10 q') = (m, e) -> (zdigits (repr_digits m e).1 <= zdigits c')%Z.
Proof.
  intros (Hm & He & Hn) Hm0 Hc' Hr. unfold repr_digits, shortest.
  pose proof (shortest_aux_min m e ltac:(lia) ltac:(lia) Hn 16 1 c' q' ltac:(lia)) as H.
  destruct (shortest_aux 16 m e 1) as [c q]. apply H; [|done | by apply reads_back_spec].
  intros c'' q'' Hc'' _. by destruct (zdigits_spec c'' Hc'').
Qed.

(** A decimal of the value [repr] printed rounds to the double. *)
Lemma round_decimal_repr (neg : bool) (m e n e10 : Z) : canonical m e -> (0 < m)%Z -> (0 <= n)%Z ->
  inject_Z n * pow10 e10 == inject_Z (repr_digits m e).1 * pow10 (repr_digits m e).2 ->
  round_decimal neg n e10 = FFin (Double neg m e).
Proof.
  intros Hc Hm Hn E. pose proof (repr_digits_reads_back m e Hc Hm) as Hr.
  assert (Hp : 0 < inject_Z (repr_digits m e).1 * pow10 (repr_digits m e).2)
    by (apply round_binary_pos_inv; rewrite Hr; simpl; lia).
  assert (Hn0 : n <> 0%Z).
  { intros ->. change (inject_Z 0) with 0 in E. rewrite Qmult_0_l in E. lra. }
  unfold round_decimal. rewrite (proj2 (Z.eqb_neq n 0) Hn0).
  rewrite (round_binary_compat (inject_Z n * pow10 e10) _ ltac:(lra) E), Hr.
  destruct Hc as (_ & He & _). rewrite (proj2 (Z.ltb_ge emax e)) by lia. done.
Qed.

Lemma repr_digits_shortest_witness :
  canonical 7205759403792794 (-56) /\ round_binary (inject_Z 1 * pow10 (-1)) = (7205759403792794, -56)%Z /\
  (zdigits (repr_digits 7205759403792794 (-56)).1 <= zdigits 1)%Z.
Proof.
  assert (Hc : canonical 7205759403792794 (-56)) by (unfold canonical, emin, emax; lia).
  assert (Hr : round_binary (inject_Z 1 * pow10 (-1)) = (7205759403792794, -56)%Z) by (vm_compute; reflexivity).
  split_and!; [exact Hc | exact Hr | apply (repr_digits_shortest _ _ 1 (-1) Hc); [lia | lia | exact Hr]].
Defined.

