(* ===== verification/PyRepr.v ===== *)
(** * The printed form of Python values

    [print(a, b)] writes [str(a) + ' ' + str(b)] followed by a newline.  The
    scripts print strings, the [dict] returned by [parse_qs] and the value
    returned by [json.loads]; [str()] of a container is its [repr()], which
    prints strings with [repr] too.  This file models the values that occur
    ([pyval]) and CPython's [unicode_repr], [long_to_decimal_string],
    [list_repr] and [dict_repr], and [float_repr]: the digits
    [PyFloat.repr_digits] laid out by [format_float_short]
    (Python/pystrtod.c) as [repr] asks ([repr_double]).  [repr] of a
    string asks the Unicode database which characters are printable;
    two databases that answer alike on a value's characters give it the
    same [repr] ([repr_val_alike], [repr_val_latin1]). *)

From S2P Require Import Prelude PyStr Unicode UnicodeData PyFloat.

(** ** Python values *)

(** The values [json.loads] and [parse_qs] build.  A [dict] is its list
    of items in insertion order, which is the order [repr] prints. *)
Inductive pyval :=
  | PNone
  | PBool (b : bool)
  | PInt (z : Z)
  | PFloat (f : pyfloat)
  | PStr (s : pystr)
  | PList (l : list pyval)
  | PDict (items : list (pystr * pyval)).

(** The induction principle with hypotheses for the elements of lists and
    the values of dicts. *)
Section pyval_ind.
Context (P : pyval -> Prop)
  (HNone : P PNone) (HBool : forall b, P (PBool b)) (HInt : forall z, P (PInt z))
  (HFloat : forall f, P (PFloat f)) (HStr : forall s, P (PStr s))
  (HList : forall l, Forall P l -> P (PList l))
  (HDict : forall kvs, Forall (fun kv => P kv.2) kvs -> P (PDict kvs)).

Fixpoint pyval_ind' (v : pyval) : P v :=
  match v with
  | PNone => HNone
  | PBool b => HBool b
  | PInt z => HInt z
  | PFloat f => HFloat f
  | PStr s => HStr s
  | PList l =>
      HList l ((fix go (l : list pyval) : Forall P l :=
                  match l with
                  | [] => List.Forall_nil _
                  | v :: l => List.Forall_cons _ _ _ (pyval_ind' v) (go l)
                  end) l)
  | PDict kvs =>
      HDict kvs ((fix go (kvs : list (pystr * pyval)) : Forall (fun kv => P kv.2) kvs :=
                    match kvs with
                    | [] => List.Forall_nil _
                    | kv :: kvs => List.Forall_cons _ _ _ (pyval_ind' kv.2) (go kvs)
                    end) kvs)
  end.
End pyval_ind.

(** The type invariant of Python values: the keys of a [dict] are
    distinct, in every [dict] the value contains. *)
Inductive wf_val : pyval -> Prop :=
  | wf_none : wf_val PNone
  | wf_bool b : wf_val (PBool b)
  | wf_int z : wf_val (PInt z)
  | wf_float f : wf_val (PFloat f)
  | wf_str s : wf_val (PStr s)
  | wf_list l : Forall wf_val l -> wf_val (PList l)
  | wf_dict kvs : NoDup kvs.*1 -> Forall (fun kv => wf_val kv.2) kvs -> wf_val (PDict kvs).

Fixpoint wf_valb (v : pyval) : bool :=
  match v with
  | PList l => forallb wf_valb l
  | PDict kvs => bool_decide (NoDup kvs.*1) && forallb (fun kv => wf_valb kv.2) kvs
  | _ => true
  end.

Lemma wf_valb_spec (v : pyval) : wf_valb v = true <-> wf_val v.
Proof.
  induction v as [| | | | | l IH | kvs IH] using pyval_ind'; simpl;
    try (split; [constructor | done]).
  - rewrite forallb_forall, <- List.Forall_forall. split.
    + intros Hl. constructor. eapply Forall_impl; [apply Forall_and; split; [exact IH | exact Hl]|].
      intros v [Hv Hb]. by apply Hv.
    + intros Hw. inv Hw. eapply Forall_impl; [apply Forall_and; split; [exact IH | done]|].
      intros v [Hv Hb]. by apply Hv.
  - rewrite andb_true_iff, bool_decide_eq_true, forallb_forall, <- List.Forall_forall. split.
    + intros [Hn Hl]. constructor; [done|]. eapply Forall_impl; [apply Forall_and; split; [exact IH | exact Hl]|].
      intros kv [Hv Hb]. by apply Hv.
    + intros Hw. inv Hw. split; [done|]. eapply Forall_impl; [apply Forall_and; split; [exact IH | done]|].
      intros kv [Hv Hb]. by apply Hv.
Qed.

#[export] Instance wf_val_dec (v : pyval) : Decision (wf_val v).
Proof. destruct (wf_valb v) eqn:E; [left | right]; rewrite <- wf_valb_spec; [done | by rewrite E]. Defined.

(** ** Decimal and hexadecimal digits *)

Definition ch_0 : N := 48.

(** The decimal digits of [n], most significant first, prepended to [acc];
    [fuel] bounds the number of digits. *)
Fixpoint dec_aux (fuel : nat) (n : N) (acc : pystr) : pystr :=
  match fuel with
  | O => acc
  | S f =>
      if decide (n < 10)%N then (ch_0 + n)%N :: acc
      else dec_aux f (n / 10) ((ch_0 + n mod 10)%N :: acc)
  end.

(** [str(n)] for a natural number: one digit per bit is more fuel than
    needed. *)
Definition N_to_dec (n : N) : pystr := dec_aux (S (N.to_nat (N.size n))) n [].

(** [long_to_decimal_string]: [repr] and [str] of an [int]. *)
Definition repr_int (z : Z) : pystr :=
  if decide (z < 0)%Z then 45%N :: N_to_dec (Z.to_N (- z)) else N_to_dec (Z.to_N z).

(** ** [repr] of a [float] *)

(** [n] zeros. *)
Definition zeros (n : Z) : pystr := replicate (Z.to_nat n) ch_0.

(** The exponent of the exponential form: [%+.02d], a sign and at least
    two digits. *)
Definition exp_text (x : Z) : pystr :=
  let ds := N_to_dec (Z.to_N (Z.abs x)) in
  (if decide (x < 0)%Z then ⟪"-"⟫ else ⟪"+"⟫) ++ (if decide (length ds < 2)%nat then [ch_0] else []) ++ ds.

(** [format_float_short] for [repr] (mode ['r'], [Py_DTSF_ADD_DOT_0]):
    the digits [ds] with the decimal point after [decpt] of them, in
    exponential form when [decpt <= -4] or [decpt > 16]. *)
Definition format_short (ds : pystr) (decpt : Z) : pystr :=
  if decide (decpt <= -4 \/ 16 < decpt)%Z then
    take 1 ds ++ (if decide (1 < length ds)%nat then ⟪"."⟫ ++ drop 1 ds else [])
    ++ ⟪"e"⟫ ++ exp_text (decpt - 1)
  else if decide (decpt <= 0)%Z then ⟪"0."⟫ ++ zeros (- decpt) ++ ds
  else if decide (Z.of_nat (length ds) <= decpt)%Z then ds ++ zeros (decpt - Z.of_nat (length ds)) ++ ⟪".0"⟫
  else take (Z.to_nat decpt) ds ++ ⟪"."⟫ ++ drop (Z.to_nat decpt) ds.

(** [float_repr] after the sign: ["0.0"] for a zero, the shortest digits
    laid out otherwise. *)
Definition repr_body (m e : Z) : pystr :=
  if decide (m = 0)%Z then ⟪"0.0"⟫
  else let '(c, q) := repr_digits m e in
       let ds := N_to_dec (Z.to_N c) in format_short ds (q + Z.of_nat (length ds)).

(** [float_repr]: the sign, then the body. *)
Definition repr_double (d : double) : pystr :=
  (if d_neg d then ⟪"-"⟫ else []) ++ repr_body (d_mant d) (d_exp d).

Definition repr_float (f : pyfloat) : pystr :=
  match f with
  | FFin d => repr_double d
  | FNaN => ⟪"nan"⟫
  | FInf => ⟪"inf"⟫
  | FNegInf => ⟪"-inf"⟫
  end.

Definition hex_digit (d : N) : N := if decide (d < 10)%N then ch_0 + d else 87 + d.

(** The last [k] lowercase hexadecimal digits of [c]. *)
Fixpoint hexn (k : nat) (c : N) : pystr :=
  match k with
  | O => []
  | S k => hexn k (c / 16) ++ [hex_digit (c mod 16)]
  end.

(** ** [repr] of a [str] *)

Section repr.
Context `{UnicodeDB}.

(** One code point inside a literal delimited by [quote]. *)
Definition repr_char (quote c : N) : pystr :=
  if decide (c = quote \/ c = 92%N) then [92%N; c]
  else if decide (c = 9%N) then ⟪"\t"⟫
  else if decide (c = 10%N) then ⟪"\n"⟫
  else if decide (c = 13%N) then ⟪"\r"⟫
  else if decide (c < 32 \/ c = 127)%N then ⟪"\x"⟫ ++ hexn 2 c
  else if decide (c < 127)%N then [c]
  else if ucd_printable c then [c]
  else if decide (c <= 0xFF)%N then ⟪"\x"⟫ ++ hexn 2 c
  else if decide (c <= 0xFFFF)%N then ⟪"\u"⟫ ++ hexn 4 c
  else ⟪"\U"⟫ ++ hexn 8 c.

(** The quote: a double quote when the string holds a single quote and
    no double quote, a single quote otherwise. *)
Definition repr_quote (s : pystr) : N :=
  if decide (39%N ∈ s /\ 34%N ∉ s) then 34%N else 39%N.

Definition repr_str (s : pystr) : pystr :=
  let q := repr_quote s in [q] ++ mjoin (map (repr_char q) s) ++ [q].

(** [repr(v)]: lists and dicts are printed with ", " between items and
    ": " between a key and its value. *)
Fixpoint repr_val (v : pyval) : pystr :=
  match v with
  | PNone => ⟪"None"⟫
  | PBool true => ⟪"True"⟫
  | PBool false => ⟪"False"⟫
  | PInt z => repr_int z
  | PFloat f => repr_float f
  | PStr s => repr_str s
  | PList l => ⟪"["⟫ ++ join ⟪", "⟫ (map repr_val l) ++ ⟪"]"⟫
  | PDict kvs =>
      ⟪"{"⟫ ++ join ⟪", "⟫ (map (fun kv => repr_str kv.1 ++ ⟪": "⟫ ++ repr_val kv.2) kvs)
      ++ ⟪"}"⟫
  end.

(** [str(v)]: a string is printed as itself, anything else as its
    [repr]. *)
Definition str_val (v : pyval) : pystr :=
  match v with
  | PStr s => s
  | _ => repr_val v
  end.
End repr.

(** The code points of the strings a value holds, keys included: what
    [repr] may look up in the database. *)
Fixpoint val_chars (v : pyval) : pystr :=
  match v with
  | PStr s => s
  | PList l => mjoin (map val_chars l)
  | PDict kvs => mjoin (map (fun kv => kv.1 ++ val_chars kv.2) kvs)
  | _ => []
  end.

(** ** [repr] under two databases *)

Section repr_alike.
Context (H1 H2 : UnicodeDB).

Lemma repr_char_alike (q c : N) :
  consulted_alike H1 H2 c -> repr_char (H := H1) q c = repr_char (H := H2) q c.
Proof. intros [Hc | [Hp _]]; unfold repr_char; [repeat case_decide; first [done | lia] | by rewrite Hp]. Qed.

Lemma repr_str_alike (s : pystr) :
  Forall (consulted_alike H1 H2) s -> repr_str (H := H1) s = repr_str (H := H2) s.
Proof.
  intros Hs. unfold repr_str. do 3 f_equal. apply map_ext_Forall.
  eapply Forall_impl; [exact Hs|]. intros c. apply repr_char_alike.
Qed.

(** Two databases that answer alike on the characters of a value give
    it the same [repr]. *)
Lemma repr_val_alike (v : pyval) :
  Forall (consulted_alike H1 H2) (val_chars v) -> repr_val (H := H1) v = repr_val (H := H2) v.
Proof.
  induction v as [| | | | s | l IH | kvs IH] using pyval_ind'; intros Hc; [done.. | | |].
  - by apply repr_str_alike.
  - cbn [val_chars] in Hc. apply Forall_mjoin_map_inv in Hc.
    assert (E : map (repr_val (H := H1)) l = map (repr_val (H := H2)) l).
    { apply map_ext_Forall. eapply Forall_impl; [apply Forall_and; split; [exact IH | exact Hc]|].
      intros v [Hv Hcv]. by apply Hv. }
    cbn [repr_val]. by rewrite E.
  - cbn [val_chars] in Hc. apply Forall_mjoin_map_inv in Hc.
    set (f H := fun kv : pystr * pyval => repr_str (H := H) kv.1 ++ ⟪": "⟫ ++ repr_val (H := H) kv.2).
    assert (E : map (f H1) kvs = map (f H2) kvs).
    { apply map_ext_Forall. eapply Forall_impl; [apply Forall_and; split; [exact IH | exact Hc]|].
      intros kv [Hv [Hk Hcv]%Forall_app]. unfold f. by rewrite repr_str_alike, Hv. }
    cbn [repr_val]. unfold f in E. by rewrite E.
Qed.
End repr_alike.

(** [repr] of a value whose strings hold only Latin-1 characters is the
    same under [latin1_ucd] as under the database of CPython 3.11. *)
Theorem repr_val_latin1 (v : pyval) :
  Forall (fun c => c < 256)%N (val_chars v) -> repr_val (H := ucd14) v = repr_val (H := latin1_ucd) v.
Proof.
  intros Hv. symmetry. apply repr_val_alike.
  eapply Forall_impl; [exact Hv|]. apply latin1_ucd_exact.
Qed.

(** [print(a, b, ...)] with the default separator, without the newline that
    [print] adds (the output keeps one entry per call). *)
Definition print_line (args : list pystr) : pystr := join ⟪" "⟫ args.

(** ** Lemmas on decimal printing *)

Definition dec_value (ds : list N) : N := foldl (fun n d => n * 10 + d)%N 0%N ds.

Lemma dec_value_snoc (ds : list N) (d : N) : dec_value (ds ++ [d]) = (dec_value ds * 10 + d)%N.
Proof. unfold dec_value. by rewrite foldl_app. Qed.

(** [dec_aux] writes the digits of [n]: a list of digits below ten whose
    value is [n], no longer than any [k] with [n < 10 ^ k]. *)
Lemma dec_aux_digits (f : nat) (n : N) (acc : pystr) :
  (1 <= f)%nat -> (n < 10 ^ N.of_nat f)%N ->
  exists ds, dec_aux f n acc = map (fun d => ch_0 + d)%N ds ++ acc /\
             dec_value ds = n /\ Forall (fun d => d < 10)%N ds /\ ds <> [] /\
             (forall k, (1 <= k)%nat -> (n < 10 ^ N.of_nat k)%N -> (length ds <= k)%nat).
Proof.
  revert n acc. induction f as [|f IH]; intros n acc Hf Hn; [lia|]. simpl.
  case_decide as H10.
  - exists [n]. split_and!; simpl; auto; lia.
  - destruct (IH (n / 10)%N ((ch_0 + n mod 10)%N :: acc)) as (ds & -> & Hv & Hd & Hne & Hk).
    { destruct f; [simpl in Hn; lia | lia]. }
    { rewrite Nat2N.inj_succ, N.pow_succ_r' in Hn. apply N.Div0.div_lt_upper_bound; lia. }
    exists (ds ++ [n mod 10]%N). rewrite map_app, <- app_assoc. split_and!; [done| | | |].
    + rewrite dec_value_snoc, Hv. lia.
    + apply Forall_app. split; [done|]. repeat constructor. lia.
    + by destruct ds.
    + intros k Hk1 Hnk. rewrite length_app. simpl.
      destruct k as [|[|k]]; [lia| simpl in Hnk; lia|].
      enough (length ds <= S k)%nat by lia. apply Hk; [lia|].
      rewrite Nat2N.inj_succ, N.pow_succ_r' in Hnk. apply N.Div0.div_lt_upper_bound; lia.
Qed.

Lemma N_size_fuel (n : N) : (n < 10 ^ N.of_nat (S (N.to_nat (N.size n))))%N.
Proof.
  rewrite Nat2N.inj_succ, N2Nat.id.
  apply N.lt_le_trans with (2 ^ N.size n)%N; [apply N.size_gt|].
  apply N.le_trans with (10 ^ N.size n)%N; [apply N.pow_le_mono_l; lia|].
  apply N.pow_le_mono_r; lia.
Qed.

(** [str(n)] is a non-empty run of decimal digits whose value is [n]. *)
Lemma N_to_dec_digits (n : N) :
  exists ds, N_to_dec n = map (fun d => ch_0 + d)%N ds /\
             dec_value ds = n /\ Forall (fun d => d < 10)%N ds /\ ds <> [] /\
             (forall k, (1 <= k)%nat -> (n < 10 ^ N.of_nat k)%N -> (length ds <= k)%nat).
Proof.
  destruct (dec_aux_digits (S (N.to_nat (N.size n))) n [] ltac:(lia) (N_size_fuel n))
    as (ds & H & ?). exists ds. unfold N_to_dec. by rewrite H, app_nil_r.
Qed.
