(* ===== verification/PyInt.v ===== *)
(** * [int(s)] on a [str]

    [script.py] and [test.py] compute
    [int(os.environ.get("CONTENT_LENGTH", 0))].  When the variable is set
    this is [int] of a [str], i.e. CPython 3.11's [PyLong_FromUnicodeObject]
    with base 10: [_PyUnicode_TransformDecimalAndSpaceToASCII] maps Unicode
    spaces to [' '] and Unicode decimal digits to ASCII digits (and stops
    with ['?'] at any other non-ASCII character), then [PyLong_FromString]
    skips spaces, reads a sign, a run of digits with single underscores
    between them, spaces again, and must reach the end of the buffer.
    Longer than 4300 digits is refused ([sys.int_info.default_max_str_digits]).
    The witnesses use CPython's database [UnicodeData.ucd14];
    [py_int_latin1] carries what is shown with [latin1_ucd] over to it. *)

From S2P Require Import Prelude PyStr Unicode UnicodeData PyRepr.

(** ** Definitions *)

(** [Py_ISSPACE]: the C locale's white space. *)
Definition c_isspace (c : N) : bool := bool_decide (c = 32%N \/ (9 <= c <= 13)%N).

Definition c_isdigit (c : N) : bool := bool_decide (48 <= c <= 57)%N.

Definition max_str_digits : nat := 4300.

(** The ASCII text of a list of digit values. *)
Definition digit_str (ds : list N) : pystr := map (fun d => ch_0 + d)%N ds.

(** Digits in groups separated by single underscores, as in ["1_000"]. *)
Definition grouped_digits (groups : list (list N)) : pystr := join [95%N] (map digit_str groups).

Section int_of_str.
Context `{UnicodeDB}.

(** [_PyUnicode_TransformDecimalAndSpaceToASCII]. *)
Fixpoint to_ascii_digits (u : pystr) : pystr :=
  match u with
  | [] => []
  | c :: u' =>
      if decide (c < 127)%N then c :: to_ascii_digits u'
      else if ucd_space c then 32%N :: to_ascii_digits u'
      else match ucd_decimal c with
           | Some d => (48 + d)%N :: to_ascii_digits u'
           | None => [63%N]
           end
  end.

(** The digit loop of [PyLong_FromString]: [prev] is the previous
    character read (0 before the first), [acc] the digit values read so
    far, most significant first.  [None] is an underscore error. *)
Fixpoint scan_digits (prev : N) (s : pystr) (acc : list N) : option (list N * pystr) :=
  match s with
  | c :: s' =>
      if c_isdigit c then scan_digits c s' (acc ++ [c - 48]%N)
      else if decide (c = 95%N) then
        if decide (prev = 95%N) then None else scan_digits c s' acc
      else if decide (prev = 95%N) then None else Some (acc, s)
  | [] => if decide (prev = 95%N) then None else Some (acc, [])
  end.

(** The optional sign: [true] for a minus. *)
Definition parse_sign (s : pystr) : bool * pystr :=
  match s with
  | c :: s' =>
      if decide (c = 43%N) then (false, s')
      else if decide (c = 45%N) then (true, s')
      else (false, s)
  | [] => (false, [])
  end.

(** The outcome of [PyLong_FromString]: a value that used the whole
    buffer, a syntax error, or too many digits. *)
Inductive long_result := LOk (z : Z) | LInvalid | LTooManyDigits (n : nat).

Definition long_from_string (buf : pystr) : long_result :=
  let '(neg, s2) := parse_sign (skip_while c_isspace buf) in
  if decide (head s2 = Some 95%N) then LInvalid
  else
    match scan_digits 0 s2 [] with
    | None => LInvalid
    | Some (ds, rest) =>
        if decide (max_str_digits < length ds)%nat then LTooManyDigits (length ds)
        else if decide (ds = []) then LInvalid
        else if decide (skip_while c_isspace rest = []) then
          LOk ((if neg then Z.opp else id) (Z.of_N (dec_value ds)))
        else LInvalid
    end.

Definition invalid_literal_msg (u : pystr) : pystr :=
  ⟪"invalid literal for int() with base 10: "⟫ ++ take 200 (repr_str u).

Definition max_digits_msg (n : nat) : pystr :=
  ⟪"Exceeds the limit (4300 digits) for integer string conversion: value has "⟫
  ++ N_to_dec (N.of_nat n)
  ++ ⟪" digits; use sys.set_int_max_str_digits() to increase the limit"⟫.

(** [int(u)] for a [str] [u]. *)
Definition py_int (u : pystr) : result pyexc Z :=
  match long_from_string (to_ascii_digits u) with
  | LOk z => Ok z
  | LInvalid => Error (Exc EValueError (invalid_literal_msg u))
  | LTooManyDigits n => Error (Exc EValueError (max_digits_msg n))
  end.
End int_of_str.

(** ** Lemmas *)

Section int_lemmas.
Context `{UnicodeDB}.

Lemma to_ascii_digits_ascii (u : pystr) :
  Forall (fun c => c < 127)%N u -> to_ascii_digits u = u.
Proof. induction 1; simpl; [done|]. rewrite decide_True by done. congruence. Qed.

(** [int()] raises [ValueError] and nothing else. *)
Lemma py_int_error_class (u : pystr) (e : pyexc) : py_int u = Error e -> exc_cls e = EValueError.
Proof. unfold py_int. destruct (long_from_string _); by intros [= <-]. Qed.

(** A run of digits is read whole, its digit values appended to [acc]. *)
Lemma scan_digits_run (prev : N) (ds : list N) (acc : list N) :
  prev <> 95%N -> Forall (fun d => d < 10)%N ds ->
  scan_digits prev (map (fun d => ch_0 + d)%N ds) acc = Some (acc ++ ds, []).
Proof.
  intros Hp Hds. revert prev acc Hp.
  induction Hds as [|d ds Hd _ IH]; intros prev acc Hp; simpl.
  - rewrite decide_False by done. by rewrite app_nil_r.
  - unfold c_isdigit, ch_0. rewrite bool_decide_true by lia.
    rewrite IH by lia. replace (48 + d - 48)%N with d by lia.
    by rewrite <- app_assoc.
Qed.

(** [PyLong_FromString] reads an optional minus and a run of at most
    4300 digits as the number they denote. *)
Lemma long_from_string_digits (neg : bool) (ds : list N) :
  Forall (fun d => d < 10)%N ds -> ds <> [] -> (length ds <= max_str_digits)%nat ->
  long_from_string ((if neg then [45%N] else []) ++ map (fun d => ch_0 + d)%N ds) =
    LOk ((if neg then Z.opp else id) (Z.of_N (dec_value ds))).
Proof.
  intros Hds Hne Hlen. destruct ds as [|d0 ds]; [done|].
  assert (Hd0 : (d0 < 10)%N) by (by inv Hds).
  unfold long_from_string.
  assert (Hsp : skip_while c_isspace ((if neg then [45%N] else []) ++ map (fun d => ch_0 + d)%N (d0 :: ds))
                = (if neg then [45%N] else []) ++ map (fun d => ch_0 + d)%N (d0 :: ds)).
  { destruct neg; simpl; unfold c_isspace, ch_0; try rewrite bool_decide_false by lia; done. }
  assert (Hps : parse_sign ((if neg then [45%N] else []) ++ map (fun d => ch_0 + d)%N (d0 :: ds))
                = (neg, map (fun d => ch_0 + d)%N (d0 :: ds))).
  { destruct neg; simpl; [done|]. unfold ch_0. rewrite !decide_False by lia. done. }
  rewrite Hsp, Hps. cbn [head map].
  rewrite decide_False by (unfold ch_0; intros [=]; lia).
  rewrite <- (map_cons (fun d => ch_0 + d)%N d0 ds), scan_digits_run by (done || lia).
  simpl in *. by rewrite decide_False by lia.
Qed.

(** The digits of one group are read whole; the last one becomes the
    previous character. *)
Lemma scan_digits_app (prev : N) (ds : list N) (d : N) (rest acc : pystr) :
  Forall (fun d => d < 10)%N (ds ++ [d]) ->
  scan_digits prev (digit_str (ds ++ [d]) ++ rest) acc = scan_digits (ch_0 + d)%N rest (acc ++ ds ++ [d]).
Proof.
  unfold digit_str. revert prev acc. induction ds as [|d0 ds IH]; intros prev acc Hds; simpl.
  - inv Hds. unfold c_isdigit, ch_0. rewrite bool_decide_true by lia.
    by replace (48 + d - 48)%N with d by lia.
  - inv Hds. unfold c_isdigit, ch_0 in *. rewrite bool_decide_true by lia.
    rewrite IH by done. replace (48 + d0 - 48)%N with d0 by lia. by rewrite <- app_assoc.
Qed.

(** Groups of digits joined by single underscores are read as the digits
    of all the groups, up to a character that is neither a digit nor an
    underscore. *)
Lemma scan_digits_groups (prev : N) (groups : list (list N)) (rest acc : pystr) :
  Forall (fun g => g <> [] /\ Forall (fun d => d < 10)%N g) groups -> groups <> [] ->
  (forall c r, rest = c :: r -> c_isdigit c = false /\ c <> 95%N) ->
  scan_digits prev (grouped_digits groups ++ rest) acc = Some (acc ++ concat groups, rest).
Proof.
  unfold grouped_digits. intros Hg Hne Hr. revert prev acc.
  induction Hg as [|g gs [Hgne Hgd] Hgs IH]; [done|]. intros prev acc.
  destruct (exists_last Hgne) as (g' & d & ->).
  destruct gs as [|g2 gs].
  - cbn [map join concat]. rewrite app_nil_r, scan_digits_app by done.
    destruct rest as [|c r]; simpl.
    + rewrite decide_False by (unfold ch_0; apply Forall_app in Hgd as [_ Hd]; inv Hd; lia).
      done.
    + destruct (Hr c r eq_refl) as [Hc1 Hc2]. rewrite Hc1, !decide_False by
        (first [done | unfold ch_0; apply Forall_app in Hgd as [_ Hd]; inv Hd; lia]).
      done.
  - cbn [map join]. rewrite <- !app_assoc, scan_digits_app by done. cbn [app scan_digits].
    unfold c_isdigit. rewrite bool_decide_false, decide_True by lia.
    rewrite decide_False by (unfold ch_0; apply Forall_app in Hgd as [_ Hd]; inv Hd; lia).
    rewrite IH by done. cbn [concat]. by rewrite <- !app_assoc.
Qed.

Lemma grouped_digits_head (d0 : N) (g : list N) (gs : list (list N)) :
  exists r, grouped_digits ((d0 :: g) :: gs) = (ch_0 + d0)%N :: r.
Proof. unfold grouped_digits. destruct gs; simpl; eauto. Qed.

Lemma isspace_ascii (c : N) : c_isspace c = true -> (c < 127)%N.
Proof. unfold c_isspace. rewrite bool_decide_eq_true. lia. Qed.

Lemma grouped_digits_ascii (groups : list (list N)) :
  Forall (fun g => g <> [] /\ Forall (fun d => d < 10)%N g) groups ->
  Forall (fun c => c < 127)%N (grouped_digits groups).
Proof.
  intros Hg. apply Forall_join; [repeat constructor; lia|]. apply Forall_map.
  eapply Forall_impl; [exact Hg|]. intros g [_ Hd]. apply Forall_map.
  eapply Forall_impl; [exact Hd|]. unfold ch_0. simpl. lia.
Qed.

(** [PyLong_FromString] on spaces, an optional minus, groups of digits
    joined by single underscores and spaces again. *)
Lemma long_from_string_grouped (ws1 ws2 : pystr) (neg : bool) (groups : list (list N)) :
  Forall (fun c => c_isspace c = true) ws1 -> Forall (fun c => c_isspace c = true) ws2 ->
  Forall (fun g => g <> [] /\ Forall (fun d => d < 10)%N g) groups -> groups <> [] ->
  (length (concat groups) <= max_str_digits)%nat ->
  long_from_string (ws1 ++ (if neg then [45%N] else []) ++ grouped_digits groups ++ ws2) =
    LOk ((if neg then Z.opp else id) (Z.of_N (dec_value (concat groups)))).
Proof.
  intros Hw1 Hw2 Hg Hne Hlen.
  destruct groups as [|[|d0 g] gs]; [done | by apply Forall_cons in Hg as [[? _] _]|].
  assert (Hd0 : (d0 < 10)%N) by (apply Forall_cons in Hg as [[_ Hd] _]; by inv Hd).
  destruct (grouped_digits_head d0 g gs) as [r Hr].
  unfold long_from_string. rewrite skip_while_app_all by done.
  assert (Hps : parse_sign (skip_while c_isspace ((if neg then [45%N] else []) ++
                  grouped_digits ((d0 :: g) :: gs) ++ ws2))
                = (neg, grouped_digits ((d0 :: g) :: gs) ++ ws2)).
  { destruct neg; rewrite ?Hr; cbn [app]; rewrite skip_while_stop
      by (unfold c_isspace, ch_0; apply bool_decide_false; lia); simpl; [done|].
    unfold ch_0. rewrite !decide_False by lia. done. }
  rewrite Hps, Hr. cbn [head]. rewrite decide_False by (unfold ch_0; intros [=]; lia).
  rewrite <- Hr, scan_digits_groups by (done || (intros c r' ->; inv Hw2;
    match goal with H : c_isspace c = true |- _ => unfold c_isspace, c_isdigit in *;
      rewrite bool_decide_eq_true in H; split; [apply bool_decide_false; lia | lia] end)).
  rewrite decide_False by (simpl in *; lia).
  rewrite decide_False by done.
  rewrite <- (app_nil_r ws2), skip_while_app_all by done. simpl. done.
Qed.

(** C25 (roundtrip): [int(str(z)) == z] for every [int] of at most 4300
    digits: [str] writes an optional minus and the digits, and [int()]
    reads them back within its digit limit. *)
Theorem py_int_repr_int (z : Z) :
  (- 10 ^ 4300 < z < 10 ^ 4300)%Z -> py_int (repr_int z) = Ok z.
Proof.
  intros Hz. unfold py_int, repr_int.
  set (n := Z.to_N (Z.abs z)).
  assert (Hn : (n < 10 ^ N.of_nat max_str_digits)%N).
  { apply N2Z.inj_lt. rewrite N2Z.inj_pow. subst n.
    rewrite Z2N.id by lia. change (Z.of_N (N.of_nat max_str_digits)) with 4300%Z.
    change (Z.of_N 10) with 10%Z. set (M := (10 ^ 4300)%Z) in *. lia. }
  clear Hz.
  destruct (N_to_dec_digits n) as (ds & Hdec & Hv & Hds & Hne & Hlen).
  specialize (Hlen max_str_digits ltac:(unfold max_str_digits; lia) Hn).
  assert (Hasc : Forall (fun c => c < 127)%N (map (fun d => ch_0 + d)%N ds)).
  { apply Forall_map. eapply Forall_impl; [done|]. unfold ch_0. simpl. lia. }
  case_decide as Hneg.
  - replace (Z.to_N (- z)) with n by (subst n; lia).
    rewrite Hdec, to_ascii_digits_ascii by (constructor; [lia | done]).
    pose proof (long_from_string_digits true ds Hds Hne Hlen) as L. cbn [app] in L.
    rewrite L. f_equal. simpl. rewrite Hv. subst n. lia.
  - replace (Z.to_N z) with n by (subst n; lia).
    rewrite Hdec, to_ascii_digits_ascii by done.
    pose proof (long_from_string_digits false ds Hds Hne Hlen) as L. cbn [app] in L.
    rewrite L. f_equal. simpl. rewrite Hv. subst n. lia.
Qed.
(** C26 (functional): [int()] skips white space around the number, reads
    an optional minus, and reads digits in groups joined by single
    underscores as the number of all their digits, as
    [int(" -1_000_2\t\n") == -10002]. *)
Theorem py_int_grouped (ws1 ws2 : pystr) (neg : bool) (groups : list (list N)) :
  Forall (fun c => c_isspace c = true) ws1 -> Forall (fun c => c_isspace c = true) ws2 ->
  Forall (fun g => g <> [] /\ Forall (fun d => d < 10)%N g) groups -> groups <> [] ->
  (length (concat groups) <= max_str_digits)%nat ->
  py_int (ws1 ++ (if neg then [45%N] else []) ++ grouped_digits groups ++ ws2) =
    Ok ((if neg then Z.opp else id) (Z.of_N (dec_value (concat groups)))).
Proof.
  intros Hw1 Hw2 Hg Hne Hlen. unfold py_int.
  rewrite to_ascii_digits_ascii; [by rewrite long_from_string_grouped|].
  apply Forall_app; split; [eapply Forall_impl; [exact Hw1 | apply isspace_ascii]|].
  apply Forall_app; split; [destruct neg; repeat constructor; lia|].
  apply Forall_app; split; [by apply grouped_digits_ascii|].
  eapply Forall_impl; [exact Hw2 | apply isspace_ascii].
Qed.

(** C27 (error): a run of more than 4300 digits raises [ValueError] with
    the message of the integer string conversion limit, giving the number
    of digits. *)
Theorem py_int_too_many_digits (ds : list N) :
  Forall (fun d => d < 10)%N ds -> (max_str_digits < length ds)%nat ->
  py_int (digit_str ds) = Error (Exc EValueError (max_digits_msg (length ds))).
Proof.
  intros Hds Hlen. destruct ds as [|d0 ds]; [unfold max_str_digits in Hlen; simpl in Hlen; lia|].
  assert (Hd0 : (d0 < 10)%N) by (by inv Hds).
  unfold py_int. rewrite to_ascii_digits_ascii.
  2: { apply Forall_map. eapply Forall_impl; [exact Hds|]. unfold ch_0. simpl. lia. }
  unfold long_from_string, digit_str. cbn [map].
  rewrite skip_while_stop by (unfold c_isspace, ch_0; apply bool_decide_false; lia).
  cbn [parse_sign]. rewrite !decide_False by (unfold ch_0; lia). cbn [head].
  rewrite decide_False by (unfold ch_0; intros [=]; lia).
  rewrite <- (map_cons (fun d => ch_0 + d)%N d0 ds), (scan_digits_run 0 (d0 :: ds) []) by (done || lia).
  simpl. rewrite decide_True by (simpl in Hlen; lia). done.
Qed.
(** A character that [int()] reads as the digit [d]: the ASCII digit, or
    a non-ASCII decimal digit of the database. *)
Definition digit_of (c d : N) : Prop :=
  (c = ch_0 + d /\ d < 10)%N \/ ((127 <= c)%N /\ ucd_space c = false /\ ucd_decimal c = Some d).

Lemma to_ascii_digits_of (u ds : list N) :
  Forall2 digit_of u ds -> to_ascii_digits u = digit_str ds /\ Forall (fun d => d < 10)%N ds.
Proof.
  induction 1 as [|c d u ds Hcd _ [IH Hds]]; [done|]. simpl.
  destruct Hcd as [[-> Hd] | (Hc & Hs & Hdec)].
  - unfold ch_0 in *. rewrite decide_True by lia. rewrite IH. split; [done | by constructor].
  - rewrite decide_False by lia. rewrite Hs, Hdec, IH. split; [done|].
    constructor; [by eapply ucd_decimal_digit | done].
Qed.

(** [int()] reads the decimal digits of any script, as
    [_PyUnicode_TransformDecimalAndSpaceToASCII] maps each to its ASCII
    digit: [int('١٢') == 12]. *)
Theorem py_int_decimal_digits (u ds : list N) :
  Forall2 digit_of u ds -> u <> [] -> (length u <= max_str_digits)%nat ->
  py_int u = Ok (Z.of_N (dec_value ds)).
Proof.
  intros Hu Hne Hlen. destruct (to_ascii_digits_of u ds Hu) as [Ha Hds].
  pose proof (Forall2_length _ _ _ Hu) as Hl.
  unfold py_int. rewrite Ha. unfold digit_str.
  pose proof (long_from_string_digits false ds Hds) as L. cbn [app] in L.
  rewrite L; [done | by intros ->; destruct u | lia].
Qed.
End int_lemmas.

(** ** [int()] under two databases *)

Section int_alike.
Context (H1 H2 : UnicodeDB).

Lemma to_ascii_digits_alike (u : pystr) :
  Forall (consulted_alike H1 H2) u -> to_ascii_digits (H := H1) u = to_ascii_digits (H := H2) u.
Proof.
  intros Hu. induction Hu as [|c u Hc _ IH]; [done|]. cbn [to_ascii_digits].
  destruct (decide (c < 127)%N); [by rewrite IH|].
  destruct Hc as [Hc | (_ & Hs & Hd)]; [done|]. by rewrite Hs, Hd, IH.
Qed.

(** Two databases that answer alike on the characters of [u] give
    [int(u)] the same outcome, the message of a [ValueError] included. *)
Lemma py_int_alike (u : pystr) :
  Forall (consulted_alike H1 H2) u -> py_int (H := H1) u = py_int (H := H2) u.
Proof.
  intros Hu. unfold py_int, invalid_literal_msg.
  by rewrite (to_ascii_digits_alike u Hu), (repr_str_alike H1 H2 u Hu).
Qed.
End int_alike.

(** The facts proved of [int()] with [latin1_ucd] hold of CPython for
    Latin-1 text. *)
Lemma py_int_latin1 (u : pystr) :
  Forall (fun c => c < 256)%N u -> py_int (H := ucd14) u = py_int (H := latin1_ucd) u.
Proof.
  intros Hu. symmetry. apply py_int_alike. eapply Forall_impl; [exact Hu|]. apply latin1_ucd_exact.
Qed.

(** [int()] with the database of CPython 3.11: IDEOGRAPHIC SPACE around
    FULLWIDTH DIGITs ONE and TWO reads 12; VULGAR FRACTION ONE HALF has
    no decimal value. *)
Example py_int_unicode :
  py_int (H := ucd14) [0x3000; 0xFF11; 0xFF12; 0x3000]%N = Ok 12%Z /\
  py_int (H := ucd14) [0xBD]%N =
    Error (Exc EValueError (⟪"invalid literal for int() with base 10: '"⟫ ++ [0xBD%N] ++ ⟪"'"⟫)).
Proof. split; vm_compute; reflexivity. Qed.

Lemma py_int_repr_int_witness :
  (- 10 ^ 4300 < -120 < 10 ^ 4300)%Z /\ py_int (H := latin1_ucd) (repr_int (-120)) = Ok (-120)%Z.
Proof.
  assert (Hb : (- 10 ^ 4300 < -120 < 10 ^ 4300)%Z).
  { set (M := (10 ^ 4300)%Z). assert (0 < M)%Z by (subst M; apply Z.pow_pos_nonneg; lia). lia. }
  split; [exact Hb | apply py_int_repr_int; exact Hb].
Defined.

Lemma py_int_grouped_witness :
  Forall (fun c => c_isspace c = true) [32%N] /\ Forall (fun c => c_isspace c = true) [9%N; 10%N] /\
  Forall (fun g => g <> [] /\ Forall (fun d => d < 10)%N g) [[1%N]; [0%N; 0%N; 0%N]; [2%N]] /\
  [[1%N]; [0%N; 0%N; 0%N]; [2%N]] <> [] /\
  (length (concat [[1%N]; [0%N; 0%N; 0%N]; [2%N]]) <= max_str_digits)%nat /\
  py_int (H := latin1_ucd) ([32%N] ++ [45%N] ++ grouped_digits [[1%N]; [0%N; 0%N; 0%N]; [2%N]] ++ [9%N; 10%N]) =
    Ok (-10002)%Z /\
  [32%N] ++ [45%N] ++ grouped_digits [[1%N]; [0%N; 0%N; 0%N]; [2%N]] ++ [9%N; 10%N] = ⟪" -1_000_2"⟫ ++ [9%N; 10%N].
Proof.
  assert (H1 : Forall (fun c => c_isspace c = true) [32%N]) by (repeat constructor).
  assert (H2 : Forall (fun c => c_isspace c = true) [9%N; 10%N]) by (repeat constructor).
  assert (H3 : Forall (fun g => g <> [] /\ Forall (fun d => d < 10)%N g) [[1%N]; [0%N; 0%N; 0%N]; [2%N]])
    by (repeat constructor; (done || lia)).
  assert (H4 : [[1%N]; [0%N; 0%N; 0%N]; [2%N]] <> []) by done.
  assert (H5 : (length (concat [[1%N]; [0%N; 0%N; 0%N]; [2%N]]) <= max_str_digits)%nat)
    by (vm_compute; lia).
  split; [exact H1|]. split; [exact H2|]. split; [exact H3|]. split; [exact H4|]. split; [exact H5|].
  split; [exact (py_int_grouped (H := latin1_ucd) _ _ true _ H1 H2 H3 H4 H5) | vm_compute; reflexivity].
Defined.

Lemma py_int_too_many_digits_witness :
  Forall (fun d => d < 10)%N (replicate 4301 1%N) /\ (max_str_digits < length (replicate 4301 1%N))%nat /\
  py_int (H := latin1_ucd) (digit_str (replicate 4301 1%N)) =
    Error (Exc EValueError (max_digits_msg (length (replicate 4301 1%N)))).
Proof.
  assert (H1 : Forall (fun d => d < 10)%N (replicate 4301 1%N)) by (apply Forall_replicate; lia).
  assert (H2 : (max_str_digits < length (replicate 4301 1%N))%nat)
    by (rewrite length_replicate; unfold max_str_digits; lia).
  split; [exact H1|]. split; [exact H2|].
  exact (py_int_too_many_digits (H := latin1_ucd) _ H1 H2).
Defined.

(** [int('١٢') == 12] with the ARABIC-INDIC DIGITs ONE and TWO. *)
Lemma py_int_decimal_digits_witness :
  Forall2 (digit_of (H := ucd14)) [0x661; 0x662]%N [1; 2]%N /\ [0x661; 0x662]%N <> [] /\
  (length [0x661; 0x662]%N <= max_str_digits)%nat /\
  py_int (H := ucd14) [0x661; 0x662]%N = Ok 12%Z.
Proof.
  assert (H1 : Forall2 (digit_of (H := ucd14)) [0x661; 0x662]%N [1; 2]%N).
  { do 2 (constructor; [right; split_and!; [lia | vm_compute; reflexivity | vm_compute; reflexivity]|]).
    constructor. }
  assert (H2 : [0x661; 0x662]%N <> []) by done.
  assert (H3 : (length [0x661; 0x662]%N <= max_str_digits)%nat) by (vm_compute; lia).
  split; [exact H1|]. split; [exact H2|]. split; [exact H3|].
  exact (py_int_decimal_digits (H := ucd14) _ _ H1 H2 H3).
Defined.

