(* ===== verification/UrlParse.v ===== *)
(** * [urllib.parse.parse_qs]

    [test.py] prints [parse_qs(qs)] for a non-empty query string and
    [script.py] prints the items of [parse_qs(body)].  This file models
    CPython 3.11's [Lib/urllib/parse.py] with the default arguments
    ([keep_blank_values=False], [strict_parsing=False], UTF-8 with
    [errors='replace'], separator ['&']):

    - [unquote_to_bytes] of an ASCII run: split at ['%'], read two hex
      digits after each ['%'] or keep the ['%'] literally;
    - [unquote]: maximal ASCII runs are unquoted to bytes and decoded,
      non-ASCII characters are copied;
    - [parse_qsl]: split at ['&'], skip empty fields and fields without
      ['='] or with an empty value, replace ['+'] by a space, unquote;
    - [parse_qs]: gather the values of each name, in order, in a [dict]
      whose keys keep the order of first occurrence.

    The [dict] is an association list ([qsdict]) since its order is what
    [print] shows. *)

From S2P Require Import Prelude PyStr Unicode.

(** ** Unquoting *)

Definition ch_pct : N := 37.
Definition ch_amp : N := 38.
Definition ch_eq : N := 61.
Definition ch_plus : N := 43.
Definition ch_space : N := 32.

(** One piece after a ['%']: [_hextobyte[item[:2]] + item[2:]], or
    [b'%' + item] when the two first characters are not hex digits. *)
Definition unquote_item (item : list N) : list N :=
  match item with
  | h1 :: h2 :: rest =>
      match hexval h1, hexval h2 with
      | Some a, Some b => (a * 16 + b)%N :: rest
      | _, _ => ch_pct :: item
      end
  | _ => ch_pct :: item
  end.

(** [unquote_to_bytes] of an ASCII run (whose UTF-8 encoding is itself).
    The early return for [len(bits) == 1] gives the same bytes as the
    general case and is not modelled apart. *)
Definition unquote_to_bytes (s : list N) : list N :=
  match split_sep ch_pct s with
  | b0 :: items => b0 ++ mjoin (map unquote_item items)
  | [] => []
  end.

(** [bytes.decode('utf-8', 'replace')], which never raises
    ([utf8_decode_replace_total]). *)
Definition decode_replace (bs : list N) : pystr :=
  match utf8_decode Replace bs with Ok s => s | Error _ => [] end.

Definition unquote_run (run : list N) : pystr :=
  decode_replace (unquote_to_bytes run).

(** The loop of [unquote] over [_asciire.split(string)]: [run] is the
    ASCII run read so far. *)
Fixpoint unquote_go (run : list N) (s : pystr) : pystr :=
  match s with
  | [] => unquote_run run
  | c :: s' =>
      if decide (c < 128)%N then unquote_go (run ++ [c]) s'
      else unquote_run run ++ c :: unquote_go [] s'
  end.

(** [unquote(string)]: a string without ['%'] is returned as it is. *)
Definition unquote (s : pystr) : pystr :=
  if decide (ch_pct ∈ s) then unquote_go [] s else s.

(** ** [parse_qsl] and [parse_qs] *)

(** One [name_value] of the loop of [parse_qsl]; [None] is a
    [continue]. *)
Definition parse_qsl_field (name_value : pystr) : option (pystr * pystr) :=
  if decide (name_value = []) then None
  else match split_once ch_eq name_value with
       | [n; v] =>
           if decide (v = []) then None
           else Some (unquote (replace_char ch_plus ch_space n),
                      unquote (replace_char ch_plus ch_space v))
       | _ => None
       end.

Definition parse_qsl (qs : pystr) : list (pystr * pystr) :=
  omap parse_qsl_field (if decide (qs = []) then [] else split_sep ch_amp qs).

(** The [dict] built by [parse_qs]: names in order of first occurrence,
    each with its list of values. *)
Abbreviation qsdict := (list (pystr * list pystr)).

(** [if name in parsed_result: parsed_result[name].append(value) else:
    parsed_result[name] = [value]]. *)
Fixpoint qs_add (d : qsdict) (name value : pystr) : qsdict :=
  match d with
  | [] => [(name, [value])]
  | (k, vs) :: d' =>
      if decide (k = name) then (k, vs ++ [value]) :: d'
      else (k, vs) :: qs_add d' name value
  end.

Definition parse_qs (qs : pystr) : qsdict :=
  foldl (fun d nv => qs_add d nv.1 nv.2) [] (parse_qsl qs).

(** [d[name]] *)
Definition qs_lookup (name : pystr) (d : qsdict) : option (list pystr) :=
  (fun ikv : nat * (pystr * list pystr) => ikv.2.2) <$> list_find (fun kv => kv.1 = name) d.

(** ** Reference definitions

    Percent-decoding as RFC 3986 states it, one ['%'] at a time: a ['%']
    followed by two hexadecimal digits is the byte they write, any other
    character stands for itself.  [unquote_to_bytes_ref] below shows that
    CPython's [split]-based loop computes it. *)
Fixpoint percent_decode (s : list N) : list N :=
  match s with
  | [] => []
  | c :: s' =>
      if decide (c = ch_pct) then
        match s' with
        | h1 :: h2 :: r =>
            match hexval h1, hexval h2 with
            | Some a, Some b => (a * 16 + b)%N :: percent_decode r
            | _, _ => c :: percent_decode s'
            end
        | _ => c :: percent_decode s'
        end
      else c :: percent_decode s'
  end.

(** The encoder whose output [parse_qs] reads back: [urlencode(d,
    doseq=True)] joins [quote_plus(k) + '=' + quote_plus(v)] for every
    value [v] of every key [k] with ['&'].  [quote_plus] encodes the string
    in UTF-8 (strict) and writes each byte as itself when it is a letter,
    a digit or one of [_.-~], as ['+'] when it is a space, and as ['%XX']
    (uppercase) otherwise. *)
Definition hex_upper (d : N) : N := if decide (d < 10)%N then (48 + d)%N else (55 + d)%N.

Definition always_safe (b : N) : bool :=
  bool_decide ((65 <= b <= 90) \/ (97 <= b <= 122) \/ (48 <= b <= 57) \/
               b = 95 \/ b = 46 \/ b = 45 \/ b = 126)%N.

Definition quote_plus_byte (b : N) : pystr :=
  if always_safe b then [b]
  else if decide (b = ch_space) then [ch_plus]
  else [ch_pct; hex_upper (b / 16); hex_upper (b mod 16)].

Definition quote_plus (s : pystr) : result encode_error pystr :=
  bs ← utf8_encode Strict s; Ok (mjoin (map quote_plus_byte bs)).

Definition urlencode (d : qsdict) : result encode_error pystr :=
  pieces ← mapM (fun kv : pystr * list pystr =>
                   k ← quote_plus kv.1;
                   mapM (fun v => v' ← quote_plus v; Ok (k ++ ch_eq :: v')) kv.2) d;
  Ok (join [ch_amp] (mjoin pieces)).

(** The items of a [qsdict] as the pairs [parse_qsl] lists. *)
Definition qs_items (d : qsdict) : list (pystr * pystr) :=
  mjoin (map (fun kv : pystr * list pystr => map (fun v => (kv.1, v)) kv.2) d).

(** The well-formed results of [parse_qs]: each name once, each with at
    least one value. *)
Definition qs_wf (d : qsdict) : Prop := NoDup d.*1 /\ Forall (fun kv => kv.2 <> []) d.

(** What [quote_plus] returns for a string of scalar values. *)
Definition form_quote (s : pystr) : pystr :=
  mjoin (map quote_plus_byte (mjoin (map utf8_encode_char s))).

(** ** Lemmas on unquoting *)

Lemma hexval_not_pct (c a : N) : hexval c = Some a -> c <> ch_pct.
Proof. unfold hexval, ch_pct. intros H ->. repeat case_decide; first [lia | discriminate]. Qed.

Lemma unquote_to_bytes_split (s w : list N) (ws : list (list N)) :
  split_sep ch_pct s = w :: ws -> unquote_to_bytes s = w ++ mjoin (map unquote_item ws).
Proof. intros E. unfold unquote_to_bytes. by rewrite E. Qed.

Lemma unquote_to_bytes_cons (c : N) (s : list N) :
  c <> ch_pct -> unquote_to_bytes (c :: s) = c :: unquote_to_bytes s.
Proof.
  intros Hc. destruct (split_sep_cons_ne ch_pct c s Hc) as (w & ws & E & E').
  by rewrite (unquote_to_bytes_split _ _ _ E'), (unquote_to_bytes_split _ _ _ E).
Qed.

Lemma unquote_to_bytes_pct (s : list N) :
  unquote_to_bytes (ch_pct :: s) = mjoin (map unquote_item (split_sep ch_pct s)).
Proof. unfold unquote_to_bytes. cbn [split_sep]. by rewrite decide_True. Qed.

(** After a ['%'] that does not start an escape, the ['%'] is kept. *)
Lemma unquote_to_bytes_pct_keep (s : list N) :
  (forall h1 h2 r a b, s = h1 :: h2 :: r -> hexval h1 = Some a -> hexval h2 = Some b -> False) ->
  unquote_to_bytes (ch_pct :: s) = ch_pct :: unquote_to_bytes s.
Proof.
  intros Hno. rewrite unquote_to_bytes_pct.
  destruct (split_sep ch_pct s) as [|w ws] eqn:E; [by destruct (split_sep_nonempty ch_pct s)|].
  rewrite (unquote_to_bytes_split _ _ _ E). cbn [map mjoin]. simpl.
  enough (unquote_item w = ch_pct :: w) as -> by done.
  destruct s as [|h1 [|h2 r]]; simpl in E.
  - by injection E as <-.
  - case_decide; injection E as <-; done.
  - unfold unquote_item. case_decide as H1; [by injection E as <-|].
    destruct (split_sep ch_pct r) as [|w2 ws2] eqn:E2; [by destruct (split_sep_nonempty ch_pct r)|].
    case_decide as H2; injection E as <- <-; [done|].
    destruct (hexval h1) eqn:?, (hexval h2) eqn:?; try done. exfalso; eauto.
Qed.

Lemma percent_decode_unfold (s : list N) :
  percent_decode s =
  match s with
  | [] => []
  | c :: s' =>
      if decide (c = ch_pct) then
        match s' with
        | h1 :: h2 :: r =>
            match hexval h1, hexval h2 with
            | Some a, Some b => (a * 16 + b)%N :: percent_decode r
            | _, _ => c :: percent_decode s'
            end
        | _ => c :: percent_decode s'
        end
      else c :: percent_decode s'
  end.
Proof. by destruct s. Qed.

Lemma percent_decode_cons (c : N) (s : list N) :
  c <> ch_pct -> percent_decode (c :: s) = c :: percent_decode s.
Proof. intros Hc. rewrite percent_decode_unfold. by rewrite decide_False. Qed.

Lemma percent_decode_esc (h1 h2 a b : N) (r : list N) :
  hexval h1 = Some a -> hexval h2 = Some b ->
  percent_decode (ch_pct :: h1 :: h2 :: r) = (a * 16 + b)%N :: percent_decode r.
Proof.
  intros Ha Hb. rewrite percent_decode_unfold, decide_True by done. cbv iota. by rewrite Ha, Hb.
Qed.

Lemma percent_decode_keep (s : list N) :
  (forall h1 h2 r a b, s = h1 :: h2 :: r -> hexval h1 = Some a -> hexval h2 = Some b -> False) ->
  percent_decode (ch_pct :: s) = ch_pct :: percent_decode s.
Proof.
  intros Hno. rewrite percent_decode_unfold, decide_True by done. cbv iota.
  destruct s as [|h1 [|h2 r]]; [done|done|].
  destruct (hexval h1) eqn:?, (hexval h2) eqn:?; try done. exfalso; eauto.
Qed.

(** C29 (equivalence): CPython's [unquote_to_bytes], which splits the string
    at every ['%'] and decodes the two characters after each one, computes
    the one-escape-at-a-time percent-decoding of RFC 3986. *)
Theorem unquote_to_bytes_ref (s : list N) : unquote_to_bytes s = percent_decode s.
Proof.
  induction s as [s IH] using (induction_ltof1 _ (@length N)); unfold ltof in IH.
  destruct s as [|c s]; [done|].
  destruct (decide (c = ch_pct)) as [->|Hc].
  2: { rewrite unquote_to_bytes_cons, percent_decode_cons by done. f_equal. apply IH. simpl; lia. }
  assert (Hkeep : (forall h1 h2 r a b, s = h1 :: h2 :: r -> hexval h1 = Some a ->
                     hexval h2 = Some b -> False) ->
                  unquote_to_bytes (ch_pct :: s) = percent_decode (ch_pct :: s)).
  { intros Hno. rewrite unquote_to_bytes_pct_keep, percent_decode_keep by done.
    f_equal. apply IH. simpl; lia. }
  destruct s as [|h1 [|h2 r]]; try (apply Hkeep; intros ?????; discriminate).
  destruct (hexval h1) as [a|] eqn:Ha, (hexval h2) as [b|] eqn:Hb;
    try (apply Hkeep; intros ????? [= <- <- <-]; congruence).
  rewrite unquote_to_bytes_pct, (percent_decode_esc _ _ a b) by done.
  destruct (split_sep_cons_ne ch_pct h2 r (hexval_not_pct _ _ Hb)) as (w & ws & E & E2).
  destruct (split_sep_cons_ne ch_pct h1 (h2 :: r) (hexval_not_pct _ _ Ha)) as (w' & ws' & E' & E1).
  rewrite E2 in E'. injection E' as <- <-. rewrite E1. cbn [map mjoin foldr app].
  unfold unquote_item at 1. rewrite Ha, Hb. cbn [app].
  f_equal. rewrite <- IH by (simpl; lia). by rewrite (unquote_to_bytes_split _ _ _ E).
Qed.

Lemma percent_decode_free (s : list N) : ch_pct ∉ s -> percent_decode s = s.
Proof.
  induction s as [|c s IH]; intros Hs; [done|].
  rewrite percent_decode_cons by set_solver. f_equal. apply IH. set_solver.
Qed.

Lemma unquote_go_ascii (run s : pystr) :
  Forall (fun c => c < 128)%N s -> unquote_go run s = unquote_run (run ++ s).
Proof.
  intros Hs. revert run. induction Hs as [|c s Hc _ IH]; intros run; simpl.
  - by rewrite app_nil_r.
  - rewrite decide_True by done. rewrite IH. by rewrite <- app_assoc.
Qed.

Lemma ascii_encoded (s : pystr) :
  Forall (fun c => c < 128)%N s -> mjoin (map utf8_encode_char s) = s.
Proof.
  induction 1 as [|c s Hc _ IH]; [done|]. simpl. by rewrite utf8_encode_char_ascii, IH by lia.
Qed.

Lemma decode_replace_encoded (s : pystr) :
  Forall is_scalar s -> decode_replace (mjoin (map utf8_encode_char s)) = s.
Proof. intros Hs. unfold decode_replace. by rewrite utf8_decode_encoded. Qed.

Lemma ascii_scalar (s : pystr) : Forall (fun c => c < 128)%N s -> Forall is_scalar s.
Proof. intros Hs. eapply Forall_impl; [exact Hs|]. unfold is_scalar. intros; lia. Qed.

(** [unquote] of an ASCII string percent-decodes it and decodes the bytes
    as UTF-8 with replacement. *)
Lemma unquote_ascii (s : pystr) :
  Forall (fun c => c < 128)%N s -> unquote s = decode_replace (percent_decode s).
Proof.
  intros Hs. unfold unquote. case_decide.
  - rewrite unquote_go_ascii by done. unfold unquote_run. by rewrite unquote_to_bytes_ref.
  - rewrite percent_decode_free by done.
    rewrite <- (ascii_encoded s) at 2 by done. by rewrite decode_replace_encoded by (by apply ascii_scalar).
Qed.

(** ** Lemmas on the encoder *)

Lemma hexval_hex_upper (d : N) : (d < 16)%N -> hexval (hex_upper d) = Some d.
Proof. intros Hd. unfold hex_upper, hexval. repeat case_decide; try (f_equal; lia); lia. Qed.

Lemma hex_upper_range (d : N) :
  (d < 16)%N -> ((48 <= hex_upper d <= 57) \/ (65 <= hex_upper d <= 70))%N.
Proof. unfold hex_upper. intros. case_decide; lia. Qed.

Lemma always_safe_range (b : N) :
  always_safe b = true -> (b < 128 /\ b <> ch_pct /\ b <> ch_plus /\ b <> ch_amp /\ b <> ch_eq)%N.
Proof. unfold always_safe, ch_pct, ch_plus, ch_amp, ch_eq. rewrite bool_decide_eq_true. lia. Qed.

(** Each byte is written as characters that are ASCII and neither ['&'] nor
    ['='], so the pieces of [urlencode] can be split apart again. *)
Lemma quote_plus_byte_chars (b : N) :
  (b < 256)%N -> Forall (fun c => c < 128 /\ c <> ch_amp /\ c <> ch_eq)%N (quote_plus_byte b).
Proof.
  intros Hb. unfold quote_plus_byte. destruct (always_safe b) eqn:Hs.
  - apply always_safe_range in Hs. repeat (constructor; [lia|]); constructor.
  - assert (H1 := hex_upper_range (b / 16) ltac:(apply N.Div0.div_lt_upper_bound; lia)).
    assert (H2 := hex_upper_range (b mod 16) ltac:(apply N.mod_lt; lia)).
    unfold ch_pct, ch_plus, ch_amp, ch_eq, ch_space in *.
    case_decide; repeat (constructor; [lia|]); constructor.
Qed.

Lemma quote_plus_byte_decode (b : N) (rest : pystr) :
  (b < 256)%N ->
  percent_decode (replace_char ch_plus ch_space (quote_plus_byte b ++ rest)) =
  b :: percent_decode (replace_char ch_plus ch_space rest).
Proof.
  intros Hb. unfold replace_char. rewrite map_app. fold (replace_char ch_plus ch_space rest).
  unfold quote_plus_byte. destruct (always_safe b) eqn:Hs.
  - apply always_safe_range in Hs. cbn [map app]. rewrite decide_False by lia.
    apply percent_decode_cons. lia.
  - case_decide as Hsp.
    + cbn [map app]. rewrite decide_True by done. subst.
      apply percent_decode_cons. unfold ch_space, ch_pct. lia.
    + assert (H1 := hex_upper_range (b / 16) ltac:(apply N.Div0.div_lt_upper_bound; lia)).
      assert (H2 := hex_upper_range (b mod 16) ltac:(apply N.mod_lt; lia)).
      cbn [map app]. rewrite !decide_False by (unfold ch_pct, ch_plus in *; lia).
      rewrite (percent_decode_esc _ _ (b / 16) (b mod 16)%N) by
        (apply hexval_hex_upper; first [apply N.Div0.div_lt_upper_bound | apply N.mod_lt]; lia).
      f_equal. pose proof (N.Div0.div_mod b 16). lia.
Qed.

Lemma quoted_bytes_decode (bs : list N) :
  Forall (fun b => b < 256)%N bs ->
  percent_decode (replace_char ch_plus ch_space (mjoin (map quote_plus_byte bs))) = bs.
Proof.
  induction 1 as [|b bs Hb _ IH]; [done|]. cbn [map mjoin]. simpl.
  by rewrite quote_plus_byte_decode, IH.
Qed.

Lemma encoded_bytes (s : pystr) :
  Forall is_scalar s -> Forall (fun b => b < 256)%N (mjoin (map utf8_encode_char s)).
Proof.
  intros Hs. apply Forall_mjoin_map. eapply Forall_impl; [exact Hs|].
  intros c Hc. apply utf8_encode_char_bytes, Hc.
Qed.

Lemma form_quote_chars (s : pystr) :
  Forall is_scalar s -> Forall (fun c => c < 128 /\ c <> ch_amp /\ c <> ch_eq)%N (form_quote s).
Proof.
  intros Hs. apply Forall_mjoin_map. eapply Forall_impl; [exact (encoded_bytes s Hs)|].
  apply quote_plus_byte_chars.
Qed.

Lemma form_quote_not_in (c : N) (s : pystr) :
  Forall is_scalar s -> (c = ch_amp \/ c = ch_eq) -> c ∉ form_quote s.
Proof.
  intros Hs Hc Hin. pose proof (form_quote_chars s Hs) as Hf. rewrite Forall_forall in Hf.
  specialize (Hf c Hin). destruct Hc; subst; tauto.
Qed.

Lemma form_quote_nonempty (s : pystr) : s <> [] -> form_quote s <> [].
Proof.
  destruct s as [|c s]; [done|]. intros _. unfold form_quote. cbn [map mjoin]. simpl.
  destruct (utf8_encode_char c) as [|b bs] eqn:E; [by apply utf8_encode_char_nonempty in E|].
  simpl. unfold quote_plus_byte. by repeat case_match.
Qed.

(** [unquote] reads back the form encoding, after [parse_qsl] has turned
    ['+'] into spaces. *)
Lemma unquote_form_quote (s : pystr) :
  Forall is_scalar s -> unquote (replace_char ch_plus ch_space (form_quote s)) = s.
Proof.
  intros Hs. rewrite unquote_ascii.
  - unfold form_quote. rewrite quoted_bytes_decode by (by apply encoded_bytes).
    by apply decode_replace_encoded.
  - apply Forall_map. eapply Forall_impl; [exact (form_quote_chars s Hs)|].
    unfold ch_space. intros c Hc. case_decide; lia.
Qed.

Lemma quote_plus_ok (s : pystr) : Forall is_scalar s -> quote_plus s = Ok (form_quote s).
Proof. intros Hs. unfold quote_plus, utf8_encode. by rewrite encode_go_scalar. Qed.

Lemma qs_items_cons (k : pystr) (vs : list pystr) (d : qsdict) :
  qs_items ((k, vs) :: d) = map (fun v => (k, v)) vs ++ qs_items d.
Proof. reflexivity. Qed.

Lemma qs_items_Forall (P : pystr -> pystr -> Prop) (d : qsdict) :
  Forall (fun kv => Forall (P kv.1) kv.2) d -> Forall (fun p => P p.1 p.2) (qs_items d).
Proof.
  induction 1 as [|[k vs] d Hkv _ IH]; [done|]. rewrite qs_items_cons.
  apply Forall_app. split; [|done]. by apply Forall_map.
Qed.

(** What [urlencode] writes for a dictionary of scalar strings. *)
Lemma urlencode_ok (d : qsdict) :
  Forall (fun kv => Forall is_scalar kv.1 /\ Forall (Forall is_scalar) kv.2) d ->
  urlencode d = Ok (join [ch_amp] (map (fun p => form_quote p.1 ++ ch_eq :: form_quote p.2)
                                       (qs_items d))).
Proof.
  intros Hd. unfold urlencode.
  rewrite (mapM_Ok _ (fun kv => map (fun v => form_quote kv.1 ++ ch_eq :: form_quote v) kv.2)).
  - cbn. do 2 f_equal. clear Hd. induction d as [|[k vs] d IH]; [done|].
    rewrite qs_items_cons, map_app, map_map. simpl. by rewrite IH.
  - eapply Forall_impl; [exact Hd|]. intros [k vs] [Hk Hvs]. simpl.
    rewrite quote_plus_ok by done. apply mapM_Ok. eapply Forall_impl; [exact Hvs|].
    intros v Hv. by rewrite quote_plus_ok.
Qed.

Lemma parse_qsl_split (qs : pystr) : parse_qsl qs = omap parse_qsl_field (split_sep ch_amp qs).
Proof. unfold parse_qsl. case_decide; by subst. Qed.

Lemma parse_qsl_field_quoted (k v : pystr) :
  Forall is_scalar k -> Forall is_scalar v -> v <> [] ->
  parse_qsl_field (form_quote k ++ ch_eq :: form_quote v) = Some (k, v).
Proof.
  intros Hk Hv Hne. unfold parse_qsl_field.
  rewrite decide_False by (intros Hnil; apply app_eq_nil in Hnil as [_ ?]; discriminate).
  rewrite split_once_app by (apply form_quote_not_in; auto).
  rewrite decide_False by (by apply form_quote_nonempty).
  by rewrite !unquote_form_quote.
Qed.

(** [parse_qsl] reads back the pairs that [urlencode] writes, when no value
    is empty. *)
Lemma parse_qsl_urlencoded (items : list (pystr * pystr)) :
  Forall (fun p => Forall is_scalar p.1 /\ Forall is_scalar p.2 /\ p.2 <> []) items ->
  parse_qsl (join [ch_amp] (map (fun p => form_quote p.1 ++ ch_eq :: form_quote p.2) items))
  = items.
Proof.
  intros Hi. destruct items as [|p0 items0] eqn:Eitems; [done|]. rewrite <- Eitems in *.
  rewrite parse_qsl_split, split_sep_join.
  - clear Eitems. induction Hi as [|[k v] items (Hk & Hv & Hne) _ IH]; [done|].
    cbn [map]. by rewrite list_omap_cons, parse_qsl_field_quoted, IH.
  - subst. done.
  - apply Forall_map. eapply Forall_impl; [exact Hi|]. intros [k v] (Hk & Hv & _). simpl.
    rewrite elem_of_app, elem_of_cons.
    intros [Hin | [Heq | Hin]]; [| unfold ch_amp, ch_eq in Heq; lia |];
      revert Hin; apply form_quote_not_in; auto.
Qed.

(** ** Lemmas on [parse_qs] *)

Lemma qs_add_new (d : qsdict) (k v : pystr) : k ∉ d.*1 -> qs_add d k v = d ++ [(k, [v])].
Proof.
  induction d as [|[k' vs] d IH]; intros Hk; [done|]. simpl in *.
  rewrite decide_False by set_solver. rewrite IH by set_solver. done.
Qed.

Lemma qs_add_last (pre : qsdict) (k : pystr) (ws : list pystr) (v : pystr) :
  k ∉ pre.*1 -> qs_add (pre ++ [(k, ws)]) k v = pre ++ [(k, ws ++ [v])].
Proof.
  induction pre as [|[k' vs] pre IH]; intros Hk; simpl; [by rewrite decide_True|].
  simpl in Hk. rewrite decide_False by set_solver. rewrite IH by set_solver. done.
Qed.

Lemma qs_add_fold_vals (pre : qsdict) (k : pystr) (ws vs : list pystr) :
  k ∉ pre.*1 ->
  foldl (fun d nv => qs_add d nv.1 nv.2) (pre ++ [(k, ws)]) (map (fun v => (k, v)) vs) =
  pre ++ [(k, ws ++ vs)].
Proof.
  revert ws. induction vs as [|v vs IH]; intros ws Hk; simpl; [by rewrite app_nil_r|].
  rewrite qs_add_last, IH by done. by rewrite <- app_assoc.
Qed.

(** Folding [qs_add] over the items of a well-formed dictionary rebuilds
    it after the accumulator. *)
Lemma qs_items_fold (acc d : qsdict) :
  NoDup (acc.*1 ++ d.*1) -> Forall (fun kv => kv.2 <> []) d ->
  foldl (fun d nv => qs_add d nv.1 nv.2) acc (qs_items d) = acc ++ d.
Proof.
  intros Hnd Hne. revert acc Hnd. induction Hne as [|[k vs] d Hvs _ IH]; intros acc Hnd.
  - by rewrite app_nil_r.
  - destruct vs as [|v vs]; [done|]. simpl in Hnd.
    assert (Hk : k ∉ acc.*1).
    { intros Hin. apply NoDup_app in Hnd as (_ & Hdis & _). apply (Hdis k Hin). set_solver. }
    rewrite qs_items_cons. cbn [map app foldl fst snd]. rewrite foldl_app.
    rewrite qs_add_new, qs_add_fold_vals by done. rewrite IH.
    + by rewrite <- app_assoc.
    + rewrite fmap_app, <- app_assoc. done.
Qed.

Lemma qs_add_keys (d : qsdict) (k v : pystr) :
  (qs_add d k v).*1 = d.*1 ++ (if decide (k ∈ d.*1) then [] else [k]).
Proof.
  induction d as [|[k' vs] d IH]; [done|]. cbn [qs_add].
  destruct (decide (k' = k)) as [Hk|Hk].
  - subst. csimpl. rewrite decide_True by (constructor). by rewrite app_nil_r.
  - csimpl. rewrite IH.
    destruct (decide (k ∈ d.*1)), (decide (k ∈ k' :: d.*1)); [done| set_solver | set_solver | done].
Qed.

(** [qs_add] keeps the names distinct and every list of values
    non-empty. *)
Lemma qs_add_wf (d : qsdict) (k v : pystr) : qs_wf d -> qs_wf (qs_add d k v).
Proof.
  intros [Hnd Hne]. split.
  - rewrite qs_add_keys. case_decide; [by rewrite app_nil_r|].
    apply NoDup_app. split_and!; [done| set_solver | apply NoDup_singleton].
  - clear Hnd. induction Hne as [|[k' vs] d Hvs Hd IH]; simpl; [repeat constructor; done|].
    case_decide; constructor; simpl; auto;
      first [done | intros Happ; by apply app_eq_nil in Happ as [_ ?]].
Qed.

Lemma qs_lookup_cons (k k' : pystr) (vs : list pystr) (d : qsdict) :
  qs_lookup k ((k', vs) :: d) = if decide (k' = k) then Some vs else qs_lookup k d.
Proof.
  unfold qs_lookup. simpl. case_decide; [done|]. by destruct (list_find _ d) as [[]|].
Qed.

Lemma qs_lookup_add (k : pystr) (d : qsdict) (n v : pystr) :
  qs_lookup k (qs_add d n v) =
  if decide (n = k) then Some (default [] (qs_lookup k d) ++ [v]) else qs_lookup k d.
Proof.
  induction d as [|[k' vs] d IH].
  - cbn [qs_add]. rewrite (qs_lookup_cons k n [v] []). by case_decide.
  - cbn [qs_add]. rewrite (qs_lookup_cons k k' vs d).
    destruct (decide (k' = n)); rewrite qs_lookup_cons; [|rewrite IH];
      repeat case_decide; simplify_eq; done.
Qed.

(** The values of the pairs named [k], in order. *)
Definition qs_values (k : pystr) (l : list (pystr * pystr)) : list pystr :=
  (filter (fun nv => nv.1 = k) l).*2.

Lemma qs_lookup_fold (k : pystr) (acc : qsdict) (l : list (pystr * pystr)) :
  qs_lookup k (foldl (fun d nv => qs_add d nv.1 nv.2) acc l) =
  match qs_lookup k acc with
  | Some vs => Some (vs ++ qs_values k l)
  | None => if decide (qs_values k l = []) then None else Some (qs_values k l)
  end.
Proof.
  revert acc. induction l as [|[n v] l IH]; intros acc; simpl.
  - unfold qs_values. simpl. destruct (qs_lookup k acc); [by rewrite app_nil_r|done].
  - rewrite IH, qs_lookup_add. unfold qs_values. rewrite filter_cons. cbn [fst snd].
    destruct (decide (n = k)) as [Hn|Hn]; csimpl; [|done].
    destruct (qs_lookup k acc); simpl; [by rewrite <- app_assoc|done].
Qed.

(** ** Properties of [parse_qs] *)

(** The [dict] that [parse_qs] returns names each key once
    and gives each key at least one value. *)
Theorem parse_qs_wf (qs : pystr) : qs_wf (parse_qs qs).
Proof.
  unfold parse_qs. generalize (parse_qsl qs) as l.
  enough (forall acc l, qs_wf acc -> qs_wf (foldl (fun d nv => qs_add d nv.1 nv.2) acc l))
    by (intros l; apply H; split; constructor).
  intros acc l. revert acc. induction l as [|nv l IH]; intros acc Hacc; [done|].
  simpl. by apply IH, qs_add_wf.
Qed.

(** C28 (functional): [parse_qs(qs)[k]] is the list of the values of the
    pairs named [k] that [parse_qsl(qs)] returns, in their order, and [k]
    is missing when there are none. *)
Theorem parse_qs_lookup (qs k : pystr) :
  qs_lookup k (parse_qs qs) =
  if decide (qs_values k (parse_qsl qs) = []) then None else Some (qs_values k (parse_qsl qs)).
Proof. unfold parse_qs. by rewrite qs_lookup_fold. Qed.

(** C5 (roundtrip): [parse_qs(urlencode(d, doseq=True)) == d] for every
    dictionary [parse_qs] can return whose keys and values are strings of
    scalar values and whose values are not empty: the round trip the
    spec's testable properties name. *)
Theorem parse_qs_urlencode (d : qsdict) :
  qs_wf d ->
  Forall (fun kv => Forall is_scalar kv.1 /\
                    Forall (fun v => Forall is_scalar v /\ v <> []) kv.2) d ->
  exists q, urlencode d = Ok q /\ parse_qs q = d.
Proof.
  intros [Hnd Hne] Hd. eexists. split.
  - apply urlencode_ok. eapply Forall_impl; [exact Hd|].
    intros kv [Hk Hvs]. split; [done|]. eapply Forall_impl; [exact Hvs|]. naive_solver.
  - unfold parse_qs. rewrite parse_qsl_urlencoded.
    + exact (qs_items_fold [] d Hnd Hne).
    + apply (qs_items_Forall (fun k v => Forall is_scalar k /\ Forall is_scalar v /\ v <> [])).
      eapply Forall_impl; [exact Hd|]. intros kv [Hk Hvs].
      eapply Forall_impl; [exact Hvs|]. naive_solver.
Qed.

Lemma parse_qsl_field_blank (f : pystr) :
  ch_eq ∉ f \/ (exists n, ch_eq ∉ n /\ f = n ++ [ch_eq]) -> parse_qsl_field f = None.
Proof.
  unfold parse_qsl_field. case_decide; [done|]. intros [Hf | (n & Hn & ->)].
  - destruct (split_once_spec ch_eq f) as [[_ ->] | (a & b & -> & _ & _)]; [done|set_solver].
  - rewrite split_once_app by done. by rewrite decide_True.
Qed.

(** C11 (error): a field without ['='], or whose value is empty, adds
    nothing to the result of [parse_qs]: the field is dropped, where the
    spec says a malformed pair becomes a key with an empty list of
    values. *)
Theorem parse_qs_drops_blank (qs f : pystr) :
  ch_amp ∉ f -> ch_eq ∉ f \/ (exists n, ch_eq ∉ n /\ f = n ++ [ch_eq]) ->
  parse_qs (qs ++ ch_amp :: f) = parse_qs qs.
Proof.
  intros Hamp Hf. unfold parse_qs. rewrite !parse_qsl_split, split_sep_app_sep, (split_sep_free _ f) by done.
  rewrite omap_app. cbn. by rewrite parse_qsl_field_blank, app_nil_r.
Qed.

(** ** Witnesses *)

(** The mapping of the spec's round-trip property. *)
Definition spec_form : qsdict := [(⟪"a"⟫, [⟪"1"⟫]); (⟪"b"⟫, [⟪"2"⟫; ⟪"3"⟫])].

Lemma parse_qs_urlencode_witness :
  qs_wf spec_form /\
  Forall (fun kv => Forall is_scalar kv.1 /\
                    Forall (fun v => Forall is_scalar v /\ v <> []) kv.2) spec_form /\
  exists q, urlencode spec_form = Ok q /\ parse_qs q = spec_form.
Proof.
  assert (Hw : qs_wf spec_form) by (split; apply (bool_decide_unpack _); vm_compute; reflexivity).
  assert (Hs : Forall (fun kv => Forall is_scalar kv.1 /\
                  Forall (fun v => Forall is_scalar v /\ v <> []) kv.2) spec_form)
    by (apply (bool_decide_unpack _); vm_compute; reflexivity).
  split_and!; [exact Hw | exact Hs | exact (parse_qs_urlencode spec_form Hw Hs)].
Defined.

Lemma parse_qs_drops_blank_witness :
  ch_amp ∉ ⟪"b"⟫ /\ (ch_eq ∉ ⟪"b"⟫ \/ (exists n, ch_eq ∉ n /\ ⟪"b"⟫ = n ++ [ch_eq])) /\
  parse_qs (⟪"a=1"⟫ ++ ch_amp :: ⟪"b"⟫) = parse_qs ⟪"a=1"⟫.
Proof.
  assert (H1 : ch_amp ∉ ⟪"b"⟫) by (apply (bool_decide_unpack _); vm_compute; reflexivity).
  assert (H2 : ch_eq ∉ ⟪"b"⟫ \/ (exists n, ch_eq ∉ n /\ ⟪"b"⟫ = n ++ [ch_eq]))
    by (left; apply (bool_decide_unpack _); vm_compute; reflexivity).
  split_and!; [exact H1 | exact H2 | exact (parse_qs_drops_blank _ _ H1 H2)].
Defined.
