(* ===== verification/Json.v ===== *)
(** * [json.loads] as run by CPython's C scanner

    [test.py] calls [json.loads(body)] on a POST whose [CONTENT_TYPE]
    contains ["application/json"].  CPython 3.11 runs
    [json.decoder.JSONDecoder.decode], which skips white space, calls the
    C scanner of [Modules/_json.c] ([scan_once_unicode] and its helpers
    [scanstring_unicode], [_parse_object_unicode], [_parse_array_unicode],
    [_match_number_unicode]), skips white space again and raises
    ["Extra data"] when text is left.  A [StopIteration(idx)] of the
    scanner becomes ["Expecting value"] at [idx].

    Every scanner function takes the index [i] of the next character and
    the suffix [r] of the document that starts there, and returns the value
    read with the new index and suffix.  The recursion into arrays and
    objects is structural on [budget], the number of nested containers
    [_Py_EnterRecursiveCall] still admits (about 995 from [test.py]'s top
    level under the default limit of 1000); the loops over characters and
    over container items run on fuel, one unit per character, which is
    enough: more fuel gives the same result ([scan_string_fuel],
    [container_items_fuel]). *)

From S2P Require Import Prelude PyStr Unicode PyFloat PyRepr PyInt.

(** ** Errors *)

(** What the scanner raises: [StopIteration(idx)], [JSONDecodeError(msg,
    s, pos)], or another exception ([RecursionError], or the [ValueError]
    of [int()] on more than 4300 digits). *)
Inductive json_error :=
  | JStop (pos : nat)
  | JDecode (msg : pystr) (pos : nat)
  | JOther (e : pyexc).

Abbreviation scan_result := (result json_error (pyval * nat * pystr)).

(** [IS_WHITESPACE] *)
Definition json_ws (c : N) : bool := bool_decide (c = 32%N \/ c = 9%N \/ c = 10%N \/ c = 13%N).

(** [while (idx <= end_idx && IS_WHITESPACE(str[idx])) idx++;] *)
Fixpoint skip_ws (i : nat) (r : pystr) : nat * pystr :=
  match r with
  | c :: r' => if json_ws c then skip_ws (S i) r' else (i, r)
  | [] => (i, [])
  end.

(** ** Strings *)

(** Four hexadecimal digits of a [\uXXXX] escape. *)
Definition hex4 (h1 h2 h3 h4 : N) : option N :=
  a ← hexval h1; b ← hexval h2; c ← hexval h3; d ← hexval h4;
  Some (((a * 16 + b) * 16 + c) * 16 + d)%N.

Definition is_high_surrogate (c : N) : bool := bool_decide (0xD800 <= c <= 0xDBFF)%N.
Definition is_low_surrogate (c : N) : bool := bool_decide (0xDC00 <= c <= 0xDFFF)%N.

(** [Py_UNICODE_JOIN_SURROGATES] *)
Definition join_surrogates (hi lo : N) : N := (0x10000 + (hi - 0xD800) * 1024 + (lo - 0xDC00))%N.

(** The simple escapes: a backslash followed by a double quote, a
    backslash, a slash, or one of [b f n r t]. *)
Definition simple_escape (e : N) : option N :=
  if decide (e = 34%N) then Some 34%N
  else if decide (e = 92%N) then Some 92%N
  else if decide (e = 47%N) then Some 47%N
  else if decide (e = 98%N) then Some 8%N
  else if decide (e = 102%N) then Some 12%N
  else if decide (e = 110%N) then Some 10%N
  else if decide (e = 114%N) then Some 13%N
  else if decide (e = 116%N) then Some 9%N
  else None.

Definition unterminated (begin : nat) : json_error :=
  JDecode ⟪"Unterminated string starting at"⟫ begin.
Definition bad_u_escape (pos : nat) : json_error := JDecode ⟪"Invalid \uXXXX escape"⟫ pos.

(** [scanstring_unicode] with [strict=True]: [begin] is the index of the
    opening quote, [i] the index of [r]'s head, [acc] the characters
    decoded so far.  A [\uXXXX] escape needs one more character after its
    digits ([end >= len] is an error); a high surrogate is joined with a
    following [\uXXXX] low surrogate when at least seven characters follow
    it, and is kept alone otherwise. *)
Fixpoint scan_string (fuel begin i : nat) (r acc : pystr)
    : result json_error (pystr * nat * pystr) :=
  match fuel with
  | O => Error (unterminated begin)
  | S f =>
      match r with
      | [] => Error (unterminated begin)
      | c :: r1 =>
          if decide (c = 34%N) then Ok (acc, S i, r1)
          else if decide (c = 92%N) then
            match r1 with
            | [] => Error (unterminated begin)
            | e :: r2 =>
                if decide (e = 117%N) then
                  match r2 with
                  | h1 :: h2 :: h3 :: h4 :: r3 =>
                      if decide (r3 = []) then Error (bad_u_escape (S i)) else
                      match hex4 h1 h2 h3 h4 with
                      | None => Error (bad_u_escape (S i))
                      | Some u =>
                          if is_high_surrogate u && bool_decide (6 < length r3)%nat
                             && bool_decide (take 2 r3 = [92%N; 117%N])
                          then
                            match drop 2 r3 with
                            | g1 :: g2 :: g3 :: g4 :: r4 =>
                                match hex4 g1 g2 g3 g4 with
                                | None => Error (bad_u_escape (i + 7))
                                | Some u2 =>
                                    if is_low_surrogate u2
                                    then scan_string f begin (i + 12) r4 (acc ++ [join_surrogates u u2])
                                    else scan_string f begin (i + 6) r3 (acc ++ [u])
                                end
                            | _ => Error (bad_u_escape (i + 7))
                            end
                          else scan_string f begin (i + 6) r3 (acc ++ [u])
                      end
                  | _ => Error (bad_u_escape (S i))
                  end
                else match simple_escape e with
                     | Some c' => scan_string f begin (i + 2) r2 (acc ++ [c'])
                     | None => Error (JDecode ⟪"Invalid \escape"⟫ i)
                     end
            end
          else if decide (c <= 0x1F)%N then Error (JDecode ⟪"Invalid control character at"⟫ i)
          else scan_string f begin (S i) r1 (acc ++ [c])
      end
  end.

(** ** Numbers *)

Definition is_digit (c : N) : bool := bool_decide (48 <= c <= 57)%N.

(** The longest run of digits at the head of [r], and what follows it. *)
Fixpoint span_digits (r : pystr) : pystr * pystr :=
  match r with
  | c :: r' => if is_digit c then let '(ds, r'') := span_digits r' in (c :: ds, r'') else ([], r)
  | [] => ([], [])
  end.

(** The optional fraction: a ['.'] followed by at least one digit. *)
Definition match_frac (r : pystr) : pystr * pystr :=
  match r with
  | 46%N :: d :: r' =>
      if is_digit d then let '(ds, r'') := span_digits r' in (46%N :: d :: ds, r'') else ([], r)
  | _ => ([], r)
  end.

(** The optional exponent: ['e'] or ['E'] with at least one character
    after it, a sign read only when a character follows it, and at least
    one digit; otherwise the scanner backtracks to the ['e']. *)
Definition match_exp_sign (r1 : pystr) : pystr * pystr :=
  match r1 with
  | s :: ((_ :: _) as r2) => if decide (s = 45%N \/ s = 43%N) then ([s], r2) else ([], r1)
  | _ => ([], r1)
  end.

Definition match_exp (r : pystr) : pystr * pystr :=
  match r with
  | e :: (_ :: _) as r1 =>
      if decide (e = 101%N \/ e = 69%N) then
        let '(sg, r2) := match_exp_sign r1 in
        let '(ds, r3) := span_digits r2 in
        if decide (ds = []) then ([], r) else (e :: sg ++ ds, r3)
      else ([], r)
  | _ => ([], r)
  end.

Definition too_many_digits (n : nat) : json_error := JOther (Exc EValueError (max_digits_msg n)).

(** The optional minus sign. *)
Definition match_sign (r : pystr) : pystr * pystr :=
  match r with 45%N :: r1 => ([45%N], r1) | _ => ([], r) end.

(** The integer part: ['0'], or a digit from ['1'] to ['9'] followed by
    any digits. *)
Definition match_int (r1 : pystr) : option (pystr * pystr) :=
  match r1 with
  | c :: r2 =>
      if decide (49 <= c <= 57)%N then Some (let '(ds, r3) := span_digits r2 in (c :: ds, r3))
      else if decide (c = 48%N) then Some ([c], r2)
      else None
  | [] => None
  end.

(** [float(numstr)] on the matched text: the digits of the integer part
    and of the fraction make the mantissa, the exponent is shifted by the
    length of the fraction, and [_Py_dg_strtod] rounds. *)
Definition digit_values (ds : pystr) : list N := map (fun c => c - 48)%N ds.

(** The value of the exponent part ["e"], sign, digits; zero without one. *)
Definition exp_value (ep : pystr) : Z :=
  match drop 1 ep with
  | 45%N :: ds => (- Z.of_N (dec_value (digit_values ds)))%Z
  | 43%N :: ds => Z.of_N (dec_value (digit_values ds))
  | ds => Z.of_N (dec_value (digit_values ds))
  end.

(** The number as digits [n] and a decimal exponent [e10]. *)
Definition number_decimal (ip fp ep : pystr) : Z * Z :=
  let fds := drop 1 fp in
  (Z.of_N (dec_value (digit_values (ip ++ fds))), (exp_value ep - Z.of_nat (length fds))%Z).

Definition float_of_number (sg ip fp ep : pystr) : pyfloat :=
  let '(n, e10) := number_decimal ip fp ep in round_decimal (bool_decide (sg = [45%N])) n e10.

(** [_match_number_unicode]: a number at index [i]; [StopIteration(i)]
    when there is none.  An integer goes through [PyLong_FromString]
    (which refuses more than 4300 digits); a number with a fraction or an
    exponent becomes a float ([float_of_number]). *)
Definition match_number (i : nat) (r : pystr) : scan_result :=
  let '(sg, r1) := match_sign r in
  match match_int r1 with
  | None => Error (JStop i)
  | Some (ip, r3) =>
      let '(fp, r4) := match_frac r3 in
      let '(ep, r5) := match_exp r4 in
      let text := sg ++ ip ++ fp ++ ep in
      let j := (i + length text)%nat in
      if decide (fp = [] /\ ep = []) then
        match long_from_string text with
        | LOk z => Ok (PInt z, j, r5)
        | LTooManyDigits n => Error (too_many_digits n)
        | LInvalid => Error (JStop i)
        end
      else Ok (PFloat (float_of_number sg ip fp ep), j, r5)
  end.

(** ** Arrays and objects *)

Definition rec_error (what : pystr) : json_error :=
  JOther (Exc ERecursionError
    (⟪"maximum recursion depth exceeded while decoding a JSON "⟫ ++ what ++ ⟪" from a unicode string"⟫)).

(** [PyDict_SetItem]: a new key goes last, an existing key keeps its place
    and takes the new value. *)
Fixpoint dict_set (kvs : list (pystr * pyval)) (k : pystr) (v : pyval) : list (pystr * pyval) :=
  match kvs with
  | [] => [(k, v)]
  | (k', v') :: kvs' => if decide (k' = k) then (k', v) :: kvs' else (k', v') :: dict_set kvs' k v
  end.

Section containers.
(** The scanner for the items, one nesting level down. *)
Context (scan : nat -> pystr -> scan_result).

(** The loop of [_parse_array_unicode] from an item on; [acc] holds the
    items read, in reverse. *)
Fixpoint array_items (fuel : nat) (i : nat) (r : pystr) (acc : list pyval) : scan_result :=
  match fuel with
  | O => Error (JStop i)
  | S f =>
      '(v, i1, r1) ← scan i r;
      let '(i2, r2) := skip_ws i1 r1 in
      match r2 with
      | c :: r3 =>
          if decide (c = 93%N) then Ok (PList (rev (v :: acc)), S i2, r3)
          else if decide (c = 44%N) then
            let '(i4, r4) := skip_ws (S i2) r3 in array_items f i4 r4 (v :: acc)
          else Error (JDecode ⟪"Expecting ',' delimiter"⟫ i2)
      | [] => Error (JDecode ⟪"Expecting ',' delimiter"⟫ i2)
      end
  end.

(** [_parse_array_unicode] after the ['[']. *)
Definition parse_array (i : nat) (r : pystr) : scan_result :=
  let '(i1, r1) := skip_ws i r in
  if decide (head r1 = Some 93%N) then Ok (PList [], S i1, tail r1)
  else array_items (S (length r1)) i1 r1 [].

(** The loop of [_parse_object_unicode] from a key on. *)
Fixpoint object_items (fuel : nat) (i : nat) (r : pystr) (acc : list (pystr * pyval))
    : scan_result :=
  match fuel with
  | O => Error (JStop i)
  | S f =>
      match r with
      | q :: r1 =>
          if decide (q <> 34%N)
          then Error (JDecode ⟪"Expecting property name enclosed in double quotes"⟫ i) else
          '(k, i2, r2) ← scan_string (S (length r1)) i (S i) r1 [];
          let '(i3, r3) := skip_ws i2 r2 in
          match r3 with
          | c :: r4 =>
              if decide (c <> 58%N) then Error (JDecode ⟪"Expecting ':' delimiter"⟫ i3) else
              let '(i5, r5) := skip_ws (S i3) r4 in
              '(v, i6, r6) ← scan i5 r5;
              let acc' := dict_set acc k v in
              let '(i7, r7) := skip_ws i6 r6 in
              match r7 with
              | c' :: r8 =>
                  if decide (c' = 125%N) then Ok (PDict acc', S i7, r8)
                  else if decide (c' = 44%N) then
                    let '(i9, r9) := skip_ws (S i7) r8 in object_items f i9 r9 acc'
                  else Error (JDecode ⟪"Expecting ',' delimiter"⟫ i7)
              | [] => Error (JDecode ⟪"Expecting ',' delimiter"⟫ i7)
              end
          | [] => Error (JDecode ⟪"Expecting ':' delimiter"⟫ i3)
          end
      | [] => Error (JDecode ⟪"Expecting property name enclosed in double quotes"⟫ i)
      end
  end.

(** [_parse_object_unicode] after the ['{']. *)
Definition parse_object (i : nat) (r : pystr) : scan_result :=
  let '(i1, r1) := skip_ws i r in
  if decide (head r1 = Some 125%N) then Ok (PDict [], S i1, tail r1)
  else object_items (S (length r1)) i1 r1 [].
End containers.

(** ** The scanner and [json.loads] *)

(** The other cases of [scan_once_unicode]: the constants [null], [true],
    [false], [NaN], [Infinity] and [-Infinity], and otherwise a number. *)
Definition scan_literal (i : nat) (r : pystr) : scan_result :=
  if decide (⟪"null"⟫ `prefix_of` r) then Ok (PNone, i + 4, drop 4 r)
  else if decide (⟪"true"⟫ `prefix_of` r) then Ok (PBool true, i + 4, drop 4 r)
  else if decide (⟪"false"⟫ `prefix_of` r) then Ok (PBool false, i + 5, drop 5 r)
  else if decide (⟪"NaN"⟫ `prefix_of` r) then Ok (PFloat FNaN, i + 3, drop 3 r)
  else if decide (⟪"Infinity"⟫ `prefix_of` r) then Ok (PFloat FInf, i + 8, drop 8 r)
  else if decide (⟪"-Infinity"⟫ `prefix_of` r) then Ok (PFloat FNegInf, i + 9, drop 9 r)
  else match_number i r.

(** [scan_once_unicode]: [budget] is the number of containers that may
    still be opened before [_Py_EnterRecursiveCall] raises. *)
Fixpoint scan_once (budget : nat) (i : nat) (r : pystr) {struct budget} : scan_result :=
  match r with
  | [] => Error (JStop i)
  | c :: r1 =>
      if decide (c = 34%N) then
        '(s, i1, r2) ← scan_string (S (length r1)) i (S i) r1 []; Ok (PStr s, i1, r2)
      else if decide (c = 123%N) then
        match budget with
        | O => Error (rec_error ⟪"object"⟫)
        | S b => parse_object (scan_once b) (S i) r1
        end
      else if decide (c = 91%N) then
        match budget with
        | O => Error (rec_error ⟪"array"⟫)
        | S b => parse_array (scan_once b) (S i) r1
        end
      else scan_literal i r
  end.

(** [JSONDecodeError.__init__]: [lineno = doc.count('\n', 0, pos) + 1],
    [colno = pos - doc.rfind('\n', 0, pos)]. *)
Definition err_lineno (doc : pystr) (pos : nat) : nat :=
  S (length (filter (fun c => c = 10%N) (take pos doc))).

Definition err_colno (doc : pystr) (pos : nat) : nat :=
  match list_find (fun c => c = 10%N) (rev (take pos doc)) with
  | Some (k, _) => S k
  | None => S pos
  end.

Definition json_error_message (msg doc : pystr) (pos : nat) : pystr :=
  msg ++ ⟪": line "⟫ ++ N_to_dec (N.of_nat (err_lineno doc pos))
      ++ ⟪" column "⟫ ++ N_to_dec (N.of_nat (err_colno doc pos))
      ++ ⟪" (char "⟫ ++ N_to_dec (N.of_nat pos) ++ ⟪")"⟫.

Definition to_pyexc (doc : pystr) (e : json_error) : pyexc :=
  match e with
  | JStop pos => Exc EJSONDecodeError (json_error_message ⟪"Expecting value"⟫ doc pos)
  | JDecode msg pos => Exc EJSONDecodeError (json_error_message msg doc pos)
  | JOther e => e
  end.

(** [JSONDecoder.decode]: [raw_decode] after the leading white space,
    then ["Extra data"] unless only white space is left. *)
Definition json_decode (budget : nat) (doc : pystr) : result json_error pyval :=
  let '(i0, r0) := skip_ws 0 doc in
  '(v, i1, r1) ← scan_once budget i0 r0;
  let '(i2, r2) := skip_ws i1 r1 in
  if decide (r2 = []) then Ok v else Error (JDecode ⟪"Extra data"⟫ i2).

(** [json.loads(s)] for a [str]: a leading U+FEFF is refused. *)
Definition json_loads (budget : nat) (doc : pystr) : result pyexc pyval :=
  if decide (head doc = Some 0xFEFF%N) then
    Error (Exc EJSONDecodeError
             (json_error_message ⟪"Unexpected UTF-8 BOM (decode using utf-8-sig)"⟫ doc 0))
  else match json_decode budget doc with
       | Ok v => Ok v
       | Error e => Error (to_pyexc doc e)
       end.


(** ** The scanner's index invariant

    Every scanner function is given the index [i] of the head of the
    suffix [r]; on success it returns an index and a suffix of [r] that
    still agree ([i' + length r' = i + length r]), and every position it
    reports in an error lies in the document ([<= i + length r]). *)

Definition err_within (n : nat) (e : json_error) : Prop :=
  match e with
  | JStop p | JDecode _ p => (p <= n)%nat
  | JOther _ => True
  end.

Definition consistent {A} (i : nat) (r : pystr) (res : result json_error (A * nat * pystr)) : Prop :=
  match res with
  | Ok (_, i', r') => (i' + length r' = i + length r)%nat /\ r' `suffix_of` r
  | Error e => err_within (i + length r) e
  end.

(** A successful scan consumes at least one character. *)
Definition progress {A} (r : pystr) (res : result json_error (A * nat * pystr)) : Prop :=
  match res with
  | Ok (_, _, r') => (length r' < length r)%nat
  | Error _ => True
  end.

Lemma skip_ws_spec (i : nat) (r : pystr) :
  let '(i', r') := skip_ws i r in
  (i' + length r' = i + length r)%nat /\ r' `suffix_of` r /\ (i <= i')%nat.
Proof.
  revert i. induction r as [|c r IH]; intros i; simpl; [done|].
  destruct (json_ws c); [|split_and!; [done | done | lia]].
  specialize (IH (S i)). destruct (skip_ws (S i) r) as [i' r'].
  destruct IH as (H1 & H2 & H3). split_and!; [simpl in *; lia | by apply suffix_cons_r | lia].
Qed.

Ltac skip_ws_in i r :=
  let H := fresh "Hws" in
  pose proof (skip_ws_spec i r) as H;
  let i' := fresh "i" in let r' := fresh "r" in
  destruct (skip_ws i r) as [i' r'].

Definition scanned {A} (i : nat) (r : pystr) (res : result json_error (A * nat * pystr)) : Prop :=
  consistent i r res /\ progress r res.

Ltac suffix_tac := first [done | apply suffix_cons_r; suffix_tac].

Lemma consistent_weaken {A} (i : nat) (r : pystr) (j : nat) (r0 : pystr) (res : result json_error (A * nat * pystr)) :
  (j + length r0 = i + length r)%nat -> r0 `suffix_of` r -> consistent j r0 res -> consistent i r res.
Proof.
  intros Hj Hs. destruct res as [[[v i'] r']|e]; simpl.
  - intros [H1 H2]. split; [lia | by trans r0].
  - destruct e; simpl; lia || done.
Qed.

Lemma scanned_weaken {A} (i : nat) (r : pystr) (j : nat) (r0 : pystr) (res : result json_error (A * nat * pystr)) :
  (j + length r0 = i + length r)%nat -> r0 `suffix_of` r -> (length r0 <= length r)%nat ->
  scanned j r0 res -> scanned i r res.
Proof.
  intros Hj Hs Hl [Hc Hp]. split; [by eapply consistent_weaken|].
  destruct res as [[[v i'] r']|e]; simpl in *; lia || done.
Qed.

Lemma scanned_error {A} (i : nat) (r : pystr) (e : json_error) :
  err_within (i + length r) e -> scanned (A := A) i r (Error e).
Proof. done. Qed.

Ltac scan_leaf IH :=
  first [ apply scanned_error; simpl; lia
        | unfold scanned, consistent, progress; simpl; split; [split; [lia | suffix_tac] | lia]
        | eapply scanned_weaken; [ | | | apply IH]; simpl; first [lia | suffix_tac] ].

(** [scanstring_unicode] keeps the index invariant, reports errors inside
    the document and consumes at least the closing quote. *)
Lemma scan_string_scanned (fuel begin i : nat) (r acc : pystr) :
  (begin <= i)%nat -> scanned i r (scan_string fuel begin i r acc).
Proof.
  revert i r acc. induction fuel as [|f IH]; intros i r acc Hb; [apply scanned_error; simpl; lia|].
  destruct r as [|c r1]; cbn [scan_string]; [apply scanned_error; simpl; lia|].
  case_decide; [scan_leaf IH|]. case_decide; [|case_decide; scan_leaf IH].
  destruct r1 as [|e r2]; [scan_leaf IH|]. case_decide.
  - destruct r2 as [|h1 [|h2 [|h3 [|h4 r3]]]]; try scan_leaf IH.
    case_decide; [scan_leaf IH|]. destruct (hex4 h1 h2 h3 h4) as [u|]; [|scan_leaf IH].
    destruct (is_high_surrogate u && _ && _) eqn:Hhs; [|scan_leaf IH].
    rewrite !andb_true_iff, !bool_decide_eq_true in Hhs. destruct Hhs as [[_ Hlen] _].
    destruct r3 as [|x3 [|y3 r3']]; simpl in Hlen; [lia|lia|]. cbn [drop].
    destruct r3' as [|g1 [|g2 [|g3 [|g4 r4]]]]; simpl in Hlen; try lia. cbn [drop].
    destruct (hex4 g1 g2 g3 g4) as [u2|]; [|scan_leaf IH].
    destruct (is_low_surrogate u2); scan_leaf IH.
  - destruct (simple_escape e); scan_leaf IH.
Qed.

Lemma span_digits_app (r : pystr) : let '(ds, r') := span_digits r in r = ds ++ r'.
Proof.
  induction r as [|c r IH]; simpl; [done|]. destruct (is_digit c); simpl; [|done].
  destruct (span_digits r). simpl. by f_equal.
Qed.

Ltac span_tac :=
  match goal with
  | H : span_digits ?x = _ |- _ =>
      let Hs := fresh in pose proof (span_digits_app x) as Hs; rewrite H in Hs; subst x;
      simpl; rewrite ?app_comm_cons, <- ?app_assoc; done
  end.


Lemma match_sign_app (r : pystr) : let '(sg, r1) := match_sign r in r = sg ++ r1.
Proof. unfold match_sign. by repeat case_match; simplify_eq. Qed.

Lemma match_int_app (r : pystr) ip r' :
  match_int r = Some (ip, r') -> r = ip ++ r' /\ ip <> [].
Proof.
  unfold match_int. destruct r as [|c r]; [done|].
  pose proof (span_digits_app r). destruct (span_digits r) as [ds r3].
  repeat case_decide; intros [= <- <-]; subst; done.
Qed.

Lemma match_frac_app (r : pystr) : let '(fp, r') := match_frac r in r = fp ++ r'.
Proof.
  unfold match_frac. repeat case_match; simplify_eq; try done. span_tac.
Qed.

Lemma match_exp_sign_app (r : pystr) : let '(sg, r2) := match_exp_sign r in r = sg ++ r2.
Proof. unfold match_exp_sign. by repeat case_match; simplify_eq. Qed.

Lemma match_exp_app (r : pystr) : let '(ep, r') := match_exp r in r = ep ++ r'.
Proof.
  unfold match_exp. destruct r as [|e [|c r1]]; try done. case_decide; [|done].
  pose proof (match_exp_sign_app (c :: r1)) as Hsg. destruct (match_exp_sign (c :: r1)) as [sg r2].
  pose proof (span_digits_app r2) as Hds. destruct (span_digits r2) as [ds r3].
  case_decide; [done|]. rewrite Hsg, Hds. simpl. by rewrite <- app_assoc.
Qed.

Lemma match_number_scanned (i : nat) (r : pystr) : scanned i r (match_number i r).
Proof.
  unfold match_number.
  pose proof (match_sign_app r) as Hsg. destruct (match_sign r) as [sg r1].
  destruct (match_int r1) as [[ip r3]|] eqn:Ei; [|apply scanned_error; simpl; lia].
  apply match_int_app in Ei as [-> Hip].
  pose proof (match_frac_app r3) as Hfp. destruct (match_frac r3) as [fp r4].
  pose proof (match_exp_app r4) as Hep. destruct (match_exp r4) as [ep r5]. subst.
  assert (Hlen : length ip <> 0%nat) by (by destruct ip).
  assert (Hok : forall v : pyval,
             scanned (A := pyval) i (sg ++ ip ++ fp ++ ep ++ r5)
                     (Ok (v, (i + length (sg ++ ip ++ fp ++ ep))%nat, r5))).
  { intros v. unfold scanned, consistent, progress. rewrite !length_app.
    split_and!; [lia | exists (sg ++ ip ++ fp ++ ep); by rewrite <- !app_assoc | lia]. }
  case_decide; [|apply Hok].
  destruct (long_from_string _); [apply Hok | apply scanned_error; simpl; lia | done].
Qed.

(** A scan that starts further on, at a shorter suffix, keeps the
    invariant relative to the earlier position. *)
Lemma scanned_after {A} (i : nat) (r : pystr) (j : nat) (r0 : pystr)
    (res : result json_error (A * nat * pystr)) :
  (j + length r0 = i + length r)%nat -> r0 `suffix_of` r -> (length r0 < length r)%nat ->
  consistent j r0 res -> scanned i r res.
Proof.
  intros Hj Hs Hl Hc. split; [by eapply consistent_weaken|].
  destruct res as [[[v i'] r']|e]; simpl in *; [|done].
  destruct Hc as [_ Hsuf]. apply suffix_length in Hsuf. lia.
Qed.

Lemma scanned_consistent {A} (i : nat) (r : pystr) (res : result json_error (A * nat * pystr)) :
  scanned i r res -> consistent i r res.
Proof. by intros []. Qed.

(** Unpack the invariant of a scan that succeeded. *)
Lemma scanned_Ok {A} (i : nat) (r : pystr) (v : A) (i' : nat) (r' : pystr) :
  scanned i r (Ok (v, i', r')) ->
  (i' + length r' = i + length r)%nat /\ r' `suffix_of` r /\ (length r' < length r)%nat.
Proof. by intros [[? ?] ?]. Qed.

Ltac ws_facts i r i' r' :=
  let H := fresh "Hws" in
  pose proof (skip_ws_spec i r) as H;
  destruct (skip_ws i r) as [i' r']; destruct H as (? & ? & ?).

Ltac solve_suffix :=
  first [ done
        | apply suffix_cons_r; solve_suffix
        | match goal with
          | H : ?x `suffix_of` ?y |- ?x `suffix_of` _ => trans y; [exact H | solve_suffix]
          end ].

Ltac chain jj rr :=
  eapply consistent_weaken with (j := jj) (r0 := rr); [simpl in *; lia | solve_suffix |].

Section containers_scanned.
Context (scan : nat -> pystr -> scan_result).
Hypothesis Hscan : forall i r, scanned i r (scan i r).

Lemma array_items_scanned (fuel i : nat) (r : pystr) (acc : list pyval) :
  consistent i r (array_items scan fuel i r acc).
Proof using Hscan.
  revert i r acc. induction fuel as [|f IH]; intros i r acc; simpl; [lia|].
  pose proof (Hscan i r) as Hs. destruct (scan i r) as [[[v i1] r1]|e]; [|apply Hs]. simpl.
  apply scanned_Ok in Hs as (Hs1 & Hs2 & Hs3).
  ws_facts i1 r1 i2 r2. destruct r2 as [|c r3]; [simpl in *; lia|].
  chain i2 (c :: r3).
  case_decide; [simpl; split; [lia | suffix_tac]|].
  case_decide; [|simpl; lia].
  ws_facts (S i2) r3 i4 r4. chain i4 r4. apply IH.
Qed.

Lemma parse_array_scanned (i : nat) (r : pystr) : consistent i r (parse_array scan i r).
Proof using Hscan.
  unfold parse_array. ws_facts i r i1 r1. chain i1 r1.
  case_decide as Hh; [|apply array_items_scanned].
  destruct r1 as [|c r2]; [done|]. simpl. split; [lia | suffix_tac].
Qed.
Lemma object_items_scanned (fuel i : nat) (r : pystr) (acc : list (pystr * pyval)) :
  consistent i r (object_items scan fuel i r acc).
Proof using Hscan.
  revert i r acc. induction fuel as [|f IH]; intros i r acc; cbn [object_items]; [simpl; lia|].
  destruct r as [|q r1]; [simpl; lia|]. case_decide; [simpl; lia|].
  pose proof (scan_string_scanned (S (length r1)) i (S i) r1 [] ltac:(lia)) as Hs.
  destruct (scan_string _ _ _ _ _) as [[[k i2] r2]|e];
    [|destruct Hs as [Hc _]; destruct e; simpl in *; first [lia | done]].
  apply scanned_Ok in Hs as (? & ? & ?). simpl.
  ws_facts i2 r2 i3 r3. destruct r3 as [|c r4]; [simpl in *; lia|].
  chain i3 (c :: r4). case_decide; [simpl; lia|].
  ws_facts (S i3) r4 i5 r5.
  pose proof (Hscan i5 r5) as Hv. destruct (scan i5 r5) as [[[v i6] r6]|e].
  2: { chain i5 r5. apply Hv. }
  apply scanned_Ok in Hv as (? & ? & ?). simpl.
  ws_facts i6 r6 i7 r7. destruct r7 as [|c' r8]; [simpl in *; lia|].
  chain i7 (c' :: r8). case_decide; [simpl; split; [lia | suffix_tac]|].
  case_decide; [|simpl; lia].
  ws_facts (S i7) r8 i9 r9. chain i9 r9. apply IH.
Qed.

Lemma parse_object_scanned (i : nat) (r : pystr) : consistent i r (parse_object scan i r).
Proof using Hscan.
  unfold parse_object. ws_facts i r i1 r1. chain i1 r1.
  case_decide as Hh; [|apply object_items_scanned].
  destruct r1 as [|c r2]; [done|]. simpl. split; [lia | suffix_tac].
Qed.

(** Each turn of the loop of [_parse_array_unicode] consumes an item and a
    comma, so fuel beyond the length of the text never runs out. *)
Lemma array_items_fuel (f1 f2 i : nat) (r : pystr) (acc : list pyval) :
  (length r < f1)%nat -> (length r < f2)%nat ->
  array_items scan f1 i r acc = array_items scan f2 i r acc.
Proof using Hscan.
  revert f2 i r acc. induction f1 as [|f1 IH]; intros [|f2] i r acc H1 H2; try lia. cbn [array_items].
  pose proof (Hscan i r) as Hs. destruct (scan i r) as [[[v i1] r1]|e]; [|done]. simpl.
  apply scanned_Ok in Hs as (_ & _ & Hs).
  ws_facts i1 r1 i2 r2. destruct r2 as [|c r3]; [done|].
  case_decide; [done|]. case_decide; [|done].
  ws_facts (S i2) r3 i4 r4. apply IH; simpl in *; lia.
Qed.

(** The same for [_parse_object_unicode]: each turn consumes a key, a
    colon, a value and a comma. *)
Lemma object_items_fuel (f1 f2 i : nat) (r : pystr) (acc : list (pystr * pyval)) :
  (length r < f1)%nat -> (length r < f2)%nat ->
  object_items scan f1 i r acc = object_items scan f2 i r acc.
Proof using Hscan.
  revert f2 i r acc. induction f1 as [|f1 IH]; intros [|f2] i r acc H1 H2; try lia. cbn [object_items].
  destruct r as [|q r1]; [done|]. case_decide; [done|].
  pose proof (scan_string_scanned (S (length r1)) i (S i) r1 [] ltac:(lia)) as Hk.
  destruct (scan_string _ _ _ _ _) as [[[k i2] r2]|e]; [|done]. simpl.
  apply scanned_Ok in Hk as (_ & _ & Hk).
  ws_facts i2 r2 i3 r3. destruct r3 as [|c r4]; [done|]. case_decide; [done|].
  ws_facts (S i3) r4 i5 r5.
  pose proof (Hscan i5 r5) as Hv. destruct (scan i5 r5) as [[[v i6] r6]|e]; [|done]. simpl.
  apply scanned_Ok in Hv as (_ & _ & Hv).
  ws_facts i6 r6 i7 r7. destruct r7 as [|c' r8]; [done|].
  case_decide; [done|]. case_decide; [|done].
  ws_facts (S i7) r8 i9 r9. apply IH; simpl in *; lia.
Qed.
End containers_scanned.

Lemma prefix_scanned {A} (v : A) (p : pystr) (i n : nat) (r : pystr) :
  p `prefix_of` r -> length p = n -> (0 < n)%nat -> scanned i r (Ok (v, (i + n)%nat, drop n r)).
Proof.
  intros [k ->] <- Hp. rewrite drop_app_length. unfold scanned, consistent, progress.
  rewrite length_app. destruct p as [|x p]; [simpl in Hp; lia|]. simpl. split_and!; [lia | by exists (x :: p) | lia].
Qed.

Lemma scan_literal_scanned (i : nat) (r : pystr) : scanned i r (scan_literal i r).
Proof.
  unfold scan_literal.
  repeat (case_decide as Hp; [apply (prefix_scanned _ _ _ _ _ Hp); [vm_compute; reflexivity | lia]|]; clear Hp).
  apply match_number_scanned.
Qed.

Lemma string_value_scanned (i : nat) (c : N) (r1 : pystr) :
  scanned i (c :: r1)
    ('(s, i1, r2) ← scan_string (S (length r1)) i (S i) r1 []; Ok (PStr s, i1, r2)).
Proof.
  pose proof (scan_string_scanned (S (length r1)) i (S i) r1 [] ltac:(lia)) as Hs.
  destruct (scan_string _ _ _ _ _) as [[[s' i1] r2]|e].
  - apply scanned_Ok in Hs as (? & ? & ?). unfold scanned, consistent, progress. simpl.
    split_and!; [lia | solve_suffix | lia].
  - destruct Hs as [Hc _]. apply scanned_error. destruct e; simpl in *; first [lia | done].
Qed.

Lemma container_scanned (i : nat) (c : N) (r1 : pystr) (res : scan_result) :
  consistent (S i) r1 res -> scanned i (c :: r1) res.
Proof. apply scanned_after; simpl; [lia | solve_suffix | lia]. Qed.

(** [scan_once_unicode] keeps the invariant at every nesting depth. *)
Lemma scan_once_scanned (budget i : nat) (r : pystr) : scanned i r (scan_once budget i r).
Proof.
  revert i r. induction budget as [|b IH]; intros i r;
    (destruct r as [|c r1]; [apply scanned_error; simpl; lia|]); cbn [scan_once].
  all: case_decide; [apply string_value_scanned|].
  all: case_decide; [first [by apply scanned_error | by apply container_scanned, parse_object_scanned]|].
  all: case_decide; [first [by apply scanned_error | by apply container_scanned, parse_array_scanned]|].
  all: apply scan_literal_scanned.
Qed.

(** C31 (termination): the loop of [scanstring_unicode] never runs out of
    fuel before the end of the document: any two amounts of fuel larger
    than the length of the rest of the document give the same result, so
    the [S (length r)] that [scan_once] passes is enough, and the
    [Unterminated string] error the model returns is the one CPython
    raises at the end of the text, not an artefact of the bound. *)
Theorem scan_string_fuel (f1 f2 begin i : nat) (r acc : pystr) :
  (length r < f1)%nat -> (length r < f2)%nat ->
  scan_string f1 begin i r acc = scan_string f2 begin i r acc.
Proof.
  revert f2 begin i r acc. induction f1 as [|f1 IH]; intros [|f2] begin i r acc H1 H2; try lia.
  cbn [scan_string]. repeat (case_match || case_decide); subst; try done;
    apply IH; repeat match goal with
                     | H : drop _ _ = _ |- _ => apply (f_equal length) in H; rewrite length_drop in H
                     end; simpl in *; lia.
Qed.

(** C32 (termination): the loops of [_parse_array_unicode] and
    [_parse_object_unicode] never run out of fuel either: at every nesting
    depth, any two amounts of fuel larger than the length of the rest of
    the document give the same result, so the [S (length r)] that
    [parse_array] and [parse_object] pass is enough and every error the
    model returns from a container is one CPython raises. *)
Theorem container_items_fuel (budget f1 f2 i : nat) (r : pystr) (acc : list pyval)
    (kvs : list (pystr * pyval)) :
  (length r < f1)%nat -> (length r < f2)%nat ->
  array_items (scan_once budget) f1 i r acc = array_items (scan_once budget) f2 i r acc /\
  object_items (scan_once budget) f1 i r kvs = object_items (scan_once budget) f2 i r kvs.
Proof.
  intros H1 H2. split; [apply array_items_fuel | apply object_items_fuel];
    try apply scan_once_scanned; assumption.
Qed.

(** C7 (bounds): whatever the document, a [JSONDecodeError] that
    [json.loads] raises reports a position inside the document, so the
    line and column in its message are those of a character of it or of
    its end. *)
Theorem json_decode_error_within (budget : nat) (doc : pystr) (e : json_error) :
  json_decode budget doc = Error e -> err_within (length doc) e.
Proof.
  unfold json_decode. pose proof (skip_ws_spec 0 doc) as Hw0. destruct (skip_ws 0 doc) as [i0 r0].
  destruct Hw0 as (H0 & _ & _).
  pose proof (scan_once_scanned budget i0 r0) as Hs. destruct (scan_once budget i0 r0) as [[[v i1] r1]|e'].
  - apply scanned_Ok in Hs as (H1 & _ & _). simpl.
    pose proof (skip_ws_spec i1 r1) as Hw1. destruct (skip_ws i1 r1) as [i2 r2].
    destruct Hw1 as (H2 & _ & _). case_decide; [done|]. intros [= <-]. simpl. lia.
  - intros [= <-]. destruct Hs as [Hc _]. destruct e'; simpl in *; lia || done.
Qed.

(** ** Nesting depth *)

(** [n + 1] nested empty arrays, and the text [[[...]]] that writes them
    followed by [rest]. *)
Fixpoint nested (n : nat) : pyval :=
  match n with O => PList [] | S m => PList [nested m] end.

Definition open_close (n : nat) (rest : pystr) : pystr :=
  repeat 91%N (S n) ++ repeat 93%N (S n) ++ rest.

Lemma repeat_snoc {A} (x : A) (n : nat) (l : list A) : repeat x n ++ x :: l = x :: repeat x n ++ l.
Proof. induction n as [|n IH]; simpl; [done|]. by rewrite IH. Qed.

Lemma open_close_S (n : nat) (rest : pystr) :
  open_close (S n) rest = 91%N :: open_close n (93%N :: rest).
Proof. unfold open_close. cbn [repeat app]. by rewrite repeat_snoc. Qed.

Lemma open_close_head (n : nat) (rest : pystr) :
  exists r, open_close n rest = 91%N :: r.
Proof. by eexists. Qed.

Lemma skip_ws_bracket (i : nat) (c : N) (r : pystr) :
  c = 91%N \/ c = 93%N -> skip_ws i (c :: r) = (i, c :: r).
Proof. intros Hc. simpl. unfold json_ws. by rewrite bool_decide_false by lia. Qed.

(** [n + 1] nested arrays are read when the budget admits [n + 1]
    containers, and raise [RecursionError] otherwise. *)
Lemma scan_once_nested (n budget i : nat) (rest : pystr) :
  scan_once budget i (open_close n rest) =
  if decide (n < budget)%nat then Ok (nested n, (i + 2 * S n)%nat, rest)
  else Error (rec_error ⟪"array"⟫).
Proof.
  revert budget i rest. induction n as [|n IH]; intros [|b] i rest.
  1,2: unfold open_close; cbn [repeat app scan_once].
  3,4: rewrite open_close_S; cbn [scan_once].
  all: rewrite decide_False by lia; rewrite decide_False by lia; rewrite decide_True by lia.
  1,3: by rewrite decide_False by lia.
  all: unfold parse_array.
  - rewrite skip_ws_bracket by lia. cbn [head tail]. rewrite decide_True by done.
    rewrite decide_True by lia. repeat f_equal. lia.
  - destruct (open_close_head n (93%N :: rest)) as [r Hr]. rewrite Hr, skip_ws_bracket by lia.
    cbn [head]. rewrite decide_False by done. rewrite <- Hr. cbn [array_items length].
    rewrite IH. destruct (decide (n < b)%nat) as [Hn|Hn].
    + rewrite decide_True by lia. cbn [mbind result_bind].
      rewrite skip_ws_bracket by lia. rewrite decide_True by done. simpl. repeat f_equal. lia.
    + by rewrite decide_False by lia.
Qed.

(** C30 (bounds): [json.loads] reads a document of [n + 1] nested arrays
    exactly when the nesting budget admits [n + 1] containers; one more
    level raises [RecursionError] (from [test.py], 995 levels pass and 996
    do not). *)
Theorem json_decode_nesting (budget n : nat) :
  json_decode budget (open_close n []) =
  if decide (n < budget)%nat then Ok (nested n) else Error (rec_error ⟪"array"⟫).
Proof.
  unfold json_decode. destruct (open_close_head n []) as [r Hr].
  rewrite Hr, skip_ws_bracket by lia. rewrite <- Hr, scan_once_nested.
  case_decide; [|done]. by simpl.
Qed.

(** ** Witnesses *)

(** A JSON text written with single quotes for double quotes. *)
Definition jdoc (s : string) : pystr := map (fun c => if decide (c = 39%N) then 34%N else c) (str s).

Lemma scan_string_fuel_witness :
  (length (jdoc "aé'") < 20)%nat /\ (length (jdoc "aé'") < 9)%nat /\
  scan_string 20 0 1 (jdoc "aé'") [] = scan_string 9 0 1 (jdoc "aé'") [].
Proof.
  assert (H1 : (length (jdoc "aé'") < 20)%nat) by (vm_compute; lia).
  assert (H2 : (length (jdoc "aé'") < 9)%nat) by (vm_compute; lia).
  split_and!; [exact H1 | exact H2 | exact (scan_string_fuel 20 9 0 1 _ [] H1 H2)].
Defined.

Lemma json_decode_error_within_witness :
  json_decode 995 (jdoc "[1 2]") = Error (JDecode ⟪"Expecting ',' delimiter"⟫ 3) /\
  err_within (length (jdoc "[1 2]")) (JDecode ⟪"Expecting ',' delimiter"⟫ 3).
Proof.
  assert (H : json_decode 995 (jdoc "[1 2]") = Error (JDecode ⟪"Expecting ',' delimiter"⟫ 3))
    by (vm_compute; reflexivity).
  split; [exact H | exact (json_decode_error_within 995 _ _ H)].
Defined.

Lemma container_items_fuel_witness :
  (length (jdoc "1, [2], 3]") < 11)%nat /\ (length (jdoc "1, [2], 3]") < 40)%nat /\
  array_items (scan_once 995) 11 1 (jdoc "1, [2], 3]") [] =
    array_items (scan_once 995) 40 1 (jdoc "1, [2], 3]") [] /\
  object_items (scan_once 995) 11 1 (jdoc "1, [2], 3]") [] =
    object_items (scan_once 995) 40 1 (jdoc "1, [2], 3]") [].
Proof.
  assert (H1 : (length (jdoc "1, [2], 3]") < 11)%nat) by (vm_compute; lia).
  assert (H2 : (length (jdoc "1, [2], 3]") < 40)%nat) by (vm_compute; lia).
  destruct (container_items_fuel 995 11 40 1 (jdoc "1, [2], 3]") [] [] H1 H2) as [Ha Ho].
  split_and!; [exact H1 | exact H2 | exact Ha | exact Ho].
Defined.

