(* ===== verification/JsonWf.v ===== *)
(** * The values [json.loads] returns are well-formed

    A JSON object may repeat a key; [_parse_object_unicode] stores each
    pair with [PyDict_SetItem] ([Json.dict_set]), so a repeated key keeps
    its first place and takes its last value.  This file shows that every
    value the scanner returns satisfies the type invariant of Python
    values ([PyRepr.wf_val]): the keys of every [dict] are distinct.  The
    proof follows the scanner: a predicate on scan results
    ([yields_wf]), kept by the containers' loops for any item scanner
    that keeps it, and by [scan_once] at every nesting depth. *)

From S2P Require Import Prelude PyStr Unicode PyRepr Json.

(** A successful scan returns a well-formed value. *)
Definition yields_wf (res : scan_result) : Prop :=
  match res with Ok (v, _, _) => wf_val v | Error _ => True end.

(** ** [PyDict_SetItem] keeps the keys distinct *)

Lemma dict_set_keys (kvs : list (pystr * pyval)) (k : pystr) (v : pyval) :
  (dict_set kvs k v).*1 = if decide (k ∈ kvs.*1) then kvs.*1 else kvs.*1 ++ [k].
Proof.
  induction kvs as [|[k' v'] kvs IH]; [done|]. cbn [dict_set]. rewrite fmap_cons. cbn [fst].
  destruct (decide (k' = k)) as [<-|Hk].
  - rewrite fmap_cons, decide_True by set_solver. done.
  - rewrite fmap_cons, IH. cbn [fst]. destruct (decide (k ∈ kvs.*1)).
    + rewrite decide_True by set_solver. done.
    + rewrite decide_False by set_solver. done.
Qed.

Lemma dict_set_nodup (kvs : list (pystr * pyval)) (k : pystr) (v : pyval) :
  NoDup kvs.*1 -> NoDup (dict_set kvs k v).*1.
Proof.
  intros Hn. rewrite dict_set_keys. case_decide as Hk; [done|].
  apply NoDup_app. split_and!; [done | set_solver | apply NoDup_singleton].
Qed.

Lemma dict_set_values (P : pyval -> Prop) (kvs : list (pystr * pyval)) (k : pystr) (v : pyval) :
  Forall (fun kv => P kv.2) kvs -> P v -> Forall (fun kv => P kv.2) (dict_set kvs k v).
Proof.
  intros Hkvs Hv. induction Hkvs as [|[k' v'] kvs Hv' Hf IH]; simpl; [by constructor|].
  case_decide; constructor; done.
Qed.

(** ** The containers *)

Section containers_wf.
Context (scan : nat -> pystr -> scan_result).
Hypothesis Hscan : forall i r, yields_wf (scan i r).

Lemma array_items_wf (fuel i : nat) (r : pystr) (acc : list pyval) :
  Forall wf_val acc -> yields_wf (array_items scan fuel i r acc).
Proof using Hscan.
  revert i r acc. induction fuel as [|f IH]; intros i r acc Hacc; simpl; [done|].
  pose proof (Hscan i r) as Hs. destruct (scan i r) as [[[v i1] r1]|e]; [|done]. simpl in *.
  destruct (skip_ws i1 r1) as [i2 [|c r3]]; [done|].
  case_decide; [apply wf_list, Forall_app; split; [by apply Forall_rev | by repeat constructor]|].
  case_decide; [|done]. destruct (skip_ws (S i2) r3). apply IH. by constructor.
Qed.

Lemma parse_array_wf (i : nat) (r : pystr) : yields_wf (parse_array scan i r).
Proof using Hscan.
  unfold parse_array. destruct (skip_ws i r). case_decide; [by repeat constructor|].
  by apply array_items_wf.
Qed.

Lemma object_items_wf (fuel i : nat) (r : pystr) (acc : list (pystr * pyval)) :
  NoDup acc.*1 -> Forall (fun kv => wf_val kv.2) acc -> yields_wf (object_items scan fuel i r acc).
Proof using Hscan.
  revert i r acc. induction fuel as [|f IH]; intros i r acc Hn Hacc; cbn [object_items]; [done|].
  destruct r as [|q r1]; [done|]. case_decide; [done|].
  destruct (scan_string _ _ _ _ _) as [[[k i2] r2]|e]; [simpl|done].
  destruct (skip_ws i2 r2) as [i3 [|c r4]]; [done|]. case_decide; [done|].
  destruct (skip_ws (S i3) r4) as [i5 r5].
  pose proof (Hscan i5 r5) as Hv. destruct (scan i5 r5) as [[[v i6] r6]|e]; [simpl in *|done].
  pose proof (dict_set_nodup acc k v Hn) as Hn'.
  pose proof (dict_set_values wf_val acc k v Hacc Hv) as Hacc'.
  destruct (skip_ws i6 r6) as [i7 [|c' r8]]; [done|].
  case_decide; [by constructor|].
  case_decide; [|done]. destruct (skip_ws (S i7) r8). by apply IH.
Qed.

Lemma parse_object_wf (i : nat) (r : pystr) : yields_wf (parse_object scan i r).
Proof using Hscan.
  unfold parse_object. destruct (skip_ws i r). case_decide; [by repeat constructor|].
  apply object_items_wf; [constructor | done].
Qed.
End containers_wf.

Lemma scan_literal_wf (i : nat) (r : pystr) : yields_wf (scan_literal i r).
Proof.
  unfold scan_literal. repeat (case_decide; [constructor|]).
  unfold match_number. repeat case_match; simpl; try done; constructor.
Qed.

Lemma scan_once_wf (budget i : nat) (r : pystr) : yields_wf (scan_once budget i r).
Proof.
  revert i r. induction budget as [|b IH]; intros i r;
    (destruct r as [|c r1]; [done|]); cbn [scan_once].
  all: case_decide; [destruct (scan_string _ _ _ _ _) as [[[s i1] r2]|e]; [constructor | done]|].
  all: case_decide; [first [done | by apply parse_object_wf]|].
  all: case_decide; [first [done | by apply parse_array_wf]|].
  all: apply scan_literal_wf.
Qed.

(** ** [json.loads] *)

(** C8 (type): every value [json.loads] returns is a well-formed Python
    value: the keys of each [dict] in it are distinct, although a JSON
    object may repeat a key. *)
Theorem json_loads_wf (budget : nat) (doc : pystr) (v : pyval) :
  json_loads budget doc = Ok v -> wf_val v.
Proof.
  unfold json_loads, json_decode. case_decide; [done|].
  destruct (skip_ws 0 doc) as [i0 r0].
  pose proof (scan_once_wf budget i0 r0) as Hw.
  destruct (scan_once budget i0 r0) as [[[v' i1] r1]|e]; [simpl in *|done].
  destruct (skip_ws i1 r1). case_decide; [|done]. by intros [= <-].
Qed.

(** ** Witnesses *)

(** An object that repeats a key, with a nested object that does too. *)
Definition repeated_keys_doc : pystr := jdoc "{'a': 1, 'b': [], 'a': {'c': 2, 'c': 3}}".

Lemma json_loads_wf_witness :
  json_loads 995 repeated_keys_doc =
    Ok (PDict [(⟪"a"⟫, PDict [(⟪"c"⟫, PInt 3)]); (⟪"b"⟫, PList [])]) /\
  wf_val (PDict [(⟪"a"⟫, PDict [(⟪"c"⟫, PInt 3)]); (⟪"b"⟫, PList [])]).
Proof.
  assert (H : json_loads 995 repeated_keys_doc =
                Ok (PDict [(⟪"a"⟫, PDict [(⟪"c"⟫, PInt 3)]); (⟪"b"⟫, PList [])]))
    by (vm_compute; reflexivity).
  split; [exact H | exact (json_loads_wf _ _ _ H)].
Defined.
