(* ===== verification/JsonFloat.v ===== *)
(** * [json.loads] reads back what [repr] prints for a float

    [repr(x)] of a finite float is valid JSON: an optional minus sign, an
    integer part, a fraction or an exponent ([PyRepr.format_short]).
    This file shows that [json.loads(repr(x)) == x] for every finite
    double, the sign of a zero included ([json_loads_repr_double]): the
    scanner ([Json.match_number]) takes the whole text as one number,
    [float_of_number] recovers the decimal [repr] printed, and that
    decimal rounds back to [x] ([FloatShortest.repr_digits_reads_back]). *)

From Stdlib Require Import QArith Qround Qpower Lqa.
From S2P Require Import Prelude PyStr Unicode PyFloat FloatShortest PyRepr PyInt Json.

(** ** Scanning a number *)

(** The code points of decimal digits. *)
Definition digit_chars (ds : pystr) : Prop := Forall (fun c => 48 <= c <= 57)%N ds.

(** What follows a run of digits: the end or a character that is not a
    digit. *)
Definition no_digit_head (r : pystr) : Prop :=
  match r with [] => True | c :: _ => is_digit c = false end.

Lemma span_digits_all (ds r : pystr) :
  digit_chars ds -> no_digit_head r -> span_digits (ds ++ r) = (ds, r).
Proof.
  intros Hds Hr. induction Hds as [|c ds Hc Hds IH]; simpl.
  - destruct r as [|c r]; simpl in *; [done|]. by rewrite Hr.
  - unfold is_digit at 1. rewrite bool_decide_true by lia. by rewrite IH.
Qed.

Lemma is_digit_char (c : N) : (48 <= c <= 57)%N -> is_digit c = true.
Proof. intros. unfold is_digit. by apply bool_decide_true. Qed.

(** The fraction: a point and at least one digit. *)
Definition frac_part (fp : pystr) : Prop :=
  fp = [] \/ exists ds, fp = 46%N :: ds /\ ds <> [] /\ digit_chars ds.

(** The exponent: an [e], an optional sign and at least one digit. *)
Definition exp_part (ep : pystr) : Prop :=
  ep = [] \/ exists s ds, ep = 101%N :: s ++ ds /\ (s = [] \/ s = [43%N] \/ s = [45%N]) /\
                          ds <> [] /\ digit_chars ds.

(** The integer part: a zero alone, or digits that do not start with a
    zero. *)
Definition int_part (ip : pystr) : Prop :=
  ip = [48%N] \/ exists d ds, ip = d :: ds /\ (49 <= d <= 57)%N /\ digit_chars ds.

Lemma exp_no_digit (ep : pystr) : exp_part ep -> no_digit_head ep.
Proof. intros [->|(s & ds & -> & _)]; [done|]. simpl. by unfold is_digit; rewrite bool_decide_false by lia. Qed.

Lemma frac_exp_no_digit (fp ep : pystr) : frac_part fp -> exp_part ep -> no_digit_head (fp ++ ep).
Proof.
  intros [->|(ds & -> & _)] Hep; [by apply exp_no_digit|]. simpl.
  by unfold is_digit; rewrite bool_decide_false by lia.
Qed.

Lemma match_exp_part (ep : pystr) : exp_part ep -> match_exp ep = (ep, []).
Proof.
  intros [->|(s & ds & -> & Hs & Hne & Hds)]; [done|].
  destruct ds as [|d ds']; [done|].
  assert (Hsp : span_digits (d :: ds') = (d :: ds', [])).
  { rewrite <- (app_nil_r (d :: ds')) at 1. by apply span_digits_all. }
  destruct Hs as [->|[->| ->]]; cbn [app match_exp].
  - rewrite decide_True by lia. cbn [match_exp_sign]. destruct ds' as [|d' ds''].
    + rewrite Hsp. by rewrite decide_False.
    + rewrite decide_False.
      * rewrite Hsp. by rewrite decide_False.
      * inversion Hds; lia.
  - rewrite decide_True by lia. cbn [match_exp_sign]. rewrite decide_True by lia.
    rewrite Hsp. by rewrite decide_False.
  - rewrite decide_True by lia. cbn [match_exp_sign]. rewrite decide_True by lia.
    rewrite Hsp. by rewrite decide_False.
Qed.

Lemma match_sign_digit (d : N) (r : pystr) : (48 <= d <= 57)%N -> match_sign (d :: r) = ([], d :: r).
Proof.
  intros Hd. unfold match_sign. destruct d as [|p]; [done|].
  destruct (decide (p = 45%positive)) as [->|Hp]; [lia|].
  repeat (destruct p as [p|p|]; try done); lia.
Qed.

(** A number made of these parts is scanned whole, as a float. *)
Lemma match_number_float (i : nat) (sg ip fp ep : pystr) :
  (sg = [] \/ sg = [45%N]) -> int_part ip -> frac_part fp -> exp_part ep -> (fp <> [] \/ ep <> []) ->
  match_number i (sg ++ ip ++ fp ++ ep) =
    Ok (PFloat (float_of_number sg ip fp ep), (i + length (sg ++ ip ++ fp ++ ep))%nat, []).
Proof.
  intros Hsg Hip Hfp Hep Hfl. unfold match_number.
  assert (Hms : match_sign (sg ++ ip ++ fp ++ ep) = (sg, ip ++ fp ++ ep)).
  { destruct Hsg as [->| ->]; [|done].
    destruct Hip as [->|(d & ds & -> & Hd & _)]; simpl; [done|]. apply match_sign_digit. lia. }
  rewrite Hms.
  assert (Hmi : match_int (ip ++ fp ++ ep) = Some (ip, fp ++ ep)).
  { destruct Hip as [->|(d & ds & -> & Hd & Hds)]; simpl.
    - reflexivity.
    - rewrite decide_True by lia. by rewrite span_digits_all by auto using frac_exp_no_digit. }
  rewrite Hmi.
  assert (Hmf : match_frac (fp ++ ep) = (fp, ep)).
  { destruct Hfp as [->|(ds & -> & Hne & Hds)].
    - destruct Hep as [->|(s & ds & -> & _)]; done.
    - destruct ds as [|d ds']; [done|]. inversion Hds; subst. simpl.
      rewrite is_digit_char by done. by rewrite span_digits_all by auto using exp_no_digit. }
  rewrite Hmf, match_exp_part by done.
  by rewrite decide_False by tauto.
Qed.

(** ** Digits *)

Abbreviation chars_of ds := (map (fun d => ch_0 + d)%N ds).

Lemma dec_value_app (a b : list N) : dec_value (a ++ b) = (dec_value a * 10 ^ N.of_nat (length b) + dec_value b)%N.
Proof.
  revert a. induction b as [|d b IH] using rev_ind; intros a.
  - rewrite app_nil_r. change (dec_value []) with 0%N. cbn [length N.of_nat]. rewrite N.pow_0_r. lia.
  - rewrite app_assoc, !dec_value_snoc, IH, length_app. simpl.
    rewrite Nat2N.inj_add, N.pow_add_r. simpl. lia.
Qed.

Lemma dec_value_zeros (n : nat) : dec_value (replicate n 0%N) = 0%N.
Proof. induction n as [|n IH]; [done|]. rewrite replicate_S_end, dec_value_snoc, IH. done. Qed.

Lemma dec_value_lt (ds : list N) : Forall (fun d => d < 10)%N ds -> (dec_value ds < 10 ^ N.of_nat (length ds))%N.
Proof.
  induction ds as [|d ds IH] using rev_ind; intros Hds; [by compute|].
  apply Forall_app in Hds as [Hds Hd]. inversion Hd; subst. specialize (IH Hds).
  rewrite dec_value_snoc, length_app, Nat2N.inj_add, N.pow_add_r.
  change (N.of_nat (length [d])) with 1%N. rewrite N.pow_1_r. nia.
Qed.

Lemma digit_values_chars (ds : list N) : digit_values (chars_of ds) = ds.
Proof. unfold digit_values. rewrite map_map. unfold ch_0. rewrite <- (map_id ds) at 2. apply map_ext. lia. Qed.

Lemma digit_chars_of (ds : list N) : Forall (fun d => d < 10)%N ds -> digit_chars (chars_of ds).
Proof. intros H. unfold digit_chars. apply Forall_map. eapply Forall_impl; [exact H|]. unfold ch_0. simpl. lia. Qed.

Lemma zeros_chars (k : Z) : zeros k = chars_of (replicate (Z.to_nat k) 0%N).
Proof. unfold zeros. induction (Z.to_nat k) as [|n IH]; [done|]. simpl. by rewrite <- IH. Qed.

(** [str(n)] of a positive [n]: digits with a first digit that is not
    zero. *)
Lemma N_to_dec_shape (n : N) : (0 < n)%N ->
  exists d ds, N_to_dec n = chars_of (d :: ds) /\ (1 <= d < 10)%N /\
               Forall (fun d => d < 10)%N ds /\ dec_value (d :: ds) = n.
Proof.
  intros Hn. destruct (N_to_dec_digits n) as (ds0 & Hd & Hv & Hf & Hne & Hmin).
  destruct ds0 as [|d ds]; [done|]. inversion Hf; subst. exists d, ds. split_and!; try done.
  destruct (decide (d = 0%N)) as [->|]; [|lia]. exfalso.
  assert (Hv' : dec_value (0%N :: ds) = dec_value ds).
  { change (0%N :: ds) with ([0%N] ++ ds). rewrite dec_value_app. change (dec_value [0%N]) with 0%N. lia. }
  destruct ds as [|d' ds']; [change (dec_value [0%N]) with 0%N in Hn; lia|].
  pose proof (Hmin (length (d' :: ds')) ltac:(simpl; lia)) as Hl.
  rewrite Hv' in Hl. specialize (Hl (dec_value_lt _ ltac:(done))). simpl in Hl. lia.
Qed.

Lemma dec_value_lead0 (ds : list N) : dec_value (0%N :: ds) = dec_value ds.
Proof. change (0%N :: ds) with ([0%N] ++ ds). rewrite dec_value_app. change (dec_value [0%N]) with 0%N. lia. Qed.

(** The exponent [repr] prints reads back. *)
Lemma exp_text_read (x : Z) : exp_part (101%N :: exp_text x) /\ exp_value (101%N :: exp_text x) = x.
Proof.
  destruct (N_to_dec_digits (Z.to_N (Z.abs x))) as (dx & Hd & Hv & Hf & Hne & _).
  assert (Hpad : exists pd, (if decide (length (N_to_dec (Z.to_N (Z.abs x))) < 2)%nat then [ch_0] else [])
                  ++ N_to_dec (Z.to_N (Z.abs x)) = chars_of pd /\ Forall (fun d => d < 10)%N pd /\
                  pd <> [] /\ dec_value pd = Z.to_N (Z.abs x)).
  { rewrite Hd. case_decide.
    - exists (0%N :: dx). split_and!; [done | by constructor | done | by rewrite dec_value_lead0].
    - by exists dx. }
  destruct Hpad as (pd & Hp & Hpf & Hpne & Hpv). unfold exp_text. rewrite Hp.
  destruct (decide (x < 0)%Z) as [Hx|Hx]; split.
  - right. exists [45%N], (chars_of pd). split_and!; auto. by destruct pd. by apply digit_chars_of.
  - unfold exp_value. simpl. rewrite digit_values_chars, Hpv. lia.
  - right. exists [43%N], (chars_of pd). split_and!; auto. by destruct pd. by apply digit_chars_of.
  - unfold exp_value. simpl. rewrite digit_values_chars, Hpv. lia.
Qed.

(** ** The layout [repr] prints *)

(** [body] is a number the scanner reads as a float, of value [c * 10^q]. *)
Definition number_of (body : pystr) (c q : Z) : Prop :=
  exists ip fp ep, body = ip ++ fp ++ ep /\ int_part ip /\ frac_part fp /\ exp_part ep /\
    (fp <> [] \/ ep <> []) /\
    Qeq (inject_Z (number_decimal ip fp ep).1 * pow10 (number_decimal ip fp ep).2) (inject_Z c * pow10 q).

Lemma int_part_lead (d : N) (ds : pystr) : (1 <= d < 10)%N -> digit_chars ds -> int_part ((ch_0 + d)%N :: ds).
Proof. intros. right. exists (ch_0 + d)%N, ds. unfold ch_0. split_and!; [done | lia | lia | done]. Qed.

Lemma number_value_shift (c k e : Z) : (0 <= k)%Z ->
  Qeq (inject_Z (c * 10 ^ k) * pow10 (e - k)) (inject_Z c * pow10 e).
Proof.
  intros Hk. rewrite inject_Z_mult, <- pow10_Z by done.
  rewrite <- Qmult_assoc, <- pow10_add. by replace (k + (e - k))%Z with e by lia.
Qed.

Section layout.
Context (d : N) (dds : list N) (c : Z) (Hd : (1 <= d < 10)%N) (Hdds : Forall (fun d => d < 10)%N dds)
        (Hc : Z.of_N (dec_value (d :: dds)) = c).


(** The exponential form. *)
Lemma number_of_exp (decpt : Z) :
  number_of (take 1 (chars_of (d :: dds))
             ++ (if decide (1 < length (chars_of (d :: dds)))%nat then ⟪"."⟫ ++ drop 1 (chars_of (d :: dds)) else [])
             ++ ⟪"e"⟫ ++ exp_text (decpt - 1))
            c (decpt - Z.of_nat (length (d :: dds))).
Proof using Hd Hdds Hc.
  destruct (exp_text_read (decpt - 1)) as [Hep Hev].
  exists [(ch_0 + d)%N], (if decide (1 < length (chars_of (d :: dds)))%nat then 46%N :: chars_of dds else []),
         (101%N :: exp_text (decpt - 1)).
  assert (Hdc : digit_chars (chars_of dds)) by (apply digit_chars_of; done).
  split_and!.
  - by case_decide.
  - apply (int_part_lead d []); [done | constructor].
  - case_decide as Hl; [right | by left]. exists (chars_of dds). rewrite length_map in Hl.
    split_and!; [done | destruct dds; [simpl in Hl; lia | done] | done].
  - done.
  - by right.
  - unfold number_decimal. cbn [fst snd]. rewrite Hev.
    assert (Hf : drop 1 (if decide (1 < length (chars_of (d :: dds)))%nat then 46%N :: chars_of dds else [])
                 = chars_of dds).
    { case_decide as Hl; [done|]. rewrite length_map in Hl. by destruct dds; [|simpl in Hl; lia]. }
    rewrite Hf. change ([(ch_0 + d)%N] ++ chars_of dds) with (chars_of (d :: dds)).
    rewrite digit_values_chars, Hc, length_map. simpl. replace (Z.of_nat (S (length dds))) with (1 + Z.of_nat (length dds))%Z by lia.
    replace (decpt - 1 - Z.of_nat (length dds))%Z with (decpt - (1 + Z.of_nat (length dds)))%Z by lia. reflexivity.
Qed.

(** A fixed form below one: ["0."], zeros, the digits. *)
Lemma number_of_small (decpt : Z) : (decpt <= 0)%Z ->
  number_of (⟪"0."⟫ ++ zeros (- decpt) ++ chars_of (d :: dds)) c (decpt - Z.of_nat (length (d :: dds))).
Proof using Hd Hdds Hc.
  intros Hdp. exists [48%N], (46%N :: zeros (- decpt) ++ chars_of (d :: dds)), [].
  rewrite zeros_chars. split_and!.
  - by rewrite app_nil_r.
  - by left.
  - right. eexists. split_and!; [done | by destruct (Z.to_nat (- decpt)) |].
    rewrite <- map_app. apply digit_chars_of. apply Forall_app. split; [apply Forall_replicate; lia | constructor; [lia | done]].
  - by left.
  - left. done.
  - unfold number_decimal. cbn [fst snd drop]. rewrite !drop_0, <- map_app.
    change ([48%N] ++ chars_of (replicate (Z.to_nat (- decpt)) 0%N ++ d :: dds))
      with (chars_of (0%N :: replicate (Z.to_nat (- decpt)) 0%N ++ d :: dds)).
    rewrite digit_values_chars, dec_value_lead0, dec_value_app, dec_value_zeros, length_map, length_app,
      length_replicate. rewrite N.mul_0_l, N.add_0_l, Hc. unfold exp_value. simpl.
    replace (0 - Z.of_nat (Z.to_nat (- decpt) + S (length dds)))%Z with (decpt - Z.of_nat (S (length dds)))%Z by lia.
    reflexivity.
Qed.

(** A fixed form of an integer: the digits, zeros, [".0"]. *)
Lemma number_of_int (decpt : Z) : (Z.of_nat (length (d :: dds)) <= decpt)%Z ->
  number_of (chars_of (d :: dds) ++ zeros (decpt - Z.of_nat (length (chars_of (d :: dds)))) ++ ⟪".0"⟫)
            c (decpt - Z.of_nat (length (d :: dds))).
Proof using Hd Hdds Hc.
  intros Hdp. rewrite length_map. set (k := (decpt - Z.of_nat (length (d :: dds)))%Z).
  assert (Hk : (0 <= k)%Z) by (unfold k; lia).
  exists (chars_of (d :: dds) ++ zeros k), [46%N; 48%N], [].
  rewrite zeros_chars. split_and!.
  - by rewrite <- app_assoc.
  - rewrite <- map_app. simpl. apply int_part_lead; [done|]. apply digit_chars_of.
    apply Forall_app. split; [done | apply Forall_replicate; lia].
  - right. exists [48%N]. split_and!; [done | done | repeat constructor; lia].
  - by left.
  - left. done.
  - unfold number_decimal. cbn [fst snd drop length]. rewrite ?drop_0.
    replace ((chars_of (d :: dds) ++ chars_of (replicate (Z.to_nat k) 0%N)) ++ [48%N])
      with (chars_of ((d :: dds) ++ replicate (Z.to_nat k) 0%N ++ [0%N])) by (rewrite !map_app, app_assoc; done).
    rewrite digit_values_chars, !dec_value_app, dec_value_zeros. change (dec_value [0%N]) with 0%N.
    unfold exp_value. simpl (drop 1 []). change (Z.of_N (dec_value (digit_values []))) with 0%Z.
    rewrite length_app, length_replicate. cbn [length].
    assert (E : Z.of_N ((dec_value (d :: dds) * 10 ^ N.of_nat (Z.to_nat k + 1) + (0 * 10 ^ N.of_nat 1 + 0))%N)
                = (c * 10 ^ (k + 1))%Z).
    { rewrite <- Hc, N2Z.inj_add, N2Z.inj_mul, N2Z.inj_pow, nat_N_Z.
      replace (Z.of_nat (Z.to_nat k + 1)) with (k + 1)%Z by lia. lia. }
    rewrite E. replace (0 - Z.of_nat 1)%Z with (k - (k + 1))%Z by lia. apply number_value_shift. lia.
Qed.

(** A fixed form with digits on both sides of the point. *)
Lemma number_of_mid (decpt : Z) : (0 < decpt < Z.of_nat (length (d :: dds)))%Z ->
  number_of (take (Z.to_nat decpt) (chars_of (d :: dds)) ++ ⟪"."⟫ ++ drop (Z.to_nat decpt) (chars_of (d :: dds)))
            c (decpt - Z.of_nat (length (d :: dds))).
Proof using Hd Hdds Hc.
  intros Hdp. assert (Hdg : digit_chars (chars_of (d :: dds))) by (apply digit_chars_of; constructor; [lia | done]).
  exists (take (Z.to_nat decpt) (chars_of (d :: dds))), (46%N :: drop (Z.to_nat decpt) (chars_of (d :: dds))), [].
  split_and!.
  - by rewrite app_nil_r.
  - destruct (Z.to_nat decpt) as [|t] eqn:Et; [lia|]. simpl. apply int_part_lead; [done|].
    apply Forall_take. by inversion Hdg.
  - right. eexists. split_and!; [done | | by apply Forall_drop].
    intros Hn. apply (f_equal length) in Hn. rewrite length_drop, length_map in Hn. simpl in *. lia.
  - by left.
  - left. done.
  - unfold number_decimal. cbn [fst snd drop]. rewrite ?drop_0, take_drop, digit_values_chars, Hc.
    unfold exp_value. simpl (drop 1 []). change (Z.of_N (dec_value (digit_values []))) with 0%Z.
    rewrite length_drop, length_map. replace (0 - Z.of_nat (length (d :: dds) - Z.to_nat decpt))%Z
      with (decpt - Z.of_nat (length (d :: dds)))%Z by lia. reflexivity.
Qed.

Lemma format_short_number (decpt : Z) :
  number_of (format_short (chars_of (d :: dds)) decpt) c (decpt - Z.of_nat (length (d :: dds))).
Proof using Hd Hdds Hc.
  unfold format_short. case_decide; [apply number_of_exp|].
  case_decide; [by apply number_of_small|].
  case_decide as Hl; rewrite length_map in Hl; [by apply number_of_int|].
  apply number_of_mid. lia.
Qed.
End layout.

(** ** [json.loads(repr(x)) == x] *)

Lemma not_prefix_head (a b : N) (p r : pystr) : a <> b -> ~ (a :: p) `prefix_of` (b :: r).
Proof. intros Hab Hp. apply prefix_cons_inv_1 in Hp. done. Qed.

Lemma repr_double_split (dbl : double) :
  repr_double dbl = (if d_neg dbl then [45%N] else []) ++ repr_body (d_mant dbl) (d_exp dbl).
Proof. done. Qed.

Lemma repr_body_number (m e : Z) : canonical m e -> (0 < m)%Z ->
  number_of (repr_body m e) (repr_digits m e).1 (repr_digits m e).2.
Proof.
  intros Hc Hm. pose proof (repr_digits_reads_back m e Hc Hm) as Hr.
  assert (Hp : Qlt 0 (inject_Z (repr_digits m e).1 * pow10 (repr_digits m e).2))
    by (apply round_binary_pos_inv; rewrite Hr; simpl; lia).
  unfold repr_body. rewrite decide_False by lia. destruct (repr_digits m e) as [c q]. simpl in *.
  assert (Hc0 : (0 < c)%Z).
  { destruct (Z.lt_ge_cases 0 c) as [|Hle]; [done|]. exfalso. pose proof (pow10_pos q).
    assert (Qle (inject_Z c) 0) by (change 0%Q with (inject_Z 0); rewrite <- Zle_Qle; lia). nra. }
  destruct (N_to_dec_shape (Z.to_N c) ltac:(lia)) as (d & dds & Hds & Hd & Hdds & Hv).
  rewrite Hds, length_map. pose proof (format_short_number d dds c Hd Hdds ltac:(rewrite Hv; lia)
    (q + Z.of_nat (length (d :: dds)))) as H.
  by replace (q + Z.of_nat (length (d :: dds)) - Z.of_nat (length (d :: dds)))%Z with q in H by lia.
Qed.

(** The scanner reads a number text, with an optional minus sign, whole. *)
Lemma json_loads_number (budget : nat) (sg ip fp ep : pystr) :
  (sg = [] \/ sg = [45%N]) -> int_part ip -> frac_part fp -> exp_part ep -> (fp <> [] \/ ep <> []) ->
  json_loads budget (sg ++ ip ++ fp ++ ep) = Ok (PFloat (float_of_number sg ip fp ep)).
Proof.
  intros Hsg Hip Hfp Hep Hfl.
  assert (Hh : exists h t, sg ++ ip ++ fp ++ ep = h :: t /\ (h = 45%N \/ 48 <= h <= 57)%N /\
                 (h = 45%N -> exists h' t', t = h' :: t' /\ (48 <= h' <= 57)%N)).
  { destruct Hip as [->|(d & ds & -> & Hd & _)], Hsg as [->| ->]; simpl; do 2 eexists;
      (split; [reflexivity|]); (split; [lia|]); intros Heq;
      [lia | eexists _, _; split; [reflexivity | lia] | lia | eexists _, _; split; [reflexivity | lia]]. }
  destruct Hh as (h & t & Ht & Hhd & Hneg).
  unfold json_loads. rewrite Ht. cbn [head]. rewrite decide_False by (intros [=]; lia).
  unfold json_decode. rewrite <- Ht.
  assert (Hws : skip_ws 0 (sg ++ ip ++ fp ++ ep) = (0%nat, sg ++ ip ++ fp ++ ep)).
  { rewrite Ht. simpl. unfold json_ws. by rewrite bool_decide_false by lia. }
  rewrite Hws.
  assert (Hsc : scan_once budget 0 (sg ++ ip ++ fp ++ ep) = match_number 0 (sg ++ ip ++ fp ++ ep)).
  { rewrite Ht. destruct budget; cbn [scan_once];
      (rewrite !decide_False by lia); unfold scan_literal; rewrite <- Ht;
      (rewrite !decide_False; [done | ..]); rewrite Ht;
      try (apply not_prefix_head; unfold str; simpl; lia).
    all: destruct (decide (h = 45%N)) as [->|Hn]; [|apply not_prefix_head; unfold str; simpl; lia].
    all: destruct (Hneg eq_refl) as (h' & t' & -> & Hh'); unfold str; simpl.
    all: intros Hp; apply prefix_cons_inv_2 in Hp; revert Hp; apply not_prefix_head; lia. }
  rewrite Hsc, match_number_float by done. simpl. done.
Qed.

(** C9 (roundtrip): [json.loads(repr(x))] is [x] for every finite double
    [x], zeros with their sign included: [repr] prints a JSON number,
    the scanner reads all of it, and the decimal it prints rounds back
    to [x]. *)
Theorem json_loads_repr_double (budget : nat) (x : double) :
  canonical (d_mant x) (d_exp x) -> json_loads budget (repr_double x) = Ok (PFloat (FFin x)).
Proof.
  intros Hc. destruct x as [neg m e]. rewrite repr_double_split. cbn [d_neg d_mant d_exp] in *.
  assert (Hsg : (if neg then [45%N] else []) = [] \/ (if neg then [45%N] else []) = [45%N]) by (destruct neg; auto).
  assert (Hneg : bool_decide ((if neg then [45%N] else []) = [45%N]) = neg) by (by destruct neg).
  destruct (decide (m = 0)%Z) as [->|Hm].
  - destruct Hc as (_ & _ & [->|?]); [|lia]. unfold repr_body. rewrite decide_True by done.
    change (⟪"0.0"⟫) with ([48%N] ++ [46%N; 48%N] ++ []).
    rewrite json_loads_number; [| done | by left | right; exists [48%N]; split_and!; [done | done | repeat constructor; lia]
                                | by left | by left].
    unfold float_of_number. simpl. by rewrite Hneg.
  - assert (Hm0 : (0 < m)%Z) by (destruct Hc; lia).
    destruct (repr_body_number m e Hc Hm0) as (ip & fp & ep & -> & Hip & Hfp & Hep & Hfl & Hv).
    rewrite json_loads_number by done. do 2 f_equal.
    unfold float_of_number. destruct (number_decimal ip fp ep) as [n e10] eqn:En. simpl in Hv.
    assert (Hn : (0 <= n)%Z) by (revert En; unfold number_decimal; intros [= <- _]; lia).
    rewrite Hneg. by apply round_decimal_repr.
Qed.

Lemma json_loads_repr_double_witness :
  canonical 7205759403792794 (-56) /\ repr_double (Double false 7205759403792794 (-56)) = ⟪"0.1"⟫ /\
  json_loads 995 (repr_double (Double false 7205759403792794 (-56))) =
    Ok (PFloat (FFin (Double false 7205759403792794 (-56)))).
Proof.
  assert (Hc : canonical 7205759403792794 (-56)) by (unfold canonical, emin, emax; lia).
  split_and!; [exact Hc | vm_compute; reflexivity | apply (json_loads_repr_double 995 (Double false _ _) Hc)].
Defined.
