(* ===== verification/TextIO.v ===== *)
(** * The text streams [sys.stdin] and [sys.stdout]

    CPython wraps the CGI process's standard input and output in
    [io.TextIOWrapper] objects: UTF-8, with [errors='strict'] under a UTF-8
    locale or [errors='surrogateescape'] under the C locale (Python's UTF-8
    mode).  On POSIX [sys.stdin] is opened with [newline='\n']: no newline
    is translated.

    [sys.stdin.read(n)] first converts [n] to [Py_ssize_t]
    ([_Py_convert_optional_to_ssize_t]), raising [OverflowError] when it
    lies outside [[-2^63, 2^63 - 1]]; it then returns at most [n]
    characters, all of them when [n] is negative, and reads nothing when
    [n] is 0.  As
    [Modules/_io/textio.c] does, it reads the input in chunks of
    [max(8192, r * n)] bytes for the [n] characters still wanted, [r]
    being [b2cratio], the bytes per character of the previous chunk as a
    double (at least [1.0]; the first chunk has [max(8192, n)] bytes), and
    decodes each with the incremental UTF-8 decoder, which keeps a
    sequence cut short by the end of a chunk (and a truncated surrogate
    [ED A0..BF]) for the next one; it stops as soon as [n] characters are decoded, so an
    ill-formed byte further on is never looked at.  The request body is
    taken to be in the pipe, followed by the end of the input: one read of
    the pipe returns all of it, up to the size asked.

    The product [r * n] is a double: it is rounded ([round_binary]) and
    cast to [Py_ssize_t], a cast C leaves undefined from [2^63] on and
    that x86-64's [cvttsd2si] turns into [PY_SSIZE_T_MIN], so such a
    request reads a chunk of 8192 bytes ([ssize_of_double]).  The buffer
    of each chunk ([read(-1)]: of the whole input) is allocated before any
    byte is read; whether that succeeds is the [Allocator] parameter, and
    a refusal raises [MemoryError].

    [sys.stdout.write(s)] encodes [s] before writing it, so a string that
    the error handler cannot encode raises [UnicodeEncodeError] and writes
    nothing. *)

From Stdlib Require Import QArith Qround Qminmax.
From S2P Require Import Prelude PyStr Unicode PyRepr PyFloat FloatShortest.

(** ** Exception messages *)

Definition reason_text (r : u8reason) : pystr :=
  match r with
  | InvalidStart => ⟪"invalid start byte"⟫
  | InvalidContinuation => ⟪"invalid continuation byte"⟫
  | UnexpectedEnd => ⟪"unexpected end of data"⟫
  end.

Definition nat_dec (n : nat) : pystr := N_to_dec (N.of_nat n).

(** [str(UnicodeDecodeError)] *)
Definition decode_error_msg (bs : list N) (e : decode_error) : pystr :=
  if decide (ude_end e = S (ude_start e)) then
    ⟪"'utf-8' codec can't decode byte 0x"⟫ ++ hexn 2 (default 0%N (bs !! ude_start e))
    ++ ⟪" in position "⟫ ++ nat_dec (ude_start e) ++ ⟪": "⟫ ++ reason_text (ude_reason e)
  else
    ⟪"'utf-8' codec can't decode bytes in position "⟫ ++ nat_dec (ude_start e)
    ++ ⟪"-"⟫ ++ nat_dec (pred (ude_end e)) ++ ⟪": "⟫ ++ reason_text (ude_reason e).

(** [str(UnicodeEncodeError)]: surrogates are printed as [\uXXXX]. *)
Definition encode_error_msg (s : pystr) (e : encode_error) : pystr :=
  if decide (uee_end e = S (uee_start e)) then
    ⟪"'utf-8' codec can't encode character '\u"⟫ ++ hexn 4 (default 0%N (s !! uee_start e))
    ++ ⟪"' in position "⟫ ++ nat_dec (uee_start e) ++ ⟪": surrogates not allowed"⟫
  else
    ⟪"'utf-8' codec can't encode characters in position "⟫ ++ nat_dec (uee_start e)
    ++ ⟪"-"⟫ ++ nat_dec (pred (uee_end e)) ++ ⟪": surrogates not allowed"⟫.

(** ** Standard input *)

(** The state of [sys.stdin]: the bytes of the pipe not read yet, the
    bytes the incremental decoder keeps (a sequence cut short by the end
    of a chunk), the decoded characters not returned yet
    ([decoded_chars[decoded_chars_used:]]) and [b2cratio], a double kept
    as the mantissa and exponent [round_binary] gives. *)
Record stdin_state := StdinState {
  in_bytes : list N; in_undecoded : list N; in_decoded : pystr; in_b2cratio : Z * Z }.

(** The process starts with the request body in the pipe and
    [b2cratio = 0.0]. *)
Definition stdin_init (body : list N) : stdin_state := StdinState body [] [] (0%Z, emin).

(** [TextIOWrapper._CHUNK_SIZE]. *)
Definition chunk_size : nat := 8192.

(** [PY_SSIZE_T_MIN] and [PY_SSIZE_T_MAX] on a 64-bit platform. *)
Definition ssize_min : Z := - 2 ^ 63.
Definition ssize_max : Z := 2 ^ 63 - 1.

(** The allocator of the process: [alloc_ok k] when
    [PyBytes_FromStringAndSize(NULL, k)] gets memory for a [bytes] object
    of [k] bytes.  How much a process may allocate depends on the machine
    and its other processes; the model leaves it open. *)
Class Allocator := { alloc_ok : Z -> bool }.

(** [read(n)] converts [n] to [Py_ssize_t] ([_Py_convert_optional_to_ssize_t]). *)
Definition overflow_exc : pyexc :=
  Exc EOverflowError ⟪"cannot fit 'int' into an index-sized integer"⟫.

(** [PyErr_NoMemory()]: a [MemoryError] without a message. *)
Definition memory_exc : pyexc := Exc EMemoryError [].

(** [self->b2cratio] after a chunk: [(double) nbytes / nchars], the
    bytes read per character decoded, or [0.0] when nothing was decoded. *)
Definition b2cratio (nbytes nchars : nat) : Z * Z :=
  if decide (nchars = 0) then (0%Z, emin)
  else round_binary (inject_Z (Z.of_nat nbytes) / inject_Z (Z.of_nat nchars)).

(** [(Py_ssize_t) x] for a double [x >= 0]: truncation.  From [2^63] up
    the conversion is undefined in C; x86-64's [cvttsd2si] gives
    [PY_SSIZE_T_MIN], which is what CPython 3.11 gets there. *)
Definition ssize_of_double (p : Z * Z) : Z :=
  if Qle_bool (inject_Z (2 ^ 63)%Z) (bval p.1 p.2) then ssize_min else Qfloor (bval p.1 p.2).

(** [size_hint = (Py_ssize_t)(Py_MAX(self->b2cratio, 1.0) * size_hint)]
    for a positive [size_hint]: the product is a rounded double. *)
Definition scale_hint (ratio : Z * Z) (size_hint : nat) : Z :=
  if decide (size_hint = 0) then 0%Z else
  ssize_of_double (round_binary (Qmax (bval ratio.1 ratio.2) 1 * inject_Z (Z.of_nat size_hint))%Q).

(** The size of the chunk [textiowrapper_read_chunk] asks [read1] for:
    [max(_CHUNK_SIZE, size_hint)]. *)
Definition chunk_request (ratio : Z * Z) (size_hint : nat) : Z :=
  Z.max (Z.of_nat chunk_size) (scale_hint ratio size_hint).

Section stdin.
Context {alloc : Allocator}.

(** [textiowrapper_read_chunk(self, size_hint)]: [buffer.read1(k)] for
    the [k] of [chunk_request], which allocates a [bytes] object of [k]
    bytes before reading (the body being in the pipe, one read gets them
    all, up to that size), then decodes them with [final] at the end of
    the input; the characters decoded replace [decoded_chars] and set
    [b2cratio].  The result is [false] at the end of the input when
    nothing was decoded. *)
Definition read_chunk (h : errors) (size_hint : nat) (st : stdin_state)
    : result pyexc (bool * stdin_state) :=
  let k := chunk_request (in_b2cratio st) size_hint in
  if negb (alloc_ok k) then Error memory_exc else
  let chunk := take (Z.to_nat k) (in_bytes st) in
  let data := in_undecoded st ++ chunk in
  match utf8_decode_incr h data (bool_decide (chunk = [])) with
  | Ok (s, kept) =>
      Ok (bool_decide (chunk <> [] \/ s <> []),
          StdinState (drop (Z.to_nat k) (in_bytes st)) kept s (b2cratio (length chunk) (length s)))
  | Error e => Error (Exc EUnicodeDecodeError (decode_error_msg data e))
  end.

(** [textiowrapper_get_decoded_chars(self, n)]. *)
Definition take_decoded (n : nat) (st : stdin_state) : pystr * stdin_state :=
  (take n (in_decoded st),
   StdinState (in_bytes st) (in_undecoded st) (drop n (in_decoded st)) (in_b2cratio st)).

(** The loop of [TextIOWrapper.read(n)] for [n > 0]: read chunks until
    [n] characters are there or the input ends; [acc] holds the text read
    so far and [fuel] bounds the number of chunks. *)
Fixpoint read_loop (h : errors) (fuel remaining : nat) (acc : pystr) (st : stdin_state)
    : result pyexc (pystr * stdin_state) :=
  match fuel with
  | O => Ok (acc, st)
  | S f =>
      if decide (remaining = 0) then Ok (acc, st) else
      '(more, st1) ← read_chunk h remaining st;
      if negb more then Ok (acc, st1) else
      let '(s, st2) := take_decoded remaining st1 in
      read_loop h f (remaining - length s) (acc ++ s) st2
  end.

(** [sys.stdin.read(n)]: [n] is converted to [Py_ssize_t] first.  For a
    negative [n], [buffer.read()] allocates the bytes left and everything
    is decoded with [final]; otherwise the characters already decoded are
    taken first and chunks are read for the rest.  One chunk per byte and
    per byte kept, and one more, are enough fuel ([read_loop_fuel]). *)
Definition stdin_read (h : errors) (n : Z) (st : stdin_state)
    : result pyexc (pystr * stdin_state) :=
  if decide (n < ssize_min \/ ssize_max < n)%Z then Error overflow_exc
  else if decide (n < 0)%Z then
    if negb (alloc_ok (Z.of_nat (length (in_bytes st)))) then Error memory_exc else
    let data := in_undecoded st ++ in_bytes st in
    match utf8_decode h data with
    | Ok s => Ok (in_decoded st ++ s, StdinState [] [] [] (in_b2cratio st))
    | Error e => Error (Exc EUnicodeDecodeError (decode_error_msg data e))
    end
  else
    let '(s, st1) := take_decoded (Z.to_nat n) st in
    read_loop h (S (2 * length (in_bytes st) + length (in_undecoded st)))
      (Z.to_nat n - length s) s st1.
End stdin.

(** What is left to read: the bytes count twice, since a chunk may leave
    bytes to the decoder. *)
Definition stdin_measure (st : stdin_state) : nat :=
  2 * length (in_bytes st) + length (in_undecoded st).

(** ** Standard output *)

(** [sys.stdout.write(s)]: the text appended to the output, or the
    exception. *)
Definition stdout_encode (h : errors) (s : pystr) : result pyexc unit :=
  match utf8_encode h s with
  | Ok _ => Ok tt
  | Error e => Error (Exc EUnicodeEncodeError (encode_error_msg s e))
  end.

(** The classes of exception [sys.stdin.read] raises. *)
Definition read_escapes (c : exc_class) : Prop :=
  c = EUnicodeDecodeError \/ c = EMemoryError \/ c = EOverflowError.

(** ** Lemmas on standard input *)

Lemma chunk_request_pos (r : Z * Z) (k : nat) : (0 < Z.to_nat (chunk_request r k))%nat.
Proof. unfold chunk_request, chunk_size. change (Z.of_nat 8192) with 8192%Z. lia. Qed.

(** The first chunk asks for [max(8192, n)] bytes: [b2cratio] is still
    [0.0], and [1.0 * n] is exact below [2^53]. *)
Lemma scale_hint_init (n : nat) : (Z.of_nat n < 2 ^ 53)%Z -> scale_hint (0%Z, emin) n = Z.of_nat n.
Proof.
  intros Hn. unfold scale_hint. case_decide as H0; [by subst|]. cbn [fst snd].
  assert (Hx : (Qmax (bval 0 emin) 1 * inject_Z (Z.of_nat n) == inject_Z (Z.of_nat n))%Q).
  { assert (Hm : (Qmax (bval 0 emin) 1 == 1)%Q) by (vm_compute; reflexivity). rewrite Hm. ring. }
  assert (Hp : (0 < inject_Z (Z.of_nat n))%Q) by (change 0%Q with (inject_Z 0); rewrite <- Zlt_Qlt; lia).
  assert (Hp' : (0 < Qmax (bval 0 emin) 1 * inject_Z (Z.of_nat n))%Q) by (rewrite Hx; exact Hp).
  rewrite (round_binary_compat _ _ Hp' Hx). unfold ssize_of_double.
  pose proof (round_binary_int (Z.of_nat n) ltac:(lia)) as Hv.
  destruct (Qle_bool _ _) eqn:E.
  - apply Qle_bool_iff in E. rewrite Hv, <- Zle_Qle in E. lia.
  - by rewrite (Qfloor_comp _ _ Hv), Qfloor_Z.
Qed.

Lemma chunk_request_init (n : Z) :
  (0 <= n < 2 ^ 53)%Z -> chunk_request (0%Z, emin) (Z.to_nat n) = Z.max 8192 n.
Proof.
  intros Hn. unfold chunk_request. rewrite scale_hint_init by lia. unfold chunk_size.
  change (Z.of_nat 8192) with 8192%Z. lia.
Qed.

(** [read(n)] of an [n] out of [Py_ssize_t] raises [OverflowError]
    before reading anything. *)
Lemma stdin_read_overflow `{Allocator} (h : errors) (n : Z) (st : stdin_state) :
  (n < ssize_min \/ ssize_max < n)%Z -> stdin_read h n st = Error overflow_exc.
Proof. intros Hn. unfold stdin_read. by rewrite decide_True. Qed.

Section stdin_lemmas.
Context {alloc : Allocator}.

(** Reading a chunk that does not end the input uses up some of it. *)
Lemma read_chunk_progress (h : errors) (k : nat) (st st1 : stdin_state) :
  read_chunk h k st = Ok (true, st1) -> (stdin_measure st1 < stdin_measure st)%nat.
Proof.
  unfold read_chunk, utf8_decode_incr, stdin_measure.
  destruct st as [bs kept0 dec0 r0]; cbn [in_bytes in_undecoded in_b2cratio].
  destruct (alloc_ok _); cbn [negb]; [|done].
  pose proof (chunk_request_pos r0 k) as Hk.
  destruct (Z.to_nat (chunk_request r0 k)) as [|k'] eqn:Ek; [lia|].
  destruct bs as [|b bs]; cbn [take drop].
  - case_bool_decide as Hc; [|done]. rewrite app_nil_r.
    destruct (utf8_decode h kept0) as [s|] eqn:Ed; [|done]. simpl.
    intros Hr. injection Hr. intros <- Hm. simpl. apply bool_decide_eq_true in Hm as [? | Hs]; [done|].
    destruct kept0; [by injection Ed as <-|]. simpl; lia.
  - case_bool_decide as Hc; [done|].
    destruct (decode_part h _ 0 _) as [[s p]|] eqn:Ed; [|done].
    intros Hr. injection Hr. intros; subst st1. apply decode_part_kept in Ed. cbn [in_bytes in_undecoded].
    rewrite length_app in Ed. simpl in *. rewrite length_take in Ed. rewrite length_drop. lia.
Qed.

(** C22 (termination): the loop of [sys.stdin.read(n)] gives the same
    result for every amount of fuel above the measure of what is left to
    read, so the fuel [stdin_read] passes never cuts it short: the loop
    ends by reaching [n] characters or the end of the input. *)
Theorem read_loop_fuel (h : errors) (f1 f2 r : nat) (acc : pystr) (st : stdin_state) :
  (stdin_measure st < f1)%nat -> (stdin_measure st < f2)%nat ->
  read_loop h f1 r acc st = read_loop h f2 r acc st.
Proof.
  revert f2 r acc st. induction f1 as [|f1 IH]; intros [|f2] r acc st H1 H2; try lia. simpl.
  case_decide; [done|].
  destruct (read_chunk h r st) as [[[|] st1]|e] eqn:E; simpl; try done.
  apply read_chunk_progress in E. apply IH; unfold stdin_measure in *; simpl; lia.
Qed.

(** When what is left decodes whole to [t], the loop returns the next
    [r] characters of the decoded text, chunk boundaries or not. *)
Lemma read_loop_whole (Halloc : forall k, alloc_ok k = true)
    (h : errors) (fuel r : nat) (acc : pystr) (st : stdin_state) (t : pystr) :
  (stdin_measure st < fuel)%nat -> r = 0%nat \/ in_decoded st = [] ->
  utf8_decode h (in_undecoded st ++ in_bytes st) = Ok t ->
  exists st', read_loop h fuel r acc st = Ok (acc ++ take r (in_decoded st ++ t), st').
Proof.
  unfold stdin_measure. revert r acc st t. induction fuel as [|f IH]; intros r acc [bs kept dec q] t Hf Hr Ht;
    cbn [in_bytes in_undecoded in_decoded in_b2cratio] in *; [lia|].
  cbn [read_loop]. case_decide as Hr0; [subst r; exists (StdinState bs kept dec q); by rewrite take_0, app_nil_r|].
  destruct Hr as [? | ->]; [done|]. cbn [app].
  unfold read_chunk, utf8_decode_incr. cbn [in_bytes in_undecoded in_b2cratio].
  rewrite Halloc. cbn [negb].
  pose proof (chunk_request_pos q r) as Hk. destruct (Z.to_nat (chunk_request q r)) as [|k'] eqn:Ek; [lia|].
  destruct bs as [|b bs]; cbn [take drop].
  - case_bool_decide as Hc; [|done]. rewrite app_nil_r in *. rewrite Ht. simpl.
    case_bool_decide as Hm; simpl.
    + destruct Hm as [? | Htne]; [done|].
      edestruct (IH (r - length (take r t))%nat (acc ++ take r t) (StdinState [] [] (drop r t) (b2cratio 0 (length t))) [])
        as [st' Hst]; cbn [in_bytes in_undecoded in_decoded]; try done.
      * destruct kept; [by injection Ht as <-|]. simpl in *; lia.
      * destruct (decide (length t <= r)%nat); [right; by apply drop_ge | left; rewrite length_take; lia].
      * exists st'. rewrite Hst, app_nil_r, <- app_assoc. cbn [in_decoded].
        by rewrite <- (app_nil_r (drop r t)), take_app_rounds, app_nil_r.
    + exists (StdinState [] [] t (b2cratio 0 (length t))). assert (t = []) as -> by (destruct t; [done | exfalso; apply Hm; by right]).
      by rewrite take_nil, !app_nil_r.
  - case_bool_decide as Hc; [done|].
    rewrite <- (take_drop k' bs), app_comm_cons, app_assoc in Ht. unfold utf8_decode in Ht.
    destruct (decode_part_split h (length (kept ++ b :: take k' bs)) (kept ++ b :: take k' bs)
                (drop k' bs) 0 _ t (le_n _) (le_n _) Ht) as (s1 & p & s2 & Hd & Hs2 & -> & Hp).
    rewrite Hd. cbn.
    edestruct (IH (r - length (take r s1))%nat (acc ++ take r s1) (StdinState (drop k' bs) p (drop r s1) (b2cratio (S (length (take k' bs))) (length s1))) s2)
      as [st' Hst]; cbn [in_bytes in_undecoded in_decoded]; try done.
    + rewrite length_app, length_drop in *. simpl in *. rewrite length_take in Hp. lia.
    + destruct (decide (length s1 <= r)%nat); [right; by apply drop_ge | left; rewrite length_take; lia].
    + exists st'. rewrite Hst, <- app_assoc. cbn [in_decoded]. by rewrite take_app_rounds.
Qed.

(** [read] raises [UnicodeDecodeError], [MemoryError] or
    [OverflowError], and nothing else. *)
Lemma stdin_read_error (h : errors) (n : Z) (st : stdin_state) (e : pyexc) :
  stdin_read h n st = Error e -> read_escapes (exc_cls e).
Proof.
  unfold stdin_read, read_escapes. case_decide; [intros [= <-]; simpl; tauto|]. case_decide.
  - destruct (alloc_ok _); cbn [negb]; [|intros [= <-]; simpl; tauto].
    destruct (utf8_decode h _); intros [= <-]; simpl; tauto.
  - destruct (take_decoded _ st) as [s st1].
    generalize (Z.to_nat n - length s)%nat, (S (2 * length (in_bytes st) + length (in_undecoded st))).
    intros r fuel. revert r s st1. induction fuel as [|f IH]; intros r acc st1; simpl; [done|].
    case_decide; [done|]. unfold read_chunk.
    destruct (alloc_ok _); cbn [negb]; [|intros [= <-]; simpl; tauto].
    destruct (utf8_decode_incr _ _ _) as [[s' kept]|e']; simpl; [|intros [= <-]; simpl; tauto].
    destruct (bool_decide _); simpl; [|done]. apply IH.
Qed.

(** C20 (equivalence): reading [sys.stdin] in chunks gives the text that
    decoding the whole body at once gives: for an [n] that fits
    [Py_ssize_t], when the body decodes to [s] and no buffer allocation
    fails, [sys.stdin.read(n)] returns [s] for a negative [n] and the
    first [n] characters of [s] otherwise, wherever the chunks end. *)
Theorem stdin_read_whole (h : errors) (n : Z) (body : list N) (s : pystr) :
  (forall k, alloc_ok k = true) -> (ssize_min <= n <= ssize_max)%Z ->
  utf8_decode h body = Ok s ->
  exists st', stdin_read h n (stdin_init body) =
              Ok (if decide (n < 0)%Z then s else take (Z.to_nat n) s, st').
Proof.
  intros Halloc Hn Hs. unfold stdin_read, stdin_init. cbn [in_undecoded in_bytes in_decoded app].
  rewrite decide_False by lia.
  case_decide; [rewrite Halloc; cbn [negb]; rewrite Hs; by eexists|].
  unfold take_decoded. cbn [in_decoded in_bytes in_undecoded in_b2cratio]. rewrite take_nil, drop_nil.
  destruct (read_loop_whole Halloc h (S (2 * length body + length (@nil N))) (Z.to_nat n - length (@nil N))
              [] (StdinState body [] [] (0%Z, emin)) s) as [st' Hst]; cbn [in_bytes in_undecoded in_decoded];
    [unfold stdin_measure; simpl; lia | by right | done |].
  exists st'. rewrite Hst. simpl. by rewrite Nat.sub_0_r.
Qed.

(** C21 (error): [sys.stdin.read(n)] for [0 < n < 2^53] decodes no further than
    the first chunk of [max(8192, n)] bytes when that chunk, once
    allocated, holds [n] characters: an ill-formed byte after it raises
    nothing, even under [errors='strict'], where reading the whole body
    would raise. *)
Theorem stdin_read_first_chunk (h : errors) (n : Z) (body : list N) (s kept : pystr) :
  (0 < n < 2 ^ 53)%Z -> alloc_ok (Z.max 8192 n) = true ->
  decode_part h (length (take (Nat.max chunk_size (Z.to_nat n)) body)) 0
    (take (Nat.max chunk_size (Z.to_nat n)) body) = Ok (s, kept) ->
  (Z.to_nat n <= length s)%nat ->
  exists st', stdin_read h n (stdin_init body) = Ok (take (Z.to_nat n) s, st').
Proof.
  intros Hn Ha Hd Hlen. unfold stdin_read, stdin_init. rewrite !decide_False by (unfold ssize_min, ssize_max; lia).
  unfold take_decoded. cbn [in_decoded in_bytes in_undecoded length]. rewrite take_nil, drop_nil, Nat.sub_0_r.
  cbn [read_loop]. rewrite decide_False by lia. unfold read_chunk, utf8_decode_incr.
  cbn [in_bytes in_undecoded in_b2cratio app]. rewrite chunk_request_init, Ha by lia. cbn [negb].
  replace (Z.to_nat (Z.max 8192 n)) with (Nat.max chunk_size (Z.to_nat n)) by (rewrite Z2Nat.inj_max; reflexivity).
  destruct (take (Nat.max chunk_size (Z.to_nat n)) body) as [|b c] eqn:Ec.
  - simpl in Hd. injection Hd as <- <-. simpl in Hlen. lia.
  - rewrite bool_decide_false by done. rewrite Hd. cbn.
    replace (Z.to_nat n - length (take (Z.to_nat n) s))%nat with 0%nat by (rewrite length_take; lia).
    match goal with |- context [read_loop h ?f 0] => destruct f; cbn [read_loop] end; [by eexists|].
    rewrite decide_True by done. by eexists.
Qed.
(** [read(n)] for [0 < n < 2^53] raises [MemoryError] when the buffer
    of its first chunk, [max(8192, n)] bytes, cannot be allocated,
    whatever the body. *)
Lemma stdin_read_memory (h : errors) (n : Z) (body : list N) :
  (0 < n < 2 ^ 53)%Z -> alloc_ok (Z.max 8192 n) = false ->
  stdin_read h n (stdin_init body) = Error memory_exc.
Proof.
  intros Hn Ha. unfold stdin_read, stdin_init. rewrite !decide_False by (unfold ssize_min, ssize_max; lia).
  unfold take_decoded. cbn [in_decoded in_bytes in_undecoded length]. rewrite take_nil, Nat.sub_0_r.
  cbn [read_loop]. rewrite decide_False by lia. unfold read_chunk. cbn [in_b2cratio].
  by rewrite chunk_request_init, Ha by lia.
Qed.
End stdin_lemmas.

(** ** Witnesses *)

(** A process that can allocate buffers of up to 4 GiB, the allocator of
    the witnesses. *)
#[export] Instance alloc_4gib : Allocator := { alloc_ok k := bool_decide (k <= 2 ^ 32)%Z }.

(** An allocator that never refuses. *)
Definition alloc_any : Allocator := {| alloc_ok _ := true |}.

(** ["héllo"] in UTF-8. *)
Definition hello_utf8 : list N := [104; 195; 169; 108; 108; 111]%N.

Lemma read_loop_fuel_witness :
  (stdin_measure (stdin_init hello_utf8) < 20)%nat /\ (stdin_measure (stdin_init hello_utf8) < 30)%nat /\
  read_loop Strict 20 4 [] (stdin_init hello_utf8) = read_loop Strict 30 4 [] (stdin_init hello_utf8) /\
  read_loop Strict 20 4 [] (stdin_init hello_utf8) =
    Ok ([104; 233; 108; 108]%N, StdinState [] [] [111%N] (b2cratio 6 5)).
Proof.
  assert (H1 : (stdin_measure (stdin_init hello_utf8) < 20)%nat) by (vm_compute; lia).
  assert (H2 : (stdin_measure (stdin_init hello_utf8) < 30)%nat) by (vm_compute; lia).
  split; [exact H1|]. split; [exact H2|].
  split; [exact (read_loop_fuel Strict 20 30 4 [] _ H1 H2) | vm_compute; reflexivity].
Defined.

Lemma stdin_read_whole_witness :
  (forall k, alloc_ok (Allocator := alloc_any) k = true) /\ (ssize_min <= 3 <= ssize_max)%Z /\
  utf8_decode Strict hello_utf8 = Ok [104; 233; 108; 108; 111]%N /\
  exists st', stdin_read (alloc := alloc_any) Strict 3 (stdin_init hello_utf8) =
              Ok (if decide (3 < 0)%Z then [104; 233; 108; 108; 111]%N
                  else take (Z.to_nat 3) [104; 233; 108; 108; 111]%N, st').
Proof.
  assert (Ha : forall k, alloc_ok (Allocator := alloc_any) k = true) by reflexivity.
  assert (Hn : (ssize_min <= 3 <= ssize_max)%Z) by (unfold ssize_min, ssize_max; lia).
  assert (H : utf8_decode Strict hello_utf8 = Ok [104; 233; 108; 108; 111]%N) by (vm_compute; reflexivity).
  split; [exact Ha|]. split; [exact Hn|]. split; [exact H|].
  exact (stdin_read_whole (alloc := alloc_any) Strict 3 _ _ Ha Hn H).
Defined.

(** 9000 bytes of ['a'] and an ill-formed byte: [read(5)] decodes the
    first 8192 bytes only. *)
Definition bad_tail_body : list N := replicate 9000 97%N ++ [255%N].

Lemma stdin_read_first_chunk_witness :
  (0 < 5 < 2 ^ 53)%Z /\ alloc_ok (Z.max 8192 5) = true /\
  decode_part Strict (length (take (Nat.max chunk_size (Z.to_nat 5)) bad_tail_body)) 0
    (take (Nat.max chunk_size (Z.to_nat 5)) bad_tail_body) = Ok (replicate 8192 97%N, []) /\
  (Z.to_nat 5 <= length (replicate 8192 97%N))%nat /\
  (exists st', stdin_read Strict 5 (stdin_init bad_tail_body) =
               Ok (take (Z.to_nat 5) (replicate 8192 97%N), st')) /\
  is_ok (utf8_decode Strict bad_tail_body) = false.
Proof.
  assert (H1 : (0 < 5 < 2 ^ 53)%Z) by lia.
  assert (Ha : alloc_ok (Z.max 8192 5) = true) by reflexivity.
  assert (H2 : decode_part Strict (length (take (Nat.max chunk_size (Z.to_nat 5)) bad_tail_body)) 0
                 (take (Nat.max chunk_size (Z.to_nat 5)) bad_tail_body) = Ok (replicate 8192 97%N, []))
    by (vm_compute; reflexivity).
  assert (H3 : (Z.to_nat 5 <= length (replicate 8192 97%N))%nat) by (rewrite length_replicate; vm_compute; lia).
  split; [exact H1|]. split; [exact Ha|]. split; [exact H2|]. split; [exact H3|].
  split; [exact (stdin_read_first_chunk Strict 5 _ _ _ H1 Ha H2 H3) | vm_compute; reflexivity].
Defined.

(** 5000 [é] (10000 bytes), 9000 ['a'], an ill-formed byte and 2000
    ['a']: [read(10000)] reads a first chunk of 10000 bytes, 5000
    characters at [b2cratio = 2.0], then a second of [2.0 * 5000] bytes,
    which holds the bad byte although the characters wanted end 4000
    bytes before it.  A second chunk of [max(8192, 5000)] bytes would not
    reach it. *)
Definition scaled_chunk_body : list N :=
  mjoin (replicate 5000 [195; 169]%N) ++ replicate 9000 97%N ++ [255%N] ++ replicate 2000 97%N.

Example stdin_read_scaled_chunk :
  is_ok (utf8_decode Strict (take 15000 scaled_chunk_body)) = true /\
  stdin_read Strict 10000 (stdin_init scaled_chunk_body) =
    Error (Exc EUnicodeDecodeError ⟪"'utf-8' codec can't decode byte 0xff in position 9000: invalid start byte"⟫).
Proof. split; vm_compute; reflexivity. Qed.
