(* ===== verification/Process.v ===== *)
(** * The CGI process

    A script runs as a fresh Python process: [os.environ] is a snapshot of
    the environment the server passed, [sys.stdin] holds the request body,
    and everything printed on [sys.stdout] goes back to the server.  An
    uncaught exception ends the script; what was printed before it stays
    in the output (CPython flushes [sys.stdout] at exit).

    [PyM] is the state and exception monad of a script: the state is the
    standard input ([TextIO.stdin_state]) and the text written so far; a
    computation returns a value or the exception it raises.  The
    environment is read-only and passed to the scripts as an argument.
    [io_errors] is the error handler of both streams (see [TextIO]). *)

From S2P Require Import Prelude PyStr Unicode PyRepr TextIO.

Record pstate := PState { ps_in : stdin_state; ps_out : pystr }.

Definition PyM (A : Type) : Type := pstate -> pstate * result pyexc A.

#[export] Instance PyM_ret : MRet PyM := fun A a st => (st, Ok a).
#[export] Instance PyM_bind : MBind PyM :=
  fun A B f m st =>
    let '(st', r) := m st in
    match r with Ok a => f a st' | Error e => (st', Error e) end.

(** [raise e] *)
Definition raise {A} (e : pyexc) : PyM A := fun st => (st, Error e).

(** The value or exception of a library call that does not touch the
    process state. *)
Definition lift {A} (r : result pyexc A) : PyM A := fun st => (st, r).

(** [try: body except Exception as e: handler(e)] *)
Definition try_except {A} (body : PyM A) (handler : pyexc -> PyM A) : PyM A :=
  fun st => let '(st', r) := body st in
            match r with Ok a => (st', Ok a) | Error e => handler e st' end.

(** The environment [os.environ], in the order it lists its items; its
    names are distinct. *)
Abbreviation environ := (list (pystr * pystr)).

(** [os.environ.get(name)]: [None] when the variable is not set. *)
Definition getenv (env : environ) (name : pystr) : option pystr :=
  (fun ikv : nat * (pystr * pystr) => ikv.2.2) <$> list_find (fun kv => kv.1 = name) env.

Section io.
Context {alloc : Allocator} (io_errors : errors).

(** [sys.stdout.write(s)] *)
Definition write (s : pystr) : PyM unit :=
  fun st => match stdout_encode io_errors s with
            | Ok _ => (PState (ps_in st) (ps_out st ++ s), Ok tt)
            | Error e => (st, Error e)
            end.

(** The writes of [print(a1, ..., an)]: [a1], then [' '] and [ai] for
    each further argument, then the newline. *)
Fixpoint write_args (first : bool) (args : list pystr) : PyM unit :=
  match args with
  | [] => mret tt
  | a :: args' =>
      (if first then mret tt else write ⟪" "⟫) ≫= fun _ =>
      write a ≫= fun _ => write_args false args'
  end.

Definition print (args : list pystr) : PyM unit :=
  write_args true args ≫= fun _ => write [10%N].

(** [sys.stdin.read(n)] *)
Definition read_stdin (n : Z) : PyM pystr :=
  fun st => match stdin_read io_errors n (ps_in st) with
            | Ok (s, in') => (PState in' (ps_out st), Ok s)
            | Error e => (st, Error e)
            end.
End io.

(** A run of a script on a request body: the text it printed and the
    exception that ended it, if one did. *)
Definition run_script (main : PyM unit) (body : list N) : pystr * option pyexc :=
  let '(st, r) := main (PState (stdin_init body) []) in
  (ps_out st, match r with Ok _ => None | Error e => Some e end).

(** ** Lemmas on the monad *)

Lemma bind_ret_l {A B} (a : A) (f : A -> PyM B) : (mret a ≫= f) = f a.
Proof. reflexivity. Qed.

(** Writing text that encodes appends it to the output. *)
Lemma write_ok (h : errors) (s : pystr) (st : pstate) :
  stdout_encode h s = Ok tt -> write h s st = (PState (ps_in st) (ps_out st ++ s), Ok tt).
Proof. unfold write. by intros ->. Qed.

Lemma encode_go_app_inv (h : errors) (pos pos' : nat) (s1 s2 : pystr) (b : list N) :
  encode_go h pos (s1 ++ s2) = Ok b ->
  exists b1 b2, encode_go h pos s1 = Ok b1 /\ encode_go h pos' s2 = Ok b2 /\ b = b1 ++ b2.
Proof.
  revert pos b. induction s1 as [|c s1 IH]; intros pos b; simpl.
  - intros H. exists [], b. split_and!; [done | by eapply encode_go_pos | done].
  - destruct (encode_char h c) as [bc|]; [|done].
    destruct (encode_go h (S pos) (s1 ++ s2)) as [b'|] eqn:E; [|done]. intros [= <-].
    destruct (IH _ _ E) as (b1 & b2 & -> & -> & ->). exists (bc ++ b1), b2.
    split_and!; [done | done | by rewrite app_assoc].
Qed.

(** The text [print] writes: the arguments separated by spaces, and a
    newline. *)
Definition print_text (args : list pystr) : pystr := join ⟪" "⟫ args ++ [10%N].

Definition encodable (h : errors) (s : pystr) : Prop := is_ok (utf8_encode h s) = true.

(** Checking a list of lines line by line, as a boolean. *)
Lemma encodable_forallb (h : errors) (l : list pystr) :
  forallb (fun s => is_ok (utf8_encode h s)) l = true -> Forall (encodable h) l.
Proof. rewrite forallb_forall, Forall_forall. intros H s Hs. apply H. by apply list_elem_of_In. Qed.

Lemma encodable_app (h : errors) (s1 s2 : pystr) :
  encodable h (s1 ++ s2) -> encodable h s1 /\ encodable h s2.
Proof.
  unfold encodable, utf8_encode. destruct (encode_go h 0 (s1 ++ s2)) eqn:E; [|done].
  intros _. destruct (encode_go_app_inv _ _ 0 _ _ _ E) as (b1 & b2 & -> & -> & _). done.
Qed.

Lemma write_encodable (h : errors) (s : pystr) (st : pstate) :
  encodable h s -> write h s st = (PState (ps_in st) (ps_out st ++ s), Ok tt).
Proof.
  unfold encodable, write, stdout_encode. by destruct (utf8_encode h s).
Qed.

Lemma bind_ok {A B} (m : PyM A) (f : A -> PyM B) (st st' : pstate) (a : A) :
  m st = (st', Ok a) -> (m ≫= f) st = f a st'.
Proof. intros Hm. unfold mbind, PyM_bind. by rewrite Hm. Qed.

Lemma bind_error {A B} (m : PyM A) (f : A -> PyM B) (st st' : pstate) (e : pyexc) :
  m st = (st', Error e) -> (m ≫= f) st = (st', Error e).
Proof. intros Hm. unfold mbind, PyM_bind. by rewrite Hm. Qed.

Lemma ret_ok {A} (a : A) (st : pstate) : (mret a : PyM A) st = (st, Ok a).
Proof. reflexivity. Qed.

Lemma write_args_ok (h : errors) (first : bool) (args : list pystr) (st : pstate) :
  encodable h ((if first then [] else ⟪" "⟫) ++ join ⟪" "⟫ args) ->
  args <> [] ->
  write_args h first args st =
    (PState (ps_in st) (ps_out st ++ (if first then [] else ⟪" "⟫) ++ join ⟪" "⟫ args), Ok tt).
Proof.
  revert first st. induction args as [|a args IH]; intros first st Henc Hne; [done|].
  cbn [write_args].
  assert (Ha : join ⟪" "⟫ (a :: args) =
               a ++ (if decide (args = []) then [] else ⟪" "⟫ ++ join ⟪" "⟫ args)).
  { destruct args; cbn [join]; [by rewrite app_nil_r | done]. }
  rewrite Ha in Henc |- *.
  apply encodable_app in Henc as [Hp Hrest]. apply encodable_app in Hrest as [Ha' Hrest].
  destruct first; [erewrite bind_ok by apply ret_ok | erewrite bind_ok by (by apply write_encodable)];
    erewrite bind_ok by (by apply write_encodable); cbn [ps_in ps_out];
    (destruct (decide (args = [])) as [->|Hargs];
     [cbn [write_args]; rewrite ret_ok; by rewrite ?app_nil_r, ?app_nil_l, ?app_assoc
     |rewrite IH; [cbn [ps_in ps_out]; by rewrite ?app_nil_l, <- ?app_assoc
                  | exact Hrest | exact Hargs]]).
Qed.

(** [print(a1, ..., an)] appends [print_text] to the output when it
    encodes. *)
Lemma print_ok (h : errors) (args : list pystr) (st : pstate) :
  encodable h (print_text args) ->
  print h args st = (PState (ps_in st) (ps_out st ++ print_text args), Ok tt).
Proof.
  unfold print, print_text. intros Henc. apply encodable_app in Henc as [Hj Hn].
  destruct args as [|a args].
  - erewrite bind_ok by apply ret_ok. by rewrite write_encodable.
  - erewrite bind_ok by (apply write_args_ok; [exact Hj | done]).
    rewrite write_encodable by done. cbn [ps_in ps_out app]. by rewrite <- app_assoc.
Qed.

(** [print(a, b)] where [b] does not encode: [a] and the separator are
    written, then [sys.stdout.write(b)] raises and nothing of [b] nor the
    newline is written. *)
Lemma print_pair_error (h : errors) (a b : pystr) (st : pstate) (e : pyexc) :
  encodable h (a ++ ⟪" "⟫) -> stdout_encode h b = Error e ->
  print h [a; b] st = (PState (ps_in st) (ps_out st ++ a ++ ⟪" "⟫), Error e).
Proof.
  intros Ha Hb. apply encodable_app in Ha as [Ha Hs].
  unfold print. erewrite bind_error; [reflexivity|].
  cbn [write_args]. rewrite bind_ret_l.
  erewrite bind_ok by (by apply write_encodable). cbn [ps_in ps_out].
  erewrite bind_ok by (by apply write_encodable). cbn [ps_in ps_out].
  erewrite bind_error by (unfold write; by rewrite Hb). by rewrite <- app_assoc.
Qed.

(** The text of a list of lines, each ended by a newline. *)
Definition unlines (ls : list pystr) : pystr := mjoin (map (fun l => l ++ [10%N]) ls).

Lemma unlines_nil : unlines [] = [].
Proof. reflexivity. Qed.

Lemma unlines_cons (l : pystr) (ls : list pystr) : unlines (l :: ls) = (l ++ [10%N]) ++ unlines ls.
Proof. reflexivity. Qed.

Lemma unlines_app (ls1 ls2 : list pystr) : unlines (ls1 ++ ls2) = unlines ls1 ++ unlines ls2.
Proof. unfold unlines. by rewrite map_app, join_app. Qed.

Lemma encodable_nl (h : errors) (l : pystr) : encodable h l -> encodable h (l ++ [10%N]).
Proof.
  unfold encodable, utf8_encode. destruct (encode_go h 0 l) as [b|] eqn:E; [|done].
  intros _. by rewrite (encode_go_app h 0 0 l [10%N] b [10%N] E).
Qed.

(** ** Which exceptions each operation raises *)

Lemma write_error (h : errors) (s : pystr) (st st' : pstate) (e : pyexc) :
  write h s st = (st', Error e) -> exc_cls e = EUnicodeEncodeError /\ st' = st.
Proof.
  unfold write, stdout_encode. destruct (utf8_encode h s); by intros [= <- <-].
Qed.

Lemma write_args_error (h : errors) (first : bool) (args : list pystr) (st st' : pstate) (e : pyexc) :
  write_args h first args st = (st', Error e) -> exc_cls e = EUnicodeEncodeError.
Proof.
  revert first st. induction args as [|a args IH]; intros first st; cbn [write_args]; [done|].
  unfold mbind, PyM_bind.
  destruct ((if first then mret tt else write h ⟪" "⟫) st) as [st1 [[]|e1]] eqn:E1.
  - destruct (write h a st1) as [st2 [[]|e2]] eqn:E2; [by apply IH|].
    intros [= <- <-]. by apply write_error in E2 as [? _].
  - intros [= <- <-]. destruct first; [done|]. by apply write_error in E1 as [? _].
Qed.

Lemma print_error (h : errors) (args : list pystr) (st st' : pstate) (e : pyexc) :
  print h args st = (st', Error e) -> exc_cls e = EUnicodeEncodeError.
Proof.
  unfold print, mbind, PyM_bind.
  destruct (write_args h true args st) as [st1 [[]|e1]] eqn:E1.
  - intros H. by apply write_error in H as [? _].
  - intros [= <- <-]. by apply write_args_error in E1.
Qed.

Lemma read_stdin_error `{Allocator} (h : errors) (n : Z) (st st' : pstate) (e : pyexc) :
  read_stdin h n st = (st', Error e) -> read_escapes (exc_cls e).
Proof.
  unfold read_stdin. destruct (stdin_read h n (ps_in st)) as [[??]|e'] eqn:E; [done|].
  intros [= <- <-]. by apply stdin_read_error in E.
Qed.

(** ** Which exceptions a computation may raise *)

(** [raises_only P m]: every exception [m] raises has a class in [P]. *)
Definition raises_only {A} (P : exc_class -> Prop) (m : PyM A) : Prop :=
  forall st st' e, m st = (st', Error e) -> P (exc_cls e).

Section raises_only.
Context (P : exc_class -> Prop).

Lemma raises_only_ret {A} (a : A) : raises_only P (mret a).
Proof. by intros st st' e [=]. Qed.

Lemma raises_only_bind {A B} (m : PyM A) (f : A -> PyM B) :
  raises_only P m -> (forall a, raises_only P (f a)) -> raises_only P (m ≫= f).
Proof.
  intros Hm Hf st st' e. unfold mbind, PyM_bind.
  destruct (m st) as [st1 [a|e1]] eqn:E; [by apply Hf|]. intros [= <- <-]. by eapply Hm.
Qed.

Lemma raises_only_lift {A} (r : result pyexc A) :
  (forall e, r = Error e -> P (exc_cls e)) -> raises_only P (lift r).
Proof. intros Hr st st' e [= _ ->]. by apply Hr. Qed.

(** An [except Exception] handler decides what escapes. *)
Lemma raises_only_try {A} (body : PyM A) (handler : pyexc -> PyM A) :
  (forall e, raises_only P (handler e)) -> raises_only P (try_except body handler).
Proof.
  intros Hh st st' e. unfold try_except.
  destruct (body st) as [st1 [a|e1]]; [by intros [=] | apply Hh].
Qed.

Lemma raises_only_print (h : errors) (args : list pystr) :
  P EUnicodeEncodeError -> raises_only P (print h args).
Proof. intros HP st st' e H. by rewrite (print_error _ _ _ _ _ H). Qed.

Lemma raises_only_read `{Allocator} (h : errors) (n : Z) :
  P EUnicodeDecodeError -> P EMemoryError -> P EOverflowError -> raises_only P (read_stdin h n).
Proof.
  intros H1 H2 H3 st st' e He. by destruct (read_stdin_error _ _ _ _ _ He) as [-> | [-> | ->]].
Qed.

Lemma raises_only_if {A} (b : bool) (m1 m2 : PyM A) :
  raises_only P m1 -> raises_only P m2 -> raises_only P (if b then m1 else m2).
Proof. by destruct b. Qed.

Lemma raises_only_decide {A} (Q : Prop) `{Decision Q} (m1 m2 : PyM A) :
  raises_only P m1 -> raises_only P m2 -> raises_only P (if decide Q then m1 else m2).
Proof. by destruct (decide Q). Qed.
End raises_only.

(** One step of a [raises_only] proof, by the shape of the program. *)
Ltac raises_step :=
  match goal with
  | |- raises_only _ (_ ≫= _) => apply raises_only_bind; [|intros ?]
  | |- raises_only _ (if decide _ then _ else _) => apply raises_only_decide
  | |- raises_only _ (if _ then _ else _) => apply raises_only_if
  | |- raises_only _ (try_except _ _) => apply raises_only_try; intros ?
  | |- raises_only _ (mret _) => apply raises_only_ret
  | |- raises_only _ (print _ _) => apply raises_only_print
  | |- raises_only _ (read_stdin _ _) => apply raises_only_read
  end.

(** What ends a run is what the computation raised. *)
Lemma run_script_raises {P : exc_class -> Prop} (m : PyM unit) (body : list N) (e : pyexc) :
  raises_only P m -> (run_script m body).2 = Some e -> P (exc_cls e).
Proof.
  intros Hm. unfold run_script. destruct (m _) as [st [[]|e']] eqn:E; [done|].
  intros [= <-]. by eapply Hm.
Qed.
