(* ===== verification/Cgi.v ===== *)
(** * What the CGI scripts share

    [test.py] and [script.py] read the request body the same way: the
    length from [CONTENT_LENGTH] through [int()], then that many
    characters of [sys.stdin].  [script.py] and [echo.py] print one line
    per item of a collection with a [for] loop ([py_for]).  This file
    holds these pieces and the lemmas that run them. *)

From S2P Require Import Prelude PyStr Unicode PyRepr PyInt TextIO Process.

Section cgi.
Context `{UnicodeDB}.

(** [int(os.environ.get("CONTENT_LENGTH", 0))]: [int(0)] is [0]. *)
Definition content_length (env : environ) : result pyexc Z :=
  match getenv env ⟪"CONTENT_LENGTH"⟫ with
  | None => Ok 0%Z
  | Some s => py_int s
  end.

End cgi.

(** [for x in l: body(x)] *)
Fixpoint py_for {A} (l : list A) (body : A -> PyM unit) : PyM unit :=
  match l with
  | [] => mret tt
  | x :: l' => body x;; py_for l' body
  end.

(** ** Lemmas *)

Section cgi_lemmas.
Context `{UnicodeDB}.

Lemma content_length_error (env : environ) (e : pyexc) :
  content_length env = Error e -> exc_cls e = EValueError.
Proof.
  unfold content_length. destruct (getenv _ _); [apply py_int_error_class | done].
Qed.


End cgi_lemmas.

(** A loop that prints one encodable line per item appends the lines. *)
Lemma py_for_print_ok {A} (h : errors) (f : A -> pystr) (l : list A) (st : pstate) :
  Forall (encodable h) (map f l) ->
  py_for l (fun x => print h [f x]) st = (PState (ps_in st) (ps_out st ++ unlines (map f l)), Ok tt).
Proof.
  revert st. induction l as [|x l IH]; intros st Hl; cbn [py_for map].
  - rewrite ret_ok. by destruct st; rewrite app_nil_r.
  - apply Forall_cons in Hl as [Hx Hl].
    erewrite bind_ok by (apply print_ok; unfold print_text; apply encodable_nl; exact Hx).
    rewrite IH by done. cbn [ps_in ps_out]. rewrite unlines_cons. unfold print_text. cbn [join].
    by rewrite <- app_assoc.
Qed.

Lemma raises_only_for {A} (P : exc_class -> Prop) (l : list A) (body : A -> PyM unit) :
  (forall x, raises_only P (body x)) -> raises_only P (py_for l body).
Proof.
  intros Hb. induction l as [|x l IH]; cbn [py_for]; [apply raises_only_ret|].
  apply raises_only_bind; [apply Hb | intros; exact IH].
Qed.

Ltac cgi_raises_step :=
  first [ raises_step
        | match goal with
          | |- raises_only _ (py_for _ _) => apply raises_only_for; intros ?
          end ].

(** A loop whose body prints only for some items prints the lines of the
    items kept by [filter]. *)
Lemma py_for_filter {A} (p : A -> bool) (body : A -> PyM unit) (l : list A) :
  py_for l (fun x => if p x then body x else mret tt) = py_for (filter (fun x => p x = true) l) body.
Proof.
  induction l as [|x l IH]; [done|]. cbn [py_for]. rewrite filter_cons.
  destruct (p x); cbn [py_for]; rewrite IH; [done|].
  rewrite decide_False by done. done.
Qed.
