(* ===== verification/TestPy.v ===== *)
(** * [src/resources/cgi-bin/test.py]

    The script prints a [text/plain] header and a banner, the request
    method and query string, the parsed query string when it is not empty,
    and for a POST the content type and the body: decoded by [json.loads]
    when the content type contains ["application/json"] (any exception is
    caught and printed), printed raw otherwise.

    [test_main] follows the script statement by statement over the
    process monad [PyM].  Its parameters: the Unicode database, the
    recursion budget of the JSON
    scanner ([budget], 995 under CPython 3.11's default limit) and the
    error handler of the standard streams ([io]). *)

From S2P Require Import Prelude PyStr Unicode UnicodeData PyRepr PyInt UrlParse Json TextIO Process Cgi.

(** The [dict] returned by [parse_qs] as a Python value. *)
Definition qsdict_val (d : qsdict) : pyval :=
  PDict (map (fun kv => (kv.1, PList (map PStr kv.2))) d).

Section test_py.
Context `{UnicodeDB} {alloc : Allocator} (budget : nat) (io : errors).

(** Lines 25-39: the body of [if method == "POST":]. *)
Definition test_post (env : environ) : PyM unit :=
  length ← lift (content_length env);
  body ← read_stdin io length;
  let ctype := default [] (getenv env ⟪"CONTENT_TYPE"⟫) in
  print io [⟪"Content-Type:"⟫; ctype];;
  if contains ⟪"application/json"⟫ ctype then
    try_except
      (data ← lift (json_loads budget body);
       print io [⟪"JSON body:"⟫; str_val data])
      (fun e => print io [⟪"JSON error:"⟫; exc_msg e])
  else print io [⟪"Raw body:"⟫; body].

(** Lines 7-22: the header, the banner, the method and the query
    string. *)
Definition test_prelude (env : environ) : PyM unit :=
  print io [⟪"Content-Type: text/plain"⟫];;
  print io [];;
  print io [⟪"=== CGI TEST.PY ==="⟫];;
  let method := default [] (getenv env ⟪"REQUEST_METHOD"⟫) in
  print io [⟪"Method:"⟫; method];;
  let qs := default [] (getenv env ⟪"QUERY_STRING"⟫) in
  print io [⟪"Query string:"⟫; qs];;
  if decide (qs <> []) then
    print io [⟪"Parsed query:"⟫; repr_val (qsdict_val (parse_qs qs))]
  else mret tt.

(** The whole script. *)
Definition test_main (env : environ) : PyM unit :=
  test_prelude env;;
  if decide (default [] (getenv env ⟪"REQUEST_METHOD"⟫) = ⟪"POST"⟫)
  then test_post env else mret tt.

(** ** The report [test.py] writes

    The lines of the output and the exception that ends the script, as
    the spec's decision table lists them. *)
Definition test_head (env : environ) : list pystr :=
  let method := default [] (getenv env ⟪"REQUEST_METHOD"⟫) in
  let qs := default [] (getenv env ⟪"QUERY_STRING"⟫) in
  [⟪"Content-Type: text/plain"⟫; []; ⟪"=== CGI TEST.PY ==="⟫;
   ⟪"Method: "⟫ ++ method; ⟪"Query string: "⟫ ++ qs]
  ++ (if decide (qs = []) then []
      else [⟪"Parsed query: "⟫ ++ repr_val (qsdict_val (parse_qs qs))]).

(** The line for a body of content type [ctype]. *)
Definition body_line (ctype text : pystr) : pystr :=
  if contains ⟪"application/json"⟫ ctype then
    match json_loads budget text with
    | Ok v => ⟪"JSON body: "⟫ ++ str_val v
    | Error e => ⟪"JSON error: "⟫ ++ exc_msg e
    end
  else ⟪"Raw body: "⟫ ++ text.

Definition test_report (env : environ) (body : list N) : list pystr * option pyexc :=
  if decide (default [] (getenv env ⟪"REQUEST_METHOD"⟫) = ⟪"POST"⟫) then
    match content_length env with
    | Error e => (test_head env, Some e)
    | Ok n =>
        match stdin_read io n (stdin_init body) with
        | Error e => (test_head env, Some e)
        | Ok (text, _) =>
            let ctype := default [] (getenv env ⟪"CONTENT_TYPE"⟫) in
            (test_head env ++ [⟪"Content-Type: "⟫ ++ ctype; body_line ctype text], None)
        end
    end
  else (test_head env, None).

(** ** Lemmas *)

Ltac print_step :=
  erewrite bind_ok; [| apply print_ok; unfold print_text; apply encodable_nl; assumption].

Ltac split_Forall :=
  repeat match goal with
  | H : Forall _ (_ :: _) |- _ => apply Forall_cons in H as [? H]
  | H : Forall _ (_ ++ _) |- _ => apply Forall_app in H as [? H]
  end.

(** The statements of lines 7-22 write the head of the report. *)
Lemma test_prelude_run (env : environ) (st : pstate) :
  Forall (encodable io) (test_head env) ->
  test_prelude env st = (PState (ps_in st) (ps_out st ++ unlines (test_head env)), Ok tt).
Proof.
  unfold test_prelude, test_head. cbv zeta. intros Hh. split_Forall.
  do 5 print_step. cbn [ps_in ps_out].
  destruct (decide (default [] (getenv env ⟪"QUERY_STRING"⟫) = [])) as [Hq|Hq].
  - rewrite decide_False by tauto. rewrite ret_ok, app_nil_r.
    unfold print_text; cbn [join]; rewrite ?unlines_app, ?unlines_cons, ?unlines_nil, ?app_nil_r, <- ?app_assoc; reflexivity.
  - rewrite decide_True by done. split_Forall.
    rewrite print_ok by (unfold print_text; apply encodable_nl; assumption). cbn [ps_in ps_out].
    unfold print_text; cbn [join]; rewrite ?unlines_app, ?unlines_cons, ?unlines_nil, ?app_nil_r, <- ?app_assoc; reflexivity.
Qed.

Lemma test_report_head (env : environ) (body : list N) :
  exists extra, (test_report env body).1 = test_head env ++ extra.
Proof.
  unfold test_report. case_decide; [|exists []; by rewrite app_nil_r].
  destruct (content_length env); [|exists []; by rewrite app_nil_r].
  destruct (stdin_read io _ _) as [[??]|]; [by eexists | exists []; by rewrite app_nil_r].
Qed.

(** C1 (refinement): [test.py] writes the report: when every line of
    [test_report] can be written on standard output, a run of
    [test_main] prints exactly those lines and ends with the exception
    the report names, if any.  The report is the spec's decision table:
    header, banner, method, query string, parsed query when the query
    string is not empty, and for a POST the content type and the JSON
    value, the JSON error or the raw body. *)
Theorem test_main_refines (env : environ) (body : list N) :
  Forall (encodable io) (test_report env body).1 ->
  run_script (test_main env) body = (unlines (test_report env body).1, (test_report env body).2).
Proof.
  intros Henc. destruct (test_report_head env body) as [extra Hx].
  rewrite Hx in Henc. apply Forall_app in Henc as [Hh Hextra].
  unfold run_script, test_main. erewrite bind_ok by (apply test_prelude_run; exact Hh).
  cbn [ps_in ps_out app]. revert Hx.
  unfold test_report. case_decide as Hpost; [|intros _; by rewrite ret_ok].
  unfold test_post. destruct (content_length env) as [n|e] eqn:Hcl; cbn [lift];
    [|intros _; by erewrite bind_error by reflexivity].
  erewrite bind_ok by reflexivity. cbv beta.
  destruct (stdin_read io n (stdin_init body)) as [[text in']|e] eqn:Hr;
    [erewrite bind_ok by (unfold read_stdin; cbn [ps_in]; by rewrite Hr)
    |intros _; by erewrite bind_error by (unfold read_stdin; cbn [ps_in]; by rewrite Hr)].
  cbv beta. intros Hx. apply app_inv_head in Hx. subst extra.
  apply Forall_cons in Hextra as [Hct Hextra]. apply Forall_cons in Hextra as [Hbl _].
  print_step. cbn [ps_in ps_out]. revert Hbl. unfold body_line. destruct (contains _ _); intros Hb.
  - unfold try_except. destruct (json_loads budget text) as [v|e]; cbn [lift];
      [erewrite bind_ok by reflexivity|erewrite bind_error by reflexivity];
      (rewrite print_ok by (unfold print_text; apply encodable_nl; assumption));
      cbn [ps_in ps_out fst snd]; unfold print_text; cbn [join];
      rewrite ?unlines_app, ?unlines_cons, ?unlines_nil, ?app_nil_r, <- ?app_assoc; reflexivity.
  - rewrite print_ok by (unfold print_text; apply encodable_nl; assumption).
    cbn [ps_in ps_out fst snd]; unfold print_text; cbn [join].
    rewrite ?unlines_app, ?unlines_cons, ?unlines_nil, ?app_nil_r, <- ?app_assoc; reflexivity.
Qed.

(** The classes of exception that may end [test.py]. *)
Definition test_escapes (c : exc_class) : Prop :=
  c = EValueError \/ c = EUnicodeDecodeError \/ c = EUnicodeEncodeError \/
  c = EMemoryError \/ c = EOverflowError.

(** C2 (safety): no exception of [json.loads] ends the script: whatever the request,
    [test.py] ends normally or with a [ValueError] of
    [int(CONTENT_LENGTH)], a [UnicodeDecodeError], [MemoryError] or
    [OverflowError] of [sys.stdin.read], or a [UnicodeEncodeError] of
    [print]; a [JSONDecodeError] or a [RecursionError] never escapes. *)
Theorem test_main_exceptions (env : environ) (body : list N) (e : pyexc) :
  (run_script (test_main env) body).2 = Some e -> test_escapes (exc_cls e).
Proof.
  apply run_script_raises. unfold test_main, test_prelude, test_post. cbv zeta.
  repeat raises_step; try (unfold test_escapes; tauto).
  apply raises_only_lift. intros e' He'. left. by eapply content_length_error.
Qed.
(** C19 (error): when the value [json.loads] returns has a [str] that
    standard output cannot encode (a lone surrogate from a [\ud834]
    escape), [print("JSON body:", data)] has already written
    ["JSON body: "] when [sys.stdout.write] raises [UnicodeEncodeError]:
    the [except] of line 36 catches it and prints ["JSON error: ..."] on
    the same line, and the script ends normally. *)
Theorem test_json_body_unencodable (env : environ) (body : list N) (n : Z) (text : pystr)
    (st : stdin_state) (v : pyval) (e : pyexc) :
  default [] (getenv env ⟪"REQUEST_METHOD"⟫) = ⟪"POST"⟫ ->
  content_length env = Ok n ->
  stdin_read io n (stdin_init body) = Ok (text, st) ->
  contains ⟪"application/json"⟫ (default [] (getenv env ⟪"CONTENT_TYPE"⟫)) = true ->
  json_loads budget text = Ok v ->
  stdout_encode io (str_val v) = Error e ->
  Forall (encodable io) (test_head env ++
    [⟪"Content-Type: "⟫ ++ default [] (getenv env ⟪"CONTENT_TYPE"⟫); ⟪"JSON error: "⟫ ++ exc_msg e]) ->
  run_script (test_main env) body =
    (unlines (test_head env ++ [⟪"Content-Type: "⟫ ++ default [] (getenv env ⟪"CONTENT_TYPE"⟫);
                                ⟪"JSON body: JSON error: "⟫ ++ exc_msg e]), None).
Proof.
  intros Hm Hcl Hr Hct Hj He Henc. apply Forall_app in Henc as [Hh Hx]. split_Forall.
  unfold run_script, test_main. erewrite bind_ok by (apply test_prelude_run; exact Hh).
  rewrite decide_True by done. unfold test_post. rewrite Hcl. cbn [lift].
  erewrite bind_ok by reflexivity.
  erewrite bind_ok by (unfold read_stdin; cbn [ps_in]; by rewrite Hr). cbv beta.
  print_step. cbn [ps_in ps_out]. rewrite Hct. unfold try_except. rewrite Hj. cbn [lift].
  erewrite bind_ok by reflexivity.
  rewrite (print_pair_error _ _ _ _ e); [cbn [ps_in ps_out] | by destruct io; vm_compute | exact He].
  rewrite print_ok by (unfold print_text; apply encodable_nl; assumption). cbn [ps_in ps_out].
  unfold print_text; cbn [join].
  rewrite ?unlines_app, ?unlines_cons, ?unlines_nil, ?app_nil_r, <- ?app_assoc. reflexivity.
Qed.
End test_py.

(** ** Witnesses *)

Definition get_env : environ :=
  [(⟪"REQUEST_METHOD"⟫, ⟪"GET"⟫); (⟪"QUERY_STRING"⟫, ⟪"a=1&b=2"⟫)].

Definition bad_length_env : environ :=
  [(⟪"REQUEST_METHOD"⟫, ⟪"POST"⟫); (⟪"CONTENT_TYPE"⟫, ⟪"text/plain"⟫);
   (⟪"CONTENT_LENGTH"⟫, ⟪"abc"⟫)].

Lemma test_main_refines_witness :
  Forall (encodable Strict) (test_report (H := latin1_ucd) 995 Strict get_env []).1 /\
  run_script (test_main (H := latin1_ucd) 995 Strict get_env) [] =
    (unlines (test_report (H := latin1_ucd) 995 Strict get_env []).1,
     (test_report (H := latin1_ucd) 995 Strict get_env []).2).
Proof.
  assert (Hl : Forall (encodable Strict) (test_report (H := latin1_ucd) 995 Strict get_env []).1)
    by (apply encodable_forallb; vm_compute; reflexivity).
  split; [exact Hl | apply test_main_refines; exact Hl].
Defined.

Lemma test_main_exceptions_witness :
  (run_script (test_main (H := latin1_ucd) 995 Strict bad_length_env) ⟪"hello"⟫).2 =
    Some (Exc EValueError (invalid_literal_msg (H := latin1_ucd) ⟪"abc"⟫)) /\
  test_escapes EValueError.
Proof.
  assert (Hr : (run_script (test_main (H := latin1_ucd) 995 Strict bad_length_env) ⟪"hello"⟫).2 =
                 Some (Exc EValueError (invalid_literal_msg (H := latin1_ucd) ⟪"abc"⟫)))
    by (vm_compute; reflexivity).
  split; [exact Hr | apply (test_main_exceptions 995 Strict bad_length_env ⟪"hello"⟫ _ Hr)].
Defined.


Definition json_env : environ :=
  [(⟪"REQUEST_METHOD"⟫, ⟪"POST"⟫); (⟪"CONTENT_TYPE"⟫, ⟪"application/json"⟫);
   (⟪"CONTENT_LENGTH"⟫, ⟪"8"⟫)].

Lemma test_json_body_unencodable_witness :
  exists e, stdout_encode Strict [0xD834%N] = Error e /\
  run_script (test_main (H := latin1_ucd) 995 Strict json_env) (jdoc "'\ud834'") =
    (unlines (test_head (H := latin1_ucd) json_env ++
       [⟪"Content-Type: application/json"⟫; ⟪"JSON body: JSON error: "⟫ ++ exc_msg e]), None).
Proof.
  eexists. split; [reflexivity|].
  eapply (test_json_body_unencodable (H := latin1_ucd) 995 Strict json_env);
    [reflexivity | reflexivity | reflexivity | reflexivity | reflexivity | reflexivity
    | apply encodable_forallb; vm_compute; reflexivity].
Defined.
