(* ===== verification/ScriptPy.v ===== *)
(** * [src/resources/cgi-bin/script.py]

    The script prints a [text/plain] header, a banner and the request
    method; for a POST it reads [CONTENT_LENGTH] characters of the body,
    parses them with [parse_qs] and prints one line [k = v] per key, where
    [v] is the list of the key's values printed as a Python list.

    [script_main] follows the script statement by statement; its
    parameters are those of [TestPy] without the JSON ones. *)

From S2P Require Import Prelude PyStr Unicode PyRepr PyInt UrlParse TextIO Process Cgi.

Section script_py.
Context `{UnicodeDB} {alloc : Allocator} (io : errors).

(** [f"{k} = {v}"] for a key and its list of values: [str] of the key
    and [str] (that is [repr]) of the list. *)
Definition form_line (kv : pystr * list pystr) : pystr :=
  kv.1 ++ ⟪" = "⟫ ++ repr_val (PList (map PStr kv.2)).

(** Lines 14-21: the body of [if method == "POST":]. *)
Definition script_post (env : environ) : PyM unit :=
  length ← lift (content_length env);
  body ← read_stdin io length;
  let data := parse_qs body in
  print io [⟪"Parsed POST data:"⟫];;
  py_for data (fun kv => print io [form_line kv]).

(** The whole script. *)
Definition script_main (env : environ) : PyM unit :=
  print io [⟪"Content-Type: text/plain"⟫];;
  print io [];;
  print io [⟪"=== SCRIPT.PY ==="⟫];;
  let method := default [] (getenv env ⟪"REQUEST_METHOD"⟫) in
  print io [⟪"Method:"⟫; method];;
  if decide (method = ⟪"POST"⟫) then script_post env else mret tt.

(** ** The report [script.py] writes *)

Definition script_head (env : environ) : list pystr :=
  [⟪"Content-Type: text/plain"⟫; []; ⟪"=== SCRIPT.PY ==="⟫;
   ⟪"Method: "⟫ ++ default [] (getenv env ⟪"REQUEST_METHOD"⟫)].

Definition script_report (env : environ) (body : list N) : list pystr * option pyexc :=
  if decide (default [] (getenv env ⟪"REQUEST_METHOD"⟫) = ⟪"POST"⟫) then
    match content_length env with
    | Error e => (script_head env, Some e)
    | Ok n =>
        match stdin_read io n (stdin_init body) with
        | Error e => (script_head env, Some e)
        | Ok (text, _) =>
            (script_head env ++ [⟪"Parsed POST data:"⟫] ++ map form_line (parse_qs text), None)
        end
    end
  else (script_head env, None).
End script_py.

(** ** Lemmas *)

Section script_lemmas.
Context `{UnicodeDB} {alloc : Allocator} (io : errors).

Ltac print_step :=
  erewrite bind_ok; [| apply print_ok; unfold print_text; apply encodable_nl; assumption].

Lemma script_report_head (env : environ) (body : list N) :
  exists extra, (script_report io env body).1 = script_head env ++ extra.
Proof.
  unfold script_report. case_decide; [|exists []; by rewrite app_nil_r].
  destruct (content_length env); [|exists []; by rewrite app_nil_r].
  destruct (stdin_read io _ _) as [[??]|]; [by eexists | exists []; by rewrite app_nil_r].
Qed.

(** C3 (refinement): [script.py] writes its report: when every line can
    be written on standard output, a run of [script_main] prints the
    header, the banner, the method and, for a POST, [Parsed POST data:]
    followed by one line [k = [v1, ...]] per key of [parse_qs(body)] in
    the order of the [dict]; it ends with the exception the report names
    (a [ValueError] of [int(CONTENT_LENGTH)] or a [UnicodeDecodeError] of
    the body), if any. *)
Theorem script_main_refines (env : environ) (body : list N) :
  Forall (encodable io) (script_report io env body).1 ->
  run_script (script_main io env) body = (unlines (script_report io env body).1, (script_report io env body).2).
Proof.
  intros Henc. destruct (script_report_head env body) as [extra Hx].
  rewrite Hx in Henc. apply Forall_app in Henc as [Hh Hextra].
  unfold script_head in Hh. repeat (apply Forall_cons in Hh as [? Hh]).
  unfold run_script, script_main. cbv zeta. do 4 print_step. cbn [ps_in ps_out app].
  revert Hx. unfold script_report. case_decide as Hpost.
  2: { intros _. rewrite ret_ok. cbn [fst snd ps_out]. unfold script_head.
       rewrite !unlines_cons, unlines_nil. unfold print_text. cbn [join].
       by rewrite <- !app_assoc. }
  unfold script_post. destruct (content_length env) as [n|e]; cbn [lift].
  2: { erewrite bind_error by reflexivity. intros _. cbn [fst snd ps_out].
       unfold script_head. rewrite !unlines_cons, unlines_nil. unfold print_text. cbn [join].
       by rewrite <- !app_assoc. }
  erewrite bind_ok by reflexivity. cbv beta.
  destruct (stdin_read io n (stdin_init body)) as [[text in']|e] eqn:Hr.
  2: { erewrite bind_error by (unfold read_stdin; cbn [ps_in]; by rewrite Hr). intros _.
       cbn [fst snd ps_out]. unfold script_head. rewrite !unlines_cons, unlines_nil.
       unfold print_text. cbn [join]. by rewrite <- !app_assoc. }
  erewrite bind_ok by (unfold read_stdin; cbn [ps_in]; by rewrite Hr). cbv beta.
  intros Hx. apply app_inv_head in Hx. subst extra.
  apply Forall_cons in Hextra as [Hp Hlines]. print_step.
  rewrite py_for_print_ok by done. cbn [fst snd ps_out].
  unfold script_head. rewrite unlines_app, !unlines_cons, unlines_nil. unfold print_text. cbn [join].
  by rewrite <- !app_assoc, ?app_nil_l.
Qed.

(** The classes of exception that may end [script.py]. *)
Definition script_escapes (c : exc_class) : Prop :=
  c = EValueError \/ c = EUnicodeDecodeError \/ c = EUnicodeEncodeError \/
  c = EMemoryError \/ c = EOverflowError.

(** [script.py] ends normally or with a [ValueError] of
    [int(CONTENT_LENGTH)], a [UnicodeDecodeError], [MemoryError] or
    [OverflowError] of [sys.stdin.read], or a [UnicodeEncodeError] of
    [print]; [parse_qs] never raises. *)
Theorem script_main_exceptions (env : environ) (body : list N) (e : pyexc) :
  (run_script (script_main io env) body).2 = Some e -> script_escapes (exc_cls e).
Proof.
  apply run_script_raises. unfold script_main, script_post. cbv zeta.
  repeat cgi_raises_step; try (unfold script_escapes; tauto).
  apply raises_only_lift. intros e' He'. left. by eapply content_length_error.
Qed.
End script_lemmas.

(** ** Witnesses *)

Definition form_env : environ :=
  [(⟪"REQUEST_METHOD"⟫, ⟪"POST"⟫); (⟪"CONTENT_LENGTH"⟫, ⟪"15"⟫)].

Definition bad_form_env : environ :=
  [(⟪"REQUEST_METHOD"⟫, ⟪"POST"⟫); (⟪"CONTENT_LENGTH"⟫, ⟪"1.5"⟫)].

Lemma script_main_refines_witness :
  Forall (encodable Strict) (script_report (H := latin1_ucd) Strict form_env ⟪"a=1&b=x+y&a=%41"⟫).1 /\
  run_script (script_main (H := latin1_ucd) Strict form_env) ⟪"a=1&b=x+y&a=%41"⟫ =
    (unlines (script_report (H := latin1_ucd) Strict form_env ⟪"a=1&b=x+y&a=%41"⟫).1,
     (script_report (H := latin1_ucd) Strict form_env ⟪"a=1&b=x+y&a=%41"⟫).2).
Proof.
  assert (Hl : Forall (encodable Strict)
                 (script_report (H := latin1_ucd) Strict form_env ⟪"a=1&b=x+y&a=%41"⟫).1)
    by (apply encodable_forallb; vm_compute; reflexivity).
  split; [exact Hl | exact (script_main_refines Strict form_env _ Hl)].
Defined.

Lemma script_main_exceptions_witness :
  (run_script (script_main (H := latin1_ucd) Strict bad_form_env) ⟪"a=1"⟫).2 =
    Some (Exc EValueError (invalid_literal_msg (H := latin1_ucd) ⟪"1.5"⟫)) /\
  script_escapes EValueError.
Proof.
  assert (Hr : (run_script (script_main (H := latin1_ucd) Strict bad_form_env) ⟪"a=1"⟫).2 =
                 Some (Exc EValueError (invalid_literal_msg (H := latin1_ucd) ⟪"1.5"⟫)))
    by (vm_compute; reflexivity).
  split; [exact Hr | exact (script_main_exceptions Strict bad_form_env _ _ Hr)].
Defined.
