(* ===== verification/EchoPy.v ===== *)
(** * [src/resources/cgi-bin/echo.py]

    The script prints a [text/plain] header and a banner, then walks
    [sorted(os.environ.items())] and prints [k = v] for each variable
    whose name starts with [HTTP_], [REQUEST_] or [CONTENT_].

    [sorted] orders the [(name, value)] pairs as Python compares tuples
    of strings: by name, then by value, code point by code point
    ([env_le]).  This order is total and antisymmetric, so every sorting
    algorithm returns the same list; the model sorts with stdpp's
    [merge_sort] and the theorems below characterise its result. *)

From S2P Require Import Prelude PyStr Unicode PyRepr PyInt TextIO Process Cgi.

(** [(k1, v1) <= (k2, v2)] on tuples of strings. *)
Definition env_le (a b : pystr * pystr) : Prop :=
  str_lt a.1 b.1 \/ (a.1 = b.1 /\ str_le a.2 b.2).

#[export] Instance env_le_dec : RelDecision env_le.
Proof. intros a b. unfold env_le. apply _. Defined.

(** [k.startswith(("HTTP_", "REQUEST_", "CONTENT_"))] *)
Definition echo_prefix (k : pystr) : bool :=
  startswith_any [⟪"HTTP_"⟫; ⟪"REQUEST_"⟫; ⟪"CONTENT_"⟫] k.

(** [f"{k} = {v}"] *)
Definition echo_line (kv : pystr * pystr) : pystr := kv.1 ++ ⟪" = "⟫ ++ kv.2.

Section echo_py.
Context (io : errors).

Definition echo_main (env : environ) : PyM unit :=
  print io [⟪"Content-Type: text/plain"⟫];;
  print io [];;
  print io [⟪"=== ECHO CGI ==="⟫];;
  py_for (merge_sort env_le env)
    (fun kv => if echo_prefix kv.1 then print io [echo_line kv] else mret tt).
End echo_py.

(** ** The report [echo.py] writes *)

(** The variables it prints, in the order it prints them. *)
Definition echo_entries (env : environ) : environ :=
  filter (fun kv => echo_prefix kv.1 = true) (merge_sort env_le env).

Definition echo_report (env : environ) : list pystr :=
  [⟪"Content-Type: text/plain"⟫; []; ⟪"=== ECHO CGI ==="⟫] ++ map echo_line (echo_entries env).

(** ** Lemmas *)

#[export] Instance env_le_total : Total env_le.
Proof.
  intros [k1 v1] [k2 v2]. unfold env_le, str_lt; simpl.
  pose proof (str_compare_antisym k1 k2) as Ha.
  destruct (str_compare k1 k2) eqn:E; simpl in Ha.
  - apply str_compare_eq in E as <-. destruct (total str_le v1 v2); auto.
  - auto.
  - auto.
Qed.

#[export] Instance env_le_trans : Transitive env_le.
Proof.
  intros [k1 v1] [k2 v2] [k3 v3]. unfold env_le; simpl.
  intros [H12 | [<- H12]] [H23 | [<- H23]].
  - left. by eapply str_compare_trans.
  - by left.
  - by left.
  - right. split; [done|]. by trans v2.
Qed.

#[export] Instance env_le_antisymm : AntiSymm (=) env_le.
Proof.
  intros [k1 v1] [k2 v2]. unfold env_le, str_lt; simpl.
  pose proof (str_compare_antisym k1 k2) as Ha.
  intros [H12 | [<- H12]] [H21 | [Heq H21]].
  - rewrite H12 in Ha. simpl in Ha. congruence.
  - subst. by rewrite str_compare_refl in H12.
  - by rewrite str_compare_refl in H21.
  - f_equal. by apply (anti_symm str_le).
Qed.

Lemma echo_sorted_keys (env : environ) :
  NoDup env.*1 -> StronglySorted (fun a b => str_lt a.1 b.1) (merge_sort env_le env).
Proof.
  intros Hnd. pose proof (StronglySorted_merge_sort env_le env) as Hs.
  assert (Hnd' : NoDup (merge_sort env_le env).*1)
    by (by rewrite (merge_sort_Permutation env_le env)).
  revert Hnd'. induction Hs as [|kv l _ IH Hx]; intros Hnd'; [constructor|].
  destruct kv as [k v]. constructor.
  - apply IH. by apply NoDup_cons in Hnd' as [_ ?].
  - apply NoDup_cons in Hnd' as [Hk _]. apply Forall_forall. intros [k' v'] Hin.
    rewrite Forall_forall in Hx. destruct (Hx _ Hin) as [? | [Heq _]]; [done|].
    simpl in Heq. exfalso. apply Hk. apply list_elem_of_fmap. by exists (k', v').
Qed.

(** C6 (functional): for an environment with distinct names, [echo.py]
    prints exactly the variables whose names carry one of the three
    prefixes, each once, in strictly increasing order of name. *)
Theorem echo_entries_spec (env : environ) :
  NoDup env.*1 ->
  echo_entries env ≡ₚ filter (fun kv => echo_prefix kv.1 = true) env /\
  StronglySorted (fun a b => str_lt a.1 b.1) (echo_entries env).
Proof.
  intros Hnd. unfold echo_entries. split.
  - apply filter_Permutation, merge_sort_Permutation.
  - apply StronglySorted_filter, echo_sorted_keys, Hnd.
Qed.

(** The order of [os.environ] does not matter: two
    environments that list the same variables make [echo.py] print the
    same text. *)
Theorem echo_main_perm (io : errors) (env1 env2 : environ) (body : list N) :
  env1 ≡ₚ env2 -> run_script (echo_main io env1) body = run_script (echo_main io env2) body.
Proof.
  intros Hp. unfold echo_main.
  assert (E : merge_sort env_le env1 = merge_sort env_le env2).
  { apply (Sorted_unique env_le); try (apply Sorted_merge_sort; apply _).
    by rewrite (merge_sort_Permutation env_le env1), (merge_sort_Permutation env_le env2). }
  by rewrite E.
Qed.

(** C4 (refinement): when its lines can be written, [echo.py] prints the
    header, the banner and one line [k = v] per entry of [echo_entries],
    and ends normally. *)
Theorem echo_main_refines (io : errors) (env : environ) (body : list N) :
  Forall (encodable io) (echo_report env) ->
  run_script (echo_main io env) body = (unlines (echo_report env), None).
Proof.
  unfold echo_report. intros Henc. apply Forall_app in Henc as [Hh Hl].
  repeat (apply Forall_cons in Hh as [? Hh]).
  unfold run_script, echo_main.
  do 3 (erewrite bind_ok; [| apply print_ok; unfold print_text; apply encodable_nl; assumption]).
  rewrite py_for_filter, py_for_print_ok by done. cbn [ps_out fst snd].
  rewrite unlines_app, !unlines_cons, unlines_nil. unfold print_text. cbn [join].
  by rewrite <- !app_assoc.
Qed.

(** ** Witnesses *)

Definition cgi_env : environ :=
  [(⟪"PATH"⟫, ⟪"/usr/bin"⟫); (⟪"REQUEST_METHOD"⟫, ⟪"GET"⟫); (⟪"HTTP_HOST"⟫, ⟪"localhost"⟫);
   (⟪"CONTENT_LENGTH"⟫, ⟪"0"⟫); (⟪"HTTP_ACCEPT"⟫, ⟪"*/*"⟫)].

Lemma echo_entries_spec_witness :
  NoDup cgi_env.*1 /\
  echo_entries cgi_env ≡ₚ filter (fun kv => echo_prefix kv.1 = true) cgi_env /\
  StronglySorted (fun a b => str_lt a.1 b.1) (echo_entries cgi_env).
Proof.
  assert (H : NoDup cgi_env.*1) by (apply (bool_decide_unpack _); vm_compute; reflexivity).
  split; [exact H | exact (echo_entries_spec cgi_env H)].
Defined.

Lemma echo_main_perm_witness :
  cgi_env ≡ₚ reverse cgi_env /\
  run_script (echo_main Strict cgi_env) [] = run_script (echo_main Strict (reverse cgi_env)) [].
Proof.
  assert (H : cgi_env ≡ₚ reverse cgi_env) by (symmetry; apply reverse_Permutation).
  split; [exact H | exact (echo_main_perm Strict _ _ [] H)].
Defined.

Lemma echo_main_refines_witness :
  Forall (encodable Strict) (echo_report cgi_env) /\
  run_script (echo_main Strict cgi_env) [] = (unlines (echo_report cgi_env), None).
Proof.
  assert (H : Forall (encodable Strict) (echo_report cgi_env))
    by (apply encodable_forallb; vm_compute; reflexivity).
  split; [exact H | exact (echo_main_refines Strict cgi_env [] H)].
Defined.
