(* ===== verification/Sleep.v ===== *)
(** * [src/resources/uploads/sleep.py]

    The script nudges the mouse pointer so that the session does not go
    idle: until [run_duration] seconds have passed since [start_time], it
    reads the pointer position [(x, y)], warps the pointer to [(x + 1, y)],
    sleeps 0.1 s, warps it back to [(x, y)] and sleeps 30 s.

    The X server and the clock are outside the program.  The model takes
    what the script reads from them as an oracle [reads : nat -> obs]:
    the [k]-th iteration reads [time.time()] ([ob_time]) at the head of
    the loop and [root.query_pointer()] ([ob_ptr]).  What the script does
    to the X server is the list of [warp_pointer] calls it makes
    ([s_warps]); [d.sync()] flushes them and has no other effect here.
    Times are integers in microseconds; [time.time()] is a float and its
    rounding is not modelled.

    The theorems show that under a clock that never goes back and sleeps
    that last at least as long as asked, the loop stops after exactly as
    many iterations as fit in six hours (718 when each iteration takes
    30.1 s), that every nudge is undone at once, and that under a wall
    clock that is set back the loop need not stop at all. *)

From S2P Require Import Prelude.

Open Scope Z_scope.

(** One microsecond is the unit. *)
Definition usec (s : Z) : Z := s * 1000000.

(** [run_duration = 6 * 60 * 60] seconds. *)
Definition run_duration : Z := usec (6 * 60 * 60).

(** [time.sleep(0.1)] and [time.sleep(30)]. *)
Definition nudge_pause : Z := 100000.
Definition idle_pause : Z := usec 30.

(** What one iteration reads from the clock and the X server. *)
Record obs := Obs { ob_time : Z; ob_ptr : Z * Z }.

(** The script's state: [start_time], the warps made so far, the number
    of iterations run, and whether the loop has stopped. *)
Record sleep_state := SleepState {
  s_start : Z; s_warps : list (Z * Z); s_iters : nat; s_done : bool }.

(** Line 14: [start_time = time.time()] before the loop. *)
Definition sleep_init (start : Z) : sleep_state := SleepState start [] 0 false.

(** Lines 16-27: one pass of [while True:].  [get_pointer] (lines 8-10)
    returns the position read. *)
Definition loop_body (st : sleep_state) (o : obs) : sleep_state :=
  let elapsed_time := ob_time o - s_start st in
  if decide (run_duration <= elapsed_time) then
    SleepState (s_start st) (s_warps st) (s_iters st) true
  else
    let '(x, y) := ob_ptr o in
    SleepState (s_start st) (s_warps st ++ [(x + 1, y); (x, y)]) (S (s_iters st)) false.

(** The loop over the oracle, from iteration [k]; [fuel] bounds the
    number of passes. *)
Fixpoint sleep_loop (fuel : nat) (reads : nat -> obs) (k : nat) (st : sleep_state) : sleep_state :=
  match fuel with
  | O => st
  | S f => if s_done st then st else sleep_loop f reads (S k) (loop_body st (reads k))
  end.

(** The script run with [start_time = start]. *)
Definition sleep_main (fuel : nat) (reads : nat -> obs) (start : Z) : sleep_state :=
  sleep_loop fuel reads 0 (sleep_init start).

(** ** The clock

    A clock that is read after [start_time], never goes back, and lets
    each iteration last at least its two sleeps. *)
Definition clock_ok (reads : nat -> obs) (start : Z) : Prop :=
  start <= ob_time (reads 0%nat) /\
  forall k, ob_time (reads k) + nudge_pause + idle_pause <= ob_time (reads (S k)).

(** The warps made for the positions read: there and back again. *)
Definition nudges (ps : list (Z * Z)) : list (Z * Z) :=
  mjoin (map (fun p => [(p.1 + 1, p.2); p]) ps).

(** ** Lemmas *)

Lemma sleep_loop_done (fuel : nat) (reads : nat -> obs) (k : nat) (st : sleep_state) :
  s_done st = true -> sleep_loop fuel reads k st = st.
Proof. destruct fuel; simpl; [done|]. by intros ->. Qed.

Lemma loop_body_start (st : sleep_state) (o : obs) : s_start (loop_body st o) = s_start st.
Proof. unfold loop_body. case_decide; [done|]. by destruct (ob_ptr o). Qed.

Lemma nudges_snoc (ps : list (Z * Z)) (p : Z * Z) :
  nudges (ps ++ [p]) = nudges ps ++ [(p.1 + 1, p.2); p].
Proof. unfold nudges. rewrite map_app, join_app. simpl. by rewrite ?app_nil_r. Qed.

Section clock.
Context (reads : nat -> obs) (start : Z).
Hypothesis Hclock : clock_ok reads start.

(** The [k]-th reading comes at least [k] iterations of 30.1 s after the
    start. *)
Lemma clock_lower (k : nat) :
  start + Z.of_nat k * (nudge_pause + idle_pause) <= ob_time (reads k).
Proof using Hclock.
  destruct Hclock as [H0 HS]. induction k as [|k IH]; [simpl; lia|].
  specialize (HS k). rewrite Nat2Z.inj_succ. lia.
Qed.

(** The loop is still running at iteration [k] only if [k <= 718]. *)
Lemma loop_running_bound (k : nat) :
  ob_time (reads k) - start < run_duration -> (k <= 717)%nat.
Proof using Hclock.
  intros Hlt. pose proof (clock_lower k) as Hk.
  unfold run_duration, nudge_pause, idle_pause, usec in *. lia.
Qed.

(** The invariant of the loop at iteration [k]: a state still running has
    run [k] iterations, and no state has run more than 718. *)
Definition loop_inv (k : nat) (st : sleep_state) : Prop :=
  s_start st = start /\ (s_iters st <= 718)%nat /\
  (s_done st = false -> s_iters st = k /\ (k <= 718)%nat).

Lemma loop_body_inv (k : nat) (st : sleep_state) :
  loop_inv k st -> s_done st = false -> loop_inv (S k) (loop_body st (reads k)).
Proof using Hclock.
  intros (Hs & Hi & Hk) Hd. destruct (Hk Hd) as [Hik Hk718].
  unfold loop_body. case_decide as Hcheck.
  - unfold loop_inv; simpl. split_and!; [done | lia | done].
  - assert (k <= 717)%nat by (apply loop_running_bound; rewrite <- Hs; lia).
    destruct (ob_ptr (reads k)) as [x y]. unfold loop_inv; simpl. split_and!; [done | lia | lia].
Qed.

Lemma sleep_loop_inv (fuel k : nat) (st : sleep_state) :
  loop_inv k st ->
  (s_iters (sleep_loop fuel reads k st) <= 718)%nat /\
  ((718 < k + fuel)%nat -> s_done (sleep_loop fuel reads k st) = true).
Proof using Hclock.
  revert k st. induction fuel as [|f IH]; intros k st Hinv; simpl.
  - destruct Hinv as (_ & Hi & Hk). split; [done|]. intros Hlt.
    destruct (s_done st); [done|]. destruct (Hk eq_refl); lia.
  - destruct (s_done st) eqn:Hd; [split; [apply Hinv | done]|].
    destruct (IH (S k) _ (loop_body_inv k st Hinv Hd)) as [H1 H2].
    split; [done|]. intros. apply H2. lia.
Qed.
End clock.

Lemma sleep_loop_warps (reads : nat -> obs) (fuel k : nat) (st : sleep_state) :
  s_warps st = nudges (map (fun i => ob_ptr (reads i)) (seq 0 (s_iters st))) ->
  (s_done st = false -> s_iters st = k) ->
  s_warps (sleep_loop fuel reads k st) =
    nudges (map (fun i => ob_ptr (reads i)) (seq 0 (s_iters (sleep_loop fuel reads k st)))).
Proof.
  revert k st. induction fuel as [|f IH]; intros k st Hw Hk; simpl; [done|].
  destruct (s_done st) eqn:Hd; [done|]. specialize (Hk eq_refl).
  apply IH; unfold loop_body; case_decide; try done.
  - destruct (ob_ptr (reads k)) as [x y] eqn:Ep. cbn [s_warps s_iters].
    rewrite seq_S, map_app. cbn [map Nat.add]. by rewrite nudges_snoc, Hw, Hk, Ep.
  - destruct (ob_ptr (reads k)). cbn [s_done s_iters]. intros _. by rewrite Hk.
Qed.

(** C12 (liveness): under a clock that never goes back and sleeps that
    last as long as asked, [sleep.py] stops: 719 passes of [while True:]
    are enough, and it nudges the pointer at most 718 times, the number
    of 30.1 s iterations that fit in [run_duration] (six hours, not the
    two and a half hours of the comment on line 12). *)
Theorem sleep_terminates (reads : nat -> obs) (start : Z) (fuel : nat) :
  clock_ok reads start -> (719 <= fuel)%nat ->
  s_done (sleep_main fuel reads start) = true /\ (s_iters (sleep_main fuel reads start) <= 718)%nat.
Proof.
  intros Hc Hf. unfold sleep_main.
  destruct (sleep_loop_inv reads start Hc fuel 0 (sleep_init start)) as [Hi Hd].
  { unfold loop_inv; simpl. split_and!; [done | lia | intros _; lia]. }
  split; [apply Hd; lia | done].
Qed.

(** Every nudge is undone at once: the warps [sleep.py] makes
    are, for each position [(x, y)] it read, a warp to [(x + 1, y)]
    followed by a warp back to [(x, y)], in the order of the iterations,
    whatever the clock and the pointer do. *)
Theorem sleep_restores_pointer (reads : nat -> obs) (start : Z) (fuel : nat) :
  s_warps (sleep_main fuel reads start) =
  nudges (map (fun i => ob_ptr (reads i)) (seq 0 (s_iters (sleep_main fuel reads start)))).
Proof. apply sleep_loop_warps; done. Qed.

(** [time.time()] is the wall clock.  If it is set back
    while the script runs (here: it reads [start_time] again at every
    iteration), the loop never stops, however many passes it makes;
    [time.monotonic()] would not be set back. *)
Theorem sleep_wall_clock_unbounded (start : Z) (p : Z * Z) (fuel : nat) :
  s_done (sleep_main fuel (fun _ => Obs start p) start) = false /\
  s_iters (sleep_main fuel (fun _ => Obs start p) start) = fuel.
Proof.
  unfold sleep_main.
  enough (forall k st, s_done st = false -> s_start st = start ->
            s_done (sleep_loop fuel (fun _ => Obs start p) k st) = false /\
            s_iters (sleep_loop fuel (fun _ => Obs start p) k st) = (s_iters st + fuel)%nat)
    as H by (destruct (H 0%nat (sleep_init start) eq_refl eq_refl) as [H1 H2]; split; [exact H1 | exact H2]).
  induction fuel as [|f IH]; intros k st Hd Hs; simpl; [by rewrite Nat.add_0_r|].
  rewrite Hd. unfold loop_body. simpl. rewrite decide_False by (unfold run_duration, usec; lia).
  destruct p as [x y].
  destruct (IH (S k) (SleepState (s_start st) (s_warps st ++ [(x + 1, y); (x, y)]) (S (s_iters st)) false)
              eq_refl Hs) as [H1 H2].
  split; [exact H1 | rewrite H2; simpl; lia].
Qed.

(** ** Witnesses *)

(** The fastest clock: each iteration lasts exactly its two sleeps. *)
Definition exact_clock (k : nat) : obs := Obs (Z.of_nat k * (nudge_pause + idle_pause)) (640, 480).

Lemma exact_clock_ok : clock_ok exact_clock 0.
Proof. unfold clock_ok, exact_clock; simpl. split; [lia | intros k; rewrite Nat2Z.inj_succ; lia]. Qed.

Lemma sleep_terminates_witness :
  clock_ok exact_clock 0 /\ (719 <= 719)%nat /\
  (s_done (sleep_main 719 exact_clock 0) = true /\ (s_iters (sleep_main 719 exact_clock 0) <= 718)%nat) /\
  s_iters (sleep_main 719 exact_clock 0) = 718%nat.
Proof.
  pose proof exact_clock_ok as Hc.
  split; [exact Hc|]. split; [lia|].
  split; [exact (sleep_terminates exact_clock 0 719 Hc (le_n _)) | vm_compute; reflexivity].
Defined.
