(* ===== verification/SleepStep.v ===== *)
(** * [sleep.py] as a small-step system

    [Sleep] runs the loop of [src/resources/uploads/sleep.py] over an
    oracle of readings.  This file gives the script a small-step semantics
    in which the script's statements interleave with what the outside
    world does meanwhile: the user moves the pointer, time passes, and
    (for a wall clock) the clock may be set to any time.

    A configuration holds the statement the script runs next ([pc]), the
    display ([d] and [root] of lines 4-5: the pointer position), the
    clock, [start_time], the log of [warp_pointer] calls and, as ghost
    state, the positions [get_pointer] returned.  [script_step] is one
    statement of the loop (lines 16-27); [world_step] one action of the
    outside world; [reachable wall] the configurations a run reaches,
    where [wall] says whether the clock may be set back.  Lines 1-5
    ([sleep_start]) import python-xlib and open the display, which may
    fail; [sleep_script] runs start-up and then the loop under the
    scheduler whose sleeps last exactly as asked ([run_exact]).

    The theorems: every nudge is undone by the next warp whatever the user
    does ([reachable_warps]); under a clock that is never set back the loop
    reads the pointer at most 718 times ([reachable_reads_bound]); the
    script alone always reaches [break] ([script_exits]); with a wall
    clock it may loop for ever ([wall_clock_unbounded]); the warp back
    puts the pointer where it was read, undoing a move the user made
    during [time.sleep(0.1)] ([warp_back_overrides_user]); and the oracle
    model of [Sleep] is a run of this system ([sleep_main_simulated]).
    Left alone, the whole script reads and nudges the pointer 718 times
    and stops after 21611.8 s ([sleep_script_alone]). *)

From stdpp Require Import relations.
From S2P Require Import Prelude Sleep.

Open Scope Z_scope.

(** ** The display and the script's statements *)

(** Lines 4-5: [d = display.Display()] and [root = d.screen().root]; the
    model keeps of the display the position of the pointer on the root
    window. *)
Record display := Display { d_pointer : Z * Z }.

(** Lines 8-10: [get_pointer()] returns [root_x, root_y] of
    [root.query_pointer()]. *)
Definition get_pointer (d : display) : Z * Z := d_pointer d.

(** [root.warp_pointer(x, y)] followed by [d.sync()]: the request reaches
    the server and the pointer is at [(x, y)]. *)
Definition warp_pointer (d : display) (p : Z * Z) : display := Display p.

(** The statement the script runs next: the test of lines 17-19, the read
    of line 21, the warps of lines 22 and 25 and the sleeps of lines 24
    and 27 (with the [(x, y)] read), or the end of the script. *)
Inductive pc :=
  | PcCheck
  | PcQuery
  | PcWarp1 (x y : Z)
  | PcSleep1 (x y : Z)
  | PcWarp2 (x y : Z)
  | PcSleep2
  | PcExit.

Record config := Config {
  c_pc : pc; c_disp : display; c_clock : Z; c_start : Z;
  c_warps : list (Z * Z); c_reads : list (Z * Z) }.

(** Lines 13-14: [start_time = time.time()], then the loop. *)
Definition init_config (d : display) (now : Z) : config := Config PcCheck d now now [] [].

(** One statement of lines 16-27.  [time.sleep(s)] lets at least [s]
    pass. *)
Inductive script_step : config -> config -> Prop :=
  | step_break d t s w r :
      run_duration <= t - s ->
      script_step (Config PcCheck d t s w r) (Config PcExit d t s w r)
  | step_continue d t s w r :
      t - s < run_duration ->
      script_step (Config PcCheck d t s w r) (Config PcQuery d t s w r)
  | step_query d t s w r x y :
      get_pointer d = (x, y) ->
      script_step (Config PcQuery d t s w r) (Config (PcWarp1 x y) d t s w (r ++ [(x, y)]))
  | step_warp1 d t s w r x y :
      script_step (Config (PcWarp1 x y) d t s w r)
                  (Config (PcSleep1 x y) (warp_pointer d (x + 1, y)) t s (w ++ [(x + 1, y)]) r)
  | step_sleep1 d t t' s w r x y :
      t + nudge_pause <= t' ->
      script_step (Config (PcSleep1 x y) d t s w r) (Config (PcWarp2 x y) d t' s w r)
  | step_warp2 d t s w r x y :
      script_step (Config (PcWarp2 x y) d t s w r)
                  (Config PcSleep2 (warp_pointer d (x, y)) t s (w ++ [(x, y)]) r)
  | step_sleep2 d t t' s w r :
      t + idle_pause <= t' ->
      script_step (Config PcSleep2 d t s w r) (Config PcCheck d t' s w r).

(** The outside world: the user moves the pointer, time passes, and a
    wall clock may be set to any time. *)
Inductive world_step (wall : bool) : config -> config -> Prop :=
  | world_move p c :
      world_step wall c (Config (c_pc c) (Display p) (c_clock c) (c_start c) (c_warps c) (c_reads c))
  | world_tick t' c :
      c_clock c <= t' ->
      world_step wall c (Config (c_pc c) (c_disp c) t' (c_start c) (c_warps c) (c_reads c))
  | world_set t' c :
      wall = true ->
      world_step wall c (Config (c_pc c) (c_disp c) t' (c_start c) (c_warps c) (c_reads c)).

Definition step (wall : bool) (c c' : config) : Prop := script_step c c' \/ world_step wall c c'.

Definition reachable (wall : bool) (d : display) (now : Z) (c : config) : Prop :=
  rtc (step wall) (init_config d now) c.

(** ** Start-up *)

(** What lines 1-5 depend on: whether the [python-xlib] package is
    installed, the [DISPLAY] variable, and whether python-xlib opens a
    display of that name ([None]: it cannot parse the name or connect to
    the server; [DISPLAY] unset reads as the empty name). *)
Record host := Host {
  h_xlib : bool; h_display_var : option pystr; h_open : pystr -> option display }.

(** The exceptions that end the script before its loop: [ImportError]
    (its subclass [ModuleNotFoundError]) of line 1, and
    [Xlib.error.DisplayError] (a [DisplayNameError] or a
    [DisplayConnectionError]) of line 4. *)
Inductive start_exc := StartImportError | StartDisplayError.

(** Lines 1-5 and 13-14: [from Xlib import display], [import time],
    [d = display.Display()] on [os.environ.get('DISPLAY', '')],
    [root = d.screen().root], then [start_time = time.time()] with the
    clock at [now]: an exception, or the configuration the loop starts
    from. *)
Definition sleep_start (hs : host) (now : Z) : start_exc + config :=
  if negb (h_xlib hs) then inl StartImportError else
  match h_open hs (default [] (h_display_var hs)) with
  | None => inl StartDisplayError
  | Some d => inr (init_config d now)
  end.

(** The script's statements with each sleep lasting exactly as asked: a
    deterministic scheduler of [script_step], [None] after [break]. *)
Definition exact_step (c : config) : option config :=
  let '(Config p d t s w r) := c in
  match p with
  | PcCheck =>
      Some (if decide (run_duration <= t - s) then Config PcExit d t s w r
            else Config PcQuery d t s w r)
  | PcQuery => let '(x, y) := get_pointer d in Some (Config (PcWarp1 x y) d t s w (r ++ [(x, y)]))
  | PcWarp1 x y => Some (Config (PcSleep1 x y) (warp_pointer d (x + 1, y)) t s (w ++ [(x + 1, y)]) r)
  | PcSleep1 x y => Some (Config (PcWarp2 x y) d (t + nudge_pause) s w r)
  | PcWarp2 x y => Some (Config PcSleep2 (warp_pointer d (x, y)) t s (w ++ [(x, y)]) r)
  | PcSleep2 => Some (Config PcCheck d (t + idle_pause) s w r)
  | PcExit => None
  end.

Fixpoint run_exact (fuel : nat) (c : config) : config :=
  match fuel with
  | O => c
  | S f => match exact_step c with Some c' => run_exact f c' | None => c end
  end.

(** The whole script under this scheduler: start-up, then [fuel]
    statements of the loop. *)
Definition sleep_script (fuel : nat) (hs : host) (now : Z) : start_exc + config :=
  match sleep_start hs now with
  | inl e => inl e
  | inr c => inr (run_exact fuel c)
  end.

(** ** Invariants *)

(** The warps made so far, as a function of the statement reached and the
    positions read: a nudge there and back for each iteration done, and
    the first warp of the iteration under way once it is made. *)
Definition expected_warps (p : pc) (r : list (Z * Z)) : list (Z * Z) :=
  match p with
  | PcWarp1 _ _ => nudges (removelast r)
  | PcSleep1 x y | PcWarp2 x y => nudges (removelast r) ++ [(x + 1, y)]
  | _ => nudges r
  end.

(** The [(x, y)] the script holds is the last position it read. *)
Definition holds_last_read (p : pc) (r : list (Z * Z)) : Prop :=
  match p with
  | PcWarp1 x y | PcSleep1 x y | PcWarp2 x y => last r = Some (x, y)
  | _ => True
  end.

Definition warps_inv (c : config) : Prop :=
  c_warps c = expected_warps (c_pc c) (c_reads c) /\ holds_last_read (c_pc c) (c_reads c).

(** One iteration of 30.1 s at least. *)
Definition iter_pause : Z := nudge_pause + idle_pause.

(** The clock has run at least one [iter_pause] per read done, and a read
    was made only when the test of line 18 let the loop go on. *)
Definition clock_inv (c : config) : Prop :=
  let k := Z.of_nat (length (c_reads c)) in
  match c_pc c with
  | PcCheck | PcExit => c_start c + k * iter_pause <= c_clock c /\ k <= 718
  | PcQuery => c_start c + k * iter_pause <= c_clock c /\ k <= 717
  | PcWarp1 _ _ | PcSleep1 _ _ => c_start c + (k - 1) * iter_pause <= c_clock c /\ 1 <= k <= 718
  | PcWarp2 _ _ | PcSleep2 => c_start c + (k - 1) * iter_pause + nudge_pause <= c_clock c /\ 1 <= k <= 718
  end.

(** ** Lemmas *)

(** A property that holds at the start of a run and that every step
    keeps holds all along the run. *)
Lemma rtc_invariant {A} (R : relation A) (P : A -> Prop) (a b : A) :
  (forall x y, P x -> R x y -> P y) -> rtc R a b -> P a -> P b.
Proof. intros Hs Hr. induction Hr; eauto. Qed.

(** The outside world changes neither the statement reached nor the logs,
    and a clock that is not a wall clock only goes forward. *)
Lemma world_step_keeps (wall : bool) (c c' : config) :
  world_step wall c c' ->
  c_pc c' = c_pc c /\ c_reads c' = c_reads c /\ c_warps c' = c_warps c /\
  c_start c' = c_start c /\ (wall = false -> c_clock c <= c_clock c').
Proof. intros Hw. inv Hw; simpl; split_and!; try done; intros; congruence. Qed.

Lemma script_step_start (c c' : config) : script_step c c' -> c_start c' = c_start c.
Proof. by intros []. Qed.

Lemma last_removelast {A} (l : list A) (a : A) : last l = Some a -> l = removelast l ++ [a].
Proof. intros [l' ->]%last_Some. by rewrite removelast_last. Qed.

Lemma warps_inv_script (c c' : config) : warps_inv c -> script_step c c' -> warps_inv c'.
Proof.
  unfold warps_inv. intros [Hw Hl] Hs. inv Hs; simpl in *; subst.
  - done.
  - done.
  - rewrite removelast_last, last_snoc. done.
  - done.
  - done.
  - rewrite (last_removelast _ _ Hl) at 2. rewrite nudges_snoc, <- app_assoc. done.
  - done.
Qed.

Lemma warps_inv_step (wall : bool) (c c' : config) : warps_inv c -> step wall c c' -> warps_inv c'.
Proof.
  intros Hi [Hs | Hw]; [by eapply warps_inv_script|].
  destruct (world_step_keeps _ _ _ Hw) as (Hp & Hr & Hws & _). unfold warps_inv in *.
  by rewrite Hp, Hr, Hws.
Qed.

Lemma clock_inv_script (c c' : config) : clock_inv c -> script_step c c' -> clock_inv c'.
Proof.
  unfold clock_inv, iter_pause. intros Hi Hs.
  inv Hs; simpl in *; rewrite ?length_app, ?Nat2Z.inj_add in *; simpl in *;
    unfold run_duration, nudge_pause, idle_pause, usec in *; lia.
Qed.

Lemma clock_inv_step (c c' : config) : clock_inv c -> step false c c' -> clock_inv c'.
Proof.
  intros Hi [Hs | Hw]; [by eapply clock_inv_script|].
  destruct (world_step_keeps _ _ _ Hw) as (Hp & Hr & _ & Hst & Hc).
  specialize (Hc eq_refl). unfold clock_inv in *. rewrite Hp, Hr, Hst.
  destruct (c_pc c); lia.
Qed.

(** The scheduler only takes steps of the script. *)
Lemma exact_step_sound (c c' : config) : exact_step c = Some c' -> script_step c c'.
Proof.
  destruct c as [[] d t s w r]; simpl; intros Hc.
  - inv Hc. case_decide; constructor; lia.
  - destruct (get_pointer d) as [x y] eqn:E. inv Hc. by constructor.
  - inv Hc. constructor.
  - inv Hc. constructor. lia.
  - inv Hc. constructor.
  - inv Hc. constructor. lia.
  - done.
Qed.

Lemma run_exact_sound (f : nat) (c : config) : rtc script_step c (run_exact f c).
Proof.
  revert c. induction f as [|f IH]; intros c; simpl; [done|].
  destruct (exact_step c) as [c'|] eqn:E; [|done].
  eapply rtc_l; [by apply exact_step_sound | apply IH].
Qed.

Lemma run_exact_add (a b : nat) (c : config) : run_exact (a + b) c = run_exact b (run_exact a c).
Proof.
  revert c. induction a as [|a IH]; intros c; simpl; [done|].
  destruct (exact_step c) eqn:E; [done|]. by destruct b; simpl; rewrite ?E.
Qed.

(** One iteration of the loop under the scheduler: 30.1 s later the script
    is back at the test, having read the pointer and nudged it. *)
Lemma run_exact_iteration (d : display) (t s : Z) (w r : list (Z * Z)) :
  t - s < run_duration ->
  run_exact 6 (Config PcCheck d t s w r) =
    Config PcCheck (warp_pointer d (get_pointer d)) (t + iter_pause) s
      (w ++ [((get_pointer d).1 + 1, (get_pointer d).2); get_pointer d]) (r ++ [get_pointer d]).
Proof.
  intros Ht. destruct d as [[x y]]. simpl. rewrite decide_False by lia. simpl.
  unfold iter_pause. by rewrite <- app_assoc, Z.add_assoc.
Qed.

(** From the test of line 18, the scheduler reaches [break]. *)
Lemma run_exact_exits_from_check (m : nat) (c : config) :
  c_pc c = PcCheck -> (Z.to_nat (c_start c + run_duration - c_clock c) <= m)%nat ->
  exists f, c_pc (run_exact f c) = PcExit.
Proof.
  revert c. induction m as [|m IH]; intros [p d t s w r] Hp Hm; simpl in *; subst p.
  - exists 1%nat. simpl. rewrite decide_True by lia. done.
  - destruct (decide (run_duration <= t - s)).
    + exists 1%nat. simpl. by rewrite decide_True.
    + destruct (IH (run_exact 6 (Config PcCheck d t s w r))) as [f Hf].
      * by rewrite run_exact_iteration by lia.
      * rewrite run_exact_iteration by lia. simpl.
        unfold iter_pause, nudge_pause, idle_pause, usec in *. lia.
      * exists (6 + f)%nat. by rewrite run_exact_add.
Qed.

(** The nudge and the warp back leave the display as it was. *)
Lemma warp_pointer_get (d : display) : warp_pointer d (get_pointer d) = d.
Proof. by destruct d. Qed.

(** [k] iterations of the loop when no test on the way breaks: the
    pointer is read [k] times where it is, and nudged there and back. *)
Lemma run_exact_iterations (k : nat) (d : display) (t s : Z) (w r : list (Z * Z)) :
  t - s + (Z.of_nat k - 1) * iter_pause < run_duration ->
  run_exact (6 * k) (Config PcCheck d t s w r) =
    Config PcCheck d (t + Z.of_nat k * iter_pause) s
      (w ++ nudges (replicate k (get_pointer d))) (r ++ replicate k (get_pointer d)).
Proof.
  assert (Hp : 0 < iter_pause) by done.
  revert t w r. induction k as [|k IH]; intros t w r Hk.
  - simpl. by rewrite Z.add_0_r, !app_nil_r.
  - replace (6 * S k)%nat with (6 + 6 * k)%nat by lia.
    rewrite run_exact_add, run_exact_iteration by lia. rewrite warp_pointer_get, IH by lia.
    f_equal; [lia | | ]; rewrite <- app_assoc; [done | by rewrite replicate_S].
Qed.

(** Once at [break], the scheduler stays there. *)
Lemma run_exact_exit (f : nat) (c : config) : c_pc c = PcExit -> run_exact f c = c.
Proof. destruct f, c as [[] d t s w r]; by simpl. Qed.

(** From any statement the scheduler is back at the test within five
    steps, or has stopped. *)
Lemma run_exact_to_check (c : config) :
  c_pc c = PcExit \/ exists k, c_pc (run_exact k c) = PcCheck.
Proof.
  destruct c as [[] d t s w r]; [right; by exists 0%nat | right | right | right | right | right | by left].
  - exists 5%nat. by destruct d as [[x y]].
  - by exists 4%nat.
  - by exists 3%nat.
  - by exists 2%nat.
  - by exists 1%nat.
Qed.

Lemma script_steps (wall : bool) (c c' : config) : rtc script_step c c' -> rtc (step wall) c c'.
Proof. apply rtc_subrel. by left. Qed.

Lemma reachable_step (wall : bool) (d : display) (now : Z) (c c' : config) :
  reachable wall d now c -> step wall c c' -> reachable wall d now c'.
Proof. apply rtc_r. Qed.

(** ** The oracle model as a run of the system

    [sim k st c]: the state [st] of [Sleep.sleep_loop] at iteration [k]
    and the configuration [c] agree: same statement (the test, or the end),
    same [start_time] and warps, and the positions read are those of the
    oracle; while the loop runs, the clock has not passed the time the
    [k]-th iteration reads. *)
Definition sim (reads : nat -> obs) (k : nat) (st : sleep_state) (c : config) : Prop :=
  c_pc c = (if s_done st then PcExit else PcCheck) /\ c_start c = s_start st /\
  c_warps c = s_warps st /\ c_reads c = map (fun i => ob_ptr (reads i)) (seq 0 (s_iters st)) /\
  (s_done st = false -> s_iters st = k /\ c_clock c <= ob_time (reads k)).

Section simulation.
Context (reads : nat -> obs) (start : Z).
Hypothesis Hclock : clock_ok reads start.

(** One pass of [while True:] in the oracle model is matched by a run of
    the system: the clock is moved to the time read, the user puts the
    pointer where the oracle says, and the script runs one iteration with
    exact sleeps. *)
Lemma sim_loop_body (k : nat) (st : sleep_state) (c : config) :
  sim reads k st c -> s_done st = false ->
  exists c', rtc (step false) c c' /\ sim reads (S k) (loop_body st (reads k)) c'.
Proof using Hclock.
  intros (Hp & Hs & Hw & Hr & Hk) Hd. destruct (Hk Hd) as [Hi Ht]. rewrite Hd in Hp.
  destruct c as [p d t s w r]; simpl in *; subst p.
  destruct (reads k) as [T [x y]] eqn:Ek; simpl in *.
  set (c2 := Config PcCheck (Display (x, y)) T s w r).
  assert (H2 : rtc (step false) (Config PcCheck d t s w r) c2).
  { eapply rtc_l; [right; by apply (world_tick false T (Config PcCheck d t s w r))|].
    eapply rtc_l; [right; apply (world_move false (x, y) (Config PcCheck d T s w r))|]. done. }
  unfold loop_body. simpl. rewrite <- Hs.
  case_decide as Hb.
  - exists (Config PcExit (Display (x, y)) T s w r). split.
    + eapply rtc_r; [exact H2 | left; by constructor].
    + unfold sim; simpl. split_and!; done.
  - exists (run_exact 6 c2). split.
    + eapply rtc_trans; [exact H2 | apply script_steps, run_exact_sound].
    + subst c2. rewrite run_exact_iteration by lia. unfold sim.
      cbn [c_pc c_start c_warps c_reads c_clock s_done s_start s_warps s_iters get_pointer d_pointer fst snd].
      split_and!; try done.
      * by rewrite Hw.
      * rewrite seq_S, map_app, Hr, Hi. simpl. by rewrite Ek.
      * intros _. split; [by rewrite Hi|]. destruct Hclock as [_ HS].
        specialize (HS k). rewrite Ek in HS. unfold iter_pause. simpl in HS. lia.
Qed.

Lemma sim_sleep_loop (fuel k : nat) (st : sleep_state) (c : config) :
  sim reads k st c ->
  exists c' k', rtc (step false) c c' /\ sim reads k' (sleep_loop fuel reads k st) c'.
Proof using Hclock.
  revert k st c. induction fuel as [|f IH]; intros k st c Hsim; simpl.
  - exists c, k. done.
  - destruct (s_done st) eqn:Hd; [exists c, k; done|].
    destruct (sim_loop_body k st c Hsim Hd) as (c1 & H1 & Hsim1).
    destruct (IH _ _ _ Hsim1) as (c2 & k2 & H2 & Hsim2).
    exists c2, k2. split; [eapply rtc_trans; eassumption | done].
Qed.
End simulation.

Lemma reachable_warps_inv (wall : bool) (d : display) (now : Z) (c : config) :
  reachable wall d now c -> warps_inv c.
Proof. intros Hr. eapply rtc_invariant; [apply warps_inv_step | exact Hr | done]. Qed.

Lemma reachable_clock_inv (d : display) (now : Z) (c : config) :
  reachable false d now c -> clock_inv c.
Proof.
  intros Hr. eapply rtc_invariant; [apply clock_inv_step | exact Hr |].
  unfold clock_inv; simpl. lia.
Qed.

(** ** Theorems *)

(** C15 (invariant): whatever the user and the clock do, whenever
    [sleep.py] is at the test of line 18 or has left the loop, the warps
    it has made are, for each position [(x, y)] it read, a warp to
    [(x + 1, y)] followed by a warp back to [(x, y)]. *)
Theorem reachable_warps (wall : bool) (d : display) (now : Z) (c : config) :
  reachable wall d now c -> c_pc c = PcCheck \/ c_pc c = PcExit ->
  c_warps c = nudges (c_reads c).
Proof.
  intros Hr Hp. destruct (reachable_warps_inv _ _ _ _ Hr) as [Hw _].
  rewrite Hw. by destruct Hp as [-> | ->].
Qed.

(** C16 (bounds): under a clock that is never set back, however the user
    moves the pointer and however long statements take, [sleep.py] reads
    the pointer at most 718 times: each iteration lasts at least 30.1 s
    and the test of line 18 stops the loop after six hours. *)
Theorem reachable_reads_bound (d : display) (now : Z) (c : config) :
  reachable false d now c -> (length (c_reads c) <= 718)%nat.
Proof.
  intros Hr. pose proof (reachable_clock_inv _ _ _ Hr) as Hc.
  unfold clock_inv in Hc. destruct (c_pc c); lia.
Qed.

(** Start-up ends the script, before any statement of the loop, when
    python-xlib is missing or the display cannot be opened. *)
Lemma sleep_script_errors (fuel : nat) (hs : host) (now : Z) :
  (h_xlib hs = false -> sleep_script fuel hs now = inl StartImportError) /\
  (h_xlib hs = true -> h_open hs (default [] (h_display_var hs)) = None ->
     sleep_script fuel hs now = inl StartDisplayError).
Proof. unfold sleep_script, sleep_start. split; intros Hx; rewrite Hx; [done|]. by intros ->. Qed.

(** C14 (functional): left alone (no user, each sleep lasting as asked),
    [sleep.py] on a host with python-xlib and a display it can open reads
    the pointer 718 times, each time where it started, nudges it there and
    back each time, and breaks out of the loop after [718 * 30.1 s =
    21611.8 s], six hours and 11.8 s. *)
Theorem sleep_script_alone (fuel : nat) (hs : host) (now : Z) (d : display) :
  h_xlib hs = true -> h_open hs (default [] (h_display_var hs)) = Some d -> (4309 <= fuel)%nat ->
  sleep_script fuel hs now =
    inr (Config PcExit d (now + 718 * iter_pause) now
           (nudges (replicate 718 (get_pointer d))) (replicate 718 (get_pointer d))).
Proof.
  intros Hx Ho Hf. unfold sleep_script, sleep_start. rewrite Hx, Ho. cbn [negb]. f_equal.
  replace fuel with (6 * 718 + S (fuel - 4309))%nat by lia. unfold init_config.
  rewrite run_exact_add, run_exact_iterations by (unfold iter_pause, nudge_pause, idle_pause, run_duration, usec; lia).
  change (Z.of_nat 718) with 718. cbn [run_exact exact_step].
  rewrite decide_True by (unfold iter_pause, nudge_pause, idle_pause, run_duration, usec; lia).
  by rewrite run_exact_exit.
Qed.

(** From any configuration, the statements of the
    script alone, each sleep lasting as asked, reach [break]: the loop
    cannot run for ever unless the clock is set back. *)
Theorem script_exits (c : config) : exists c', rtc script_step c c' /\ c_pc c' = PcExit.
Proof.
  destruct (run_exact_to_check c) as [Hx | [k Hk]]; [by exists c|].
  destruct (run_exact_exits_from_check _ (run_exact k c) Hk (le_n _)) as [f Hf].
  exists (run_exact f (run_exact k c)). split; [|done].
  eapply rtc_trans; apply run_exact_sound.
Qed.

(** C18 (liveness): with [time.time()], a wall clock that may be set back,
    [sleep.py] can read the pointer any number of times: set the clock
    back to [start_time] after each iteration and the test of line 18
    never stops the loop. *)
Theorem wall_clock_unbounded (d : display) (now : Z) (n : nat) :
  exists c, reachable true d now c /\ c_pc c = PcCheck /\ length (c_reads c) = n.
Proof.
  enough (exists c, reachable true d now c /\ c_pc c = PcCheck /\ c_clock c = now /\
                    c_start c = now /\ length (c_reads c) = n) as (c & ? & ? & _ & _ & ?)
    by (exists c; split_and!; assumption).
  induction n as [|n (c & Hr & Hp & Ht & Hs & Hl)]; [exists (init_config d now); split_and!; [apply rtc_refl | done..]|].
  destruct c as [p d' t s w r]; simpl in *; subst p t s.
  set (c1 := run_exact 6 (Config PcCheck d' now now w r)).
  assert (Hr1 : reachable true d now c1).
  { eapply rtc_trans; [exact Hr | apply script_steps, run_exact_sound]. }
  exists (Config PcCheck (c_disp c1) now now (c_warps c1) (c_reads c1)).
  subst c1. rewrite run_exact_iteration in Hr1 |- * by (unfold run_duration, usec; lia).
  split_and!; try done.
  - eapply reachable_step; [exact Hr1 | right; by apply world_set].
  - simpl. rewrite length_app, Hl. simpl. lia.
Qed.

(** C17 (safety): the warp back of line 25 puts the pointer where line 21
    read it, wherever it is now: a move the user made during
    [time.sleep(0.1)] is undone. *)
Theorem warp_back_overrides_user (wall : bool) (d : display) (now : Z) (c c' : config) (x y : Z) :
  reachable wall d now c -> c_pc c = PcWarp2 x y -> script_step c c' ->
  get_pointer (c_disp c') = (x, y) /\ last (c_reads c') = Some (x, y).
Proof.
  intros Hr Hp Hs. destruct (reachable_warps_inv _ _ _ _ Hr) as [_ Hl].
  rewrite Hp in Hl. simpl in Hl. inv Hs; simpl in *; try discriminate.
  injection Hp as <- <-. done.
Qed.

(** C13 (refinement): the oracle model of [Sleep] is a run of this system:
    for any clock that never goes back and lets sleeps last, the user and
    the clock can act so that the script reads the positions of the
    oracle and makes the warps [sleep_main] logs, and it has left the
    loop exactly when [sleep_main] has. *)
Theorem sleep_main_simulated (reads : nat -> obs) (start : Z) (fuel : nat) (d : display) :
  clock_ok reads start ->
  exists c, reachable false d start c /\
    c_warps c = s_warps (sleep_main fuel reads start) /\
    c_reads c = map (fun i => ob_ptr (reads i)) (seq 0 (s_iters (sleep_main fuel reads start))) /\
    (c_pc c = PcExit <-> s_done (sleep_main fuel reads start) = true).
Proof.
  intros Hc. unfold sleep_main.
  assert (H0 : sim reads 0 (sleep_init start) (init_config d start)).
  { unfold sim; simpl. split_and!; try done. intros _. split; [done | apply Hc]. }
  destruct (sim_sleep_loop reads start Hc fuel 0 _ _ H0) as (c & k & Hr & Hp & _ & Hw & Hrd & _).
  exists c. split_and!; try done. rewrite Hp. by destruct (s_done _).
Qed.

(** ** Witnesses *)

(** Two iterations with the pointer at [(3, 4)] and exact sleeps. *)
Definition two_iterations : config := run_exact 12 (init_config (Display (3, 4)) 0).

Lemma reachable_warps_witness :
  reachable false (Display (3, 4)) 0 two_iterations /\
  (c_pc two_iterations = PcCheck \/ c_pc two_iterations = PcExit) /\
  c_warps two_iterations = nudges (c_reads two_iterations) /\
  c_warps two_iterations = [(4, 4); (3, 4); (4, 4); (3, 4)].
Proof.
  assert (Hr : reachable false (Display (3, 4)) 0 two_iterations)
    by (apply script_steps, run_exact_sound).
  assert (Hp : c_pc two_iterations = PcCheck \/ c_pc two_iterations = PcExit)
    by (left; vm_compute; reflexivity).
  split; [exact Hr|]. split; [exact Hp|].
  split; [exact (reachable_warps false _ _ _ Hr Hp) | vm_compute; reflexivity].
Defined.

Lemma reachable_reads_bound_witness :
  reachable false (Display (3, 4)) 0 two_iterations /\
  (length (c_reads two_iterations) <= 718)%nat /\ length (c_reads two_iterations) = 2%nat.
Proof.
  assert (Hr : reachable false (Display (3, 4)) 0 two_iterations)
    by (apply script_steps, run_exact_sound).
  split; [exact Hr|]. split; [exact (reachable_reads_bound _ _ _ Hr) | vm_compute; reflexivity].
Defined.

(** The user moves the pointer to [(5, 5)] during the first
    [time.sleep(0.1)]; the script is about to warp back. *)
Definition user_moved : config := Config (PcWarp2 0 0) (Display (5, 5)) nudge_pause 0 [(1, 0)] [(0, 0)].
Definition warped_back : config := Config PcSleep2 (Display (0, 0)) nudge_pause 0 [(1, 0); (0, 0)] [(0, 0)].

Lemma warp_back_overrides_user_witness :
  reachable false (Display (0, 0)) 0 user_moved /\ c_pc user_moved = PcWarp2 0 0 /\
  script_step user_moved warped_back /\ get_pointer (c_disp user_moved) = (5, 5) /\
  (get_pointer (c_disp warped_back) = (0, 0) /\ last (c_reads warped_back) = Some (0, 0)).
Proof.
  assert (Hr : reachable false (Display (0, 0)) 0 user_moved).
  { unfold reachable, init_config, user_moved.
    eapply rtc_l; [left; apply step_continue; unfold run_duration, usec; lia|].
    eapply rtc_l; [left; apply (step_query _ _ _ _ _ 0 0); reflexivity|].
    eapply rtc_l; [left; apply step_warp1|].
    eapply rtc_l; [right; apply (world_move false (5, 5))|]. simpl.
    eapply rtc_l; [left; apply (step_sleep1 _ _ nudge_pause); lia|].
    apply rtc_refl. }
  assert (Hp : c_pc user_moved = PcWarp2 0 0) by reflexivity.
  assert (Hs : script_step user_moved warped_back) by exact (step_warp2 _ _ _ _ _ 0 0).
  split; [exact Hr|]. split; [exact Hp|]. split; [exact Hs|]. split; [reflexivity|].
  exact (warp_back_overrides_user false _ _ _ _ 0 0 Hr Hp Hs).
Defined.

Lemma sleep_main_simulated_witness :
  clock_ok exact_clock 0 /\
  exists c, reachable false (Display (0, 0)) 0 c /\
    c_warps c = s_warps (sleep_main 719 exact_clock 0) /\
    c_reads c = map (fun i => ob_ptr (exact_clock i)) (seq 0 (s_iters (sleep_main 719 exact_clock 0))) /\
    (c_pc c = PcExit <-> s_done (sleep_main 719 exact_clock 0) = true).
Proof.
  pose proof exact_clock_ok as Hc.
  split; [exact Hc | exact (sleep_main_simulated exact_clock 0 719 (Display (0, 0)) Hc)].
Defined.

Lemma sleep_script_alone_witness :
  h_xlib (Host true (Some [58; 48]%N) (fun _ => Some (Display (3, 4)))) = true /\
  h_open (Host true (Some [58; 48]%N) (fun _ => Some (Display (3, 4))))
    (default [] (h_display_var (Host true (Some [58; 48]%N) (fun _ => Some (Display (3, 4)))))) =
    Some (Display (3, 4)) /\
  sleep_script 4309 (Host true (Some [58; 48]%N) (fun _ => Some (Display (3, 4)))) 0 =
    inr (Config PcExit (Display (3, 4)) (0 + 718 * iter_pause) 0
           (nudges (replicate 718 (3, 4))) (replicate 718 (3, 4))).
Proof.
  split_and!; [reflexivity | reflexivity |].
  exact (sleep_script_alone 4309 (Host true (Some [58; 48]%N) (fun _ => Some (Display (3, 4)))) 0 (Display (3, 4)) eq_refl eq_refl ltac:(lia)).
Defined.
